(** * DLWP/model/generators.py: batch generators for DLWP models

    A shallow embedding of the generator classes [DataGenerator] and
    [SeriesDataGenerator] of [DLWP/model/generators.py], together with the
    part of Python, NumPy and xarray that they rely on, followed by the
    properties of the batching engine. The deprecated
    [SmartDataGenerator], which repeats [on_epoch_end], [__len__] and
    [__getitem__] of the other two word for word, is embedded for the
    properties of the last part.

    Conventions.
    - Python integers are [Z]; tuples and one-dimensional index arrays are
      lists; a dictionary is an association list.
    - A NumPy array is its shape and its row-major data ([np.ndarray]);
      the type of its elements is a parameter, of which only the test
      [isnan] is used.
    - A Python exception is a value of [exn]; code that may raise lives in
      the [result] monad.
    - An object whose attributes are assigned after construction is a
      record that the methods take and give back.
    - What is imported from elsewhere (xarray's label-based selection,
      [DLWP.util], the model's scaler and imputer, NumPy's random
      generator) is a parameter. *)

From Stdlib Require Import String ZArith List Lia Bool Permutation.
Import ListNotations.
Local Open Scope string_scope.
Local Open Scope list_scope.
Local Open Scope Z_scope.

(** ** Exceptions *)

Inductive exn : Type :=
| IndexError
| ValueError
| AssertionError
| KeyError
| AttributeError
| ZeroDivisionError
| NotImplementedError.

Inductive result (A : Type) : Type :=
| Ok (a : A)
| Raise (e : exn).

Arguments Ok {A} a.
Arguments Raise {A} e.

Definition bind {A B : Type} (c : result A) (k : A -> result B) : result B :=
  match c with
  | Ok a => k a
  | Raise e => Raise e
  end.

Notation "x <- c ;; k" := (bind c (fun x => k))
  (at level 61, c at next level, right associativity).
Notation "' p <- c ;; k" := (bind c (fun x => let p := x in k))
  (at level 61, p pattern, c at next level, right associativity).

(** [assert b]. *)
Definition assert (b : bool) : result unit :=
  if b then Ok tt else Raise AssertionError.

(** A list comprehension whose element expression may raise. *)
Fixpoint mapM {A B : Type} (f : A -> result B) (l : list A) : result (list B) :=
  match l with
  | [] => Ok []
  | a :: l' => b <- f a ;; bs <- mapM f l' ;; Ok (b :: bs)
  end.

(** A [for] loop threading an accumulator, whose body may raise. *)
Fixpoint foldM {A S : Type} (f : S -> A -> result S) (l : list A) (s : S) : result S :=
  match l with
  | [] => Ok s
  | a :: l' => s' <- f s a ;; foldM f l' s'
  end.

(** ** The Python that the generators use *)

Module Py.

(** Argument values that the constructor inspects dynamically
    ([load], [add_insolation]). *)
Inductive value : Type :=
| None_
| Bool (b : bool)
| Int (z : Z)
| Str (s : string).

(** Truth value testing: [not v] is [negb (truthy v)]. *)
Definition truthy (v : value) : bool :=
  match v with
  | None_ => false
  | Bool b => b
  | Int z => negb (z =? 0)
  | Str s => negb (String.eqb s EmptyString)
  end.

(** [v == s] for a string literal [s]: only a string equals a string. *)
Definition eq_str (v : value) (s : string) : bool :=
  match v with
  | Str s' => String.eqb s' s
  | _ => false
  end.

(** [v in [s1, s2, ...]] for a list of string literals. *)
Definition in_strs (v : value) (l : list string) : bool :=
  existsb (eq_str v) l.

(** [isinstance(v, bool)] and [isinstance(v, str)]. *)
Definition is_bool (v : value) : bool :=
  match v with Bool _ => true | _ => false end.

Definition is_str (v : value) : bool :=
  match v with Str _ => true | _ => false end.

(** [len(l)]. *)
Definition len {A : Type} (l : list A) : Z := Z.of_nat (length l).

(** [range(n)]: empty when [n <= 0]. *)
Definition range (n : Z) : list Z := map Z.of_nat (seq 0 (Z.to_nat n)).

(** A slice bound clamped the way [l[lo:hi]] does it: a negative bound
    counts from the end, and both ends saturate. *)
Definition clamp (n i : Z) : Z :=
  if i <? 0 then Z.max 0 (i + n) else Z.min i n.

(** [l[lo:hi]] with step 1; [None] is an omitted bound. *)
Definition slice {A : Type} (lo hi : option Z) (l : list A) : list A :=
  let n := len l in
  let a := match lo with Some i => clamp n i | None => 0 end in
  let b := match hi with Some i => clamp n i | None => n end in
  firstn (Z.to_nat (b - a)) (skipn (Z.to_nat a) l).

(** [d[k]] on a dictionary kept as an association list. *)
Fixpoint getitem {V : Type} (d : list (string * V)) (k : string) : result V :=
  match d with
  | [] => Raise KeyError
  | (k', v) :: d' => if String.eqb k' k then Ok v else getitem d' k
  end.

(** [k in d]. *)
Definition contains {V : Type} (d : list (string * V)) (k : string) : bool :=
  existsb (fun kv => String.eqb (fst kv) k) d.

(** [a // b]. *)
Definition floordiv (a b : Z) : result Z :=
  if b =? 0 then Raise ZeroDivisionError else Ok (a / b).

End Py.

(** ** The NumPy that the generators use *)

Module np.

(** An array: its shape and its elements in row-major order. *)
Record ndarray (val : Type) : Type := mk_ndarray {
  shape : list Z;
  data : list val
}.

Arguments mk_ndarray {val} shape data.
Arguments shape {val} n.
Arguments data {val} n.

(** Products of Python integers are taken in NumPy's 64-bit signed
    integers. *)
Definition wrap64 (z : Z) : Z :=
  (z + 2 ^ 63) mod 2 ^ 64 - 2 ^ 63.

(** [int(np.prod(t))] for a tuple of integers [t]. *)
Definition prod (t : list Z) : Z :=
  wrap64 (fold_right Z.mul 1 t).

(** The number of elements that a shape announces (no wrap-around: an
    array that exists has fewer than [2^63] elements). *)
Definition size_of (t : list Z) : Z := fold_right Z.mul 1 t.

(** [t[i]] on a tuple, for an index [i >= 0]. *)
Definition item (t : list Z) (i : nat) : result Z :=
  match nth_error t i with
  | Some d => Ok d
  | None => Raise IndexError
  end.

(** [np.arange(n)]. *)
Definition arange (n : Z) : list Z := Py.range n.

(** [int(np.ceil(a / b))] for integers [a] and [b]. The true division is
    the exact quotient here; in binary64 this is what the code computes as
    long as [|a| < 2^53] and [|b| < 2^53]. *)
Definition ceil_div (a b : Z) : result Z :=
  if b =? 0 then Raise ZeroDivisionError else Ok (- ((- a) / b)).

Section Arrays.
Context {val : Type}.

Definition wf (a : ndarray val) : Prop :=
  Forall (fun d => 0 <= d) (shape a) /\ Py.len (data a) = size_of (shape a).

(** The [i]-th block of [sz] consecutive elements. *)
Definition block (sz : Z) (l : list val) (i : Z) : list val :=
  firstn (Z.to_nat sz) (skipn (Z.to_nat (i * sz)) l).

(** One index of an integer-array index along the first axis: negative
    indices count from the end, anything outside raises. *)
Definition index0 (a : ndarray val) (i : Z) : result (list val) :=
  match shape a with
  | [] => Raise IndexError
  | d0 :: rest =>
      let i' := if i <? 0 then i + d0 else i in
      if (0 <=? i') && (i' <? d0)
      then Ok (block (size_of rest) (data a) i')
      else Raise IndexError
  end.

(** [a[idx, np.newaxis, ...]] with [k] trailing [np.newaxis]: the rows of
    [a] at the integer array [idx], with [k] axes of length 1 inserted
    after the first axis. *)
Definition take_newaxis (a : ndarray val) (idx : list Z) (k : nat) : result (ndarray val) :=
  rows <- mapM (index0 a) idx ;;
  Ok (mk_ndarray (Py.len idx :: repeat 1 k ++ tl (shape a)) (concat rows)).

(** Two shapes agree everywhere but on [axis]. *)
Definition agree_off_axis (axis : nat) (s1 s2 : list Z) : bool :=
  (length s1 =? length s2)%nat
  && forallb (fun d => fst d =? snd d) (combine (firstn axis s1) (firstn axis s2))
  && forallb (fun d => fst d =? snd d) (combine (skipn (S axis) s1) (skipn (S axis) s2)).

(** [np.concatenate(arrs, axis=axis)]. *)
Definition concatenate (arrs : list (ndarray val)) (axis : nat) : result (ndarray val) :=
  match arrs with
  | [] => Raise ValueError
  | a0 :: _ =>
      if (axis <? length (shape a0))%nat
         && forallb (fun a => agree_off_axis axis (shape a0) (shape a)) arrs
      then
        let outer := size_of (firstn axis (shape a0)) in
        let chunk a := size_of (skipn axis (shape a)) in
        Ok (mk_ndarray
              (firstn axis (shape a0)
                 ++ fold_right Z.add 0 (map (fun a => nth axis (shape a) 0) arrs)
                 :: skipn (S axis) (shape a0))
              (flat_map (fun o => flat_map (fun a => block (chunk a) (data a) o) arrs)
                        (Py.range outer)))
      else Raise ValueError
  end.

(** [a.reshape(sh)], where [sh] holds at most one [-1]. *)
Definition reshape (a : ndarray val) (sh : list Z) : result (ndarray val) :=
  let size := Py.len (data a) in
  match count_occ Z.eq_dec sh (-1) with
  | O =>
      if forallb (fun d => 0 <=? d) sh && (size_of sh =? size)
      then Ok (mk_ndarray sh (data a))
      else Raise ValueError
  | S O =>
      let known := size_of (remove Z.eq_dec (-1) sh) in
      if forallb (fun d => -1 <=? d) sh && negb (known =? 0) && (size mod known =? 0)
      then Ok (mk_ndarray (map (fun d => if d =? -1 then size / known else d) sh) (data a))
      else Raise ValueError
  | _ => Raise ValueError
  end.

(** The rows of an array along its first axis, each flattened. *)
Definition rows (a : ndarray val) : list (list val) :=
  match shape a with
  | [] => []
  | d0 :: rest => map (block (size_of rest) (data a)) (Py.range d0)
  end.

End Arrays.

End np.

(** ** Collaborators

    The generators are written against three collaborators that live
    outside [generators.py]: the xarray dataset that holds the data, the
    helpers of [DLWP.util], and the DLWP model that scales and imputes. *)

Module xr.

(** A label selection, the keyword arguments of [DataArray.sel]: a
    dictionary from a dimension's name to the labels wanted on it. *)
Definition selection : Type := list (string * list string).

(** What the generators read off a dataset: its data variables
    [predictors] and [targets], the
    lengths of its dimensions and the labels of its coordinates.
    [has_predictors] is [hasattr(ds, 'predictors')], and the same for
    [targets]; the first axis of both arrays is the dimension [sample]. *)
Record Dataset (val : Type) : Type := mk_Dataset {
  has_predictors : bool;
  predictors : np.ndarray val;
  has_targets : bool;
  targets : np.ndarray val;
  dims : list (string * Z);
  variables : list (string * list string)
}.

Arguments mk_Dataset {val} _ _ _ _ _ _.
Arguments has_predictors {val} d.
Arguments predictors {val} d.
Arguments has_targets {val} d.
Arguments targets {val} d.
Arguments dims {val} d.
Arguments variables {val} d.

End xr.

(** The operations that are called and not defined in [generators.py]. A
    labelled array is identified with its values; what label-based
    selection returns is left to xarray. *)
Class Backend (val : Type) : Type := {
  (** [np.isnan] on one element *)
  isnan : val -> bool;
  (** [da.sel] with the selection as its keyword arguments *)
  sel : np.ndarray val -> xr.selection -> result (np.ndarray val);
  (** [da.isel(time_step=i)] *)
  isel_time_step : np.ndarray val -> Z -> np.ndarray val;
  (** [da.isel(varlev=slice(lo, hi))] *)
  isel_varlev : np.ndarray val -> Z -> Z -> np.ndarray val;
  (** [DLWP.util.to_bool] *)
  to_bool : Py.value -> result bool;
  (** [DLWP.util.insolation(da.sample.values, ds.lat.values, ds.lon.values, daily=daily)] *)
  insolation : xr.Dataset val -> np.ndarray val -> bool -> np.ndarray val
}.

(** The DLWP model, as far as a generator uses it. *)
Record Model (val : Type) : Type := mk_Model {
  is_convolutional : bool;
  is_recurrent : bool;
  impute : bool;
  scaler_transform :
    np.ndarray val -> np.ndarray val -> result (np.ndarray val * np.ndarray val);
  imputer_transform :
    np.ndarray val -> np.ndarray val -> result (np.ndarray val * np.ndarray val)
}.

Arguments mk_Model {val} _ _ _ _ _.
Arguments is_convolutional {val} m.
Arguments is_recurrent {val} m.
Arguments impute {val} m.
Arguments scaler_transform {val} m _ _.
Arguments imputer_transform {val} m _ _.

(** What [generate] returns in each position: one array, or a list of
    arrays in sequence mode. *)
Inductive output (val : Type) : Type :=
| Arr (a : np.ndarray val)
| Arrs (l : list (np.ndarray val)).

Arguments Arr {val} a.
Arguments Arrs {val} l.

Module util.
Section Util.
Context {val : Type} `{Backend val}.

(** Keep the rows whose position [keep] accepts. *)
Fixpoint keep_rows (keep : Z -> bool) (i : Z) (rs : list (list val)) : list (list val) :=
  match rs with
  | [] => []
  | r :: rs' => if keep i then r :: keep_rows keep (i + 1) rs' else keep_rows keep (i + 1) rs'
  end.

(** Row [i] of an array holds a NaN. *)
Definition nan_row (a : np.ndarray val) (i : Z) : bool :=
  existsb isnan (nth (Z.to_nat i) (np.rows a) []).

(** Modelled from the spec: [DLWP.util.delete_nan_samples], which is
    imported by [generators.py] and defined outside it. "Drop any sample
    (row) where either the predictor or target contains a NaN anywhere;
    predictor and target arrays are filtered jointly to keep
    correspondence. Operates on flattened-per-sample rows." *)
Definition delete_nan_samples (p t : np.ndarray val) : np.ndarray val * np.ndarray val :=
  let keep i := negb (nan_row p i || nan_row t i) in
  let p' := keep_rows keep 0 (np.rows p) in
  let t' := keep_rows keep 0 (np.rows t) in
  (np.mk_ndarray (Py.len p' :: tl (np.shape p)) (concat p'),
   np.mk_ndarray (Py.len t' :: tl (np.shape t)) (concat t')).

End Util.
End util.

(** ** class DataGenerator *)

Module DataGenerator.

(** The attributes of an instance. *)
Record t (val : Type) : Type := mk {
  model : Model val;
  ds : xr.Dataset val;
  _batch_size : Z;
  _shuffle : bool;
  _remove_nan : bool;
  _is_convolutional : bool;
  _keep_time_axis : bool;
  _impute_missing : bool;
  _indices : list Z;
  _n_sample : Z;
  _has_time_step : bool
}.

Arguments mk {val} _ _ _ _ _ _ _ _ _ _ _.
Arguments model {val} t.
Arguments ds {val} t.
Arguments _batch_size {val} t.
Arguments _shuffle {val} t.
Arguments _remove_nan {val} t.
Arguments _is_convolutional {val} t.
Arguments _keep_time_axis {val} t.
Arguments _impute_missing {val} t.
Arguments _indices {val} t.
Arguments _n_sample {val} t.
Arguments _has_time_step {val} t.

Section Methods.
Context {val : Type} `{Backend val}.

Definition set_indices (v : list Z) (g : t val) : t val :=
  {| model := model g; ds := ds g; _batch_size := _batch_size g; _shuffle := _shuffle g;
     _remove_nan := _remove_nan g; _is_convolutional := _is_convolutional g;
     _keep_time_axis := _keep_time_axis g; _impute_missing := _impute_missing g;
     _indices := v; _n_sample := _n_sample g; _has_time_step := _has_time_step g |}.

Definition set_keep_time_axis (v : bool) (g : t val) : t val :=
  {| model := model g; ds := ds g; _batch_size := _batch_size g; _shuffle := _shuffle g;
     _remove_nan := _remove_nan g; _is_convolutional := _is_convolutional g;
     _keep_time_axis := v; _impute_missing := _impute_missing g; _indices := _indices g;
     _n_sample := _n_sample g; _has_time_step := _has_time_step g |}.

(** [on_epoch_end]; [shuffle] is what [np.random.shuffle] does to the
    array at this call. *)
Definition on_epoch_end (shuffle : list Z -> list Z) (g : t val) : t val :=
  let g := set_indices (np.arange (_n_sample g)) g in
  if _shuffle g then set_indices (shuffle (_indices g)) g else g.

Definition __init__ (shuffle : list Z -> list Z)
    (model : Model val) (ds : xr.Dataset val)
    (batch_size : Z) (shuffle_ : bool) (remove_nan : bool) : result (t val) :=
  if negb (xr.has_predictors ds) || negb (xr.has_targets ds) then Raise ValueError
  else
    n <- Py.getitem (xr.dims ds) "sample" ;;
    Ok (on_epoch_end shuffle
          {| model := model; ds := ds; _batch_size := batch_size; _shuffle := shuffle_;
             _remove_nan := remove_nan; _is_convolutional := is_convolutional model;
             _keep_time_axis := is_recurrent model; _impute_missing := impute model;
             _indices := []; _n_sample := n;
             _has_time_step := Py.contains (xr.dims ds) "time_step" |}).

Definition shape (g : t val) : list Z :=
  if _has_time_step g
  then Py.slice (Some 1) None (np.shape (xr.predictors (ds g)))
  else [1] ++ Py.slice (Some 1) None (np.shape (xr.predictors (ds g))).

Definition n_features (g : t val) : Z := np.prod (shape g).

Definition dense_shape (g : t val) : result (list Z) :=
  if _keep_time_axis g then
    s0 <- np.item (shape g) 0 ;;
    q <- Py.floordiv (n_features g) s0 ;;
    Ok ([s0] ++ [q])
  else Ok ([n_features g] ++ []).

Definition convolution_shape (g : t val) : result (list Z) :=
  if _keep_time_axis g then
    s0 <- np.item (shape g) 0 ;;
    Ok ([s0] ++ [np.prod (Py.slice (Some 1) (Some (-2)) (shape g))]
          ++ Py.slice (Some (-2)) None (shape g))
  else
    Ok ([np.prod (Py.slice None (Some (-2)) (shape g))]
          ++ Py.slice (Some (-2)) None (np.shape (xr.predictors (ds g)))).

(** The property [shape_2d] assigns [_keep_time_axis], so it gives back
    the instance with its value. *)
Definition shape_2d (g : t val) : result (list Z) * t val :=
  if _keep_time_axis g then
    let g := set_keep_time_axis false g in
    let s := convolution_shape g in
    let g := set_keep_time_axis true g in
    (s, g)
  else (convolution_shape g, g).

Definition generate (g : t val) (samples : list Z) (scale_and_impute : bool)
  : result (np.ndarray val * np.ndarray val) :=
  (* ds.isel(sample=samples) indexes the first axis of both variables *)
  '(dp, dt) <- (if Py.len samples >? 0 then
                  dp <- np.take_newaxis (xr.predictors (ds g)) samples 0 ;;
                  dt <- np.take_newaxis (xr.targets (ds g)) samples 0 ;;
                  Ok (dp, dt)
                else Ok (xr.predictors (ds g), xr.targets (ds g))) ;;
  n_sample <- np.item (np.shape dp) 0 ;;
  p <- np.reshape dp [n_sample; -1] ;;
  t <- np.reshape dt [n_sample; -1] ;;
  (* Remove samples with NaN; scale and impute *)
  let '(p, t) := if _remove_nan g then util.delete_nan_samples p t else (p, t) in
  '(p, t) <- (if scale_and_impute then
                '(p, t) <- (if _impute_missing g
                            then imputer_transform (model g) p t else Ok (p, t)) ;;
                scaler_transform (model g) p t
              else Ok (p, t)) ;;
  (* Format spatial shape for convolutions; also takes care of time axis *)
  if _is_convolutional g then
    cs <- convolution_shape g ;;
    p <- np.reshape p ([n_sample] ++ cs) ;;
    t <- np.reshape t ([n_sample] ++ cs) ;;
    Ok (p, t)
  else if _keep_time_axis g then
    dsh <- dense_shape g ;;
    p <- np.reshape p ([n_sample] ++ dsh) ;;
    t <- np.reshape t ([n_sample] ++ dsh) ;;
    Ok (p, t)
  else Ok (p, t).

Definition __len__ (g : t val) : result Z :=
  np.ceil_div (_n_sample g) (_batch_size g).

(** [len(self)]: the built-in refuses a negative [__len__]. *)
Definition len_ (g : t val) : result Z :=
  l <- __len__ g ;;
  if l <? 0 then Raise ValueError else Ok l.

Definition __getitem__ (g : t val) (index : Z)
  : result (np.ndarray val * np.ndarray val) :=
  (* Generate indexes of the batch *)
  index <- (if index <? 0 then l <- len_ g ;; Ok (l + index) else Ok index) ;;
  l <- len_ g ;;
  if index >? l then Raise IndexError
  else
    let indexes :=
      Py.slice (Some (index * _batch_size g)) (Some ((index + 1) * _batch_size g))
               (_indices g) in
    (* Generate data *)
    generate g indexes true.

End Methods.
End DataGenerator.

(** ** class SeriesDataGenerator *)

Module SeriesDataGenerator.

(** The objects on which [.load()] can be called. *)
Inductive loaded : Type :=
| Load_ds
| Load_da
| Load_input_da
| Load_output_da.

(** The attributes of an instance. [_add_insolation] is the integer 0 or 1
    (the booleans that [generate] assigns to it are these integers).
    [insolation_da] is [None] as long as the attribute is not set.
    [in_memory] is not an attribute: it records, latest first, the objects
    whose [.load()] has been called, which is how the arrays get
    materialized in memory. *)
Record t (val : Type) : Type := mk {
  model : Model val;
  ds : xr.Dataset val;
  _batch_size : Z;
  _shuffle : bool;
  _remove_nan : bool;
  _is_convolutional : bool;
  _keep_time_axis : bool;
  _impute_missing : bool;
  _indices : list Z;
  _sequence : option Z;
  _n_sample : Z;
  da : np.ndarray val;
  rank : Z;
  _input_sel : xr.selection;
  _output_sel : xr.selection;
  _input_time_steps : Z;
  _output_time_steps : Z;
  _interval : Z;
  input_da : np.ndarray val;
  output_da : np.ndarray val;
  _add_insolation : Z;
  _daily_insolation : bool;
  _load : Py.value;
  _is_loaded : bool;
  insolation_da : option (np.ndarray val);
  in_memory : list loaded
}.

Arguments mk {val} _ _ _ _ _ _ _ _ _ _ _ _ _ _ _ _ _ _ _ _ _ _ _ _ _ _.
Arguments model {val} t.
Arguments ds {val} t.
Arguments _batch_size {val} t.
Arguments _shuffle {val} t.
Arguments _remove_nan {val} t.
Arguments _is_convolutional {val} t.
Arguments _keep_time_axis {val} t.
Arguments _impute_missing {val} t.
Arguments _indices {val} t.
Arguments _sequence {val} t.
Arguments _n_sample {val} t.
Arguments da {val} t.
Arguments rank {val} t.
Arguments _input_sel {val} t.
Arguments _output_sel {val} t.
Arguments _input_time_steps {val} t.
Arguments _output_time_steps {val} t.
Arguments _interval {val} t.
Arguments input_da {val} t.
Arguments output_da {val} t.
Arguments _add_insolation {val} t.
Arguments _daily_insolation {val} t.
Arguments _load {val} t.
Arguments _is_loaded {val} t.
Arguments insolation_da {val} t.
Arguments in_memory {val} t.

Section Methods.
Context {val : Type} `{Backend val}.

Definition set_indices (v : list Z) (g : t val) : t val :=
  {| model := model g; ds := ds g; _batch_size := _batch_size g; _shuffle := _shuffle g;
     _remove_nan := _remove_nan g; _is_convolutional := _is_convolutional g;
     _keep_time_axis := _keep_time_axis g; _impute_missing := _impute_missing g;
     _indices := v; _sequence := _sequence g; _n_sample := _n_sample g; da := da g;
     rank := rank g; _input_sel := _input_sel g; _output_sel := _output_sel g;
     _input_time_steps := _input_time_steps g;
     _output_time_steps := _output_time_steps g; _interval := _interval g;
     input_da := input_da g; output_da := output_da g;
     _add_insolation := _add_insolation g; _daily_insolation := _daily_insolation g;
     _load := _load g; _is_loaded := _is_loaded g; insolation_da := insolation_da g;
     in_memory := in_memory g |}.

Definition set_keep_time_axis (v : bool) (g : t val) : t val :=
  {| model := model g; ds := ds g; _batch_size := _batch_size g; _shuffle := _shuffle g;
     _remove_nan := _remove_nan g; _is_convolutional := _is_convolutional g;
     _keep_time_axis := v; _impute_missing := _impute_missing g; _indices := _indices g;
     _sequence := _sequence g; _n_sample := _n_sample g; da := da g; rank := rank g;
     _input_sel := _input_sel g; _output_sel := _output_sel g;
     _input_time_steps := _input_time_steps g;
     _output_time_steps := _output_time_steps g; _interval := _interval g;
     input_da := input_da g; output_da := output_da g;
     _add_insolation := _add_insolation g; _daily_insolation := _daily_insolation g;
     _load := _load g; _is_loaded := _is_loaded g; insolation_da := insolation_da g;
     in_memory := in_memory g |}.

Definition set_add_insolation (v : Z) (g : t val) : t val :=
  {| model := model g; ds := ds g; _batch_size := _batch_size g; _shuffle := _shuffle g;
     _remove_nan := _remove_nan g; _is_convolutional := _is_convolutional g;
     _keep_time_axis := _keep_time_axis g; _impute_missing := _impute_missing g;
     _indices := _indices g; _sequence := _sequence g; _n_sample := _n_sample g;
     da := da g; rank := rank g; _input_sel := _input_sel g;
     _output_sel := _output_sel g; _input_time_steps := _input_time_steps g;
     _output_time_steps := _output_time_steps g; _interval := _interval g;
     input_da := input_da g; output_da := output_da g; _add_insolation := v;
     _daily_insolation := _daily_insolation g; _load := _load g;
     _is_loaded := _is_loaded g; insolation_da := insolation_da g;
     in_memory := in_memory g |}.

Definition set_is_loaded (v : bool) (g : t val) : t val :=
  {| model := model g; ds := ds g; _batch_size := _batch_size g; _shuffle := _shuffle g;
     _remove_nan := _remove_nan g; _is_convolutional := _is_convolutional g;
     _keep_time_axis := _keep_time_axis g; _impute_missing := _impute_missing g;
     _indices := _indices g; _sequence := _sequence g; _n_sample := _n_sample g;
     da := da g; rank := rank g; _input_sel := _input_sel g;
     _output_sel := _output_sel g; _input_time_steps := _input_time_steps g;
     _output_time_steps := _output_time_steps g; _interval := _interval g;
     input_da := input_da g; output_da := output_da g;
     _add_insolation := _add_insolation g; _daily_insolation := _daily_insolation g;
     _load := _load g; _is_loaded := v; insolation_da := insolation_da g;
     in_memory := in_memory g |}.

Definition set_da (v : np.ndarray val) (g : t val) : t val :=
  {| model := model g; ds := ds g; _batch_size := _batch_size g; _shuffle := _shuffle g;
     _remove_nan := _remove_nan g; _is_convolutional := _is_convolutional g;
     _keep_time_axis := _keep_time_axis g; _impute_missing := _impute_missing g;
     _indices := _indices g; _sequence := _sequence g; _n_sample := _n_sample g; da := v;
     rank := rank g; _input_sel := _input_sel g; _output_sel := _output_sel g;
     _input_time_steps := _input_time_steps g;
     _output_time_steps := _output_time_steps g; _interval := _interval g;
     input_da := input_da g; output_da := output_da g;
     _add_insolation := _add_insolation g; _daily_insolation := _daily_insolation g;
     _load := _load g; _is_loaded := _is_loaded g; insolation_da := insolation_da g;
     in_memory := in_memory g |}.

Definition set_input_da (v : np.ndarray val) (g : t val) : t val :=
  {| model := model g; ds := ds g; _batch_size := _batch_size g; _shuffle := _shuffle g;
     _remove_nan := _remove_nan g; _is_convolutional := _is_convolutional g;
     _keep_time_axis := _keep_time_axis g; _impute_missing := _impute_missing g;
     _indices := _indices g; _sequence := _sequence g; _n_sample := _n_sample g;
     da := da g; rank := rank g; _input_sel := _input_sel g;
     _output_sel := _output_sel g; _input_time_steps := _input_time_steps g;
     _output_time_steps := _output_time_steps g; _interval := _interval g; input_da := v;
     output_da := output_da g; _add_insolation := _add_insolation g;
     _daily_insolation := _daily_insolation g; _load := _load g;
     _is_loaded := _is_loaded g; insolation_da := insolation_da g;
     in_memory := in_memory g |}.

Definition set_output_da (v : np.ndarray val) (g : t val) : t val :=
  {| model := model g; ds := ds g; _batch_size := _batch_size g; _shuffle := _shuffle g;
     _remove_nan := _remove_nan g; _is_convolutional := _is_convolutional g;
     _keep_time_axis := _keep_time_axis g; _impute_missing := _impute_missing g;
     _indices := _indices g; _sequence := _sequence g; _n_sample := _n_sample g;
     da := da g; rank := rank g; _input_sel := _input_sel g;
     _output_sel := _output_sel g; _input_time_steps := _input_time_steps g;
     _output_time_steps := _output_time_steps g; _interval := _interval g;
     input_da := input_da g; output_da := v; _add_insolation := _add_insolation g;
     _daily_insolation := _daily_insolation g; _load := _load g;
     _is_loaded := _is_loaded g; insolation_da := insolation_da g;
     in_memory := in_memory g |}.

Definition set_insolation_da (v : option (np.ndarray val)) (g : t val) : t val :=
  {| model := model g; ds := ds g; _batch_size := _batch_size g; _shuffle := _shuffle g;
     _remove_nan := _remove_nan g; _is_convolutional := _is_convolutional g;
     _keep_time_axis := _keep_time_axis g; _impute_missing := _impute_missing g;
     _indices := _indices g; _sequence := _sequence g; _n_sample := _n_sample g;
     da := da g; rank := rank g; _input_sel := _input_sel g;
     _output_sel := _output_sel g; _input_time_steps := _input_time_steps g;
     _output_time_steps := _output_time_steps g; _interval := _interval g;
     input_da := input_da g; output_da := output_da g;
     _add_insolation := _add_insolation g; _daily_insolation := _daily_insolation g;
     _load := _load g; _is_loaded := _is_loaded g; insolation_da := v;
     in_memory := in_memory g |}.

Definition set_in_memory (v : list loaded) (g : t val) : t val :=
  {| model := model g; ds := ds g; _batch_size := _batch_size g; _shuffle := _shuffle g;
     _remove_nan := _remove_nan g; _is_convolutional := _is_convolutional g;
     _keep_time_axis := _keep_time_axis g; _impute_missing := _impute_missing g;
     _indices := _indices g; _sequence := _sequence g; _n_sample := _n_sample g;
     da := da g; rank := rank g; _input_sel := _input_sel g;
     _output_sel := _output_sel g; _input_time_steps := _input_time_steps g;
     _output_time_steps := _output_time_steps g; _interval := _interval g;
     input_da := input_da g; output_da := output_da g;
     _add_insolation := _add_insolation g; _daily_insolation := _daily_insolation g;
     _load := _load g; _is_loaded := _is_loaded g; insolation_da := insolation_da g;
     in_memory := v |}.

(** [x.load()] *)
Definition load (x : loaded) (g : t val) : t val :=
  set_in_memory (x :: in_memory g) g.

(** [s in l] on labels. *)
Definition label_in (s : string) (l : list string) : bool :=
  existsb (String.eqb s) l.

Definition _load_data (g : t val) : result (t val) :=
  let g := if Py.eq_str (_load g) "full" then load Load_ds g else g in
  g <- (if Py.eq_str (_load g) "minimal" then
          (* Try to transpose the axes so we can use basic indexing to return views *)
          if Py.contains (_input_sel g) "varlev" then
            vin <- Py.getitem (_input_sel g) "varlev" ;;
            vout <- Py.getitem (_output_sel g) "varlev" ;;
            let union := filter (fun s => label_in s vout) vin in
            let added_in := filter (fun s => negb (label_in s union)) vin in
            let added_out := filter (fun s => negb (label_in s union)) vout in
            if (Py.len added_in >? 0) && (Py.len added_out >? 0) then
              let g := load Load_da g in
              i <- sel (da g) (_input_sel g) ;;
              let g := set_input_da i g in
              o <- sel (da g) (_output_sel g) ;;
              Ok (set_output_da o g)
            else
              d <- sel (da g) [("varlev", union ++ added_in ++ added_out)] ;;
              let g := set_da d g in
              let g := load Load_da g in
              let g := set_input_da
                         (isel_varlev (da g) 0 (Py.len union + Py.len added_in)) g in
              Ok (set_output_da
                    (isel_varlev (da g) 0 (Py.len union + Py.len added_out)) g)
          else Raise NotImplementedError
        else
          i <- sel (da g) (_input_sel g) ;;
          let g := set_input_da i g in
          o <- sel (da g) (_output_sel g) ;;
          let g := set_output_da o g in
          Ok (if Py.eq_str (_load g) "required"
              then load Load_output_da (load Load_input_da g)
              else g)) ;;
  Ok (set_is_loaded true g).

Definition on_epoch_end (shuffle : list Z -> list Z) (g : t val) : t val :=
  let g := set_indices (np.arange (_n_sample g)) g in
  if _shuffle g then set_indices (shuffle (_indices g)) g else g.

(** The selection used when [input_sel] or [output_sel] is empty. *)
Definition default_sel (ds : xr.Dataset val) : result xr.selection :=
  if Py.contains (xr.variables ds) "varlev" then
    vl <- Py.getitem (xr.variables ds) "varlev" ;;
    Ok [("varlev", vl)]
  else
    v <- Py.getitem (xr.variables ds) "variable" ;;
    l <- Py.getitem (xr.variables ds) "level" ;;
    Ok [("variable", v); ("level", l)].

(** The validation of the argument [load] in [__init__]; its value is
    what [load] is bound to afterwards. *)
Definition check_load (load_ : Py.value) : result Py.value :=
  if negb (negb (Py.truthy load_)) then
    if negb (Py.in_strs load_ ["full"; "required"; "minimal"]) then
      if Py.is_bool load_ then Ok (Py.Str "required")
      else Raise ValueError
    else Ok load_
  else Ok load_.

(** [__init__]. [shuffle] is what [np.random.shuffle] does at the call of
    [on_epoch_end]. An absent [input_sel] or [output_sel] is the empty
    dictionary, and an absent [sequence] is [None]. *)
Definition __init__ (shuffle : list Z -> list Z)
    (model : Model val) (ds : xr.Dataset val) (rank : Z)
    (input_sel output_sel : xr.selection)
    (input_time_steps output_time_steps : Z) (sequence : option Z) (interval : Z)
    (add_insolation : Py.value) (batch_size : Z) (shuffle_ remove_nan : bool)
    (load_ : Py.value) (force_load : bool) : result (t val) :=
  _ <- (if negb (xr.has_predictors ds) then Raise ValueError else Ok tt) ;;
  _ <- assert (rank >? 0) ;;
  _ <- assert (input_time_steps >? 0) ;;
  _ <- assert (output_time_steps >? 0) ;;
  _ <- assert (batch_size >? 0) ;;
  _ <- assert (interval >? 0) ;;
  _ <- match sequence with
       | Some sq => assert (sq >? 0)
       | None => Ok tt
       end ;;
  load_ <- check_load load_ ;;
  add_insolation <- match to_bool add_insolation with
                    | Ok b => Ok (Py.Bool b)
                    | Raise ValueError => Ok add_insolation
                    | Raise e => Raise e
                    end ;;
  _ <- assert (Py.is_bool add_insolation || Py.is_str add_insolation) ;;
  _ <- (if Py.is_str add_insolation
        then assert (Py.in_strs add_insolation ["hourly"; "daily"])
        else Ok tt) ;;
  let add_insolation_ :=
    if Py.is_str add_insolation then 1
    else if Py.truthy add_insolation then 1 else 0 in
  let daily_insolation := Py.eq_str add_insolation "daily" in
  total <- Py.getitem (xr.dims ds) "sample" ;;
  let n_sample :=
    match sequence with
    | Some sq => total - input_time_steps - output_time_steps * sq + 2 - interval
    | None => total - input_time_steps - output_time_steps + 2 - interval
    end in
  let da_ :=
    if Py.contains (xr.dims ds) "time_step"
    then isel_time_step (xr.predictors ds) (-1)
    else xr.predictors ds in
  input_sel <- (if Py.len input_sel =? 0 then default_sel ds else Ok input_sel) ;;
  output_sel <- (if Py.len output_sel =? 0 then default_sel ds else Ok output_sel) ;;
  (* Temporarily set DataArrays for coordinates *)
  i <- sel da_ input_sel ;;
  o <- sel da_ output_sel ;;
  let g :=
    {| model := model; ds := ds; _batch_size := batch_size; _shuffle := shuffle_;
       _remove_nan := remove_nan; _is_convolutional := is_convolutional model;
       _keep_time_axis := is_recurrent model; _impute_missing := impute model;
       _indices := []; _sequence := sequence; _n_sample := n_sample; da := da_;
       rank := rank; _input_sel := input_sel; _output_sel := output_sel;
       _input_time_steps := input_time_steps; _output_time_steps := output_time_steps;
       _interval := interval; input_da := i; output_da := o;
       _add_insolation := add_insolation_; _daily_insolation := daily_insolation;
       _load := load_; _is_loaded := false; insolation_da := None; in_memory := [] |} in
  g <- (if force_load then _load_data g else Ok g) ;;
  let g := on_epoch_end shuffle g in
  (* Pre-generate the insolation data *)
  if negb (_add_insolation g =? 0) then
    let sol := insolation (SeriesDataGenerator.ds g) (da g) (_daily_insolation g) in
    if Py.len (np.shape sol) =? 1 + Py.len (Py.range (SeriesDataGenerator.rank g))
    then Ok (set_insolation_da (Some sol) g)
    else Raise ValueError
  else Ok g.

(** *** The shape properties *)

Definition shape (g : t val) : list Z :=
  [_input_time_steps g] ++ Py.slice (Some 1) None (np.shape (input_da g)).

Definition n_features (g : t val) : Z :=
  np.prod (shape g)
  + np.prod (Py.slice (Some (- rank g)) None (shape g))
    * _input_time_steps g * _add_insolation g.

Definition dense_shape (g : t val) : result (list Z) :=
  if _keep_time_axis g then
    s0 <- np.item (shape g) 0 ;;
    q <- Py.floordiv (n_features g) s0 ;;
    Ok ([s0] ++ [q])
  else Ok ([n_features g] ++ []).

Definition convolution_shape (g : t val) : list Z :=
  if _keep_time_axis g then
    [_input_time_steps g]
      ++ [np.prod (Py.slice (Some 1) (Some (- rank g)) (shape g)) + _add_insolation g]
      ++ Py.slice (Some (- rank g)) None (shape g)
  else
    [np.prod (Py.slice None (Some (- rank g)) (shape g))
     + _input_time_steps g * _add_insolation g]
      ++ Py.slice (Some (- rank g)) None (np.shape (input_da g)).

(** The property [shape_2d] assigns [_keep_time_axis], so it gives back
    the instance with its value. *)
Definition shape_2d (g : t val) : list Z * t val :=
  if _keep_time_axis g then
    let g := set_keep_time_axis false g in
    let s := convolution_shape g in
    let g := set_keep_time_axis true g in
    (s, g)
  else (convolution_shape g, g).

Definition output_shape (g : t val) : list Z :=
  [_output_time_steps g] ++ Py.slice (Some 1) None (np.shape (output_da g)).

Definition output_n_features (g : t val) : Z := np.prod (output_shape g).

Definition output_dense_shape (g : t val) : result (list Z) :=
  if _keep_time_axis g then
    s0 <- np.item (output_shape g) 0 ;;
    q <- Py.floordiv (output_n_features g) s0 ;;
    Ok ([s0] ++ [q])
  else Ok ([output_n_features g] ++ []).

Definition output_convolution_shape (g : t val) : list Z :=
  if _keep_time_axis g then
    [_output_time_steps g]
      ++ [np.prod (Py.slice (Some 1) (Some (- rank g)) (output_shape g))]
      ++ Py.slice (Some (- rank g)) None (output_shape g)
  else
    [np.prod (Py.slice None (Some (- rank g)) (output_shape g))]
      ++ Py.slice (Some (- rank g)) None (np.shape (output_da g)).

Definition output_shape_2d (g : t val) : list Z * t val :=
  if _keep_time_axis g then
    let g := set_keep_time_axis false g in
    let s := output_convolution_shape g in
    let g := set_keep_time_axis true g in
    (s, g)
  else (output_convolution_shape g, g).

Definition insolation_shape (g : t val) : list Z :=
  [_input_time_steps g; 1] ++ Py.slice (Some (- rank g)) None (convolution_shape g).

(** *** generate *)

(** [np.concatenate([a.values[idx n, np.newaxis, ...] for n in range(steps)], axis=1)],
    the window of [steps] observations stacked on a new axis after the
    sample axis; [idx n] is the index array of step [n], and [k] counts the
    [np.newaxis]. *)
Definition window (a : np.ndarray val) (idx : Z -> list Z) (k : nat) (steps : Z)
  : result (np.ndarray val) :=
  cols <- mapM (fun n => np.take_newaxis a (idx n) k) (Py.range steps) ;;
  np.concatenate cols 1.

(** The block that follows the computation of every target array [t]:
    {[
      # Remove samples with NaN; scale and impute
      if self._remove_nan: ...
      if scale_and_impute: ...
      # Format spatial shape for convolutions; also takes care of time axis
      if self._is_convolutional: ... elif self._keep_time_axis: ...
    ]} *)
Definition finish (g : t val) (n_sample : Z) (scale_and_impute : bool)
    (p t : np.ndarray val) : result (np.ndarray val * np.ndarray val) :=
  let '(p, t) := if _remove_nan g then util.delete_nan_samples p t else (p, t) in
  '(p, t) <- (if scale_and_impute then
                '(p, t) <- (if _impute_missing g
                            then imputer_transform (model g) p t else Ok (p, t)) ;;
                scaler_transform (model g) p t
              else Ok (p, t)) ;;
  if _is_convolutional g then
    p <- np.reshape p ([n_sample] ++ convolution_shape g) ;;
    t <- np.reshape t ([n_sample] ++ output_convolution_shape g) ;;
    Ok (p, t)
  else if _keep_time_axis g then
    dsh <- dense_shape g ;;
    p <- np.reshape p ([n_sample] ++ dsh) ;;
    odsh <- output_dense_shape g ;;
    t <- np.reshape t ([n_sample] ++ odsh) ;;
    Ok (p, t)
  else Ok (p, t).

(** The index arrays of the target window of sequence step [s]:
    [samples + self._input_time_steps + self._interval - 1
     + self._output_time_steps * s + n]. *)
Definition target_index (g : t val) (samples : list Z) (s n : Z) : list Z :=
  map (fun x => x + _input_time_steps g + _interval g - 1 + _output_time_steps g * s + n)
      samples.

(** The body of the loop [for s in range(self._sequence)], on the
    variables [p] and [targets] that it assigns. *)
Definition sequence_step (g : t val) (samples : list Z) (n_sample : Z)
    (scale_and_impute : bool) (acc : np.ndarray val * list (np.ndarray val)) (s : Z)
  : result (np.ndarray val * list (np.ndarray val)) :=
  let '(p, targets) := acc in
  t <- window (output_da g) (target_index g samples s) 1 (_output_time_steps g) ;;
  t <- np.reshape t [n_sample; -1] ;;
  '(p, t) <- finish g n_sample scale_and_impute p t ;;
  Ok (p, targets ++ [t]).

Definition generate (g : t val) (samples : list Z) (scale_and_impute : bool)
  : result (output val * output val * t val) :=
  let samples := if Py.len samples =? 0 then np.arange (_n_sample g) else samples in
  let n_sample := Py.len samples in
  g <- (if negb (_is_loaded g) then _load_data g else Ok g) ;;
  (* Predictors *)
  p <- window (input_da g) (fun n => map (fun x => x + n) samples) 1
              (_input_time_steps g) ;;
  '(p, insol, g) <-
    (if negb (_add_insolation g =? 0) then
       (* Pretend like we have no insolation and keep the time axis *)
       let g := set_add_insolation 0 g in
       let keep_time := _keep_time_axis g in
       let g := set_keep_time_axis true g in
       let shape := convolution_shape g in
       let g := set_add_insolation 1 g in
       let g := set_keep_time_axis keep_time g in
       sol <- match insolation_da g with
              | Some a => Ok a
              | None => Raise AttributeError
              end ;;
       insol <- match _sequence g with
                | Some sq =>
                    mapM (fun s =>
                            window sol
                              (fun n => map (fun x => x + _input_time_steps g * s + n) samples)
                              2 (_input_time_steps g))
                         (Py.range sq)
                | None =>
                    i0 <- window sol (fun n => map (fun x => x + n) samples)
                                 2 (_input_time_steps g) ;;
                    Ok [i0]
                end ;;
       p <- np.reshape p ([n_sample] ++ shape) ;;
       i0 <- match insol with
             | i0 :: _ => Ok i0
             | [] => Raise IndexError
             end ;;
       p <- np.concatenate [p; i0] 2 ;;
       Ok (p, insol, g)
     else Ok (p, [], g)) ;;
  p <- np.reshape p [n_sample; -1] ;;
  (* Targets, including sequence if desired *)
  match _sequence g with
  | Some sq =>
      '(p, targets) <-
        foldM (sequence_step g samples n_sample scale_and_impute)
              (Py.range sq) (p, []) ;;
      (* Sequence of inputs (plus insolation) for predictors *)
      if negb (_add_insolation g =? 0)
      then Ok (Arrs ([p] ++ Py.slice (Some 1) None insol), Arrs targets, g)
      else Ok (Arr p, Arrs targets, g)
  | None =>
      t <- window (output_da g)
                  (fun n => map (fun x => x + _input_time_steps g + n + _interval g - 1)
                                samples)
                  1 (_output_time_steps g) ;;
      t <- np.reshape t [n_sample; -1] ;;
      '(p, t) <- finish g n_sample scale_and_impute p t ;;
      Ok (Arr p, Arr t, g)
  end.

Definition __len__ (g : t val) : result Z :=
  np.ceil_div (_n_sample g) (_batch_size g).

(** [len(self)]: the built-in refuses a negative [__len__]. *)
Definition len_ (g : t val) : result Z :=
  l <- __len__ g ;;
  if l <? 0 then Raise ValueError else Ok l.

(** [__getitem__] gives back the instance too, since [generate] may load
    the data. *)
Definition __getitem__ (g : t val) (index : Z)
  : result (output val * output val * t val) :=
  (* Generate indexes of the batch *)
  index <- (if index <? 0 then l <- len_ g ;; Ok (l + index) else Ok index) ;;
  l <- len_ g ;;
  if index >? l then Raise IndexError
  else
    let indexes :=
      Py.slice (Some (index * _batch_size g)) (Some ((index + 1) * _batch_size g))
               (_indices g) in
    (* Generate data *)
    generate g indexes true.

End Methods.
End SeriesDataGenerator.

(** ** class SmartDataGenerator *)

Module SmartDataGenerator.

(** The attributes of an instance. [da_loaded] is not an attribute: it
    records whether [self.da.load()] was called. *)
Record t (val : Type) : Type := mk {
  model : Model val;
  ds : xr.Dataset val;
  _batch_size : Z;
  _shuffle : bool;
  _remove_nan : bool;
  _is_convolutional : bool;
  _keep_time_axis : bool;
  _impute_missing : bool;
  _indices : list Z;
  _n_sample : Z;
  time_dim : Z;
  da : np.ndarray val;
  da_loaded : bool
}.

Arguments mk {val} _ _ _ _ _ _ _ _ _ _ _ _ _.
Arguments model {val} t.
Arguments ds {val} t.
Arguments _batch_size {val} t.
Arguments _shuffle {val} t.
Arguments _remove_nan {val} t.
Arguments _is_convolutional {val} t.
Arguments _keep_time_axis {val} t.
Arguments _impute_missing {val} t.
Arguments _indices {val} t.
Arguments _n_sample {val} t.
Arguments time_dim {val} t.
Arguments da {val} t.
Arguments da_loaded {val} t.

Section Methods.
Context {val : Type} `{Backend val}.

Definition set_indices (v : list Z) (g : t val) : t val :=
  {| model := model g; ds := ds g; _batch_size := _batch_size g; _shuffle := _shuffle g;
     _remove_nan := _remove_nan g; _is_convolutional := _is_convolutional g;
     _keep_time_axis := _keep_time_axis g; _impute_missing := _impute_missing g;
     _indices := v; _n_sample := _n_sample g; time_dim := time_dim g; da := da g;
     da_loaded := da_loaded g |}.

Definition set_keep_time_axis (v : bool) (g : t val) : t val :=
  {| model := model g; ds := ds g; _batch_size := _batch_size g; _shuffle := _shuffle g;
     _remove_nan := _remove_nan g; _is_convolutional := _is_convolutional g;
     _keep_time_axis := v; _impute_missing := _impute_missing g; _indices := _indices g;
     _n_sample := _n_sample g; time_dim := time_dim g; da := da g;
     da_loaded := da_loaded g |}.

(** [a.isel(sample=slice(lo, None))] on an array whose first axis is
    [sample]: the rows from [lo] on, a negative [lo] counting from the
    end. *)
Definition isel_sample_from (a : np.ndarray val) (lo : Z) : np.ndarray val :=
  let rs := Py.slice (Some lo) None (np.rows a) in
  np.mk_ndarray (Py.len rs :: tl (np.shape a)) (concat rs).

(** [xr.concat((a, b), dim='sample')] for two arrays whose first axis is
    [sample] and whose other coordinates agree: the rows of [a], then the
    rows of [b]. *)
Definition concat_sample (a b : np.ndarray val) : result (np.ndarray val) :=
  np.concatenate [a; b] 0.

Definition on_epoch_end (shuffle : list Z -> list Z) (g : t val) : t val :=
  let g := set_indices (np.arange (_n_sample g)) g in
  if _shuffle g then set_indices (shuffle (_indices g)) g else g.

(** [__init__]; the two warnings have no effect on the instance. The
    selection [isel(..., time_step=-1)] of [targets] is refused by xarray,
    with a [ValueError], for a dataset that has no dimension
    ['time_step']. *)
Definition __init__ (shuffle : list Z -> list Z)
    (model : Model val) (ds : xr.Dataset val)
    (batch_size : Z) (shuffle_ : bool) (remove_nan : bool) (load : bool)
  : result (t val) :=
  if negb (xr.has_predictors ds) then Raise ValueError
  else
    n <- Py.getitem (xr.dims ds) "sample" ;;
    '(td, da_) <-
      (if Py.contains (xr.dims ds) "time_step" then
         td <- Py.getitem (xr.dims ds) "time_step" ;;
         let da_ := isel_time_step (xr.predictors ds) 0 in
         (* Add the last time steps in the series *)
         da_ <- concat_sample da_
                  (isel_time_step (isel_sample_from (xr.predictors ds) (n - td + 1)) (-1)) ;;
         Ok (td, da_)
       else Ok (1, xr.predictors ds)) ;;
    da_ <- (if xr.has_targets ds then
              if Py.contains (xr.dims ds) "time_step" then
                concat_sample da_
                  (isel_time_step (isel_sample_from (xr.targets ds) (n - td)) (-1))
              else Raise ValueError
            else Ok da_) ;;
    Ok (on_epoch_end shuffle
          {| model := model; ds := ds; _batch_size := batch_size; _shuffle := shuffle_;
             _remove_nan := remove_nan; _is_convolutional := is_convolutional model;
             _keep_time_axis := is_recurrent model; _impute_missing := impute model;
             _indices := []; _n_sample := n; time_dim := td; da := da_;
             da_loaded := load |}).

Definition shape (g : t val) : list Z :=
  [time_dim g] ++ Py.slice (Some 1) None (np.shape (da g)).

Definition n_features (g : t val) : Z := np.prod (shape g).

Definition dense_shape (g : t val) : result (list Z) :=
  if _keep_time_axis g then
    s0 <- np.item (shape g) 0 ;;
    q <- Py.floordiv (n_features g) s0 ;;
    Ok ([s0] ++ [q])
  else Ok ([n_features g] ++ []).

Definition convolution_shape (g : t val) : result (list Z) :=
  if _keep_time_axis g then
    s0 <- np.item (shape g) 0 ;;
    Ok ([s0] ++ [np.prod (Py.slice (Some 1) (Some (-2)) (shape g))]
          ++ Py.slice (Some (-2)) None (shape g))
  else
    Ok ([np.prod (Py.slice None (Some (-2)) (shape g))]
          ++ Py.slice (Some (-2)) None (np.shape (xr.predictors (ds g)))).

Definition shape_2d (g : t val) : result (list Z) * t val :=
  if _keep_time_axis g then
    let g := set_keep_time_axis false g in
    let s := convolution_shape g in
    let g := set_keep_time_axis true g in
    (s, g)
  else (convolution_shape g, g).

Definition generate (g : t val) (samples : list Z) (scale_and_impute : bool)
  : result (np.ndarray val * np.ndarray val) :=
  let samples := if Py.len samples =? 0 then np.arange (_n_sample g) else samples in
  let n_sample := Py.len samples in
  p <- SeriesDataGenerator.window (da g) (fun n => map (fun x => x + n) samples) 1
                                  (time_dim g) ;;
  p <- np.reshape p [n_sample; -1] ;;
  t <- SeriesDataGenerator.window (da g)
                                  (fun n => map (fun x => x + time_dim g + n) samples) 1
                                  (time_dim g) ;;
  t <- np.reshape t [n_sample; -1] ;;
  (* Remove samples with NaN; scale and impute *)
  let '(p, t) := if _remove_nan g then util.delete_nan_samples p t else (p, t) in
  '(p, t) <- (if scale_and_impute then
                '(p, t) <- (if _impute_missing g
                            then imputer_transform (model g) p t else Ok (p, t)) ;;
                scaler_transform (model g) p t
              else Ok (p, t)) ;;
  (* Format spatial shape for convolutions; also takes care of time axis *)
  if _is_convolutional g then
    cs <- convolution_shape g ;;
    p <- np.reshape p ([n_sample] ++ cs) ;;
    t <- np.reshape t ([n_sample] ++ cs) ;;
    Ok (p, t)
  else if _keep_time_axis g then
    dsh <- dense_shape g ;;
    p <- np.reshape p ([n_sample] ++ dsh) ;;
    t <- np.reshape t ([n_sample] ++ dsh) ;;
    Ok (p, t)
  else Ok (p, t).

Definition __len__ (g : t val) : result Z :=
  np.ceil_div (_n_sample g) (_batch_size g).

(** [len(self)]: the built-in refuses a negative [__len__]. *)
Definition len_ (g : t val) : result Z :=
  l <- __len__ g ;;
  if l <? 0 then Raise ValueError else Ok l.

Definition __getitem__ (g : t val) (index : Z)
  : result (np.ndarray val * np.ndarray val) :=
  (* Generate indexes of the batch *)
  index <- (if index <? 0 then l <- len_ g ;; Ok (l + index) else Ok index) ;;
  l <- len_ g ;;
  if index >? l then Raise IndexError
  else
    let indexes :=
      Py.slice (Some (index * _batch_size g)) (Some ((index + 1) * _batch_size g))
               (_indices g) in
    (* Generate data *)
    generate g indexes true.

End Methods.
End SmartDataGenerator.

(** ** A small data set

    The concrete inputs on which the properties below are exercised: a
    series of [n] samples of one variable on a 2 x 2 grid. *)

Module Demo.

(** An element of an array: a number, or NaN. *)
Definition float : Type := option Z.

Definition float_isnan (v : float) : bool :=
  match v with
  | Some _ => false
  | None => true
  end.

(** Selections keep the whole array (there is one variable), and the
    insolation of sample [i] is [1000 + 4 i .. 1000 + 4 i + 3]. *)
#[global] Instance backend : Backend float := {|
  isnan := float_isnan;
  sel := fun a _ => Ok a;
  isel_time_step := fun a _ => a;
  isel_varlev := fun a _ _ => a;
  to_bool := fun v => match v with Py.Bool b => Ok b | _ => Raise ValueError end;
  insolation := fun _ a _ =>
    np.mk_ndarray (hd 0 (np.shape a) :: [2; 2])
                  (map (fun i => Some (1000 + i)) (Py.range (4 * hd 0 (np.shape a))))
|}.

(** A model whose scaler doubles every number and whose imputer does
    nothing. *)
Definition double (a : np.ndarray float) : np.ndarray float :=
  np.mk_ndarray (np.shape a) (map (option_map (Z.mul 2)) (np.data a)).

Definition model (convolutional recurrent : bool) : Model float :=
  mk_Model convolutional recurrent false
           (fun p t => Ok (double p, double t))
           (fun p t => Ok (p, t)).

(** [n] samples, element [j] of sample [i] being [4 i + j]. *)
Definition series (n : Z) : np.ndarray float :=
  np.mk_ndarray [n; 1; 2; 2] (map Some (Py.range (4 * n))).

(** The same with a NaN in sample 0. *)
Definition series_nan (n : Z) : np.ndarray float :=
  np.mk_ndarray [n; 1; 2; 2] (None :: map Some (tl (Py.range (4 * n)))).

Definition dataset (a : np.ndarray float) : xr.Dataset float :=
  xr.mk_Dataset true a true a [("sample", hd 0 (np.shape a))] [("varlev", ["z500"])].

(** [SeriesDataGenerator(model, ds, input_time_steps=2, sequence=sequence,
    add_insolation=add_insolation, batch_size=batch_size,
    remove_nan=remove_nan, load=load)], without shuffling. *)
Definition generator (m : Model float) (a : np.ndarray float) (sequence : option Z)
    (add_insolation : Py.value) (batch_size : Z) (remove_nan : bool) (load : Py.value)
  : result (SeriesDataGenerator.t float) :=
  SeriesDataGenerator.__init__ (fun l => l) m (dataset a) 2 [] [] 2 1 sequence 1
                               add_insolation batch_size false remove_nan load false.

End Demo.

(** ** A small data set with a time-step axis

    Samples of [steps] consecutive times of a series on a 2 x 2 grid, for
    [SmartDataGenerator]: element [j] of the series at time [u] is
    [4 u + j], sample [s] of the predictors holds the times [s .. s + steps - 1]
    and sample [s] of the targets the times [s + steps .. s + 2 steps - 1]. *)

Module DemoSteps.

(** [a.isel(time_step=i)] on an array whose axes are [sample], [time_step],
    then the grid: block [i] of every row, a negative [i] counting from the
    end. *)
Definition select_step (a : np.ndarray Demo.float) (i : Z) : np.ndarray Demo.float :=
  match np.shape a with
  | n :: steps :: grid =>
      let i := if i <? 0 then steps + i else i in
      let c := np.size_of grid in
      np.mk_ndarray (n :: grid)
                    (flat_map (fun r => firstn (Z.to_nat c) (skipn (Z.to_nat (i * c)) r))
                              (np.rows a))
  | _ => a
  end.

Definition backend : Backend Demo.float := {|
  isnan := Demo.float_isnan;
  sel := fun a _ => Ok a;
  isel_time_step := select_step;
  isel_varlev := fun a _ _ => a;
  to_bool := fun v => match v with Py.Bool b => Ok b | _ => Raise ValueError end;
  insolation := fun _ a _ => a
|}.

(** [n] samples of [steps] times starting at time [from + s]. *)
Definition samples (n steps from : Z) : np.ndarray Demo.float :=
  np.mk_ndarray [n; steps; 2; 2]
    (flat_map (fun s =>
                 flat_map (fun u => map (fun j => Some (4 * (from + s + u) + j))
                                        (Py.range 4))
                          (Py.range steps))
              (Py.range n)).

Definition dataset (n steps : Z) : xr.Dataset Demo.float :=
  xr.mk_Dataset true (samples n steps 0) true (samples n steps steps)
                [("sample", n); ("time_step", steps)] [].

(** [SmartDataGenerator(model, ds, batch_size=batch_size, remove_nan=False)],
    without shuffling. *)
Definition generator (m : Model Demo.float) (n steps batch_size : Z)
  : result (SmartDataGenerator.t Demo.float) :=
  @SmartDataGenerator.__init__ Demo.float backend (fun l => l) m (dataset n steps)
                               batch_size false false true.

End DemoSteps.

(** ** Vocabulary of the properties *)

(** The shapes of the arrays in one position of what [generate] returns. *)
Definition shapes_of {val : Type} (o : output val) : list (list Z) :=
  match o with
  | Arr a => [np.shape a]
  | Arrs l => map np.shape l
  end.

(** [sequence or 1], as the specification writes the number of target
    windows. *)
Definition sequence_or_1 (sequence : option Z) : Z :=
  match sequence with
  | Some sq => if sq =? 0 then 1 else sq
  | None => 1
  end.

(** The derived sample count, as the specification writes it. *)
Definition n_sample_spec (total_samples input_time_steps output_time_steps : Z)
    (sequence : option Z) (interval : Z) : Z :=
  total_samples - input_time_steps - output_time_steps * sequence_or_1 sequence
  + 2 - interval.

(** [k] is the ceiling of [a / b], for [b > 0]. *)
Definition is_ceil (k a b : Z) : Prop :=
  (k - 1) * b < a <= k * b.

(** The batches of one epoch, as the specification describes them: batch
    [i] is the slice [[i * batch_size, (i + 1) * batch_size)] of the
    current ordering, for [i] from 0 to [k - 1]. *)
Definition epoch_batches (indices : list Z) (batch_size k : Z) : list (list Z) :=
  map (fun i => Py.slice (Some (i * batch_size)) (Some ((i + 1) * batch_size)) indices)
      (Py.range k).

(** A transform of the model is shape-preserving. *)
Definition shape_preserving {val : Type}
    (f : np.ndarray val -> np.ndarray val -> result (np.ndarray val * np.ndarray val))
  : Prop :=
  forall p t p' t', f p t = Ok (p', t') ->
                    np.shape p' = np.shape p /\ np.shape t' = np.shape t.

(** The model's scaler and imputer keep to their contract. *)
Definition contract {val : Type} (m : Model val) : Prop :=
  shape_preserving (scaler_transform m) /\ shape_preserving (imputer_transform m).

(** The first dimension of every array in one position of what
    [generate] returns. *)
Definition first_dims {val : Type} (o : output val) : list Z :=
  map (hd 0) (shapes_of o).

(** An array with [d] rows, [0 <= d <= n]. *)
Definition rows_le {val : Type} (n : Z) (a : np.ndarray val) : Prop :=
  exists d sh, np.shape a = d :: sh /\ 0 <= d <= n.

(** An array with [n] rows. *)
Definition rows_eq {val : Type} (n : Z) (a : np.ndarray val) : Prop :=
  exists sh, np.shape a = n :: sh.

(** A flat array: one row per sample. *)
Definition two_dim {val : Type} (a : np.ndarray val) : Prop :=
  length (np.shape a) = 2%nat.



(** The index array that [generate] works on. *)
Definition requested {val : Type} (g : SeriesDataGenerator.t val) (samples : list Z)
  : list Z :=
  if Py.len samples =? 0 then np.arange (SeriesDataGenerator._n_sample g) else samples.

(** The instance after the insolation block of [generate]. *)
Definition after_insolation {val : Type} (g : SeriesDataGenerator.t val)
  : SeriesDataGenerator.t val :=
  if negb (SeriesDataGenerator._add_insolation g =? 0)
  then SeriesDataGenerator.set_add_insolation 1 g
  else g.

(** The arrays in one position of what [generate] returns. *)
Definition arrays_of {val : Type} (o : output val) : list (np.ndarray val) :=
  match o with
  | Arr a => [a]
  | Arrs l => l
  end.


(** The observation at sample index [i] of an array whose first axis is
    the sample axis: its row [i], flattened (and nothing when [i] is out
    of range). *)
Definition observation {val : Type} (a : np.ndarray val) (i : Z) : list val :=
  match np.index0 a i with
  | Ok r => r
  | Raise _ => []
  end.

(** [t] is the target array that [generate] makes for the start offsets
    [xs] out of the windows that begin at sample [start x] for the offset
    [x]: every read is in range; the raw window [traw] has one row per
    offset, and its row for [x] is the [output_time_steps] consecutive
    observations at [start x], [start x + 1], ..., in this order; and [t]
    is [traw] flattened and passed, with some predictor array, through the
    block [finish]. *)
Definition target_window {val : Type} `{Backend val} (g : SeriesDataGenerator.t val)
    (xs : list Z) (scale_and_impute : bool) (start : Z -> Z) (t : np.ndarray val)
  : Prop :=
  let out := SeriesDataGenerator.output_da g in
  let steps := SeriesDataGenerator._output_time_steps g in
  exists traw t0 q q',
    (forall x j, In x xs -> 0 <= j < steps ->
                 np.index0 out (start x + j) = Ok (observation out (start x + j)))
    /\ np.shape traw = Py.len xs :: steps :: tl (np.shape out)
    /\ np.data traw
       = flat_map (fun x => flat_map (fun j => observation out (start x + j))
                                     (Py.range steps))
                  xs
    /\ np.reshape traw [Py.len xs; -1] = Ok t0
    /\ SeriesDataGenerator.finish g (Py.len xs) scale_and_impute q t0 = Ok (q', t)
    /\ (scale_and_impute = false -> SeriesDataGenerator._remove_nan g = false ->
        np.data t = np.data traw).

(** The attributes that [_load_data] leaves alone. *)
Definition unloaded_part {val : Type} (g : SeriesDataGenerator.t val) :=
  (SeriesDataGenerator.model g, SeriesDataGenerator.ds g,
   SeriesDataGenerator._batch_size g, SeriesDataGenerator._shuffle g,
   SeriesDataGenerator._remove_nan g, SeriesDataGenerator._is_convolutional g,
   SeriesDataGenerator._keep_time_axis g, SeriesDataGenerator._impute_missing g,
   SeriesDataGenerator._indices g, SeriesDataGenerator._sequence g,
   SeriesDataGenerator._n_sample g, SeriesDataGenerator.rank g,
   SeriesDataGenerator._input_sel g, SeriesDataGenerator._output_sel g,
   SeriesDataGenerator._input_time_steps g, SeriesDataGenerator._output_time_steps g,
   SeriesDataGenerator._interval g, SeriesDataGenerator._add_insolation g,
   SeriesDataGenerator._daily_insolation g, SeriesDataGenerator._load g,
   SeriesDataGenerator.insolation_da g).

(** The flat array with one row per offset [x] of [xs], the row being the
    [steps] consecutive observations of [a] from sample [start x] on. *)
Definition window_rows {val : Type} (a : np.ndarray val) (start : Z -> Z) (steps : Z)
    (xs : list Z) : np.ndarray val :=
  np.mk_ndarray
    [Py.len xs; steps * np.size_of (tl (np.shape a))]
    (flat_map (fun x => flat_map (fun j => observation a (start x + j)) (Py.range steps)) xs).

(** An array that comes out of [reshape(sh)]. *)
Definition reshaped_to {val : Type} (sh : list Z) (a : np.ndarray val) : Prop :=
  exists a0, np.reshape a0 sh = Ok a.

(** A transform of the model that returns, giving back arrays of the
    shape and of the number of values that it was given. *)
Definition returns_alike {val : Type}
    (f : np.ndarray val -> np.ndarray val -> result (np.ndarray val * np.ndarray val))
  : Prop :=
  forall p t, exists p' t',
    f p t = Ok (p', t')
    /\ np.shape p' = np.shape p /\ np.shape t' = np.shape t
    /\ Py.len (np.data p') = Py.len (np.data p)
    /\ Py.len (np.data t') = Py.len (np.data t).

(** The model's scaler and imputer return, keeping shapes and sizes. *)
Definition transforms_return {val : Type} (m : Model val) : Prop :=
  returns_alike (scaler_transform m) /\ returns_alike (imputer_transform m).

(** * Properties *)

(** ** The result monad *)

Lemma bind_Ok_inv {A B : Type} (c : result A) (k : A -> result B) (b : B) :
  bind c k = Ok b -> exists a, c = Ok a /\ k a = Ok b.
Proof.
  destruct c as [a | e]; simpl; intros Hk.
  - exists a. split; [reflexivity | exact Hk].
  - discriminate Hk.
Qed.

Lemma assert_Ok_inv (b : bool) (u : unit) : assert b = Ok u -> b = true.
Proof. destruct b; [reflexivity | discriminate]. Qed.

(** Peel the binds, the tests and the matches off a hypothesis
    [H : c = Ok _], and off the hypotheses that this brings. *)
Ltac inv_result H :=
  first
    [ discriminate H
    | lazymatch type of H with
      | bind _ _ = Ok _ =>
          let a := fresh "r" in
          let E := fresh "E" in
          apply bind_Ok_inv in H; destruct H as (a & E & H);
          inv_result E; inv_result H
      | (if ?b then _ else _) = Ok _ =>
          let E := fresh "E" in
          destruct b eqn:E; inv_result H
      | (let '(_, _) := ?p in _) = Ok _ =>
          destruct p; inv_result H
      | match ?x with _ => _ end = Ok _ =>
          let E := fresh "E" in
          destruct x eqn:E; inv_result H
      | Ok _ = Ok _ => injection H as H
      | _ => idtac
      end ].

(** ** Python slices and ranges *)

Lemma len_nonneg {A : Type} (l : list A) : 0 <= Py.len l.
Proof. unfold Py.len. lia. Qed.

Lemma range_length (n : Z) : length (Py.range n) = Z.to_nat n.
Proof. unfold Py.range. now rewrite length_map, length_seq. Qed.

Lemma len_range (n : Z) : Py.len (Py.range n) = Z.max 0 n.
Proof. unfold Py.len. rewrite range_length. lia. Qed.

Lemma range_succ (n : Z) : 0 <= n -> Py.range (n + 1) = Py.range n ++ [n].
Proof.
  intros Hn. unfold Py.range.
  replace (Z.to_nat (n + 1)) with (S (Z.to_nat n)) by lia.
  rewrite seq_S, map_app. simpl. now rewrite Z2Nat.id.
Qed.

Lemma range_nonpos (n : Z) : n <= 0 -> Py.range n = [].
Proof.
  intros Hn. unfold Py.range. now replace (Z.to_nat n) with O by lia.
Qed.

Lemma firstn_plus {A : Type} (a b : nat) (l : list A) :
  firstn (a + b) l = firstn a l ++ firstn b (skipn a l).
Proof.
  revert l. induction a as [| a IH]; intros l; simpl.
  - reflexivity.
  - destruct l as [| x l]; simpl.
    + now rewrite firstn_nil.
    + now rewrite IH.
Qed.

(** A slice between two non-negative bounds. *)
Lemma slice_bounds {A : Type} (a b : Z) (l : list A) :
  0 <= a <= b ->
  Py.slice (Some a) (Some b) l = firstn (Z.to_nat (b - a)) (skipn (Z.to_nat a) l).
Proof.
  intros Hab. unfold Py.slice, Py.clamp.
  destruct (a <? 0) eqn:Ea; [lia |]. destruct (b <? 0) eqn:Eb; [lia |].
  set (n := Py.len l).
  assert (Hn : n = Z.of_nat (length l)) by reflexivity.
  clearbody n.
  destruct (Z.le_gt_cases n a) as [Hna | Hna].
  - rewrite !skipn_all2 by lia. now rewrite !firstn_nil.
  - rewrite (Z.min_l a n) by lia.
    destruct (Z.le_gt_cases b n) as [Hbn | Hbn].
    + now rewrite (Z.min_l b n) by lia.
    + rewrite (Z.min_r b n) by lia.
      rewrite !firstn_all2; try reflexivity; rewrite length_skipn; lia.
Qed.

Lemma slice_length {A : Type} (a b : Z) (l : list A) :
  0 <= a <= b ->
  Py.len (Py.slice (Some a) (Some b) l) = Z.min b (Py.len l) - Z.min a (Py.len l).
Proof.
  intros Hab. rewrite slice_bounds by assumption. unfold Py.len.
  rewrite length_firstn, length_skipn. lia.
Qed.

Lemma slice_from_1 {A : Type} (l : list A) : Py.slice (Some 1) None l = tl l.
Proof.
  destruct l as [| x l]; [reflexivity |].
  unfold Py.slice, Py.clamp, Py.len.
  change (1 <? 0) with false. cbv iota.
  change (length (x :: l)) with (S (length l)).
  replace (Z.min 1 (Z.of_nat (S (length l)))) with 1 by lia.
  change (Z.to_nat 1) with 1%nat. simpl skipn. simpl tl.
  apply firstn_all2. lia.
Qed.

(** The batches of an ordering: the first [k] slices of length [bs] are
    the first [k * bs] elements. *)
Lemma batches_firstn {A : Type} (bs : Z) (l : list A) (k : nat) :
  0 < bs ->
  concat (map (fun i => Py.slice (Some (i * bs)) (Some ((i + 1) * bs)) l)
              (Py.range (Z.of_nat k)))
  = firstn (Z.to_nat (Z.of_nat k * bs)) l.
Proof.
  intros Hbs. induction k as [| k IH].
  - reflexivity.
  - rewrite Nat2Z.inj_succ, <- Z.add_1_r.
    rewrite range_succ by lia.
    rewrite map_app, concat_app, IH. simpl concat. rewrite app_nil_r.
    rewrite slice_bounds by nia.
    replace (Z.to_nat ((Z.of_nat k + 1) * bs))
      with (Z.to_nat (Z.of_nat k * bs) + Z.to_nat bs)%nat by nia.
    rewrite firstn_plus. f_equal. f_equal. nia.
Qed.

Lemma ceil_div_spec (a b k : Z) :
  0 < b -> np.ceil_div a b = Ok k -> is_ceil k a b.
Proof.
  intros Hb. unfold np.ceil_div, is_ceil.
  destruct (b =? 0) eqn:E; [lia |]. intros [= <-].
  pose proof (Z.div_mod (- a) b ltac:(lia)) as Hdm.
  pose proof (Z.mod_pos_bound (- a) b Hb) as Hm.
  nia.
Qed.

Lemma ceil_div_Ok (a b : Z) : 0 < b -> exists k, np.ceil_div a b = Ok k.
Proof.
  intros Hb. unfold np.ceil_div. destruct (b =? 0) eqn:E; [lia |].
  eexists. reflexivity.
Qed.

Lemma batches_cover {A : Type} (bs n k : Z) (l : list A) :
  0 < bs -> Py.len l = Z.max 0 n -> is_ceil k n bs ->
  concat (map (fun i => Py.slice (Some (i * bs)) (Some ((i + 1) * bs)) l) (Py.range k))
  = l.
Proof.
  intros Hbs Hl Hc. unfold is_ceil in Hc.
  destruct (Z.le_gt_cases k 0) as [Hk | Hk].
  - rewrite range_nonpos by assumption. simpl.
    destruct l as [| x l]; [reflexivity |].
    unfold Py.len in Hl. simpl length in Hl. nia.
  - rewrite <- (Z2Nat.id k) by lia.
    rewrite batches_firstn by assumption.
    apply firstn_all2. unfold Py.len in Hl. nia.
Qed.

Lemma nth_map_in {A B : Type} (f : A -> B) (l : list A) (d : B) (d' : A) (i : nat) :
  (i < length l)%nat -> nth i (map f l) d = f (nth i l d').
Proof.
  revert i. induction l as [| a l IH]; simpl; intros [| i] Hi; try lia.
  - reflexivity.
  - apply IH. lia.
Qed.

Lemma nth_range (n i : Z) : 0 <= i < n -> nth (Z.to_nat i) (Py.range n) 0 = i.
Proof.
  intros Hi. unfold Py.range.
  rewrite (nth_map_in _ _ _ O) by (rewrite length_seq; lia).
  rewrite seq_nth by lia. lia.
Qed.

Lemma nth_epoch_batches (indices : list Z) (bs k i : Z) :
  0 <= i < k ->
  nth (Z.to_nat i) (epoch_batches indices bs k) []
  = Py.slice (Some (i * bs)) (Some ((i + 1) * bs)) indices.
Proof.
  intros Hi. unfold epoch_batches.
  rewrite (nth_map_in _ _ _ 0) by (rewrite range_length; lia).
  now rewrite nth_range.
Qed.

(** ** The shape calculator *)

Section Shapes.
Context {val : Type} `{Backend val}.
Import SeriesDataGenerator.

Lemma set_keep_time_axis_same (g : t val) :
  set_keep_time_axis (_keep_time_axis g) g = g.
Proof. destruct g; reflexivity. Qed.

Lemma set_keep_time_axis_twice (b b' : bool) (g : t val) :
  set_keep_time_axis b (set_keep_time_axis b' g) = set_keep_time_axis b g.
Proof. destruct g; reflexivity. Qed.

Lemma DataGenerator_set_keep_time_axis_same (g : DataGenerator.t val) :
  DataGenerator.set_keep_time_axis (DataGenerator._keep_time_axis g) g = g.
Proof. destruct g; reflexivity. Qed.

Lemma DataGenerator_set_keep_time_axis_twice (b b' : bool) (g : DataGenerator.t val) :
  DataGenerator.set_keep_time_axis b (DataGenerator.set_keep_time_axis b' g)
  = DataGenerator.set_keep_time_axis b g.
Proof. destruct g; reflexivity. Qed.

(** C9. Reading [shape_2d] (or [output_shape_2d]) returns the convolution
    shape computed with the time axis collapsed, that is with
    [_keep_time_axis] false, and leaves the instance as it was, so the
    flag has its former value and [convolution_shape] and [dense_shape]
    read afterwards are what they were before. The same holds for
    [DataGenerator.shape_2d]. *)
Theorem shape_2d_restores_keep_time_axis :
  (forall g : t val,
      fst (shape_2d g) = convolution_shape (set_keep_time_axis false g)
      /\ snd (shape_2d g) = g
      /\ fst (output_shape_2d g) = output_convolution_shape (set_keep_time_axis false g)
      /\ snd (output_shape_2d g) = g
      /\ _keep_time_axis (snd (shape_2d g)) = _keep_time_axis g
      /\ convolution_shape (snd (shape_2d g)) = convolution_shape g
      /\ dense_shape (snd (shape_2d g)) = dense_shape g)
  /\ (forall g : DataGenerator.t val,
         fst (DataGenerator.shape_2d g)
         = DataGenerator.convolution_shape (DataGenerator.set_keep_time_axis false g)
         /\ snd (DataGenerator.shape_2d g) = g).
Proof.
  split.
  - intros g.
    assert (Hs : snd (shape_2d g) = g).
    { unfold shape_2d. destruct (_keep_time_axis g) eqn:E; simpl.
      - rewrite set_keep_time_axis_twice, <- E. apply set_keep_time_axis_same.
      - reflexivity. }
    rewrite Hs. repeat split.
    + unfold shape_2d. destruct (_keep_time_axis g) eqn:E; simpl.
      * reflexivity.
      * now rewrite <- E, set_keep_time_axis_same.
    + unfold output_shape_2d. destruct (_keep_time_axis g) eqn:E; simpl.
      * reflexivity.
      * now rewrite <- E, set_keep_time_axis_same.
    + unfold output_shape_2d. destruct (_keep_time_axis g) eqn:E; simpl.
      * rewrite set_keep_time_axis_twice, <- E. apply set_keep_time_axis_same.
      * reflexivity.
  - intros g. unfold DataGenerator.shape_2d.
    destruct (DataGenerator._keep_time_axis g) eqn:E; simpl.
    + split; [reflexivity |].
      rewrite DataGenerator_set_keep_time_axis_twice, <- E.
      apply DataGenerator_set_keep_time_axis_same.
    + split; [| reflexivity].
      now rewrite <- E, DataGenerator_set_keep_time_axis_same.
Qed.

(** C4, as amended. With insolation enabled, the channel dimension of
    [convolution_shape] exceeds the channel count of the same
    configuration without insolation by exactly 1 in the recurrent layout
    (where it is the second dimension), and by [input_time_steps] in the
    non-recurrent layout (where it is the first dimension and counts the
    channels of all input time steps); all other dimensions are those of
    the configuration without insolation. *)
Theorem convolution_shape_insolation_channels (g : t val) :
  _add_insolation g = 1 ->
  let g0 := set_add_insolation 0 g in
  (_keep_time_axis g = true ->
   exists c spatial,
     convolution_shape g0 = [_input_time_steps g; c] ++ spatial
     /\ convolution_shape g = [_input_time_steps g; c + 1] ++ spatial)
  /\ (_keep_time_axis g = false ->
      exists c spatial,
        convolution_shape g0 = [c] ++ spatial
        /\ convolution_shape g = [c + _input_time_steps g] ++ spatial).
Proof.
  intros Hi g0. subst g0. split; intros Hk.
  - exists (np.prod (Py.slice (Some 1) (Some (- rank g)) (shape g))),
      (Py.slice (Some (- rank g)) None (shape g)).
    unfold convolution_shape. destruct g; simpl in *. subst.
    split; [now rewrite Z.add_0_r | reflexivity].
  - exists (np.prod (Py.slice None (Some (- rank g)) (shape g))),
      (Py.slice (Some (- rank g)) None (np.shape (input_da g))).
    unfold convolution_shape. destruct g; simpl in *. subst.
    split; [now rewrite Z.mul_0_r, Z.add_0_r | now rewrite Z.mul_1_r].
Qed.

End Shapes.

Section Construction.
Context {val : Type} `{Backend val}.
Import SeriesDataGenerator.

Lemma _load_data_frame (g g' : t val) :
  _load_data g = Ok g' ->
  unloaded_part g' = unloaded_part g /\ _is_loaded g' = true.
Proof.
  unfold _load_data. intros Hl.
  destruct (Py.eq_str (_load g) "full");
    inv_result Hl; subst;
    repeat match goal with
           | |- context [if ?c then _ else _] => destruct c
           end;
    split; reflexivity.
Qed.

Lemma _load_data_falsy (g g' : t val) :
  Py.truthy (_load g) = false ->
  _load_data g = Ok g' ->
  in_memory g' = in_memory g.
Proof.
  unfold _load_data. intros Hf Hl.
  assert (Hn : forall s, s <> "" -> Py.eq_str (_load g) s = false).
  { intros s Hs. destruct (_load g) as [| b | z | s']; try reflexivity.
    simpl in Hf |- *. apply negb_false_iff, String.eqb_eq in Hf. subst s'.
    apply String.eqb_neq. congruence. }
  rewrite (Hn "full") in Hl by discriminate. 
  rewrite (Hn "minimal") in Hl by discriminate.
  inv_result Hl; subst; simpl.
  rewrite (Hn "required") by discriminate. reflexivity.
Qed.


Lemma on_epoch_end_frame (shuffle : list Z -> list Z) (g : t val) :
  unloaded_part (set_indices [] (on_epoch_end shuffle g)) = unloaded_part (set_indices [] g)
  /\ _is_loaded (on_epoch_end shuffle g) = _is_loaded g
  /\ in_memory (on_epoch_end shuffle g) = in_memory g
  /\ _indices (on_epoch_end shuffle g)
     = if _shuffle g then shuffle (np.arange (_n_sample g)) else np.arange (_n_sample g).
Proof.
  unfold on_epoch_end. destruct g; simpl.
  destruct _shuffle0; simpl; repeat split; reflexivity.
Qed.

(** What a successful construction establishes. *)
Lemma __init___inv (shuffle : list Z -> list Z) (m : Model val) (d : xr.Dataset val)
    (rank_ : Z) (input_sel output_sel : xr.selection) (its ots : Z)
    (sequence : option Z) (interval : Z) (add_insolation : Py.value) (batch_size : Z)
    (shuffle_ remove_nan : bool) (load_ : Py.value) (force_load : bool) (g : t val) :
  __init__ shuffle m d rank_ input_sel output_sel its ots sequence interval
           add_insolation batch_size shuffle_ remove_nan load_ force_load = Ok g ->
  exists total lv,
    Py.getitem (xr.dims d) "sample" = Ok total
    /\ check_load load_ = Ok lv
    /\ (0 < rank_ /\ 0 < its /\ 0 < ots /\ 0 < batch_size /\ 0 < interval
        /\ forall sq, sequence = Some sq -> 0 < sq)
    /\ _n_sample g
       = match sequence with
         | Some sq => total - its - ots * sq + 2 - interval
         | None => total - its - ots + 2 - interval
         end
    /\ (_batch_size g = batch_size /\ _input_time_steps g = its
        /\ _output_time_steps g = ots /\ _interval g = interval
        /\ _sequence g = sequence /\ rank g = rank_ /\ _shuffle g = shuffle_
        /\ _remove_nan g = remove_nan /\ model g = m)
    /\ _load g = lv
    /\ _indices g
       = (if shuffle_ then shuffle (np.arange (_n_sample g)) else np.arange (_n_sample g))
    /\ (_add_insolation g = 0 \/ _add_insolation g = 1)
    /\ (force_load = false -> _is_loaded g = false /\ in_memory g = [])
    /\ (Py.truthy load_ = false -> in_memory g = []).
Proof.
  unfold __init__. intros Hi.
  apply bind_Ok_inv in Hi. destruct Hi as (_ & _ & Hi).
  repeat match type of Hi with
         | bind (assert _) _ = Ok _ =>
             let E := fresh "A" in
             apply bind_Ok_inv in Hi; destruct Hi as (? & E & Hi);
             apply assert_Ok_inv in E
         end.
  apply bind_Ok_inv in Hi. destruct Hi as (? & Hseq & Hi).
  apply bind_Ok_inv in Hi. destruct Hi as (lv & Hlv & Hi).
  apply bind_Ok_inv in Hi. destruct Hi as (ai & _ & Hi).
  apply bind_Ok_inv in Hi. destruct Hi as (? & _ & Hi).
  apply bind_Ok_inv in Hi. destruct Hi as (? & _ & Hi).
  apply bind_Ok_inv in Hi. destruct Hi as (total & Htot & Hi).
  apply bind_Ok_inv in Hi. destruct Hi as (isel & _ & Hi).
  apply bind_Ok_inv in Hi. destruct Hi as (osel & _ & Hi).
  apply bind_Ok_inv in Hi. destruct Hi as (i & _ & Hi).
  apply bind_Ok_inv in Hi. destruct Hi as (o & _ & Hi).
  apply bind_Ok_inv in Hi. destruct Hi as (g1 & Hload & Hi).
  exists total, lv.
  assert (Hsq : forall sq, sequence = Some sq -> 0 < sq).
  { intros sq ->. apply assert_Ok_inv in Hseq. lia. }
  match type of Hload with
  | (if _ then _ ?g0 else _) = _ =>
      assert (Hg1 : unloaded_part g1 = unloaded_part g0
                    /\ (force_load = false -> _is_loaded g1 = false /\ in_memory g1 = [])
                    /\ (Py.truthy lv = false -> in_memory g1 = []))
  end.
  { destruct force_load.
    - split; [apply (proj1 (_load_data_frame _ _ Hload)) | split; [discriminate |]].
      intros Hf. pose proof (fun pf => _load_data_falsy _ _ pf Hload) as Hm.
      simpl in Hm. now rewrite (Hm Hf).
    - injection Hload as <-. repeat split; reflexivity. }
  destruct Hg1 as (Hfr & Hfl & Hfalsy).
  destruct (on_epoch_end_frame shuffle g1) as (Hfe & Hle & Hme & Hie).
  assert (Hfalsy' : Py.truthy load_ = false -> Py.truthy lv = false).
  { intros Hf. unfold check_load in Hlv. rewrite Hf in Hlv. simpl in Hlv.
    now injection Hlv as <-. }
  set (g2 := on_epoch_end shuffle g1) in *.
  unfold unloaded_part in Hfe, Hfr. simpl in Hfe, Hfr.
  injection Hfe as Hmodel2 _ Hbs2 Hsh2 Hrn2 _ _ _ Hsq2 Hn2 Hrank2 _ _
                   Hits2 Hots2 Hint2 Hadd2 _ Hld2 _.
  injection Hfr as Hmodel _ Hbs Hsh Hrn _ _ _ _ Hsq1 Hn Hrank _ _
                   Hits Hots Hint Hadd _ Hld _.
  assert (Hg : g = g2 \/ exists a, g = set_insolation_da a g2).
  { inv_result Hi; subst g; [right; eexists; reflexivity | now left]. }
  assert (Hfields :
            _n_sample g = _n_sample g2 /\ _batch_size g = _batch_size g2
            /\ _input_time_steps g = _input_time_steps g2
            /\ _output_time_steps g = _output_time_steps g2
            /\ _interval g = _interval g2 /\ _sequence g = _sequence g2
            /\ rank g = rank g2 /\ _shuffle g = _shuffle g2
            /\ _remove_nan g = _remove_nan g2 /\ model g = model g2
            /\ _load g = _load g2 /\ _indices g = _indices g2
            /\ _add_insolation g = _add_insolation g2
            /\ _is_loaded g = _is_loaded g2 /\ in_memory g = in_memory g2).
  { destruct Hg as [-> | (a & ->)]; repeat split; reflexivity. }
  destruct Hfields as (-> & -> & -> & -> & -> & -> & -> & -> & -> & -> & -> & -> & -> & -> & ->).
  rewrite Hn2, Hbs2, Hits2, Hots2, Hint2, Hsq2, Hrank2, Hsh2, Hrn2, Hmodel2, Hld2, Hadd2.
  rewrite Hie, Hle, Hme.
  rewrite Hn, Hbs, Hits, Hots, Hint, Hsq1, Hrank, Hsh, Hrn, Hmodel, Hld, Hadd.
  repeat split; try assumption; try lia; auto.
  - destruct (Py.is_str ai); [now right |].
    destruct (Py.truthy ai); [now right | now left].
  - now apply Hfl.
  - now apply Hfl.
Qed.


(** C1. For every configuration from which a [SeriesDataGenerator] is
    constructed, [_n_sample] is
    [total_samples - input_time_steps - output_time_steps * (sequence or 1) + 2 - interval],
    [__len__] returns, and what it returns is the ceiling of
    [n_sample / batch_size]; [len(generator)] returns the same when
    [n_sample] is not negative. In particular for 100 samples,
    [input_time_steps = 2], [output_time_steps = 1], [interval = 1], no
    sequence and [batch_size = 32], [n_sample] is 98 and the length is 4. *)
Theorem len_is_ceil_of_n_sample (shuffle : list Z -> list Z) (m : Model val)
    (d : xr.Dataset val) (rank_ : Z) (input_sel output_sel : xr.selection)
    (its ots : Z) (sequence : option Z) (interval : Z) (add_insolation : Py.value)
    (batch_size : Z) (shuffle_ remove_nan : bool) (load_ : Py.value)
    (force_load : bool) (g : t val) :
  __init__ shuffle m d rank_ input_sel output_sel its ots sequence interval
           add_insolation batch_size shuffle_ remove_nan load_ force_load = Ok g ->
  exists total k,
    Py.getitem (xr.dims d) "sample" = Ok total
    /\ _n_sample g = n_sample_spec total its ots sequence interval
    /\ __len__ g = Ok k
    /\ is_ceil k (_n_sample g) batch_size
    /\ (0 <= _n_sample g -> len_ g = Ok k)
    /\ (total = 100 -> its = 2 -> ots = 1 -> interval = 1 -> sequence = None ->
        batch_size = 32 -> _n_sample g = 98 /\ k = 4).
Proof.
  intros Hi. apply __init___inv in Hi.
  destruct Hi as (total & lv & Htot & _ & Hpos & Hn & Hf & _).
  destruct Hpos as (_ & _ & _ & Hbs & _ & Hsq).
  destruct Hf as (Hb & _).
  destruct (ceil_div_Ok (_n_sample g) batch_size Hbs) as (k & Hk).
  pose proof (ceil_div_spec _ _ _ Hbs Hk) as Hc.
  assert (Hspec : _n_sample g = n_sample_spec total its ots sequence interval).
  { rewrite Hn. unfold n_sample_spec, sequence_or_1.
    destruct sequence as [sq |]; [| lia].
    specialize (Hsq sq eq_refl). destruct (sq =? 0) eqn:E; lia. }
  assert (Hlen : __len__ g = Ok k) by (unfold __len__; now rewrite Hb).
  exists total, k. do 4 (split; [assumption |]). split.
  - intros Hn0. unfold len_. rewrite Hlen. simpl.
    unfold is_ceil in Hc. destruct (k <? 0) eqn:E; [nia | reflexivity].
  - intros -> -> -> -> -> ->. rewrite Hn in Hc |- *.
    unfold is_ceil in Hc. lia.
Qed.

End Construction.

(** ** The epoch controller *)

Section Epoch.
Context {val : Type} `{Backend val}.
Variable shuffle : list Z -> list Z.
Hypothesis shuffle_permutes : forall l : list Z, Permutation l (shuffle l).
Import SeriesDataGenerator.

Lemma ordering_permutes (n : Z) (b : bool) :
  Permutation (if b then shuffle (np.arange n) else np.arange n) (Py.range n).
Proof.
  destruct b; [| reflexivity].
  symmetry. apply shuffle_permutes.
Qed.

Lemma ordering_length (n : Z) (b : bool) :
  Py.len (if b then shuffle (np.arange n) else np.arange n) = Z.max 0 n.
Proof.
  unfold Py.len. rewrite (Permutation_length (ordering_permutes n b)).
  apply len_range.
Qed.

Lemma getitem_in_range (g : t val) (k i : Z) :
  __len__ g = Ok k -> 0 <= i < k ->
  __getitem__ g i
  = generate g (Py.slice (Some (i * _batch_size g)) (Some ((i + 1) * _batch_size g))
                         (_indices g)) true.
Proof.
  intros Hk Hi. unfold __getitem__, len_. rewrite Hk. simpl.
  destruct (i <? 0) eqn:E; [lia |]. simpl.
  destruct (k <? 0) eqn:E0; [lia |]. simpl.
  destruct (i >? k) eqn:E1; [lia | reflexivity].
Qed.

Lemma DataGenerator_getitem_in_range (g : DataGenerator.t val) (k i : Z) :
  DataGenerator.__len__ g = Ok k -> 0 <= i < k ->
  DataGenerator.__getitem__ g i
  = DataGenerator.generate g
      (Py.slice (Some (i * DataGenerator._batch_size g))
                (Some ((i + 1) * DataGenerator._batch_size g))
                (DataGenerator._indices g)) true.
Proof.
  intros Hk Hi. unfold DataGenerator.__getitem__, DataGenerator.len_. rewrite Hk. simpl.
  destruct (i <? 0) eqn:E; [lia |]. simpl.
  destruct (k <? 0) eqn:E0; [lia |]. simpl.
  destruct (i >? k) eqn:E1; [lia | reflexivity].
Qed.

Lemma DataGenerator_on_epoch_end_frame (g : DataGenerator.t val) :
  DataGenerator._batch_size (DataGenerator.on_epoch_end shuffle g)
  = DataGenerator._batch_size g
  /\ DataGenerator._n_sample (DataGenerator.on_epoch_end shuffle g)
     = DataGenerator._n_sample g
  /\ DataGenerator._indices (DataGenerator.on_epoch_end shuffle g)
     = if DataGenerator._shuffle g
       then shuffle (np.arange (DataGenerator._n_sample g))
       else np.arange (DataGenerator._n_sample g).
Proof.
  unfold DataGenerator.on_epoch_end.
  destruct g as [? ? ? sh ? ? ? ? ? ? ?]; simpl.
  destruct sh; repeat split; reflexivity.
Qed.

(** C5. In every epoch, that is after [on_epoch_end] (which the
    constructor calls too), with a positive batch size and [k] batches:
    batch [i] is generated from the slice [[i * batch_size, (i + 1) * batch_size)]
    of the current ordering, and these slices for [i = 0 .. k - 1], put
    end to end, are a permutation of [0 .. n_sample - 1]: every index is
    selected exactly once, whether the ordering was shuffled or not. *)
Theorem epoch_visits_each_index_once :
  (forall (g : t val) (k : Z),
      0 < _batch_size g ->
      let g' := on_epoch_end shuffle g in
      __len__ g' = Ok k ->
      (forall i, 0 <= i < k ->
                 __getitem__ g' i = generate g' (nth (Z.to_nat i)
                                                     (epoch_batches (_indices g') (_batch_size g') k)
                                                     []) true)
      /\ Permutation (concat (epoch_batches (_indices g') (_batch_size g') k))
                     (Py.range (_n_sample g')))
  /\ (forall (g : DataGenerator.t val) (k : Z),
         0 < DataGenerator._batch_size g ->
         let g' := DataGenerator.on_epoch_end shuffle g in
         DataGenerator.__len__ g' = Ok k ->
         (forall i, 0 <= i < k ->
                    DataGenerator.__getitem__ g' i
                    = DataGenerator.generate g'
                        (nth (Z.to_nat i)
                             (epoch_batches (DataGenerator._indices g')
                                            (DataGenerator._batch_size g') k)
                             []) true)
         /\ Permutation (concat (epoch_batches (DataGenerator._indices g')
                                               (DataGenerator._batch_size g') k))
                        (Py.range (DataGenerator._n_sample g'))).
Proof.
  split.
  - intros g k Hbs g' Hk.
    assert (Hb : _batch_size g' = _batch_size g).
    { subst g'. unfold on_epoch_end. destruct g; simpl. now destruct _shuffle0. }
    assert (Hn : _n_sample g' = _n_sample g).
    { subst g'. unfold on_epoch_end. destruct g; simpl. now destruct _shuffle0. }
    assert (Hidx : _indices g'
                   = if _shuffle g then shuffle (np.arange (_n_sample g))
                     else np.arange (_n_sample g))
      by apply on_epoch_end_frame.
    split.
    + intros i Hi. rewrite (getitem_in_range g' k i Hk Hi).
      f_equal. symmetry. apply nth_epoch_batches. exact Hi.
    + unfold epoch_batches. rewrite batches_cover with (n := _n_sample g').
      * rewrite Hidx, Hn. apply ordering_permutes.
      * lia.
      * rewrite Hidx, Hn. apply ordering_length.
      * apply ceil_div_spec; [lia |]. exact Hk.
  - intros g k Hbs g' Hk.
    destruct (DataGenerator_on_epoch_end_frame g) as (Hb & Hn & Hidx).
    fold g' in Hb, Hn, Hidx.
    split.
    + intros i Hi. rewrite (DataGenerator_getitem_in_range g' k i Hk Hi).
      f_equal. symmetry. apply nth_epoch_batches. exact Hi.
    + unfold epoch_batches. rewrite batches_cover with (n := DataGenerator._n_sample g').
      * rewrite Hidx, Hn. apply ordering_permutes.
      * lia.
      * rewrite Hidx, Hn. apply ordering_length.
      * apply ceil_div_spec; [lia |]. exact Hk.
Qed.

End Epoch.

(** ** Shapes through the NumPy operations *)

Section ArrayShapes.
Context {val : Type}.

Lemma mapM_length {A B : Type} (f : A -> result B) (l : list A) (bs : list B) :
  mapM f l = Ok bs -> length bs = length l.
Proof.
  revert bs. induction l as [| a l IH]; simpl; intros bs Hm.
  - now injection Hm as <-.
  - inv_result Hm. subst bs. simpl. f_equal. now apply IH.
Qed.

Lemma mapM_Forall2 {A B : Type} (f : A -> result B) (l : list A) (bs : list B) :
  mapM f l = Ok bs -> Forall2 (fun a b => f a = Ok b) l bs.
Proof.
  revert bs. induction l as [| a l IH]; simpl; intros bs Hm.
  - injection Hm as <-. constructor.
  - inv_result Hm. subst bs. constructor; [assumption | now apply IH].
Qed.

Lemma foldM_invariant {A S : Type} (f : S -> A -> result S) (P : S -> Prop) :
  (forall s a s', P s -> f s a = Ok s' -> P s') ->
  forall l s s', foldM f l s = Ok s' -> P s -> P s'.
Proof.
  intros Hf l. induction l as [| a l IH]; simpl; intros s s' Hm Hs.
  - now injection Hm as <-.
  - inv_result Hm. eapply IH; [eassumption |]. eapply Hf; eassumption.
Qed.

Lemma reshape_data (a a' : np.ndarray val) (sh : list Z) :
  np.reshape a sh = Ok a' -> np.data a' = np.data a.
Proof.
  unfold np.reshape. intros Hr. inv_result Hr; subst a'; reflexivity.
Qed.

(** Reshaping to [n :: sh] with [n >= 0] gives [n] as first dimension and
    as many dimensions as asked. *)
Lemma reshape_first (a a' : np.ndarray val) (n : Z) (sh : list Z) :
  0 <= n ->
  np.reshape a (n :: sh) = Ok a' ->
  exists sh', np.shape a' = n :: sh' /\ length sh' = length sh.
Proof.
  intros Hn. unfold np.reshape. intros Hr.
  inv_result Hr; subst a'; simpl.
  - exists sh. split; reflexivity.
  - destruct (n =? -1) eqn:En; [lia |].
    eexists. split; [reflexivity |]. now rewrite length_map.
Qed.

Lemma take_newaxis_shape (a b : np.ndarray val) (idx : list Z) (k : nat) :
  np.take_newaxis a idx k = Ok b ->
  np.shape b = Py.len idx :: repeat 1 k ++ tl (np.shape a).
Proof.
  unfold np.take_newaxis. intros Ht. inv_result Ht. now subst b.
Qed.

Lemma concatenate_first (arrs : list (np.ndarray val)) (axis : nat) (b : np.ndarray val) :
  np.concatenate arrs (S axis) = Ok b ->
  exists a0 rest, arrs = a0 :: rest /\ hd 0 (np.shape b) = hd 0 (np.shape a0)
                  /\ length (np.shape b) = length (np.shape a0).
Proof.
  unfold np.concatenate. intros Hc.
  destruct arrs as [| a0 rest]; [discriminate |].
  inv_result Hc. subst b. exists a0, rest. split; [reflexivity |].
  apply andb_prop in E. destruct E as (Hax & _).
  apply Nat.ltb_lt in Hax. cbn [np.shape]. split.
  - destruct (np.shape a0) as [| d0 sh]; [simpl in Hax; lia | reflexivity].
  - destruct (np.shape a0) as [| d0 [| d1 sh]]; simpl in Hax; try lia.
    rewrite length_app. cbn [length]. rewrite length_firstn, length_skipn. cbn [length]. lia.
Qed.

Lemma range_cons (n : Z) : 0 < n -> exists l, Py.range n = 0 :: l.
Proof.
  intros Hn. unfold Py.range.
  destruct (Z.to_nat n) as [| k] eqn:E; [lia |].
  simpl. eexists. reflexivity.
Qed.

(** A window has as many rows as its first index array, and one axis more
    per [np.newaxis] than the array it is taken from. *)
Lemma window_first `{Backend val} (a w : np.ndarray val) (idx : Z -> list Z)
    (k : nat) (steps : Z) :
  SeriesDataGenerator.window a idx k steps = Ok w ->
  0 < steps
  /\ hd 0 (np.shape w) = Py.len (idx 0)
  /\ length (np.shape w) = S (k + length (tl (np.shape a)))%nat.
Proof.
  unfold SeriesDataGenerator.window. intros Hw. inv_result Hw.
  destruct (concatenate_first _ _ _ Hw) as (a0 & rest & -> & Hhd & Hlen).
  destruct (Z.le_gt_cases steps 0) as [Hs | Hs].
  - rewrite range_nonpos in E by assumption. discriminate E.
  - split; [lia |].
    destruct (range_cons steps ltac:(lia)) as (l & Hl). rewrite Hl in E.
    simpl in E. inv_result E. subst.
    rewrite Hhd, Hlen, (take_newaxis_shape _ _ _ _ E0). simpl.
    split; [reflexivity |]. now rewrite length_app, repeat_length.
Qed.

End ArrayShapes.

(** ** Rows through the post-processing pipeline *)

Section Pipeline.
Context {val : Type} `{Backend val}.
Import SeriesDataGenerator.

Lemma rows_eq_le (n : Z) (a : np.ndarray val) : 0 <= n -> rows_eq n a -> rows_le n a.
Proof. intros Hn (sh & Hs). exists n, sh. split; [assumption | lia]. Qed.

Lemma rows_eq_hd (n : Z) (a : np.ndarray val) : rows_eq n a -> hd 0 (np.shape a) = n.
Proof. intros (sh & ->). reflexivity. Qed.

Lemma rows_le_hd (n : Z) (a : np.ndarray val) :
  rows_le n a -> 0 <= hd 0 (np.shape a) <= n.
Proof. intros (d & sh & -> & Hd). exact Hd. Qed.

Lemma keep_rows_le (keep : Z -> bool) (i : Z) (rs : list (list val)) :
  (length (util.keep_rows keep i rs) <= length rs)%nat.
Proof.
  revert i. induction rs as [| r rs IH]; intros i; simpl.
  - lia.
  - destruct (keep i); simpl; specialize (IH (i + 1)); lia.
Qed.

Lemma keep_rows_same_length {B : Type} (keep : Z -> bool) (i : Z)
    (rs : list (list val)) (rs' : list (list B)) :
  length rs = length rs' ->
  length (util.keep_rows keep i rs) = length (util.keep_rows keep i rs').
Proof.
  revert i rs'. induction rs as [| r rs IH]; intros i [| r' rs'] Hl;
    simpl in *; try lia.
  destruct (keep i); simpl; rewrite (IH (i + 1) rs') by lia; reflexivity.
Qed.

Lemma rows_length (a : np.ndarray val) (d : Z) (sh : list Z) :
  np.shape a = d :: sh -> length (np.rows a) = Z.to_nat d.
Proof.
  intros Hs. unfold np.rows. rewrite Hs. now rewrite length_map, range_length.
Qed.

(** [delete_nan_samples] keeps the trailing dimensions, drops rows only,
    and drops the same number of rows from two arrays that have the same
    number of rows. *)
Lemma delete_nan_samples_rows (p t p' t' : np.ndarray val) (n : Z) :
  util.delete_nan_samples p t = (p', t') ->
  (rows_le n p -> rows_le n p')
  /\ (rows_le n t -> rows_le n t')
  /\ (forall d, rows_eq d p -> rows_eq d t ->
                exists d', rows_eq d' p' /\ rows_eq d' t')
  /\ (length (np.shape p) = 2%nat -> length (np.shape p') = 2%nat)
  /\ (length (np.shape t) = 2%nat -> length (np.shape t') = 2%nat).
Proof.
  unfold util.delete_nan_samples. intros [= <- <-]. cbn [np.shape].
  repeat split.
  - intros (d & sh & Hs & Hd). rewrite Hs. eexists _, sh. split; [reflexivity |].
    split; [apply len_nonneg |]. unfold Py.len.
    pose proof (keep_rows_le (fun i => negb (util.nan_row p i || util.nan_row t i))
                  0 (np.rows p)) as Hk.
    rewrite (rows_length _ _ _ Hs) in Hk. lia.
  - intros (d & sh & Hs & Hd). rewrite Hs. eexists _, sh. split; [reflexivity |].
    split; [apply len_nonneg |]. unfold Py.len.
    pose proof (keep_rows_le (fun i => negb (util.nan_row p i || util.nan_row t i))
                  0 (np.rows t)) as Hk.
    rewrite (rows_length _ _ _ Hs) in Hk. lia.
  - intros d (sp & Hp) (st & Ht). eexists. split.
    + eexists. reflexivity.
    + exists (tl (np.shape t)). cbn [np.shape]. f_equal. unfold Py.len. f_equal.
      symmetry. apply keep_rows_same_length.
      now rewrite (rows_length _ _ _ Hp), (rows_length _ _ _ Ht).
  - destruct (np.shape p) as [| d sh]; [discriminate | intros Hl; exact Hl].
  - destruct (np.shape t) as [| d sh]; [discriminate | intros Hl; exact Hl].
Qed.


Lemma rows_le_shape (n : Z) (a b : np.ndarray val) :
  np.shape b = np.shape a -> rows_le n a -> rows_le n b.
Proof. intros Hs (d & sh & Ha & Hd). exists d, sh. now rewrite Hs. Qed.

Lemma rows_eq_shape (n : Z) (a b : np.ndarray val) :
  np.shape b = np.shape a -> rows_eq n a -> rows_eq n b.
Proof. intros Hs (sh & Ha). exists sh. now rewrite Hs. Qed.

Lemma reshape_rows_eq (a a' : np.ndarray val) (n : Z) (sh : list Z) :
  0 <= n -> np.reshape a ([n] ++ sh) = Ok a' -> rows_eq n a'.
Proof.
  intros Hn Hr. destruct (reshape_first _ _ _ _ Hn Hr) as (sh' & Hs & _).
  now exists sh'.
Qed.

(** The scaling and imputing step keeps the shapes. *)
Lemma transforms_shape (m : Model val) (impute_missing scale_and_impute : bool)
    (p t p' t' : np.ndarray val) :
  contract m ->
  (if scale_and_impute then
     '(p, t) <- (if impute_missing then imputer_transform m p t else Ok (p, t)) ;;
     scaler_transform m p t
   else Ok (p, t)) = Ok (p', t') ->
  np.shape p' = np.shape p /\ np.shape t' = np.shape t.
Proof.
  intros (Hsc & Him) Ht. destruct scale_and_impute.
  - apply bind_Ok_inv in Ht. destruct Ht as ((p1, t1) & Hi & Ht).
    apply Hsc in Ht. destruct Ht as (-> & ->).
    destruct impute_missing.
    + apply Him in Hi. exact Hi.
    + injection Hi as -> ->. split; reflexivity.
  - injection Ht as -> ->. split; reflexivity.
Qed.

(** The rows of the two arrays after NaN removal, imputing and scaling. *)
Lemma clean_rows (m : Model val) (remove_nan impute_missing scale_and_impute : bool)
    (p t p1 t1 p2 t2 : np.ndarray val) (n : Z) :
  contract m ->
  (if remove_nan then util.delete_nan_samples p t else (p, t)) = (p1, t1) ->
  (if scale_and_impute then
     '(p, t) <- (if impute_missing then imputer_transform m p1 t1 else Ok (p1, t1)) ;;
     scaler_transform m p t
   else Ok (p1, t1)) = Ok (p2, t2) ->
  (rows_le n p -> rows_le n p2)
  /\ (rows_le n t -> rows_le n t2)
  /\ (forall d, rows_eq d p -> rows_eq d t -> exists d', rows_eq d' p2 /\ rows_eq d' t2)
  /\ (two_dim p -> two_dim p2)
  /\ (two_dim t -> two_dim t2)
  /\ (remove_nan = false -> np.shape p2 = np.shape p /\ np.shape t2 = np.shape t).
Proof.
  intros Hc Hd Ht.
  apply transforms_shape in Ht; [| exact Hc]. destruct Ht as (Hp2 & Ht2).
  unfold two_dim. rewrite Hp2, Ht2.
  destruct remove_nan.
  - destruct (delete_nan_samples_rows _ _ _ _ n Hd) as (A & B & C & D & E).
    split; [| split; [| split; [| split; [| split]]]]; try discriminate.
    + intros R. apply (rows_le_shape _ p1); auto.
    + intros R. apply (rows_le_shape _ t1); auto.
    + intros d Rp Rt. destruct (C d Rp Rt) as (d' & Rp1 & Rt1). exists d'.
      split; [now apply (rows_eq_shape _ p1) | now apply (rows_eq_shape _ t1)].
    + exact D.
    + exact E.
  - injection Hd as <- <-.
    split; [| split; [| split; [| split; [| split]]]]; auto.
    + intros R. now apply (rows_le_shape _ p).
    + intros R. now apply (rows_le_shape _ t).
    + intros d Rp Rt. exists d.
      split; [now apply (rows_eq_shape _ p) | now apply (rows_eq_shape _ t)].
Qed.

(** The rows of the two arrays that leave the block [finish], called with
    the number [n] of requested samples. *)
Lemma finish_rows (g : t val) (n : Z) (scale_and_impute : bool)
    (p t p' t' : np.ndarray val) :
  contract (model g) -> 0 <= n ->
  finish g n scale_and_impute p t = Ok (p', t') ->
  (rows_le n p -> rows_le n t -> rows_le n p' /\ rows_le n t')
  /\ (_remove_nan g = false -> rows_eq n p -> rows_eq n t ->
      rows_eq n p' /\ rows_eq n t')
  /\ (forall d, rows_eq d p -> rows_eq d t -> exists d', rows_eq d' p' /\ rows_eq d' t')
  /\ (_is_convolutional g = false -> _keep_time_axis g = false ->
      two_dim p -> two_dim t -> two_dim p' /\ two_dim t').
Proof.
  intros Hc Hn. unfold finish. intros Hf.
  destruct (if _remove_nan g then util.delete_nan_samples p t else (p, t))
    as (p1, t1) eqn:Hd.
  apply bind_Ok_inv in Hf. destruct Hf as ((p2, t2) & Ht & Hf).
  destruct (clean_rows _ _ _ _ _ _ _ _ _ _ n Hc Hd Ht) as (A & B & C & D & E & F).
  destruct (_is_convolutional g) eqn:Econv; [| destruct (_keep_time_axis g) eqn:Ekeep].
  - inv_result Hf. subst.
    pose proof (reshape_rows_eq _ _ _ _ Hn E0) as Rp.
    pose proof (reshape_rows_eq _ _ _ _ Hn E1) as Rt.
    split; [| split; [| split]].
    + intros _ _. split; now apply rows_eq_le.
    + intros _ _ _. now split.
    + intros d _ _. exists n. now split.
    + discriminate.
  - inv_result Hf. subst.
    pose proof (reshape_rows_eq _ _ _ _ Hn E1) as Rp.
    pose proof (reshape_rows_eq _ _ _ _ Hn E3) as Rt.
    split; [| split; [| split]].
    + intros _ _. split; now apply rows_eq_le.
    + intros _ _ _. now split.
    + intros d _ _. exists n. now split.
    + discriminate.
  - injection Hf as <- <-. split; [| split; [| split]].
    + intros Rp Rt. split; auto.
    + intros Hr Rp Rt. destruct (F Hr) as (Sp & St).
      split; [now apply (rows_eq_shape _ p) | now apply (rows_eq_shape _ t)].
    + exact C.
    + intros _ _ Lp Lt. split; auto.
Qed.

End Pipeline.

(** ** The structure of [generate] *)

Section Generate.
Context {val : Type} `{Backend val}.
Import SeriesDataGenerator.

Lemma insolation_block_state (g : t val) :
  set_keep_time_axis (_keep_time_axis (set_add_insolation 0 g))
    (set_add_insolation 1 (set_keep_time_axis true (set_add_insolation 0 g)))
  = set_add_insolation 1 g.
Proof. destruct g; reflexivity. Qed.

Lemma window_rows_eq (a w : np.ndarray val) (idx : Z -> list Z) (k : nat) (steps n : Z) :
  window a idx k steps = Ok w -> Py.len (idx 0) = n -> rows_eq n w.
Proof.
  intros Hw Hn. destruct (window_first _ _ _ _ _ Hw) as (_ & Hhd & Hlen).
  unfold rows_eq. destruct (np.shape w) as [| d sh]; [discriminate Hlen |].
  simpl in Hhd. exists sh. congruence.
Qed.

(** [a.reshape((n, -1))] returns only for [n > 0], with [n] rows and two
    dimensions. *)
Lemma reshape_flat (a a' : np.ndarray val) (n : Z) :
  np.reshape a [n; -1] = Ok a' ->
  0 < n /\ rows_eq n a' /\ length (np.shape a') = 2%nat.
Proof.
  intros Hr. unfold np.reshape in Hr. cbn [count_occ] in Hr.
  destruct (Z.eq_dec n (-1)) as [-> | Hn1].
  - simpl in Hr. discriminate Hr.
  - destruct (Z.eq_dec (-1) (-1)) as [_ | Hc]; [| contradiction].
    cbn [remove forallb map] in Hr.
    destruct (Z.eq_dec (-1) n) as [Hc | _]; [congruence |].
    destruct (Z.eq_dec (-1) (-1)) as [_ | Hc]; [| contradiction].
    cbn [np.size_of fold_right] in Hr.
    destruct (-1 <=? n) eqn:E1; [| discriminate Hr].
    destruct (n * 1 =? 0) eqn:E2; [simpl in Hr; discriminate Hr |].
    inv_result Hr. subst a'. cbn [np.shape].
    destruct (n =? -1) eqn:E3; [lia |].
    split; [lia |]. split; [| reflexivity]. eexists. reflexivity.
Qed.

(** What a successful call of [generate] went through. *)
Lemma generate_inv (g g' : t val) (samples : list Z) (scale_and_impute : bool)
    (P T : output val) :
  generate g samples scale_and_impute = Ok (P, T, g') ->
  let samples' := requested g samples in
  let n := Py.len samples' in
  exists g1 p insol,
    (if negb (_is_loaded g) then _load_data g else Ok g) = Ok g1
    /\ g' = after_insolation g1
    /\ 0 < n
    /\ rows_eq n p /\ length (np.shape p) = 2%nat
    /\ Forall (rows_eq n) insol
    /\ match _sequence g' with
       | Some sq =>
           exists p' targets,
             foldM (sequence_step g' samples' n scale_and_impute) (Py.range sq) (p, [])
             = Ok (p', targets)
             /\ P = (if negb (_add_insolation g' =? 0)
                     then Arrs ([p'] ++ Py.slice (Some 1) None insol)
                     else Arr p')
             /\ T = Arrs targets
       | None =>
           exists traw t0 p' t',
             window (output_da g')
                    (fun j => map (fun x => x + _input_time_steps g' + j + _interval g' - 1)
                                  samples')
                    1 (_output_time_steps g') = Ok traw
             /\ np.reshape traw [n; -1] = Ok t0
             /\ finish g' n scale_and_impute p t0 = Ok (p', t')
             /\ P = Arr p' /\ T = Arr t'
       end.
Proof.
  intros Hg samples' n. unfold generate in Hg.
  fold (requested g samples) in Hg. fold samples' in Hg. fold n in Hg.
  apply bind_Ok_inv in Hg. destruct Hg as (g1 & Hload & Hg).
  apply bind_Ok_inv in Hg. destruct Hg as (p0 & Hp0 & Hg).
  apply bind_Ok_inv in Hg. destruct Hg as (((p1, insol), g2) & Hins & Hg).
  apply bind_Ok_inv in Hg. destruct Hg as (p2 & Hp2 & Hg).
  destruct (reshape_flat _ _ _ Hp2) as (Hn & Rp2 & Lp2).
  assert (Hstate : g2 = after_insolation g1 /\ Forall (rows_eq n) insol).
  { unfold after_insolation.
    destruct (negb (_add_insolation g1 =? 0)) eqn:Ei.
    - rewrite insolation_block_state in Hins.
      apply bind_Ok_inv in Hins. destruct Hins as (sol & _ & Hins).
      apply bind_Ok_inv in Hins. destruct Hins as (ins & Hi & Hins).
      inv_result Hins. subst. split; [reflexivity |].
      cbn [_sequence _input_time_steps set_add_insolation] in Hi.
      destruct (_sequence g1) as [sq |].
      + apply mapM_Forall2 in Hi.
        clear - H Hi. induction Hi as [| s w ss ws Hw _ IH]; constructor; [| exact IH].
        apply (window_rows_eq _ _ _ _ _ _ Hw). unfold Py.len. now rewrite length_map.
      + inv_result Hi. subst. constructor; [| constructor].
        match goal with
        | Hw : window _ _ 2 _ = Ok _ |- _ => apply (window_rows_eq _ _ _ _ _ _ Hw)
        end.
        unfold Py.len. now rewrite length_map.
    - injection Hins as <- <- <-. split; [reflexivity | constructor]. }
  destruct Hstate as (-> & Hinsol).
  assert (Hg' : g' = after_insolation g1).
  { destruct (_sequence (after_insolation g1)) as [sq |].
    - apply bind_Ok_inv in Hg. destruct Hg as ((p', targets) & _ & Hg).
      destruct (negb (_add_insolation (after_insolation g1) =? 0));
        now injection Hg as _ _ <-.
    - inv_result Hg. now subst. }
  subst g'.
  exists g1, p2, insol. do 6 (split; [assumption || reflexivity |]).
  destruct (_sequence (after_insolation g1)) as [sq |].
  - apply bind_Ok_inv in Hg. destruct Hg as ((p', targets) & Hfold & Hg).
    exists p', targets. split; [exact Hfold |].
    destruct (negb (_add_insolation (after_insolation g1) =? 0));
      injection Hg as <- <-; split; reflexivity.
  - inv_result Hg. subst. eexists _, _, _, _. repeat split; eassumption.
Qed.


(** [generate] changes what is loaded, and nothing of the configuration. *)
Lemma generate_state (g g1 : t val) :
  (if negb (_is_loaded g) then _load_data g else Ok g) = Ok g1 ->
  model (after_insolation g1) = model g
  /\ _remove_nan (after_insolation g1) = _remove_nan g
  /\ _sequence (after_insolation g1) = _sequence g
  /\ _is_convolutional (after_insolation g1) = _is_convolutional g
  /\ _keep_time_axis (after_insolation g1) = _keep_time_axis g
  /\ _input_time_steps (after_insolation g1) = _input_time_steps g
  /\ _output_time_steps (after_insolation g1) = _output_time_steps g
  /\ _interval (after_insolation g1) = _interval g
  /\ _is_loaded (after_insolation g1) = true
  /\ in_memory (after_insolation g1) = in_memory g1.
Proof.
  intros Hl.
  assert (Hfr : unloaded_part g1 = unloaded_part g /\ _is_loaded g1 = true).
  { destruct (_is_loaded g) eqn:E; simpl in Hl.
    - injection Hl as <-. now split.
    - now apply _load_data_frame. }
  destruct Hfr as (Hfr & Hld).
  unfold unloaded_part in Hfr.
  injection Hfr as Hmodel _ _ _ Hrn Hconv Hkeep _ _ Hsq _ _ _ _ Hits Hots Hint _ _ _ _.
  unfold after_insolation.
  destruct (negb (_add_insolation g1 =? 0)); cbn; repeat split; assumption.
Qed.


(** The rows of what the sequence loop accumulates. *)
Lemma sequence_rows (g : t val) (samples : list Z) (scale_and_impute : bool)
    (l : list Z) (p p' : np.ndarray val) (targets targets' : list (np.ndarray val)) :
  contract (model g) ->
  let n := Py.len samples in
  foldM (sequence_step g samples n scale_and_impute) l (p, targets) = Ok (p', targets') ->
  (rows_le n p -> Forall (rows_le n) targets ->
   rows_le n p' /\ Forall (rows_le n) targets')
  /\ (_remove_nan g = false -> rows_eq n p -> Forall (rows_eq n) targets ->
      rows_eq n p' /\ Forall (rows_eq n) targets')
  /\ (_is_convolutional g = false -> _keep_time_axis g = false ->
      two_dim p -> Forall two_dim targets ->
      two_dim p' /\ Forall two_dim targets').
Proof.
  intros Hc n Hf.
  assert (Hstep : forall (s : np.ndarray val * list (np.ndarray val)) (a : Z) s',
             sequence_step g samples n scale_and_impute s a = Ok s' ->
             exists t0 t', snd s' = snd s ++ [t']
                           /\ rows_eq n t0 /\ two_dim t0
                           /\ finish g n scale_and_impute (fst s) t0 = Ok (fst s', t')).
  { intros (q, ts) a s' Hs. unfold sequence_step in Hs.
    apply bind_Ok_inv in Hs. destruct Hs as (traw & _ & Hs).
    apply bind_Ok_inv in Hs. destruct Hs as (t0 & Hr & Hs).
    apply bind_Ok_inv in Hs. destruct Hs as ((q', t') & Hfin & Hs).
    injection Hs as <-. destruct (reshape_flat _ _ _ Hr) as (_ & Rt & Lt).
    exists t0, t'. repeat split; assumption. }
  assert (Hn : 0 <= n) by apply len_nonneg.
  split; [| split].
  - intros Rp Rts.
    refine (foldM_invariant _
              (fun s => rows_le n (fst s) /\ Forall (rows_le n) (snd s))
              _ l (p, targets) (p', targets') Hf (conj Rp Rts)).
    intros s a s' (R1 & R2) Hs.
    destruct (Hstep s a s' Hs) as (t0 & t' & Hsnd & Rt & Lt & Hfin).
    destruct (finish_rows _ _ _ _ _ _ _ Hc Hn Hfin) as (A & _).
    destruct (A R1 (rows_eq_le _ _ Hn Rt)) as (Rp' & Rt').
    split; [exact Rp' |]. rewrite Hsnd. apply Forall_app.
    split; [exact R2 | constructor; [exact Rt' | constructor]].
  - intros Hr Rp Rts.
    refine (foldM_invariant _
              (fun s => rows_eq n (fst s) /\ Forall (rows_eq n) (snd s))
              _ l (p, targets) (p', targets') Hf (conj Rp Rts)).
    intros s a s' (R1 & R2) Hs.
    destruct (Hstep s a s' Hs) as (t0 & t' & Hsnd & Rt & Lt & Hfin).
    destruct (finish_rows _ _ _ _ _ _ _ Hc Hn Hfin) as (_ & B & _).
    destruct (B Hr R1 Rt) as (Rp' & Rt').
    split; [exact Rp' |]. rewrite Hsnd. apply Forall_app.
    split; [exact R2 | constructor; [exact Rt' | constructor]].
  - intros Hconv Hkeep Lp Lts.
    refine (foldM_invariant _
              (fun s => two_dim (fst s) /\ Forall two_dim (snd s))
              _ l (p, targets) (p', targets') Hf (conj Lp Lts)).
    intros s a s' (R1 & R2) Hs.
    destruct (Hstep s a s' Hs) as (t0 & t' & Hsnd & Rt & Lt & Hfin).
    destruct (finish_rows _ _ _ _ _ _ _ Hc Hn Hfin) as (_ & _ & _ & D).
    destruct (D Hconv Hkeep R1 Lt) as (Lp' & Lt').
    split; [exact Lp' |]. rewrite Hsnd. apply Forall_app.
    split; [exact R2 | constructor; [exact Lt' | constructor]].
Qed.

Lemma Forall_firstn_skipn {A : Type} (P : A -> Prop) (k : nat) (l : list A) :
  Forall P l -> Forall P (firstn k l) /\ Forall P (skipn k l).
Proof.
  intros Hl. rewrite <- (firstn_skipn k l) in Hl. now apply Forall_app in Hl.
Qed.

Lemma Forall_slice {A : Type} (P : A -> Prop) (lo hi : option Z) (l : list A) :
  Forall P l -> Forall P (Py.slice lo hi l).
Proof.
  intros Hl. unfold Py.slice.
  now apply Forall_firstn_skipn, Forall_firstn_skipn.
Qed.

Lemma Forall_first_dims (Q : Z -> Prop) (R : np.ndarray val -> Prop) (o : output val) :
  (forall a, R a -> Q (hd 0 (np.shape a))) ->
  match o with
  | Arr a => R a
  | Arrs l => Forall R l
  end ->
  Forall Q (first_dims o).
Proof.
  intros HRQ Ho. unfold first_dims, shapes_of. destruct o as [a | l].
  - constructor; [now apply HRQ | constructor].
  - rewrite map_map. apply Forall_map.
    eapply Forall_impl; [| exact Ho]. exact HRQ.
Qed.

(** The rows of what [generate] returns, [n] being the number of
    requested samples. *)
Lemma generate_rows (g g' : t val) (samples : list Z) (scale_and_impute : bool)
    (P T : output val) :
  contract (model g) ->
  generate g samples scale_and_impute = Ok (P, T, g') ->
  let n := Py.len (requested g samples) in
  0 < n
  /\ (_remove_nan g = false -> Forall (eq n) (first_dims P ++ first_dims T))
  /\ Forall (fun d => 0 <= d <= n) (first_dims P ++ first_dims T)
  /\ (_sequence g = None -> exists d, first_dims P = [d] /\ first_dims T = [d]).
Proof.
  intros Hc Hg n. apply generate_inv in Hg. fold n in Hg.
  destruct Hg as (g1 & p & insol & Hload & -> & Hn & Rp & Lp & Rins & Hg).
  destruct (generate_state _ _ Hload) as (Hm & Hrn & Hsq & _).
  rewrite <- Hm in Hc. rewrite <- Hrn, <- Hsq. clear Hm Hrn Hsq Hload.
  set (g2 := after_insolation g1) in *.
  assert (Hn0 : 0 <= n) by lia.
  split; [exact Hn |].
  destruct (_sequence g2) as [sq |].
  - destruct Hg as (p' & targets & Hfold & -> & ->).
    destruct (sequence_rows _ _ _ _ _ _ _ _ Hc Hfold) as (A & B & _).
    fold n in A, B.
    destruct (A (rows_eq_le _ _ Hn0 Rp) (Forall_nil _)) as (Rp' & Rts).
    assert (Rins' : Forall (rows_le n) insol).
    { eapply Forall_impl; [| exact Rins]. intros a. now apply rows_eq_le. }
    split; [| split; [| discriminate]].
    + intros Hr. destruct (B Hr Rp (Forall_nil _)) as (Ep' & Ets).
      apply Forall_app. split.
      * apply (Forall_first_dims _ (rows_eq n));
          [intros a Ha; symmetry; now apply rows_eq_hd |].
        destruct (negb (_add_insolation g2 =? 0)); [| exact Ep'].
        constructor; [exact Ep' | now apply Forall_slice].
      * apply (Forall_first_dims _ (rows_eq n));
          [intros a Ha; symmetry; now apply rows_eq_hd | exact Ets].
    + apply Forall_app. split.
      * apply (Forall_first_dims _ (rows_le n)); [intros a; apply rows_le_hd |].
        destruct (negb (_add_insolation g2 =? 0)); [| exact Rp'].
        constructor; [exact Rp' | now apply Forall_slice].
      * apply (Forall_first_dims _ (rows_le n)); [intros a; apply rows_le_hd | exact Rts].
  - destruct Hg as (traw & t0 & p' & t' & _ & Hr & Hfin & -> & ->).
    destruct (reshape_flat _ _ _ Hr) as (_ & Rt & _).
    destruct (finish_rows _ _ _ _ _ _ _ Hc Hn0 Hfin) as (A & B & C & _).
    destruct (A (rows_eq_le _ _ Hn0 Rp) (rows_eq_le _ _ Hn0 Rt)) as (Rp' & Rt').
    split; [| split].
    + intros Hrn. destruct (B Hrn Rp Rt) as (Ep' & Et').
      cbn. rewrite (rows_eq_hd _ _ Ep'), (rows_eq_hd _ _ Et').
      repeat constructor.
    + cbn. repeat constructor;
        first [apply (rows_le_hd _ _ Rp') | apply (rows_le_hd _ _ Rt')].
    + intros _. destruct (C n Rp Rt) as (d & Dp & Dt).
      exists d. cbn. now rewrite (rows_eq_hd _ _ Dp), (rows_eq_hd _ _ Dt).
Qed.

End Generate.

Section Batches.
Context {val : Type} `{Backend val}.
Import SeriesDataGenerator.

Lemma requested_nonempty (g : t val) (samples : list Z) :
  0 < Py.len samples -> requested g samples = samples.
Proof.
  intros Hs. unfold requested. destruct (Py.len samples =? 0) eqn:E; [lia | reflexivity].
Qed.

(** The number of indices in batch [i] of [k]. *)
Lemma batch_length (indices : list Z) (n bs k i : Z) :
  Permutation indices (np.arange n) -> 0 < bs -> is_ceil k n bs -> 0 <= i < k ->
  Py.len (Py.slice (Some (i * bs)) (Some ((i + 1) * bs)) indices) = Z.min bs (n - i * bs)
  /\ 0 < Z.min bs (n - i * bs) <= bs
  /\ (i < k - 1 -> Z.min bs (n - i * bs) = bs).
Proof.
  intros Hp Hbs Hc Hi. unfold is_ceil in Hc.
  assert (Hl : Py.len indices = Z.max 0 n).
  { unfold Py.len. rewrite (Permutation_length Hp). apply len_range. }
  rewrite slice_length by nia. rewrite Hl. nia.
Qed.

(** C6, as amended. For every batch at an index [0 <= i < len], under the
    model's contract and with the ordering of the epoch: every array
    returned, predictor or target, has at most [count] rows, where
    [count = min(batch_size, n_sample - i * batch_size)] is positive, at
    most [batch_size], and equal to [batch_size] for every batch but the
    last; outside sequence mode the predictor array and the target array
    have the same number of rows; and when NaN removal is disabled every
    array returned, in sequence mode too, has exactly [count] rows. (With
    NaN removal enabled a batch that is not the last can have fewer rows
    than [batch_size].) *)
Theorem batch_first_dimensions (g g' : t val) (i k : Z) (P T : output val) :
  contract (model g) ->
  Permutation (_indices g) (np.arange (_n_sample g)) ->
  0 < _batch_size g ->
  __len__ g = Ok k ->
  0 <= i < k ->
  __getitem__ g i = Ok (P, T, g') ->
  let count := Z.min (_batch_size g) (_n_sample g - i * _batch_size g) in
  0 < count <= _batch_size g
  /\ (i < k - 1 -> count = _batch_size g)
  /\ Forall (fun d => 0 <= d <= count) (first_dims P ++ first_dims T)
  /\ (_sequence g = None -> exists d, first_dims P = [d] /\ first_dims T = [d])
  /\ (_remove_nan g = false -> Forall (eq count) (first_dims P ++ first_dims T)).
Proof.
  intros Hc Hp Hbs Hk Hi Hg count.
  rewrite (getitem_in_range g k i Hk Hi) in Hg.
  pose proof (ceil_div_spec _ _ _ Hbs Hk) as Hceil.
  destruct (batch_length _ _ _ _ _ Hp Hbs Hceil Hi) as (Hlen & Hcount & Hfull).
  fold count in Hlen, Hcount, Hfull.
  destruct (generate_rows _ _ _ _ _ _ Hc Hg) as (_ & A & B & C).
  rewrite requested_nonempty, Hlen in A, B by lia.
  repeat split; try assumption; lia.
Qed.

End Batches.

Section Unscaled.
Context {val : Type} `{Backend val}.
Import SeriesDataGenerator.







End Unscaled.

Section Flat.
Context {val : Type} `{Backend val}.
Import SeriesDataGenerator.




(** The rows and dimensions of what [DataGenerator.generate] returns; [n]
    is the number of requested samples, or of all samples for an empty
    selector. *)
Lemma DataGenerator_generate_rows (g : DataGenerator.t val) (samples : list Z)
    (scale_and_impute : bool) (p t : np.ndarray val) :
  contract (DataGenerator.model g) ->
  DataGenerator.generate g samples scale_and_impute = Ok (p, t) ->
  exists n,
    0 < n
    /\ (if Py.len samples >? 0 then n = Py.len samples
        else rows_eq n (xr.predictors (DataGenerator.ds g)))
    /\ rows_le n p /\ rows_le n t
    /\ hd 0 (np.shape p) = hd 0 (np.shape t)
    /\ (DataGenerator._remove_nan g = false -> rows_eq n p /\ rows_eq n t)
    /\ (DataGenerator._is_convolutional g = false ->
        DataGenerator._keep_time_axis g = false -> two_dim p /\ two_dim t).
Proof.
  intros Hc Hg. unfold DataGenerator.generate in Hg.
  apply bind_Ok_inv in Hg. destruct Hg as ((dp, dt) & Hsel & Hg).
  apply bind_Ok_inv in Hg. destruct Hg as (n & Hitem & Hg).
  apply bind_Ok_inv in Hg. destruct Hg as (p0 & Hp0 & Hg).
  apply bind_Ok_inv in Hg. destruct Hg as (t0 & Ht0 & Hg).
  destruct (reshape_flat _ _ _ Hp0) as (Hn & Rp0 & Lp0).
  destruct (reshape_flat _ _ _ Ht0) as (_ & Rt0 & Lt0).
  assert (Hn0 : 0 <= n) by lia.
  destruct (if DataGenerator._remove_nan g then util.delete_nan_samples p0 t0
            else (p0, t0)) as (p1, t1) eqn:Hd.
  apply bind_Ok_inv in Hg. destruct Hg as ((p2, t2) & Ht & Hg).
  destruct (clean_rows _ _ _ _ _ _ _ _ _ _ n Hc Hd Ht) as (A & B & C & D & E & F).
  exists n. split; [exact Hn |]. split.
  { unfold np.item in Hitem.
    destruct (Py.len samples >? 0).
    - inv_result Hsel. subst.
      match goal with
      | Hk : np.take_newaxis _ samples 0 = Ok dp |- _ =>
          rewrite (take_newaxis_shape _ _ _ _ Hk) in Hitem
      end.
      simpl in Hitem. now injection Hitem as <-.
    - injection Hsel as <- <-.
      destruct (np.shape (xr.predictors (DataGenerator.ds g))) as [| d sh] eqn:Es;
        simpl in Hitem; [discriminate |].
      injection Hitem as ->. now exists sh. }
  destruct (C n Rp0 Rt0) as (d' & Dp & Dt).
  destruct (DataGenerator._is_convolutional g) eqn:Econv;
    [| destruct (DataGenerator._keep_time_axis g) eqn:Ekeep].
  - inv_result Hg. subst.
    match goal with
    | Hp : np.reshape p2 _ = Ok p, Ht' : np.reshape t2 _ = Ok t |- _ =>
        pose proof (reshape_rows_eq _ _ _ _ Hn0 Hp) as Rp;
        pose proof (reshape_rows_eq _ _ _ _ Hn0 Ht') as Rt
    end.
    repeat split; try discriminate; try (now apply rows_eq_le); try assumption.
    now rewrite (rows_eq_hd _ _ Rp), (rows_eq_hd _ _ Rt).
  - inv_result Hg. subst.
    match goal with
    | Hp : np.reshape p2 _ = Ok p, Ht' : np.reshape t2 _ = Ok t |- _ =>
        pose proof (reshape_rows_eq _ _ _ _ Hn0 Hp) as Rp;
        pose proof (reshape_rows_eq _ _ _ _ Hn0 Ht') as Rt
    end.
    repeat split; try discriminate; try (now apply rows_eq_le); try assumption.
    now rewrite (rows_eq_hd _ _ Rp), (rows_eq_hd _ _ Rt).
  - injection Hg as <- <-.
    split; [apply A; now apply rows_eq_le |].
    split; [apply B; now apply rows_eq_le |].
    split; [now rewrite (rows_eq_hd _ _ Dp), (rows_eq_hd _ _ Dt) |].
    split.
    + intros Hr. destruct (F Hr) as (Sp & St).
      split; [now apply (rows_eq_shape _ p0) | now apply (rows_eq_shape _ t0)].
    + intros _ _. split; auto.
Qed.


End Flat.

(** ** The contents of a window *)

Section Windows.
Context {val : Type}.

Lemma size_of_nonneg (sh : list Z) : Forall (fun d => 0 <= d) sh -> 0 <= np.size_of sh.
Proof.
  induction 1 as [| d sh Hd _ IH]; simpl; [lia | nia].
Qed.

(** In a well-formed array every row has the size of the trailing
    dimensions. *)
Lemma index0_length (a : np.ndarray val) (i : Z) (r : list val) :
  np.wf a -> np.index0 a i = Ok r ->
  length r = Z.to_nat (np.size_of (tl (np.shape a))).
Proof.
  intros (Hpos & Hlen). unfold np.index0.
  destruct (np.shape a) as [| d0 rest] eqn:Es; [discriminate |].
  intros Hi. inv_result Hi. subst r. cbn [tl].
  apply andb_prop in E. destruct E as (E1 & E2).
  inversion Hpos as [| ? ? Hd0 Hrest]; subst.
  pose proof (size_of_nonneg _ Hrest) as HF.
  cbn [np.size_of fold_right] in Hlen. fold (np.size_of rest) in Hlen.
  unfold np.block. rewrite length_firstn, length_skipn.
  unfold Py.len in Hlen. nia.
Qed.

Lemma mapM_map {A B : Type} (f : A -> result B) (d : B) (l : list A) (bs : list B) :
  mapM f l = Ok bs ->
  bs = map (fun a => match f a with Ok b => b | Raise _ => d end) l
  /\ forall a, In a l -> exists b, f a = Ok b.
Proof.
  revert bs. induction l as [| a l IH]; simpl; intros bs Hm.
  - injection Hm as <-. split; [reflexivity | contradiction].
  - inv_result Hm. subst bs. destruct (IH _ E0) as (-> & Hin).
    rewrite E. split; [reflexivity |].
    intros a' [<- | Ha']; [now exists r | now apply Hin].
Qed.

(** The [o]-th block of a concatenation of rows of equal size is the
    [o]-th row. *)
Lemma block_concat (F : nat) (rs : list (list val)) (o : nat) :
  Forall (fun r => length r = F) rs -> (o < length rs)%nat ->
  np.block (Z.of_nat F) (concat rs) (Z.of_nat o) = nth o rs [].
Proof.
  intros Hrs. revert o. induction Hrs as [| r rs Hr _ IH]; intros o Ho.
  - simpl in Ho. lia.
  - unfold np.block in *. rewrite Nat2Z.id. cbn [concat].
    destruct o as [| o].
    + simpl. rewrite firstn_app, Hr, Nat.sub_diag, firstn_all2 by lia.
      simpl. apply app_nil_r.
    + cbn [nth]. rewrite <- IH by (simpl in Ho; lia).
      rewrite Nat2Z.id. f_equal.
      replace (Z.to_nat (Z.of_nat (S o) * Z.of_nat F))
        with (Z.to_nat (Z.of_nat o * Z.of_nat F) + F)%nat by nia.
      rewrite <- skipn_skipn. f_equal.
      rewrite skipn_app, Hr, Nat.sub_diag, skipn_all2 by lia. reflexivity.
Qed.

Lemma map_nth_seq {A B : Type} (g : A -> B) (d : A) (l : list A) :
  map (fun o => g (nth o l d)) (seq 0 (length l)) = map g l.
Proof.
  induction l as [| a l IH]; [reflexivity |].
  cbn [length seq map nth]. f_equal.
  rewrite <- seq_shift, map_map. exact IH.
Qed.

Lemma flat_map_nth {A B : Type} (g : A -> list B) (d : A) (l : list A) :
  flat_map (fun o => g (nth (Z.to_nat o) l d)) (Py.range (Py.len l)) = flat_map g l.
Proof.
  unfold Py.range, Py.len. rewrite Nat2Z.id.
  rewrite !flat_map_concat_map, map_map. f_equal.
  rewrite <- (map_nth_seq g d l).
  apply map_ext. intros o. now rewrite Nat2Z.id.
Qed.


Lemma flat_map_ext_in {A B : Type} (f g : A -> list B) (l : list A) :
  (forall a, In a l -> f a = g a) -> flat_map f l = flat_map g l.
Proof.
  intros Hfg. rewrite !flat_map_concat_map. f_equal. now apply map_ext_in.
Qed.

Lemma In_range (n j : Z) : In j (Py.range n) <-> 0 <= j < n.
Proof.
  unfold Py.range. rewrite in_map_iff. split.
  - intros (k & <- & Hk). apply in_seq in Hk. lia.
  - intros Hj. exists (Z.to_nat j). split; [lia |]. apply in_seq. lia.
Qed.

Lemma sum_ones {A : Type} (l : list A) :
  fold_right Z.add 0 (map (fun _ => 1) l) = Py.len l.
Proof.
  unfold Py.len. induction l as [| a l IH]; [reflexivity |].
  cbn [map fold_right length]. rewrite IH. lia.
Qed.

(** The rows that an integer-array index reads. *)
Lemma take_newaxis_contents (a b : np.ndarray val) (idx : list Z) (k : nat) :
  np.take_newaxis a idx k = Ok b ->
  (forall i, In i idx -> np.index0 a i = Ok (observation a i))
  /\ b = np.mk_ndarray (Py.len idx :: repeat 1 k ++ tl (np.shape a))
                       (flat_map (observation a) idx).
Proof.
  unfold np.take_newaxis. intros Ht. inv_result Ht. subst b.
  destruct (mapM_map _ [] _ _ E) as (-> & Hin). split.
  - intros i Hi. destruct (Hin i Hi) as (r & Hr). unfold observation. now rewrite Hr.
  - f_equal. now rewrite flat_map_concat_map.
Qed.

Lemma concatenate_Ok (arrs : list (np.ndarray val)) (axis : nat) (w : np.ndarray val) :
  np.concatenate arrs axis = Ok w ->
  exists a0 rest,
    arrs = a0 :: rest
    /\ w = np.mk_ndarray
             (firstn axis (np.shape a0)
                ++ fold_right Z.add 0 (map (fun a => nth axis (np.shape a) 0) arrs)
                :: skipn (S axis) (np.shape a0))
             (flat_map
                (fun o => flat_map
                            (fun a => np.block (np.size_of (skipn axis (np.shape a)))
                                               (np.data a) o)
                            arrs)
                (Py.range (np.size_of (firstn axis (np.shape a0))))).
Proof.
  unfold np.concatenate. destruct arrs as [| a0 rest]; [discriminate |].
  intros Hc. inv_result Hc. exists a0, rest. now split.
Qed.

(** A window of [steps] observations per sample: the reads are in range,
    and row [x] of the window is the observations at [off x 0], ...,
    [off x (steps - 1)], in this order. *)
Lemma window_contents `{Backend val} (a w : np.ndarray val) (samples : list Z)
    (off : Z -> Z -> Z) (steps : Z) :
  np.wf a ->
  SeriesDataGenerator.window a (fun j => map (fun x => off x j) samples) 1 steps = Ok w ->
  (forall x j, In x samples -> 0 <= j < steps ->
               np.index0 a (off x j) = Ok (observation a (off x j)))
  /\ np.data w
     = flat_map (fun x => flat_map (fun j => observation a (off x j)) (Py.range steps))
                samples
  /\ np.shape w = Py.len samples :: steps :: tl (np.shape a).
Proof.
  intros Hwf Hw.
  destruct (window_first _ _ _ _ _ Hw) as (Hsteps & _).
  unfold SeriesDataGenerator.window in Hw.
  apply bind_Ok_inv in Hw. destruct Hw as (cols & Hcols & Hcat).
  set (N := Py.len samples).
  set (F := np.size_of (tl (np.shape a))).
  set (colf := fun j : Z =>
                 np.mk_ndarray (N :: 1 :: tl (np.shape a))
                               (flat_map (fun x => observation a (off x j)) samples)).
  assert (Htake : forall j, 0 <= j < steps ->
                            (forall x, In x samples ->
                                       np.index0 a (off x j) = Ok (observation a (off x j)))
                            /\ np.take_newaxis a (map (fun x => off x j) samples) 1
                               = Ok (colf j)).
  { intros j Hj.
    destruct (mapM_map _ (colf 0) _ _ Hcols) as (_ & Hin).
    destruct (Hin j (proj2 (In_range steps j) Hj)) as (c & Hc).
    destruct (take_newaxis_contents _ _ _ _ Hc) as (Hr & ->). split.
    - intros x Hx. apply Hr. now apply (in_map (fun x => off x j)).
    - rewrite Hc. unfold colf, N, Py.len. rewrite length_map. f_equal. f_equal.
      now rewrite flat_map_concat_map, map_map, <- flat_map_concat_map. }
  assert (Hcols' : cols = map colf (Py.range steps)).
  { destruct (mapM_map _ (colf 0) _ _ Hcols) as (-> & _).
    apply map_ext_in. intros j Hj. apply In_range in Hj.
    now rewrite (proj2 (Htake j Hj)). }
  split; [intros x j Hx Hj; now apply (proj1 (Htake j Hj)) |].
  assert (HF : 0 <= F).
  { destruct Hwf as (Hpos & _). apply size_of_nonneg.
    destruct (np.shape a); [constructor | now inversion Hpos]. }
  assert (Hrow : forall x j, In x samples -> 0 <= j < steps ->
                             length (observation a (off x j)) = Z.to_nat F).
  { intros x j Hx Hj. apply (index0_length a (off x j)); [exact Hwf |].
    now apply (proj1 (Htake j Hj)). }
  destruct (range_cons steps Hsteps) as (js & Hjs).
  subst cols. destruct (concatenate_Ok _ _ _ Hcat) as (a0 & rest & Ha0 & ->).
  assert (Hc0 : a0 = colf 0) by (rewrite Hjs in Ha0; now injection Ha0 as <- _).
  subst a0. clear Ha0 Hcat.
  cbn [np.data np.shape colf firstn skipn]. split.
  - cbn [np.size_of fold_right]. fold (np.size_of (tl (np.shape a))). fold F.
    replace (N * 1) with (Py.len samples) by (unfold N; lia).
    rewrite <- (flat_map_nth _ 0 samples).
    apply flat_map_ext_in. intros o Ho. apply In_range in Ho.
    rewrite flat_map_concat_map, map_map, <- flat_map_concat_map.
    apply flat_map_ext_in. intros j Hj. apply In_range in Hj.
    cbn [colf np.shape np.data np.size_of fold_right].
    fold (np.size_of (tl (np.shape a))). fold F.
    replace (1 * F) with (Z.of_nat (Z.to_nat F)) by lia.
    rewrite flat_map_concat_map.
    rewrite <- (Z2Nat.id o) at 1 by lia.
    rewrite block_concat.
    + rewrite (nth_map_in _ _ _ 0) by (unfold Py.len in Ho; lia). reflexivity.
    + apply Forall_map, Forall_forall. intros x Hx. now apply Hrow.
    + rewrite length_map. unfold Py.len in Ho. lia.
  - rewrite map_map. cbn [np.shape nth].
    rewrite sum_ones, len_range, Z.max_r by lia. reflexivity.
Qed.

End Windows.

Section Targets.
Context {val : Type} `{Backend val}.
Import SeriesDataGenerator.

(** Without NaN removal and scaling, [finish] only reshapes. *)
Lemma finish_raw_data (g : t val) (n : Z) (p t p' t' : np.ndarray val) :
  _remove_nan g = false ->
  finish g n false p t = Ok (p', t') ->
  np.data p' = np.data p /\ np.data t' = np.data t.
Proof.
  intros Hr. unfold finish. rewrite Hr. cbn [bind]. intros Hf.
  inv_result Hf; subst;
    repeat match goal with
           | Hx : np.reshape _ _ = Ok _ |- _ => apply reshape_data in Hx
           end;
    split; congruence.
Qed.

(** One target array, from the window that [generate] takes at the
    offsets [off x j] when these are [start x + j]. *)
Lemma target_window_intro (g : t val) (xs : list Z) (scale_and_impute : bool)
    (start : Z -> Z) (off : Z -> Z -> Z) (traw t0 q q' t' : np.ndarray val) :
  np.wf (output_da g) ->
  (forall x j, off x j = start x + j) ->
  window (output_da g) (fun j => map (fun x => off x j) xs) 1 (_output_time_steps g)
  = Ok traw ->
  np.reshape traw [Py.len xs; -1] = Ok t0 ->
  finish g (Py.len xs) scale_and_impute q t0 = Ok (q', t') ->
  target_window g xs scale_and_impute start t'.
Proof.
  intros Hwf Hoff Hw Hr Hf.
  destruct (window_contents _ _ _ _ _ Hwf Hw) as (Hin & Hdata & Hshape).
  exists traw, t0, q, q'. split; [| split; [| split; [| split; [| split]]]].
  - intros x j Hx Hj. rewrite <- Hoff. now apply Hin.
  - exact Hshape.
  - rewrite Hdata. apply flat_map_ext_in. intros x _.
    apply flat_map_ext_in. intros j _. now rewrite Hoff.
  - exact Hr.
  - exact Hf.
  - intros -> Hrn. destruct (finish_raw_data _ _ _ _ _ _ Hrn Hf) as (_ & ->).
    now apply reshape_data in Hr.
Qed.

(** The targets that the sequence loop appends, one per sequence step. *)
Lemma sequence_targets (g : t val) (xs : list Z) (scale_and_impute : bool)
    (l : list Z) (p p' : np.ndarray val) (ts ts' : list (np.ndarray val)) :
  np.wf (output_da g) ->
  foldM (sequence_step g xs (Py.len xs) scale_and_impute) l (p, ts) = Ok (p', ts') ->
  exists new,
    ts' = ts ++ new
    /\ Forall2 (fun s t' =>
                  target_window g xs scale_and_impute
                    (fun x => x + _input_time_steps g + _interval g - 1
                              + _output_time_steps g * s)
                    t')
               l new.
Proof.
  intros Hwf. revert p ts. induction l as [| s l IH]; intros p ts Hf; simpl in Hf.
  - injection Hf as <- <-. exists []. split; [now rewrite app_nil_r | constructor].
  - apply bind_Ok_inv in Hf. destruct Hf as ((p1, ts1) & Hs & Hf).
    unfold sequence_step in Hs.
    apply bind_Ok_inv in Hs. destruct Hs as (traw & Hw & Hs).
    apply bind_Ok_inv in Hs. destruct Hs as (t0 & Hr & Hs).
    apply bind_Ok_inv in Hs. destruct Hs as ((q', t') & Hfin & Hs).
    injection Hs as <- <-.
    destruct (IH _ _ Hf) as (new & -> & Hnew).
    exists (t' :: new). split; [now rewrite <- app_assoc |].
    constructor; [| exact Hnew].
    unfold target_index in Hw.
    eapply (target_window_intro g xs scale_and_impute _
              (fun x j => x + _input_time_steps g + _interval g - 1
                          + _output_time_steps g * s + j));
      [exact Hwf | reflexivity | exact Hw | exact Hr | exact Hfin].
Qed.

(** C3. Whenever [generate] returns, with [output_da] a well-formed
    array: for every requested start offset [x] the target window reads
    the observations at the absolute sample indices
    [x + input_time_steps + interval - 1 + j] for [j = 0 .. output_time_steps - 1]
    and stacks them in this (chronological) order, one row per offset;
    with [sequence] set there is one such target per sequence step [s], in
    the order of the steps, whose windows start [output_time_steps * s]
    later. The target returned is this window after flattening and the
    post-processing block, and is the window itself, value for value, when
    neither NaN removal nor scaling is asked for. *)
Theorem target_windows (g g' : t val) (samples : list Z) (scale_and_impute : bool)
    (P T : output val) :
  generate g samples scale_and_impute = Ok (P, T, g') ->
  np.wf (output_da g') ->
  let xs := requested g samples in
  let start := fun x => x + _input_time_steps g + _interval g - 1 in
  match _sequence g with
  | None =>
      exists t, T = Arr t /\ target_window g' xs scale_and_impute start t
  | Some sq =>
      exists targets,
        T = Arrs targets
        /\ Forall2 (fun s t =>
                      target_window g' xs scale_and_impute
                                    (fun x => start x + _output_time_steps g * s) t)
                   (Py.range sq) targets
  end.
Proof.
  intros Hg Hwf xs start. apply generate_inv in Hg. fold xs in Hg.
  destruct Hg as (g1 & p & insol & Hload & -> & Hn & Rp & Lp & Rins & Hg).
  destruct (generate_state _ _ Hload) as (_ & _ & Hsq & _ & _ & Hits & Hots & Hint & _).
  set (g2 := after_insolation g1) in *.
  subst start. rewrite <- Hsq, <- Hits, <- Hots, <- Hint.
  destruct (_sequence g2) as [sq |].
  - destruct Hg as (p' & targets & Hfold & _ & ->).
    destruct (sequence_targets _ _ _ _ _ _ _ _ Hwf Hfold) as (new & Hts & Hnew).
    simpl in Hts. subst new. exists targets. split; [reflexivity | exact Hnew].
  - destruct Hg as (traw & t0 & p' & t' & Hw & Hr & Hfin & _ & ->).
    exists t'. split; [reflexivity |].
    eapply (target_window_intro g2 xs scale_and_impute _
              (fun x j => x + _input_time_steps g2 + j + _interval g2 - 1));
      [exact Hwf | intros x j; lia | exact Hw | exact Hr | exact Hfin].
Qed.

End Targets.

Section Claims.
Context {val : Type} `{Backend val}.
Import SeriesDataGenerator.



(** The predictor arrays that a successful call of [generate] returns
    beside the primary one: the insolation blocks of the sequence steps
    after the first, in sequence mode with insolation, and none
    otherwise. *)
Lemma generate_blocks (g g' : t val) (samples : list Z) (scale_and_impute : bool)
    (P T : output val) :
  generate g samples scale_and_impute = Ok (P, T, g') ->
  let n := Py.len (requested g samples) in
  exists p rest,
    arrays_of P = p :: rest
    /\ Forall (fun a => rows_eq n a /\ (3 <= length (np.shape a))%nat) rest
    /\ (_sequence g = None \/ _add_insolation g = 0 -> rest = [])
    /\ (forall sq, _sequence g = Some sq -> _add_insolation g <> 0 ->
                   Py.len rest = sq - 1).
Proof.
  intros Hg n. unfold generate in Hg.
  fold (requested g samples) in Hg. fold n in Hg.
  apply bind_Ok_inv in Hg. destruct Hg as (g1 & Hload & Hg).
  assert (Hfr : _sequence g1 = _sequence g /\ _add_insolation g1 = _add_insolation g).
  { destruct (_is_loaded g); simpl in Hload.
    - injection Hload as <-. now split.
    - apply _load_data_frame in Hload. destruct Hload as (Hfr & _).
      unfold unloaded_part in Hfr.
      injection Hfr as _ _ _ _ _ _ _ _ _ Hsq _ _ _ _ _ _ _ Hadd _ _ _. now split. }
  destruct Hfr as (Hsq1 & Hadd1).
  apply bind_Ok_inv in Hg. destruct Hg as (p0 & _ & Hg).
  apply bind_Ok_inv in Hg. destruct Hg as (((p1, insol), g2) & Hins & Hg).
  apply bind_Ok_inv in Hg. destruct Hg as (p2 & _ & Hg).
  destruct (negb (_add_insolation g1 =? 0)) eqn:Ei.
  - rewrite insolation_block_state in Hins.
    apply bind_Ok_inv in Hins. destruct Hins as (sol & _ & Hins).
    apply bind_Ok_inv in Hins. destruct Hins as (ins & Hi & Hins).
    apply bind_Ok_inv in Hins. destruct Hins as (p3 & _ & Hins).
    apply bind_Ok_inv in Hins. destruct Hins as (i0 & Hi0 & Hins).
    apply bind_Ok_inv in Hins. destruct Hins as (p4 & _ & Hins).
    injection Hins as <- <- <-.
    cbn [_sequence _input_time_steps _add_insolation set_add_insolation] in Hi, Hg.
    change (negb (1 =? 0)) with true in Hg. cbv iota in Hg.
    rewrite Hsq1 in Hi, Hg.
    destruct (_sequence g) as [sq |] eqn:Esq.
    + apply bind_Ok_inv in Hg. destruct Hg as ((p', targets) & _ & Hg).
      injection Hg as <- _ _.
      exists p', (Py.slice (Some 1) None ins). split; [reflexivity |].
      rewrite slice_from_1.
      assert (Hall : Forall (fun a => rows_eq n a /\ (3 <= length (np.shape a))%nat) ins).
      { apply mapM_Forall2 in Hi. clear - Hi H.
        induction Hi as [| s w ss ws Hw _ IH]; constructor; [| exact IH].
        split.
        - apply (window_rows_eq _ _ _ _ _ _ Hw). unfold n, Py.len. now rewrite length_map.
        - destruct (window_first _ _ _ _ _ Hw) as (_ & _ & Hlen). rewrite Hlen. lia. }
      apply mapM_length in Hi.
      destruct ins as [| i1 ins']; [discriminate Hi0 |]. cbn [tl].
      split; [now inversion Hall |].
      split; [intros [Hc | Hc]; [discriminate Hc | rewrite <- Hadd1 in Hc; rewrite Hc in Ei; discriminate Ei] |].
      intros sq' Hsq' _. injection Hsq' as <-.
      rewrite range_length in Hi. cbn [length] in Hi. unfold Py.len. lia.
    + apply bind_Ok_inv in Hg. destruct Hg as (t & _ & Hg).
      apply bind_Ok_inv in Hg. destruct Hg as (t1 & _ & Hg).
      apply bind_Ok_inv in Hg. destruct Hg as ((p', t') & _ & Hg).
      injection Hg as <- _ _.
      exists p', []. split; [reflexivity |]. split; [constructor |].
      split; [reflexivity |]. intros sq' Hsq'. discriminate Hsq'.
  - injection Hins as <- <- <-.
    rewrite Ei in Hg. rewrite Hsq1 in Hg.
    assert (Hz : _add_insolation g = 0).
    { rewrite <- Hadd1. apply negb_false_iff in Ei. lia. }
    destruct (_sequence g) as [sq |] eqn:Esq.
    + apply bind_Ok_inv in Hg. destruct Hg as ((p', targets) & _ & Hg).
      injection Hg as <- _ _.
      exists p', []. split; [reflexivity |]. split; [constructor |].
      split; [reflexivity |]. intros sq' _ Hnz. contradiction.
    + apply bind_Ok_inv in Hg. destruct Hg as (t & _ & Hg).
      apply bind_Ok_inv in Hg. destruct Hg as (t1 & _ & Hg).
      apply bind_Ok_inv in Hg. destruct Hg as ((p', t') & _ & Hg).
      injection Hg as <- _ _.
      exists p', []. split; [reflexivity |]. split; [constructor |].
      split; [reflexivity |]. intros sq' Hsq'. discriminate Hsq'.
Qed.

(** The block [finish] ends on the reshapes of the layout. *)
Lemma finish_reshaped (g : t val) (n : Z) (scale_and_impute : bool)
    (p t p' t' : np.ndarray val) :
  finish g n scale_and_impute p t = Ok (p', t') ->
  (_is_convolutional g = true ->
   reshaped_to ([n] ++ convolution_shape g) p'
   /\ reshaped_to ([n] ++ output_convolution_shape g) t')
  /\ (_is_convolutional g = false -> _keep_time_axis g = true ->
      exists dsh odsh,
        dense_shape g = Ok dsh /\ output_dense_shape g = Ok odsh
        /\ reshaped_to ([n] ++ dsh) p' /\ reshaped_to ([n] ++ odsh) t').
Proof.
  unfold finish. intros Hf.
  destruct (if _remove_nan g then util.delete_nan_samples p t else (p, t)) as (p1, t1).
  apply bind_Ok_inv in Hf. destruct Hf as ((p2, t2) & _ & Hf).
  destruct (_is_convolutional g).
  - inv_result Hf. subst. split; [| intros Hc; discriminate Hc].
    intros _. split; eexists; eassumption.
  - split; [intros Hc; discriminate Hc |]. intros _ Hk. rewrite Hk in Hf.
    inv_result Hf. subst. eexists _, _.
    split; [eassumption |]. split; [eassumption |]. split; eexists; eassumption.
Qed.

(** What holds of the result of every call of [finish] holds of what the
    sequence loop returns, once the loop has run. *)
Lemma sequence_finished (g : t val) (samples : list Z) (n : Z) (scale_and_impute : bool)
    (Rp Rt : np.ndarray val -> Prop) :
  (forall p t p' t', finish g n scale_and_impute p t = Ok (p', t') -> Rp p' /\ Rt t') ->
  forall (l : list Z) (p p' : np.ndarray val) (targets targets' : list (np.ndarray val)),
    foldM (sequence_step g samples n scale_and_impute) l (p, targets) = Ok (p', targets') ->
    Forall Rt targets -> (l = [] -> Rp p /\ targets <> []) ->
    Rp p' /\ Forall Rt targets' /\ targets' <> [].
Proof.
  intros Hfin l. induction l as [| a l IH]; intros p p' targets targets' Hf Hts Hnil.
  - simpl in Hf. injection Hf as <- <-. destruct (Hnil eq_refl). now repeat split.
  - simpl in Hf. apply bind_Ok_inv in Hf. destruct Hf as ((p1, ts1) & Hstep & Hf).
    unfold sequence_step in Hstep.
    apply bind_Ok_inv in Hstep. destruct Hstep as (tw & _ & Hstep).
    apply bind_Ok_inv in Hstep. destruct Hstep as (t0 & _ & Hstep).
    apply bind_Ok_inv in Hstep. destruct Hstep as ((p2, t2) & Hfi & Hstep).
    injection Hstep as <- <-.
    destruct (Hfin _ _ _ _ Hfi) as (Hp2 & Ht2).
    apply (IH _ _ _ _ Hf).
    + apply Forall_app. split; [exact Hts | now constructor].
    + intros _. split; [exact Hp2 |]. now destruct targets.
Qed.

(** The layout of what [generate] returns, whatever [scale_and_impute]
    is: the reshapes are applied for a convolutional or recurrent model,
    to the primary predictor array and to every target array. *)
Lemma generate_reshaped (g g' : t val) (samples : list Z) (scale_and_impute : bool)
    (P T : output val) :
  generate g samples scale_and_impute = Ok (P, T, g') ->
  (forall sq, _sequence g = Some sq -> 0 < sq) ->
  let n := Py.len (requested g samples) in
  arrays_of T <> []
  /\ (_is_convolutional g = true ->
      reshaped_to ([n] ++ convolution_shape g') (hd (np.mk_ndarray [] []) (arrays_of P))
      /\ Forall (reshaped_to ([n] ++ output_convolution_shape g')) (arrays_of T))
  /\ (_is_convolutional g = false -> _keep_time_axis g = true ->
      exists dsh odsh,
        dense_shape g' = Ok dsh /\ output_dense_shape g' = Ok odsh
        /\ reshaped_to ([n] ++ dsh) (hd (np.mk_ndarray [] []) (arrays_of P))
        /\ Forall (reshaped_to ([n] ++ odsh)) (arrays_of T)).
Proof.
  intros Hg Hsq n. apply generate_inv in Hg. fold n in Hg.
  destruct Hg as (g1 & p & insol & Hload & -> & Hn & _ & _ & _ & Hg).
  destruct (generate_state _ _ Hload) as (_ & _ & Hs & Hconv & Hkeep & _).
  set (g2 := after_insolation g1) in *.
  rewrite <- Hconv, <- Hkeep. rewrite <- Hs in Hsq. clear Hs Hconv Hkeep Hload.
  destruct (_sequence g2) as [sq |].
  - destruct Hg as (p' & targets & Hfold & -> & ->).
    specialize (Hsq sq eq_refl).
    assert (Hl : Py.range sq = [] -> False).
    { intros Hr. pose proof (len_range sq) as Hlen. rewrite Hr in Hlen.
      unfold Py.len in Hlen. simpl in Hlen. lia. }
    assert (HP : hd (np.mk_ndarray [] [])
                    (arrays_of (if negb (_add_insolation g2 =? 0)
                                then Arrs ([p'] ++ Py.slice (Some 1) None insol)
                                else Arr p')) = p')
      by (destruct (negb (_add_insolation g2 =? 0)); reflexivity).
    rewrite HP. cbn [arrays_of].
    split; [| split].
    + eapply (sequence_finished g2 _ n scale_and_impute (fun _ => True) (fun _ => True));
        [intros; now split | exact Hfold | constructor | intros Hr; now destruct (Hl Hr)].
    + intros Hc.
      destruct (sequence_finished g2 _ n scale_and_impute
                  (reshaped_to ([n] ++ convolution_shape g2))
                  (reshaped_to ([n] ++ output_convolution_shape g2))
                  ltac:(intros p1 t1 p1' t1' Hf;
                        exact (proj1 (finish_reshaped _ _ _ _ _ _ _ Hf) Hc))
                  _ _ _ _ _ Hfold (Forall_nil _)
                  ltac:(intros Hr; now destruct (Hl Hr))) as (A & B & _).
      now split.
    + intros Hc Hk.
      destruct (sequence_finished g2 _ n scale_and_impute
                  (fun a => exists dsh, dense_shape g2 = Ok dsh
                                        /\ reshaped_to ([n] ++ dsh) a)
                  (fun a => exists odsh, output_dense_shape g2 = Ok odsh
                                         /\ reshaped_to ([n] ++ odsh) a)
                  ltac:(intros p1 t1 p1' t1' Hf;
                        destruct (proj2 (finish_reshaped _ _ _ _ _ _ _ Hf) Hc Hk)
                          as (dsh & odsh & D1 & D2 & R1 & R2);
                        split; eexists; split; eassumption)
                  _ _ _ _ _ Hfold (Forall_nil _)
                  ltac:(intros Hr; now destruct (Hl Hr))) as (A & B & C).
      destruct A as (dsh & Hd & Rp).
      destruct targets as [| t1 ts]; [contradiction |].
      pose proof (Forall_inv B) as (odsh & Hod & _).
      exists dsh, odsh. do 3 (split; [assumption |]).
      eapply Forall_impl; [| exact B].
      intros a (odsh' & Hod' & Ra). rewrite Hod in Hod'. now injection Hod' as <-.
  - destruct Hg as (traw & t0 & p' & t' & _ & _ & Hfin & -> & ->).
    cbn [arrays_of hd].
    split; [discriminate |]. split.
    + intros Hc. destruct (proj1 (finish_reshaped _ _ _ _ _ _ _ Hfin) Hc) as (A & B).
      split; [exact A | now constructor].
    + intros Hc Hk.
      destruct (proj2 (finish_reshaped _ _ _ _ _ _ _ Hfin) Hc Hk)
        as (dsh & odsh & D1 & D2 & R1 & R2).
      exists dsh, odsh. do 3 (split; [assumption |]). now constructor.
Qed.

(** The layout of what [DataGenerator.generate] returns: [n] is the number
    of requested samples, or of all samples for an empty selector. *)
Lemma DataGenerator_generate_reshaped (g : DataGenerator.t val) (samples : list Z)
    (scale_and_impute : bool) (p t : np.ndarray val) :
  DataGenerator.generate g samples scale_and_impute = Ok (p, t) ->
  exists n,
    0 < n
    /\ (if Py.len samples >? 0 then n = Py.len samples
        else rows_eq n (xr.predictors (DataGenerator.ds g)))
    /\ (DataGenerator._is_convolutional g = true ->
        exists cs, DataGenerator.convolution_shape g = Ok cs
                   /\ reshaped_to ([n] ++ cs) p /\ reshaped_to ([n] ++ cs) t)
    /\ (DataGenerator._is_convolutional g = false ->
        DataGenerator._keep_time_axis g = true ->
        exists dsh, DataGenerator.dense_shape g = Ok dsh
                    /\ reshaped_to ([n] ++ dsh) p /\ reshaped_to ([n] ++ dsh) t).
Proof.
  intros Hg. unfold DataGenerator.generate in Hg.
  apply bind_Ok_inv in Hg. destruct Hg as ((dp, dt) & Hsel & Hg).
  apply bind_Ok_inv in Hg. destruct Hg as (n & Hitem & Hg).
  apply bind_Ok_inv in Hg. destruct Hg as (p0 & Hp0 & Hg).
  apply bind_Ok_inv in Hg. destruct Hg as (t0 & _ & Hg).
  destruct (reshape_flat _ _ _ Hp0) as (Hn & _ & _).
  destruct (if DataGenerator._remove_nan g then util.delete_nan_samples p0 t0
            else (p0, t0)) as (p1, t1).
  apply bind_Ok_inv in Hg. destruct Hg as ((p2, t2) & _ & Hg).
  exists n. split; [exact Hn |]. split.
  { unfold np.item in Hitem.
    destruct (Py.len samples >? 0).
    - inv_result Hsel. subst.
      match goal with
      | Hk : np.take_newaxis _ samples 0 = Ok dp |- _ =>
          rewrite (take_newaxis_shape _ _ _ _ Hk) in Hitem
      end.
      simpl in Hitem. now injection Hitem as <-.
    - injection Hsel as <- <-.
      destruct (np.shape (xr.predictors (DataGenerator.ds g))) as [| d sh] eqn:Es;
        simpl in Hitem; [discriminate |].
      injection Hitem as ->. now exists sh. }
  destruct (DataGenerator._is_convolutional g).
  - inv_result Hg. subst. split; [| intros Hc; discriminate Hc].
    intros _. eexists. split; [eassumption |]. split; eexists; eassumption.
  - split; [intros Hc; discriminate Hc |]. intros _ Hk. rewrite Hk in Hg.
    inv_result Hg. subst.
    eexists. split; [eassumption |]. split; eexists; eassumption.
Qed.


(** C10, as amended. The validation of [load] in the constructor turns
    [True] into ['required'], lets every falsy value through unchanged,
    and raises, a [ValueError], exactly for a value that is truthy, not a
    boolean and not one of ['full'], ['required'], ['minimal']; the
    constructor stores what the validation returns and raises what it
    raises. With a falsy [load] nothing is ever loaded into memory: not by
    the constructor, even with [force_load], and not by [generate], whose
    first call only sets the views and the flag [_is_loaded]. *)
Theorem load_validation :
  check_load (Py.Bool true) = Ok (Py.Str "required")
  /\ (forall load_, Py.truthy load_ = false -> check_load load_ = Ok load_)
  /\ (forall load_,
         check_load load_
         = if Py.truthy load_ && negb (Py.is_bool load_)
              && negb (Py.in_strs load_ ["full"; "required"; "minimal"])
           then Raise ValueError
           else Ok (if Py.truthy load_ && Py.is_bool load_
                    then Py.Str "required" else load_))
  /\ (forall (shuffle : list Z -> list Z) (m : Model val) (d : xr.Dataset val)
             (rank_ : Z) (input_sel output_sel : xr.selection) (its ots : Z)
             (sequence : option Z) (interval : Z) (add_insolation : Py.value)
             (batch_size : Z) (shuffle_ remove_nan : bool) (load_ : Py.value)
             (force_load : bool) (g : t val),
         __init__ shuffle m d rank_ input_sel output_sel its ots sequence interval
                  add_insolation batch_size shuffle_ remove_nan load_ force_load = Ok g ->
         check_load load_ = Ok (_load g)
         /\ (force_load = false -> _is_loaded g = false /\ in_memory g = [])
         /\ (Py.truthy load_ = false -> _load g = load_ /\ in_memory g = []))
  /\ (forall (shuffle : list Z -> list Z) (m : Model val) (d : xr.Dataset val)
             (rank_ : Z) (input_sel output_sel : xr.selection) (its ots : Z)
             (sequence : option Z) (interval : Z) (add_insolation : Py.value)
             (batch_size : Z) (shuffle_ remove_nan : bool) (load_ : Py.value)
             (force_load : bool) (e : exn),
         xr.has_predictors d = true ->
         0 < rank_ -> 0 < its -> 0 < ots -> 0 < batch_size -> 0 < interval ->
         (forall sq, sequence = Some sq -> 0 < sq) ->
         check_load load_ = Raise e ->
         __init__ shuffle m d rank_ input_sel output_sel its ots sequence interval
                  add_insolation batch_size shuffle_ remove_nan load_ force_load
         = Raise e)
  /\ (forall (g g' : t val) (samples : list Z) (scale_and_impute : bool)
             (P T : output val),
         Py.truthy (_load g) = false ->
         generate g samples scale_and_impute = Ok (P, T, g') ->
         _is_loaded g' = true /\ in_memory g' = in_memory g).
Proof.
  split; [reflexivity |].
  split; [intros load_ Hf; unfold check_load; now rewrite Hf |].
  split.
  { intros load_. unfold check_load.
    destruct load_ as [| b | z | s]; cbn [Py.truthy Py.is_bool Py.in_strs Py.eq_str existsb].
    - reflexivity.
    - now destruct b.
    - now destruct (negb (z =? 0)).
    - destruct (negb (String.eqb s "")); [| reflexivity].
      cbn [negb andb]. now destruct (String.eqb s "full" || _). }
  split.
  { intros. match goal with Hi : __init__ _ _ _ _ _ _ _ _ _ _ _ _ _ _ _ _ = Ok _ |- _ =>
      apply __init___inv in Hi;
      destruct Hi as (total & lv & _ & Hlv & _ & _ & _ & Hload & _ & _ & Hfl & Hmem)
    end.
    rewrite Hload. split; [exact Hlv |]. split; [exact Hfl |].
    intros Hf. split; [| now apply Hmem].
    unfold check_load in Hlv. rewrite Hf in Hlv. simpl in Hlv. congruence. }
  split.
  { intros shuffle m d rank_ input_sel output_sel its ots sequence interval
           add_insolation batch_size shuffle_ remove_nan load_ force_load e
           Hd Hrank Hits Hots Hbs Hint Hsq He.
    unfold __init__. rewrite Hd. cbn [negb bind].
    replace (rank_ >? 0) with true by lia.
    replace (its >? 0) with true by lia.
    replace (ots >? 0) with true by lia.
    replace (batch_size >? 0) with true by lia.
    replace (interval >? 0) with true by lia.
    cbn [assert bind].
    destruct sequence as [sq |].
    - specialize (Hsq sq eq_refl). replace (sq >? 0) with true by lia.
      cbn [assert bind]. now rewrite He.
    - cbn [bind]. now rewrite He. }
  intros g g' samples sc P T Hf Hg. apply generate_inv in Hg.
  destruct Hg as (g1 & p & insol & Hload & -> & _).
  destruct (generate_state _ _ Hload) as (_ & _ & _ & _ & _ & _ & _ & _ & Hl & Hm).
  split; [exact Hl |]. rewrite Hm.
  destruct (negb (_is_loaded g)).
  - now apply _load_data_falsy.
  - now injection Hload as <-.
Qed.

End Claims.

(** * Further properties of the three classes *)

Lemma firstn_seq_min (c a m : nat) : firstn c (seq a m) = seq a (Nat.min c m).
Proof.
  revert a m. induction c as [| c IH]; intros a [| m]; simpl; try reflexivity.
  now rewrite IH.
Qed.

Lemma map_seq_from {B : Type} (f : nat -> B) (a k : nat) :
  map f (seq a k) = map (fun i => f (a + i)%nat) (seq 0 k).
Proof.
  revert a. induction k as [| k IH]; intros a; simpl.
  - reflexivity.
  - rewrite Nat.add_0_r. f_equal.
    rewrite IH, <- seq_shift, map_map.
    apply map_ext. intros i. f_equal. lia.
Qed.

(** A slice of [range(n)] between two non-negative bounds is a run of
    consecutive integers. *)
Lemma slice_range (a b n : Z) :
  0 <= a <= b ->
  Py.slice (Some a) (Some b) (Py.range n)
  = map (fun j => a + j) (Py.range (Z.min b n - a)).
Proof.
  intros Hab. rewrite slice_bounds by assumption.
  unfold Py.range. rewrite skipn_map, firstn_map, skipn_seq, firstn_seq_min.
  rewrite map_map, map_seq_from.
  replace (Nat.min (Z.to_nat (b - a)) (Z.to_nat n - Z.to_nat a))
    with (Z.to_nat (Z.min b n - a)) by lia.
  apply map_ext_in. intros i Hi. apply in_seq in Hi. lia.
Qed.

Section Indexing.
Context {val : Type} `{Backend val}.
Import SeriesDataGenerator.

Lemma getitem_guard (g : t val) (k i : Z) :
  len_ g = Ok k ->
  __getitem__ g i
  = let j := if i <? 0 then k + i else i in
    if j >? k then Raise IndexError
    else generate g (Py.slice (Some (j * _batch_size g)) (Some ((j + 1) * _batch_size g))
                              (_indices g)) true.
Proof.
  intros Hk. unfold __getitem__. rewrite Hk.
  destruct (i <? 0); reflexivity.
Qed.

Lemma DataGenerator_getitem_guard (g : DataGenerator.t val) (k i : Z) :
  DataGenerator.len_ g = Ok k ->
  DataGenerator.__getitem__ g i
  = let j := if i <? 0 then k + i else i in
    if j >? k then Raise IndexError
    else DataGenerator.generate g
           (Py.slice (Some (j * DataGenerator._batch_size g))
                     (Some ((j + 1) * DataGenerator._batch_size g))
                     (DataGenerator._indices g)) true.
Proof.
  intros Hk. unfold DataGenerator.__getitem__. rewrite Hk.
  destruct (i <? 0); reflexivity.
Qed.

Lemma len__nonneg (g : t val) (k : Z) : len_ g = Ok k -> 0 <= k.
Proof.
  unfold len_. intros Hl. inv_result Hl. subst. lia.
Qed.

Lemma DataGenerator_len__nonneg (g : DataGenerator.t val) (k : Z) :
  DataGenerator.len_ g = Ok k -> 0 <= k.
Proof.
  unfold DataGenerator.len_. intros Hl. inv_result Hl. subst. lia.
Qed.

(** X1. How [__getitem__] reads its index, [k] being [len(self)]: an index
    above [k] raises [IndexError]; an index from 0 to [k] goes to
    [generate] with the slice [[i * batch_size, (i + 1) * batch_size)] of
    the ordering; a negative index [i] is replaced by [k + i] once, so it
    never raises [IndexError] on its own account, the indices [-k .. -1]
    are the batches [0 .. k - 1], and an index below [-k] slices the
    ordering from its end. When [len(self)] raises, [__getitem__] raises the
    same. *)
Theorem getitem_index_handling :
  (forall (g : t val) (k i : Z),
      len_ g = Ok k ->
      (k < i -> __getitem__ g i = Raise IndexError)
      /\ (0 <= i <= k ->
          __getitem__ g i
          = generate g (Py.slice (Some (i * _batch_size g))
                                 (Some ((i + 1) * _batch_size g)) (_indices g)) true)
      /\ (i < 0 ->
          __getitem__ g i
          = generate g (Py.slice (Some ((k + i) * _batch_size g))
                                 (Some ((k + i + 1) * _batch_size g)) (_indices g)) true)
      /\ (- k <= i < 0 -> __getitem__ g i = __getitem__ g (k + i)))
  /\ (forall (g : t val) (e : exn) (i : Z),
         len_ g = Raise e -> __getitem__ g i = Raise e)
  /\ (forall (g : DataGenerator.t val) (k i : Z),
         DataGenerator.len_ g = Ok k ->
         (k < i -> DataGenerator.__getitem__ g i = Raise IndexError)
         /\ (0 <= i <= k ->
             DataGenerator.__getitem__ g i
             = DataGenerator.generate g
                 (Py.slice (Some (i * DataGenerator._batch_size g))
                           (Some ((i + 1) * DataGenerator._batch_size g))
                           (DataGenerator._indices g)) true)
         /\ (i < 0 ->
             DataGenerator.__getitem__ g i
             = DataGenerator.generate g
                 (Py.slice (Some ((k + i) * DataGenerator._batch_size g))
                           (Some ((k + i + 1) * DataGenerator._batch_size g))
                           (DataGenerator._indices g)) true)
         /\ (- k <= i < 0 ->
             DataGenerator.__getitem__ g i = DataGenerator.__getitem__ g (k + i)))
  /\ (forall (g : DataGenerator.t val) (e : exn) (i : Z),
         DataGenerator.len_ g = Raise e -> DataGenerator.__getitem__ g i = Raise e).
Proof.
  split; [| split; [| split]].
  - intros g k i Hk. pose proof (len__nonneg _ _ Hk) as Hk0.
    rewrite !(getitem_guard g k) by exact Hk. cbv zeta.
    repeat split.
    + intros Hi. destruct (i <? 0) eqn:E; [lia |].
      destruct (i >? k) eqn:E1; [reflexivity | lia].
    + intros Hi. destruct (i <? 0) eqn:E; [lia |].
      destruct (i >? k) eqn:E1; [lia | reflexivity].
    + intros Hi. destruct (i <? 0) eqn:E; [| lia].
      destruct (k + i >? k) eqn:E1; [lia | reflexivity].
    + intros Hi. destruct (i <? 0) eqn:E; [| lia].
      destruct (k + i <? 0) eqn:E1; [lia | reflexivity].
  - intros g e i He. unfold __getitem__. rewrite He.
    destruct (i <? 0); reflexivity.
  - intros g k i Hk. pose proof (DataGenerator_len__nonneg _ _ Hk) as Hk0.
    rewrite !(DataGenerator_getitem_guard g k) by exact Hk. cbv zeta.
    repeat split.
    + intros Hi. destruct (i <? 0) eqn:E; [lia |].
      destruct (i >? k) eqn:E1; [reflexivity | lia].
    + intros Hi. destruct (i <? 0) eqn:E; [lia |].
      destruct (i >? k) eqn:E1; [lia | reflexivity].
    + intros Hi. destruct (i <? 0) eqn:E; [| lia].
      destruct (k + i >? k) eqn:E1; [lia | reflexivity].
    + intros Hi. destruct (i <? 0) eqn:E; [| lia].
      destruct (k + i <? 0) eqn:E1; [lia | reflexivity].
  - intros g e i He. unfold DataGenerator.__getitem__. rewrite He.
    destruct (i <? 0); reflexivity.
Qed.

End Indexing.

Section Ordered.
Context {val : Type} `{Backend val}.
Import SeriesDataGenerator.

(** X2. Without shuffling the batches of an epoch are runs of consecutive
    offsets in increasing order: after [on_epoch_end], whatever the random
    generator would do, batch [i] of [k] is generated from
    [i * batch_size, i * batch_size + 1, ...], [min(batch_size, n_sample - i * batch_size)]
    offsets in all. *)
Theorem unshuffled_batches_are_consecutive :
  (forall (shuffle : list Z -> list Z) (g : t val) (k i : Z),
      _shuffle g = false -> 0 < _batch_size g ->
      let g' := on_epoch_end shuffle g in
      __len__ g' = Ok k -> 0 <= i < k ->
      _indices g' = Py.range (_n_sample g)
      /\ __getitem__ g' i
         = generate g'
             (map (fun j => i * _batch_size g + j)
                  (Py.range (Z.min (_batch_size g) (_n_sample g - i * _batch_size g))))
             true)
  /\ (forall (shuffle : list Z -> list Z) (g : DataGenerator.t val) (k i : Z),
         DataGenerator._shuffle g = false -> 0 < DataGenerator._batch_size g ->
         let g' := DataGenerator.on_epoch_end shuffle g in
         DataGenerator.__len__ g' = Ok k -> 0 <= i < k ->
         DataGenerator._indices g' = Py.range (DataGenerator._n_sample g)
         /\ DataGenerator.__getitem__ g' i
            = DataGenerator.generate g'
                (map (fun j => i * DataGenerator._batch_size g + j)
                     (Py.range (Z.min (DataGenerator._batch_size g)
                                      (DataGenerator._n_sample g
                                       - i * DataGenerator._batch_size g))))
                true).
Proof.
  split.
  - intros shuffle g k i Hs Hbs g' Hk Hi.
    assert (Hg' : g' = set_indices (np.arange (_n_sample g)) g).
    { subst g'. unfold on_epoch_end. destruct g; simpl in *. now subst. }
    assert (Hidx : _indices g' = Py.range (_n_sample g)) by (rewrite Hg'; now destruct g).
    assert (Hb : _batch_size g' = _batch_size g) by (rewrite Hg'; now destruct g).
    split; [exact Hidx |].
    rewrite (getitem_in_range g' k i Hk Hi), Hidx, Hb.
    rewrite slice_range by nia. f_equal. f_equal. f_equal. lia.
  - intros shuffle g k i Hs Hbs g' Hk Hi.
    assert (Hg' : g' = DataGenerator.set_indices (np.arange (DataGenerator._n_sample g)) g).
    { subst g'. unfold DataGenerator.on_epoch_end. destruct g; simpl in *. now subst. }
    assert (Hidx : DataGenerator._indices g' = Py.range (DataGenerator._n_sample g))
      by (rewrite Hg'; now destruct g).
    assert (Hb : DataGenerator._batch_size g' = DataGenerator._batch_size g)
      by (rewrite Hg'; now destruct g).
    split; [exact Hidx |].
    rewrite (DataGenerator_getitem_in_range g' k i Hk Hi), Hidx, Hb.
    rewrite slice_range by nia. f_equal. f_equal. f_equal. lia.
Qed.

End Ordered.

Section Loaded.
Context {val : Type} `{Backend val}.
Import SeriesDataGenerator.

Lemma set_add_insolation_same (g : t val) :
  set_add_insolation (_add_insolation g) g = g.
Proof. destruct g; reflexivity. Qed.

Lemma after_insolation_same (g : t val) :
  _add_insolation g = 0 \/ _add_insolation g = 1 -> after_insolation g = g.
Proof.
  intros Ha. unfold after_insolation.
  destruct (negb (_add_insolation g =? 0)) eqn:E; [| reflexivity].
  destruct Ha as [Ha | Ha]; [rewrite Ha in E; discriminate E |].
  rewrite <- Ha. apply set_add_insolation_same.
Qed.

(** X3. [generate] loads the data at most once and has no other lasting
    effect on the instance: on an instance whose insolation flag is 0 or
    1, as the constructor leaves it, a call that returns gives back the
    instance with [_is_loaded] set and with every attribute outside what
    [_load_data] assigns as it was, the flags [_add_insolation] and
    [_keep_time_axis] that the insolation block overwrites included; and a
    call on a loaded instance gives it back unchanged, so nothing is
    loaded a second time. *)
Theorem generate_loads_once (g g' : t val) (samples : list Z) (scale_and_impute : bool)
    (P T : output val) :
  _add_insolation g = 0 \/ _add_insolation g = 1 ->
  generate g samples scale_and_impute = Ok (P, T, g') ->
  _is_loaded g' = true
  /\ unloaded_part g' = unloaded_part g
  /\ (_is_loaded g = true -> g' = g)
  /\ (forall samples' scale_and_impute' P' T' g'',
         generate g' samples' scale_and_impute' = Ok (P', T', g'') -> g'' = g').
Proof.
  intros Ha Hg.
  assert (Hstep : forall (a a' : t val) s sc Q R,
             _add_insolation a = 0 \/ _add_insolation a = 1 ->
             generate a s sc = Ok (Q, R, a') ->
             _is_loaded a' = true /\ unloaded_part a' = unloaded_part a
             /\ (_is_loaded a = true -> a' = a)).
  { intros a a' s sc Q R Hadd Hgen. apply generate_inv in Hgen.
    destruct Hgen as (a1 & _ & _ & Hload & -> & _).
    assert (Hfr : unloaded_part a1 = unloaded_part a /\ _is_loaded a1 = true
                  /\ (_is_loaded a = true -> a1 = a)).
    { destruct (_is_loaded a) eqn:E; simpl in Hload.
      - injection Hload as <-. repeat split; auto.
      - destruct (_load_data_frame _ _ Hload) as (A & B).
        repeat split; auto. discriminate. }
    destruct Hfr as (Hfr & Hld & Hsame).
    assert (Hadd1 : _add_insolation a1 = 0 \/ _add_insolation a1 = 1).
    { unfold unloaded_part in Hfr. injection Hfr as _ _ _ _ _ _ _ _ _ _ _ _ _ _ _ _ _ Hx _ _ _.
      now rewrite Hx. }
    rewrite (after_insolation_same _ Hadd1). repeat split; auto. }
  destruct (Hstep _ _ _ _ _ _ Ha Hg) as (Hl & Hfr & Hsame).
  repeat split; auto.
  intros s' sc' P' T' g'' Hg'.
  assert (Ha' : _add_insolation g' = 0 \/ _add_insolation g' = 1).
  { unfold unloaded_part in Hfr. injection Hfr as _ _ _ _ _ _ _ _ _ _ _ _ _ _ _ _ _ Hx _ _ _.
    now rewrite Hx. }
  destruct (Hstep _ _ _ _ _ _ Ha' Hg') as (_ & _ & Hs). now apply Hs.
Qed.

End Loaded.

Section Constructor.
Context {val : Type} `{Backend val}.
Import SeriesDataGenerator.

(** X4. What the constructor of [SeriesDataGenerator] refuses, in the
    order of its checks: a dataset without [predictors] raises
    [ValueError] whatever the other arguments are; otherwise a [rank],
    [input_time_steps], [output_time_steps], [batch_size], [interval] or
    [sequence] that is not positive ([sequence=0] too) raises
    [AssertionError]; and when these and [load] are accepted, an
    [add_insolation] that [to_bool] does not read, that is not a boolean
    and that is neither ['hourly'] nor ['daily'] raises [AssertionError]. *)
Theorem init_rejects_bad_arguments (shuffle : list Z -> list Z) (m : Model val)
    (d : xr.Dataset val) (rank_ : Z) (input_sel output_sel : xr.selection)
    (its ots : Z) (sequence : option Z) (interval : Z) (add_insolation : Py.value)
    (batch_size : Z) (shuffle_ remove_nan : bool) (load_ : Py.value)
    (force_load : bool) :
  let r := __init__ shuffle m d rank_ input_sel output_sel its ots sequence interval
                    add_insolation batch_size shuffle_ remove_nan load_ force_load in
  (xr.has_predictors d = false -> r = Raise ValueError)
  /\ (xr.has_predictors d = true ->
      rank_ <= 0 \/ its <= 0 \/ ots <= 0 \/ batch_size <= 0 \/ interval <= 0
      \/ (exists sq, sequence = Some sq /\ sq <= 0) ->
      r = Raise AssertionError)
  /\ (xr.has_predictors d = true ->
      0 < rank_ -> 0 < its -> 0 < ots -> 0 < batch_size -> 0 < interval ->
      (forall sq, sequence = Some sq -> 0 < sq) ->
      (exists lv, check_load load_ = Ok lv) ->
      to_bool add_insolation = Raise ValueError ->
      Py.is_bool add_insolation = false ->
      Py.in_strs add_insolation ["hourly"; "daily"] = false ->
      r = Raise AssertionError).
Proof.
  intros r. subst r. unfold __init__. split; [| split].
  - intros ->. reflexivity.
  - intros -> Hbad. cbn [negb bind].
    destruct (rank_ >? 0) eqn:E1; [| reflexivity].
    destruct (its >? 0) eqn:E2; [| reflexivity].
    destruct (ots >? 0) eqn:E3; [| reflexivity].
    destruct (batch_size >? 0) eqn:E4; [| reflexivity].
    destruct (interval >? 0) eqn:E5; [| reflexivity].
    cbn [assert bind].
    destruct Hbad as [Hb | [Hb | [Hb | [Hb | [Hb | (sq & -> & Hb)]]]]]; try lia.
    destruct (sq >? 0) eqn:E6; [lia | reflexivity].
  - intros -> Hrank Hits Hots Hbs Hint Hsq (lv & Hlv) Htb Hnb Hns. cbn [negb bind].
    replace (rank_ >? 0) with true by lia.
    replace (its >? 0) with true by lia.
    replace (ots >? 0) with true by lia.
    replace (batch_size >? 0) with true by lia.
    replace (interval >? 0) with true by lia.
    cbn [assert bind].
    assert (Hs : match sequence with
                 | Some sq => assert (sq >? 0)
                 | None => Ok tt
                 end = Ok tt).
    { destruct sequence as [sq |]; [| reflexivity].
      specialize (Hsq sq eq_refl). now replace (sq >? 0) with true by lia. }
    rewrite Hs, Hlv, Htb. cbn [bind]. rewrite Hnb. cbn [orb].
    destruct (Py.is_str add_insolation) eqn:Es; cbn [assert bind]; [| reflexivity].
    now rewrite Hns.
Qed.

(** What the constructor builds before it loads anything, and by which
    steps the instance that it returns comes from it. *)
Lemma __init___steps (shuffle : list Z -> list Z) (m : Model val) (d : xr.Dataset val)
    (rank_ : Z) (input_sel output_sel : xr.selection) (its ots : Z)
    (sequence : option Z) (interval : Z) (add_insolation : Py.value) (batch_size : Z)
    (shuffle_ remove_nan : bool) (load_ : Py.value) (force_load : bool) (g : t val) :
  __init__ shuffle m d rank_ input_sel output_sel its ots sequence interval
           add_insolation batch_size shuffle_ remove_nan load_ force_load = Ok g ->
  exists (ai : Py.value) (g0 g1 : t val),
    (Py.is_str ai = true -> Py.in_strs ai ["hourly"; "daily"] = true)
    /\ _add_insolation g0 = (if Py.is_str ai then 1 else if Py.truthy ai then 1 else 0)
    /\ _daily_insolation g0 = Py.eq_str ai "daily"
    /\ ds g0 = d /\ rank g0 = rank_ /\ 0 < rank_
    /\ _is_convolutional g0 = is_convolutional m
    /\ _keep_time_axis g0 = is_recurrent m
    /\ _impute_missing g0 = impute m
    /\ insolation_da g0 = None /\ _is_loaded g0 = false
    /\ (if force_load then _load_data g0 else Ok g0) = Ok g1
    /\ (if negb (_add_insolation g1 =? 0) then
          let sol := insolation (ds g1) (da g1) (_daily_insolation g1) in
          Py.len (np.shape sol) = 1 + rank_
          /\ g = set_insolation_da (Some sol) (on_epoch_end shuffle g1)
        else g = on_epoch_end shuffle g1).
Proof.
  unfold __init__. intros Hi.
  apply bind_Ok_inv in Hi. destruct Hi as (_ & _ & Hi).
  apply bind_Ok_inv in Hi. destruct Hi as (? & Hrank & Hi). apply assert_Ok_inv in Hrank.
  do 4 (apply bind_Ok_inv in Hi; destruct Hi as (? & _ & Hi)).
  apply bind_Ok_inv in Hi. destruct Hi as (? & _ & Hi).
  apply bind_Ok_inv in Hi. destruct Hi as (lv & _ & Hi).
  apply bind_Ok_inv in Hi. destruct Hi as (ai & _ & Hi).
  apply bind_Ok_inv in Hi. destruct Hi as (? & _ & Hi).
  apply bind_Ok_inv in Hi. destruct Hi as (? & Hstr & Hi).
  apply bind_Ok_inv in Hi. destruct Hi as (total & _ & Hi).
  apply bind_Ok_inv in Hi. destruct Hi as (isel & _ & Hi).
  apply bind_Ok_inv in Hi. destruct Hi as (osel & _ & Hi).
  apply bind_Ok_inv in Hi. destruct Hi as (i & _ & Hi).
  apply bind_Ok_inv in Hi. destruct Hi as (o & _ & Hi).
  apply bind_Ok_inv in Hi. destruct Hi as (g1 & Hload & Hi).
  match type of Hload with
  | (if _ then _ ?g0 else _) = _ => exists ai, g0, g1
  end.
  cbn [_add_insolation _daily_insolation ds rank _is_convolutional _keep_time_axis
       _impute_missing insolation_da _is_loaded].
  split.
  { intros Hs. rewrite Hs in Hstr. now apply assert_Ok_inv in Hstr. }
  do 6 (split; [reflexivity || lia |]).
  do 4 (split; [reflexivity |]).
  split; [exact Hload |].
  assert (Hr : rank (on_epoch_end shuffle g1) = rank_).
  { destruct (on_epoch_end_frame shuffle g1) as (Hfe & _).
    unfold unloaded_part in Hfe. cbn in Hfe.
    injection Hfe as _ _ _ _ _ _ _ _ _ _ Hx _ _ _ _ _ _ _ _ _.
    rewrite Hx. destruct force_load.
    - destruct (_load_data_frame _ _ Hload) as (Hfr & _).
      unfold unloaded_part in Hfr. cbn in Hfr.
      now injection Hfr as _ _ _ _ _ _ _ _ _ _ _ Hy _ _ _ _ _ _ _ _ _.
    - now injection Hload as <-. }
  assert (Hsame : _add_insolation (on_epoch_end shuffle g1) = _add_insolation g1
                  /\ ds (on_epoch_end shuffle g1) = ds g1
                  /\ da (on_epoch_end shuffle g1) = da g1
                  /\ _daily_insolation (on_epoch_end shuffle g1) = _daily_insolation g1).
  { unfold on_epoch_end. destruct g1; cbn. destruct _shuffle0; repeat split. }
  destruct Hsame as (Ha & Hds & Hda & Hdaily).
  rewrite Ha, Hds, Hda, Hdaily, Hr in Hi.
  destruct (negb (_add_insolation g1 =? 0)).
  - cbv zeta. inv_result Hi. subst g.
    rewrite len_range, Z.max_r in E by lia. split; [lia | reflexivity].
  - now injection Hi as <-.
Qed.

End Constructor.

Section Constructor2.
Context {val : Type} `{Backend val}.
Import SeriesDataGenerator.

(** X5. What a constructed [SeriesDataGenerator] holds: the dataset it was
    given and the model's three flags; [_is_loaded] exactly when
    [force_load] was asked; and either no insolation ([_add_insolation] 0,
    the daily flag off, no [insolation_da]) or insolation
    ([_add_insolation] 1) together with the array [insolation_da], computed
    by [insolation] for the generator's own samples and daily flag, with one
    sample axis and [rank] spatial axes. So [generate] never finds
    [insolation_da] missing on a constructed generator. *)
Theorem init_establishes (shuffle : list Z -> list Z) (m : Model val)
    (d : xr.Dataset val) (rank_ : Z) (input_sel output_sel : xr.selection)
    (its ots : Z) (sequence : option Z) (interval : Z) (add_insolation : Py.value)
    (batch_size : Z) (shuffle_ remove_nan : bool) (load_ : Py.value)
    (force_load : bool) (g : t val) :
  __init__ shuffle m d rank_ input_sel output_sel its ots sequence interval
           add_insolation batch_size shuffle_ remove_nan load_ force_load = Ok g ->
  ds g = d
  /\ _is_convolutional g = is_convolutional m
  /\ _keep_time_axis g = is_recurrent m
  /\ _impute_missing g = impute m
  /\ _is_loaded g = force_load
  /\ ((_add_insolation g = 0 /\ _daily_insolation g = false /\ insolation_da g = None)
      \/ (_add_insolation g = 1
          /\ exists sol, insolation_da g = Some sol
                         /\ sol = insolation d (da g) (_daily_insolation g)
                         /\ Py.len (np.shape sol) = 1 + rank_)).
Proof.
  intros Hi. apply __init___steps in Hi.
  destruct Hi as (ai & g0 & g1 & Hstr & Hadd & Hdaily & Hds & Hrank & Hpos & Hconv & Hkeep
                  & Himp & Hsol & Hld & Hload & Hg).
  assert (Hfr : unloaded_part g1 = unloaded_part g0 /\ _is_loaded g1 = force_load).
  { destruct force_load.
    - now apply _load_data_frame.
    - injection Hload as <-. now split. }
  destruct Hfr as (Hfr & Hl1).
  unfold unloaded_part in Hfr.
  injection Hfr as _ Hds1 _ _ _ Hconv1 Hkeep1 Himp1 _ _ _ _ _ _ _ _ _ Hadd1 Hdaily1 _ Hsol1.
  set (g2 := on_epoch_end shuffle g1) in *.
  assert (H2 : ds g2 = ds g1 /\ _is_convolutional g2 = _is_convolutional g1
               /\ _keep_time_axis g2 = _keep_time_axis g1
               /\ _impute_missing g2 = _impute_missing g1
               /\ _is_loaded g2 = _is_loaded g1
               /\ _add_insolation g2 = _add_insolation g1
               /\ _daily_insolation g2 = _daily_insolation g1
               /\ insolation_da g2 = insolation_da g1
               /\ da g2 = da g1).
  { subst g2. unfold on_epoch_end. destruct g1; cbn. destruct _shuffle0; repeat split. }
  destruct H2 as (A1 & A2 & A3 & A4 & A5 & A6 & A7 & A8 & A9).
  destruct (negb (_add_insolation g1 =? 0)) eqn:Ei.
  - cbv zeta in Hg. destruct Hg as (Hlen & ->).
    assert (Hsame : forall a, ds (set_insolation_da a g2) = ds g2
                    /\ _is_convolutional (set_insolation_da a g2) = _is_convolutional g2
                    /\ _keep_time_axis (set_insolation_da a g2) = _keep_time_axis g2
                    /\ _impute_missing (set_insolation_da a g2) = _impute_missing g2
                    /\ _is_loaded (set_insolation_da a g2) = _is_loaded g2
                    /\ _add_insolation (set_insolation_da a g2) = _add_insolation g2
                    /\ _daily_insolation (set_insolation_da a g2) = _daily_insolation g2
                    /\ da (set_insolation_da a g2) = da g2
                    /\ insolation_da (set_insolation_da a g2) = a).
    { intros a. destruct g2; repeat split. }
    match goal with
    | |- context [set_insolation_da ?a g2] =>
        destruct (Hsame a) as (B1 & B2 & B3 & B4 & B5 & B6 & B7 & B8 & B9)
    end.
    rewrite B1, B2, B3, B4, B5, B6, B7, B8, B9, A1, A2, A3, A4, A5, A6, A7, A9.
    do 5 (split; [congruence |]). right.
    split.
    { rewrite Hadd1, Hadd in *.
      destruct (Py.is_str ai); [reflexivity |].
      destruct (Py.truthy ai); [reflexivity | discriminate Ei]. }
    eexists. split; [reflexivity |]. split; [congruence | exact Hlen].
  - subst g. rewrite A1, A2, A3, A4, A5, A6, A7, A8.
    do 5 (split; [congruence |]). left.
    apply negb_false_iff, Z.eqb_eq in Ei. split; [exact Ei |].
    split; [| congruence].
    rewrite Hdaily1, Hdaily. rewrite Hadd1, Hadd in Ei.
    destruct ai; try reflexivity. discriminate Ei.
Qed.

End Constructor2.

Section Loading.
Context {val : Type} `{Backend val}.
Import SeriesDataGenerator.

Lemma getitem_contains {V : Type} (dct : list (string * V)) (k : string) (v : V) :
  Py.getitem dct k = Ok v -> Py.contains dct k = true.
Proof.
  unfold Py.contains. induction dct as [| (k', v') dct IH]; simpl; [discriminate |].
  destruct (String.eqb k' k); [reflexivity |]. exact IH.
Qed.

Lemma contains_getitem {V : Type} (dct : list (string * V)) (k : string) :
  Py.contains dct k = false -> Py.getitem dct k = Raise KeyError.
Proof.
  unfold Py.contains. induction dct as [| (k', v') dct IH]; simpl; [reflexivity |].
  destruct (String.eqb k' k); [discriminate |]. exact IH.
Qed.

Lemma contains_getitem_Ok {V : Type} (dct : list (string * V)) (k : string) :
  Py.contains dct k = true -> exists v, Py.getitem dct k = Ok v.
Proof.
  unfold Py.contains. induction dct as [| (k', v') dct IH]; simpl; [discriminate |].
  destruct (String.eqb k' k); [now exists v' |]. exact IH.
Qed.

(** X6. What [_load_data] loads into memory, by the value of [load]: with
    ['full'] the dataset and nothing else, with ['required'] the input
    view and then the output view, with ['minimal'] the one data array,
    with any other value nothing; whenever it returns, [_is_loaded] is set
    and the configuration is untouched. With ['minimal'] it raises
    [NotImplementedError] when the input selection has no key ['varlev'],
    and [KeyError] when the input selection has it and the output
    selection has not. *)
Theorem _load_data_by_mode (g : t val) :
  (forall g', _load_data g = Ok g' ->
     _is_loaded g' = true
     /\ unloaded_part g' = unloaded_part g
     /\ in_memory g'
        = (if Py.eq_str (_load g) "full" then [Load_ds]
           else if Py.eq_str (_load g) "minimal" then [Load_da]
           else if Py.eq_str (_load g) "required" then [Load_output_da; Load_input_da]
           else []) ++ in_memory g)
  /\ (Py.eq_str (_load g) "minimal" = true ->
      Py.contains (_input_sel g) "varlev" = false ->
      _load_data g = Raise NotImplementedError)
  /\ (Py.eq_str (_load g) "minimal" = true ->
      Py.contains (_input_sel g) "varlev" = true ->
      Py.contains (_output_sel g) "varlev" = false ->
      _load_data g = Raise KeyError).
Proof.
  assert (Hmodes : forall s s', s <> s' -> Py.eq_str (_load g) s = true ->
                                Py.eq_str (_load g) s' = false).
  { intros s s' Hs. destruct (_load g) as [| b | z | l]; try discriminate. simpl.
    intros Hl. apply String.eqb_eq in Hl. subst l. now apply String.eqb_neq. }
  split; [| split].
  - intros g' Hl. destruct (_load_data_frame _ _ Hl) as (Hfr & Hld).
    split; [exact Hld |]. split; [exact Hfr |].
    clear Hfr Hld. unfold _load_data, load in Hl.
    destruct (Py.eq_str (_load g) "full") eqn:Efull.
    + assert (Emin : Py.eq_str (_load g) "minimal" = false)
        by (apply (Hmodes "full"); [discriminate | exact Efull]).
      assert (Ereq : Py.eq_str (_load g) "required" = false)
        by (apply (Hmodes "full"); [discriminate | exact Efull]).
      clear Hmodes. destruct g; cbn in *.
      rewrite Emin in Hl. inv_result Hl. rewrite Ereq in *. subst. reflexivity.
    + destruct (Py.eq_str (_load g) "minimal") eqn:Emin.
      * clear Hmodes. destruct g; cbn in *. inv_result Hl; subst; reflexivity.
      * clear Hmodes. destruct g; cbn in *. inv_result Hl.
        destruct (Py.eq_str _load0 "required"); subst; reflexivity.
  - intros Emin Hc. unfold _load_data.
    assert (Efull : Py.eq_str (_load g) "full" = false)
      by (apply (Hmodes "minimal"); [discriminate | exact Emin]).
    rewrite Efull, Emin, Hc. reflexivity.
  - intros Emin Hc Hco. unfold _load_data.
    assert (Efull : Py.eq_str (_load g) "full" = false)
      by (apply (Hmodes "minimal"); [discriminate | exact Emin]).
    rewrite Efull, Emin, Hc. rewrite (contains_getitem _ _ Hco).
    destruct (contains_getitem_Ok _ _ Hc) as (vin & ->). reflexivity.
Qed.

End Loading.

Section Minimal.
Context {val : Type} `{Backend val}.
Import SeriesDataGenerator.

Lemma label_in_In (s : string) (l : list string) : label_in s l = true <-> In s l.
Proof.
  unfold label_in. rewrite existsb_exists. split.
  - intros (x & Hx & He). apply String.eqb_eq in He. now subst.
  - intros Hs. exists s. split; [exact Hs | apply String.eqb_refl].
Qed.

Lemma label_in_false (s : string) (l : list string) : label_in s l = false <-> ~ In s l.
Proof.
  rewrite <- label_in_In. destruct (label_in s l); split; congruence.
Qed.

Lemma filter_split_Permutation {A : Type} (f : A -> bool) (l : list A) :
  Permutation (filter f l ++ filter (fun a => negb (f a)) l) l.
Proof.
  induction l as [| a l IH]; simpl; [constructor |].
  destruct (f a); simpl.
  - now constructor.
  - rewrite <- Permutation_middle. now constructor.
Qed.

Lemma filter_nil_all {A : Type} (f : A -> bool) (l : list A) :
  filter f l = [] -> forall a, In a l -> f a = false.
Proof.
  induction l as [| b l IH]; simpl; [contradiction |].
  destruct (f b) eqn:E; [discriminate |].
  intros Hl a [<- | Ha]; [exact E | now apply IH].
Qed.

Lemma filter_all {A : Type} (f : A -> bool) (l : list A) :
  (forall a, In a l -> f a = true) -> filter f l = l.
Proof.
  induction l as [| b l IH]; simpl; [reflexivity |].
  intros Hl. rewrite (Hl b) by now left. f_equal. apply IH.
  intros a Ha. apply Hl. now right.
Qed.

Lemma len_pos_or_nil {A : Type} (l : list A) : (Py.len l >? 0) = false -> l = [].
Proof.
  destruct l as [| a l]; [reflexivity |]. unfold Py.len. intros Hl.
  rewrite Z.gtb_ltb in Hl. apply Z.ltb_ge in Hl. cbn [length] in Hl. lia.
Qed.

(** The order of labels that ['minimal'] loading gives to the data array,
    and the two slice ends. *)
Lemma minimal_order (vin vout : list string) :
  let union := filter (fun s => label_in s vout) vin in
  let added_in := filter (fun s => negb (label_in s union)) vin in
  let added_out := filter (fun s => negb (label_in s union)) vout in
  ((Py.len added_in >? 0) && (Py.len added_out >? 0) = false) ->
  let labels := union ++ added_in ++ added_out in
  Permutation (firstn (Z.to_nat (Py.len union + Py.len added_in)) labels) vin
  /\ (NoDup vin -> NoDup vout ->
      Permutation (firstn (Z.to_nat (Py.len union + Py.len added_out)) labels) vout).
Proof.
  intros union added_in added_out Hone labels.
  assert (Hin : added_in = filter (fun s => negb (label_in s vout)) vin).
  { unfold added_in. apply filter_ext_in. intros s Hs. f_equal.
    destruct (label_in s vout) eqn:E.
    - apply label_in_In. unfold union. apply filter_In. now split.
    - apply label_in_false. unfold union. rewrite filter_In.
      intros (_ & Hc). congruence. }
  assert (Hout : added_out = filter (fun s => negb (label_in s vin)) vout).
  { unfold added_out. apply filter_ext_in. intros s Hs. f_equal.
    destruct (label_in s vin) eqn:E.
    - apply label_in_In. unfold union. apply filter_In.
      split; [now apply label_in_In | now apply label_in_In].
    - apply label_in_false. unfold union. rewrite filter_In.
      intros (Hc & _). apply label_in_In in Hc. congruence. }
  split.
  - unfold labels. rewrite app_assoc.
    replace (Z.to_nat (Py.len union + Py.len added_in))
      with (length (union ++ added_in) + 0)%nat
      by (rewrite length_app; unfold Py.len; lia).
    rewrite firstn_app_2. cbn [firstn]. rewrite app_nil_r.
    rewrite Hin. apply filter_split_Permutation.
  - intros Nin Nout. apply andb_false_iff in Hone.
    destruct Hone as [Hone | Hone]; apply len_pos_or_nil in Hone.
    + (* no extra input label: the inputs are the union, in their order *)
      assert (Hsub : forall s, In s vin -> In s vout).
      { intros s Hs. rewrite Hin in Hone.
        pose proof (filter_nil_all _ _ Hone s Hs) as Hf.
        apply negb_false_iff in Hf. now apply label_in_In. }
      assert (Hu : union = vin).
      { unfold union. apply filter_all. intros s Hs. apply label_in_In. now apply Hsub. }
      unfold labels. rewrite Hone. cbn [app].
      replace (Z.to_nat (Py.len union + Py.len added_out))
        with (length (union ++ added_out)) by (rewrite length_app; unfold Py.len; lia).
      rewrite firstn_all. rewrite Hu, Hout.
      apply NoDup_Permutation.
      * apply NoDup_app; [exact Nin | now apply NoDup_filter |].
        intros s Hs Hf. apply filter_In in Hf. destruct Hf as (_ & Hf).
        apply negb_true_iff, label_in_false in Hf. contradiction.
      * exact Nout.
      * intros s. rewrite in_app_iff, filter_In. split.
        -- intros [Hs | (Hs & _)]; [now apply Hsub | exact Hs].
        -- intros Hs. destruct (label_in s vin) eqn:E.
           ++ left. now apply label_in_In.
           ++ right. now split.
    + (* no extra output label: the outputs are the union *)
      assert (Hsub : forall s, In s vout -> In s vin).
      { intros s Hs. rewrite Hout in Hone.
        pose proof (filter_nil_all _ _ Hone s Hs) as Hf.
        apply negb_false_iff in Hf. now apply label_in_In. }
      unfold labels. rewrite Hone, app_nil_r.
      replace (Z.to_nat (Py.len union + Py.len (@nil string)))
        with (length union + 0)%nat by (unfold Py.len; simpl; lia).
      rewrite firstn_app_2. cbn [firstn]. rewrite app_nil_r.
      apply NoDup_Permutation.
      * unfold union. now apply NoDup_filter.
      * exact Nout.
      * intros s. unfold union. rewrite filter_In, label_in_In. split.
        -- now intros (_ & Hs).
        -- intros Hs. split; [now apply Hsub | exact Hs].
Qed.

(** X7. ['minimal'] loading, for selections by ['varlev']. When both
    selections have a label that the other lacks, the data array is loaded
    as it is and the two views are selected by label. Otherwise the data
    array is re-selected in one order of labels [labels] and loaded, and
    the views are the slices [0:kin] and [0:kout] of it along ['varlev']:
    the first [kin] labels are the input selection up to order, and,
    for selections without repeated labels, the first [kout] labels are
    the output selection up to order. *)
Theorem _load_data_minimal_views (g g' : t val) (vin vout : list string) :
  Py.eq_str (_load g) "minimal" = true ->
  Py.getitem (_input_sel g) "varlev" = Ok vin ->
  Py.getitem (_output_sel g) "varlev" = Ok vout ->
  _load_data g = Ok g' ->
  (da g' = da g
   /\ sel (da g) (_input_sel g) = Ok (input_da g')
   /\ sel (da g) (_output_sel g) = Ok (output_da g')
   /\ (exists s, In s vin /\ ~ In s vout) /\ (exists s, In s vout /\ ~ In s vin))
  \/ (exists (labels : list string) (kin kout : Z),
         sel (da g) [("varlev", labels)] = Ok (da g')
         /\ input_da g' = isel_varlev (da g') 0 kin
         /\ output_da g' = isel_varlev (da g') 0 kout
         /\ Permutation (firstn (Z.to_nat kin) labels) vin
         /\ (NoDup vin -> NoDup vout -> Permutation (firstn (Z.to_nat kout) labels) vout)).
Proof.
  intros Emin Hvin Hvout Hl.
  assert (Efull : Py.eq_str (_load g) "full" = false).
  { destruct (_load g) as [| b | z | l]; try discriminate. simpl in *.
    apply String.eqb_eq in Emin. now subst l. }
  unfold _load_data, load in Hl. rewrite Efull, Emin in Hl.
  rewrite (getitem_contains _ _ _ Hvin), Hvin, Hvout in Hl. cbn [bind] in Hl.
  set (union := filter (fun s => label_in s vout) vin) in *.
  set (added_in := filter (fun s => negb (label_in s union)) vin) in *.
  set (added_out := filter (fun s => negb (label_in s union)) vout) in *.
  destruct ((Py.len added_in >? 0) && (Py.len added_out >? 0)) eqn:Eboth.
  - left. apply bind_Ok_inv in Hl. destruct Hl as (g1 & Hl & Hg'). injection Hg' as <-.
    apply bind_Ok_inv in Hl. destruct Hl as (i & Hi & Hl).
    apply bind_Ok_inv in Hl. destruct Hl as (o & Ho & Hl). injection Hl as <-.
    replace (da (set_in_memory (Load_da :: in_memory g) g)) with (da g) in Hi
      by (now destruct g).
    assert (Hda : forall a b, da (set_input_da a (set_in_memory b g)) = da g
                              /\ _output_sel (set_input_da a (set_in_memory b g))
                                 = _output_sel g
                              /\ _input_sel (set_in_memory b g) = _input_sel g)
      by (intros a b; now destruct g).
    destruct (Hda i (Load_da :: in_memory g)) as (Hd1 & Hd2 & Hd3).
    rewrite Hd1, Hd2 in Ho. rewrite Hd3 in Hi.
    split; [now destruct g |]. split; [rewrite Hi; now destruct g |].
    split; [rewrite Ho; now destruct g |].
    apply andb_prop in Eboth. destruct Eboth as (E1 & E2).
    split.
    + destruct added_in as [| s l] eqn:Ea; [discriminate E1 |].
      assert (Hs : In s added_in) by (rewrite Ea; now left).
      unfold added_in in Hs. apply filter_In in Hs. destruct Hs as (Hs & Hn).
      exists s. split; [exact Hs |].
      apply negb_true_iff, label_in_false in Hn. intros Hc. apply Hn.
      unfold union. apply filter_In. split; [exact Hs | now apply label_in_In].
    + destruct added_out as [| s l] eqn:Ea; [discriminate E2 |].
      assert (Hs : In s added_out) by (rewrite Ea; now left).
      unfold added_out in Hs. apply filter_In in Hs. destruct Hs as (Hs & Hn).
      exists s. split; [exact Hs |].
      apply negb_true_iff, label_in_false in Hn. intros Hc. apply Hn.
      unfold union. apply filter_In. split; [exact Hc | now apply label_in_In].
  - right. apply bind_Ok_inv in Hl. destruct Hl as (g1 & Hl & Hg'). injection Hg' as <-.
    apply bind_Ok_inv in Hl. destruct Hl as (dd & Hd & Hl). injection Hl as <-.
    exists (union ++ added_in ++ added_out),
      (Py.len union + Py.len added_in), (Py.len union + Py.len added_out).
    destruct (minimal_order vin vout Eboth) as (Pin & Pout).
    split; [rewrite Hd; now destruct g |].
    split; [now destruct g |]. split; [now destruct g |].
    split; [exact Pin | exact Pout].
Qed.

End Minimal.

(** ** The arithmetic of the layouts *)

Lemma size_of_app (a b : list Z) : np.size_of (a ++ b) = np.size_of a * np.size_of b.
Proof.
  unfold np.size_of. induction a as [| d a IH]; simpl.
  - now destruct (fold_right Z.mul 1 b).
  - rewrite IH. lia.
Qed.

Lemma size_of_pos (l : list Z) : Forall (fun d => 0 < d) l -> 1 <= np.size_of l.
Proof.
  unfold np.size_of. induction 1 as [| d l Hd _ IH]; simpl; [lia | nia].
Qed.

Lemma wrap64_small (z : Z) : 0 <= z < 2 ^ 63 -> np.wrap64 z = z.
Proof.
  intros Hz. unfold np.wrap64. rewrite Z.mod_small by lia. lia.
Qed.

(** The product of a part of a shape with positive dimensions does not
    overflow when the product of the whole does not. *)
Lemma prod_part (a b c : list Z) :
  Forall (fun d => 0 < d) (a ++ b ++ c) -> np.size_of (a ++ b ++ c) < 2 ^ 63 ->
  np.prod b = np.size_of b.
Proof.
  intros Hpos Hsz. apply Forall_app in Hpos. destruct Hpos as (Ha & Hbc).
  apply Forall_app in Hbc. destruct Hbc as (Hb & Hc).
  rewrite !size_of_app in Hsz.
  pose proof (size_of_pos _ Ha). pose proof (size_of_pos _ Hb).
  pose proof (size_of_pos _ Hc).
  unfold np.prod. fold (np.size_of b). apply wrap64_small. nia.
Qed.

(** The three slices that the shape properties take, for a number [r] of
    trailing axes. *)
Lemma slice_last {A : Type} (r : Z) (l : list A) :
  0 < r <= Py.len l ->
  Py.slice (Some (- r)) None l = skipn (Z.to_nat (Py.len l - r)) l.
Proof.
  intros Hr. unfold Py.slice, Py.clamp.
  replace (- r <? 0) with true by lia.
  rewrite Z.max_r by lia.
  replace (Py.len l - (- r + Py.len l)) with r by lia.
  replace (- r + Py.len l) with (Py.len l - r) by lia.
  apply firstn_all2. rewrite length_skipn. unfold Py.len in *. lia.
Qed.

Lemma slice_front {A : Type} (r : Z) (l : list A) :
  0 < r <= Py.len l ->
  Py.slice None (Some (- r)) l = firstn (Z.to_nat (Py.len l - r)) l.
Proof.
  intros Hr. unfold Py.slice, Py.clamp.
  replace (- r <? 0) with true by lia.
  rewrite Z.max_r by lia. cbn [Z.to_nat skipn].
  f_equal. lia.
Qed.

Lemma slice_middle {A : Type} (r : Z) (x : A) (l : list A) :
  0 < r <= Py.len l ->
  Py.slice (Some 1) (Some (- r)) (x :: l) = firstn (Z.to_nat (Py.len l - r)) l.
Proof.
  intros Hr. unfold Py.slice, Py.clamp.
  replace (- r <? 0) with true by lia.
  change (1 <? 0) with false. cbv iota.
  assert (Hl : Py.len (x :: l) = Py.len l + 1) by (unfold Py.len; simpl length; lia).
  rewrite Hl. rewrite Z.max_r by lia. rewrite Z.min_l by (pose proof (len_nonneg l); lia).
  change (Z.to_nat 1) with 1%nat. cbn [skipn]. f_equal. lia.
Qed.

(** A shape [t0 :: s] with [r] trailing spatial axes: what the slices are,
    and that no product overflows. *)
Lemma layout (t0 d0 r : Z) (s : list Z) :
  0 < r <= Py.len s ->
  Forall (fun d => 0 < d) (t0 :: s) ->
  np.size_of (t0 :: s) < 2 ^ 63 ->
  let mid := firstn (Z.to_nat (Py.len s - r)) s in
  let spatial := skipn (Z.to_nat (Py.len s - r)) s in
  Py.slice (Some (- r)) None (t0 :: s) = spatial
  /\ Py.slice (Some (- r)) None (d0 :: s) = spatial
  /\ np.prod (Py.slice (Some 1) (Some (- r)) (t0 :: s)) = np.size_of mid
  /\ np.prod (Py.slice None (Some (- r)) (t0 :: s)) = t0 * np.size_of mid
  /\ np.prod spatial = np.size_of spatial
  /\ np.prod (t0 :: s) = t0 * np.size_of mid * np.size_of spatial
  /\ 0 < t0 /\ 1 <= np.size_of mid /\ 1 <= np.size_of spatial.
Proof.
  intros Hr Hpos Hsz mid spatial.
  assert (Hs : s = mid ++ spatial) by (symmetry; apply firstn_skipn).
  assert (Hlen : forall x : Z, Py.len (x :: s) = Py.len s + 1)
    by (intros x; unfold Py.len; simpl length; lia).
  assert (Hlast : forall x : Z, Py.slice (Some (- r)) None (x :: s) = spatial).
  { intros x. rewrite slice_last by (rewrite Hlen; lia). rewrite Hlen.
    replace (Z.to_nat (Py.len s + 1 - r)) with (S (Z.to_nat (Py.len s - r))) by lia.
    reflexivity. }
  assert (Hfront : Py.slice None (Some (- r)) (t0 :: s) = t0 :: mid).
  { rewrite slice_front by (rewrite Hlen; lia). rewrite Hlen.
    replace (Z.to_nat (Py.len s + 1 - r)) with (S (Z.to_nat (Py.len s - r))) by lia.
    reflexivity. }
  rewrite !Hlast, Hfront, slice_middle by assumption. fold mid.
  assert (Hpos' : Forall (fun d => 0 < d) ([t0] ++ mid ++ spatial)) by (now rewrite <- Hs).
  assert (Hsz' : np.size_of ([t0] ++ mid ++ spatial) < 2 ^ 63) by (now rewrite <- Hs).
  pose proof Hpos' as Hp. apply Forall_app in Hp. destruct Hp as (Ht0 & Hp).
  apply Forall_app in Hp. destruct Hp as (Hmid & Hsp).
  pose proof (size_of_pos _ Hmid) as Pmid. pose proof (size_of_pos _ Hsp) as Psp.
  apply Forall_inv in Ht0.
  split; [reflexivity |]. split; [reflexivity |].
  split; [apply (prod_part [t0] mid spatial); assumption |].
  assert (Hcons : forall x l, np.size_of (x :: l) = x * np.size_of l) by reflexivity.
  split.
  { rewrite (prod_part [] (t0 :: mid) spatial); [apply Hcons | exact Hpos' | exact Hsz']. }
  split.
  { apply (prod_part (t0 :: mid) spatial []); rewrite app_nil_r; assumption. }
  split.
  { rewrite (prod_part [] (t0 :: s) []).
    - rewrite Hcons, Hs, size_of_app. lia.
    - cbn [app]. rewrite app_nil_r. exact Hpos.
    - cbn [app]. rewrite app_nil_r. exact Hsz. }
  repeat split; assumption.
Qed.

Lemma shape_cons {A : Type} (l : list A) : 1 <= Py.len l -> exists x, l = x :: tl l.
Proof.
  destruct l as [| x l]; [unfold Py.len; simpl; lia | now exists x].
Qed.

Lemma len_tl {A : Type} (l : list A) : 1 <= Py.len l -> Py.len (tl l) = Py.len l - 1.
Proof.
  destruct l as [| x l]; unfold Py.len; simpl length; lia.
Qed.

Lemma div_exact (a b : Z) : 0 < a -> (a * b) / a = b.
Proof. intros Ha. rewrite Z.mul_comm. apply Z.div_mul. lia. Qed.

Section Layouts.
Context {val : Type} `{Backend val}.
Import SeriesDataGenerator.

(** The input layouts of a generator whose input array has at least
    [rank] axes after the sample axis, all of positive length, and whose
    feature count is within 64 bits. *)
Lemma input_layouts (g : t val) :
  0 < rank g <= Py.len (np.shape (input_da g)) - 1 ->
  Forall (fun d => 0 < d) (shape g) ->
  np.size_of (shape g) < 2 ^ 63 ->
  exists mid spatial,
    shape g = _input_time_steps g :: mid ++ spatial
    /\ Forall (fun d => 0 < d) spatial
    /\ 0 < _input_time_steps g /\ 1 <= np.size_of mid /\ 1 <= np.size_of spatial
    /\ np.size_of (shape g) = _input_time_steps g * (np.size_of mid * np.size_of spatial)
    /\ n_features g
       = _input_time_steps g
         * (np.size_of mid * np.size_of spatial + np.size_of spatial * _add_insolation g)
    /\ convolution_shape g
       = (if _keep_time_axis g
          then _input_time_steps g :: np.size_of mid + _add_insolation g :: spatial
          else _input_time_steps g * np.size_of mid
               + _input_time_steps g * _add_insolation g :: spatial)
    /\ dense_shape g
       = Ok (if _keep_time_axis g
             then [_input_time_steps g; n_features g / _input_time_steps g]
             else [n_features g])
    /\ Py.slice (Some (- rank g)) None (shape g) = spatial
    /\ Py.slice (Some (- rank g)) None (np.shape (input_da g)) = spatial
    /\ np.prod (Py.slice (Some 1) (Some (- rank g)) (shape g)) = np.size_of mid
    /\ np.prod (Py.slice None (Some (- rank g)) (shape g))
       = _input_time_steps g * np.size_of mid
    /\ Py.len spatial = rank g.
Proof.
  intros Hr Hpos Hsz.
  assert (Hcons : forall x l, np.size_of (x :: l) = x * np.size_of l) by reflexivity.
  destruct (shape_cons (np.shape (input_da g)) ltac:(lia)) as (d0 & Hd0).
  set (s := tl (np.shape (input_da g))) in *.
  assert (Hshape : shape g = _input_time_steps g :: s).
  { unfold shape. now rewrite slice_from_1. }
  assert (Hrs : 0 < rank g <= Py.len s).
  { unfold s. rewrite len_tl by lia. lia. }
  rewrite Hshape in Hpos, Hsz.
  destruct (layout (_input_time_steps g) d0 (rank g) s Hrs Hpos Hsz)
    as (L1 & L2 & L3 & L4 & L5 & L6 & Pt & Pm & Ps).
  set (mid := firstn (Z.to_nat (Py.len s - rank g)) s) in *.
  set (spatial := skipn (Z.to_nat (Py.len s - rank g)) s) in *.
  assert (Hs : s = mid ++ spatial) by (symmetry; apply firstn_skipn).
  exists mid, spatial.
  split; [now rewrite Hshape, <- Hs |].
  split.
  { apply Forall_inv_tail in Hpos. rewrite Hs in Hpos. now apply Forall_app in Hpos. }
  do 3 (split; [assumption |]).
  split; [rewrite Hshape, Hcons, Hs, size_of_app; lia |].
  assert (Hnf : n_features g
                = _input_time_steps g
                  * (np.size_of mid * np.size_of spatial
                     + np.size_of spatial * _add_insolation g)).
  { unfold n_features. rewrite Hshape, L1, L5, L6. lia. }
  split; [exact Hnf |]. split; [| split].
  - unfold convolution_shape. rewrite Hshape, Hd0, L1, L2, L3, L4.
    destruct (_keep_time_axis g); reflexivity.
  - unfold dense_shape. destruct (_keep_time_axis g); [| reflexivity].
    rewrite Hshape. cbn [np.item nth_error bind]. unfold Py.floordiv.
    destruct (_input_time_steps g =? 0) eqn:E; [lia | reflexivity].
  - rewrite Hshape, Hd0, L1, L2, L3, L4. repeat split.
    unfold spatial, Py.len. rewrite length_skipn. unfold Py.len in Hrs. lia.
Qed.

(** The same for the output side. *)
Lemma output_layouts (g : t val) :
  0 < rank g <= Py.len (np.shape (output_da g)) - 1 ->
  Forall (fun d => 0 < d) (output_shape g) ->
  np.size_of (output_shape g) < 2 ^ 63 ->
  exists mid spatial,
    output_shape g = _output_time_steps g :: mid ++ spatial
    /\ Forall (fun d => 0 < d) spatial
    /\ 0 < _output_time_steps g /\ 1 <= np.size_of mid /\ 1 <= np.size_of spatial
    /\ output_n_features g
       = _output_time_steps g * (np.size_of mid * np.size_of spatial)
    /\ output_convolution_shape g
       = (if _keep_time_axis g
          then _output_time_steps g :: np.size_of mid :: spatial
          else _output_time_steps g * np.size_of mid :: spatial)
    /\ output_dense_shape g
       = Ok (if _keep_time_axis g
             then [_output_time_steps g; output_n_features g / _output_time_steps g]
             else [output_n_features g]).
Proof.
  intros Hr Hpos Hsz.
  assert (Hcons : forall x l, np.size_of (x :: l) = x * np.size_of l) by reflexivity.
  destruct (shape_cons (np.shape (output_da g)) ltac:(lia)) as (d0 & Hd0).
  set (s := tl (np.shape (output_da g))) in *.
  assert (Hshape : output_shape g = _output_time_steps g :: s).
  { unfold output_shape. now rewrite slice_from_1. }
  assert (Hrs : 0 < rank g <= Py.len s).
  { unfold s. rewrite len_tl by lia. lia. }
  rewrite Hshape in Hpos, Hsz.
  destruct (layout (_output_time_steps g) d0 (rank g) s Hrs Hpos Hsz)
    as (L1 & L2 & L3 & L4 & L5 & L6 & Pt & Pm & Ps).
  set (mid := firstn (Z.to_nat (Py.len s - rank g)) s) in *.
  set (spatial := skipn (Z.to_nat (Py.len s - rank g)) s) in *.
  assert (Hs : s = mid ++ spatial) by (symmetry; apply firstn_skipn).
  exists mid, spatial.
  split; [now rewrite Hshape, <- Hs |].
  split.
  { apply Forall_inv_tail in Hpos. rewrite Hs in Hpos. now apply Forall_app in Hpos. }
  do 3 (split; [assumption |]).
  assert (Hnf : output_n_features g
                = _output_time_steps g * (np.size_of mid * np.size_of spatial)).
  { unfold output_n_features. rewrite Hshape, L6. lia. }
  split; [exact Hnf |]. split.
  - unfold output_convolution_shape. rewrite Hshape, Hd0, L1, L2, L3, L4.
    destruct (_keep_time_axis g); reflexivity.
  - unfold output_dense_shape. destruct (_keep_time_axis g); [| reflexivity].
    rewrite Hshape. cbn [np.item nth_error bind]. unfold Py.floordiv.
    destruct (_output_time_steps g =? 0) eqn:E; [lia | reflexivity].
Qed.

(** X8. The three layouts of the input features describe the same number
    of values per sample: for an input array with at least [rank] axes
    after the sample axis, all of positive length, and a feature count
    within 64 bits, the product of [convolution_shape] is [n_features], in
    the recurrent layout as in the other, with insolation or without, and
    [dense_shape] is defined with the same product; so the reshapes of
    [generate] ask for exactly the values that a row holds. The same for
    the output side with [output_convolution_shape], [output_dense_shape]
    and [output_n_features]. *)
Theorem layouts_hold_n_features (g : t val) :
  (0 < rank g <= Py.len (np.shape (input_da g)) - 1 ->
   Forall (fun d => 0 < d) (shape g) ->
   np.size_of (shape g) < 2 ^ 63 ->
   np.size_of (convolution_shape g) = n_features g
   /\ exists dsh, dense_shape g = Ok dsh /\ np.size_of dsh = n_features g)
  /\ (0 < rank g <= Py.len (np.shape (output_da g)) - 1 ->
      Forall (fun d => 0 < d) (output_shape g) ->
      np.size_of (output_shape g) < 2 ^ 63 ->
      np.size_of (output_convolution_shape g) = output_n_features g
      /\ exists dsh, output_dense_shape g = Ok dsh
                     /\ np.size_of dsh = output_n_features g).
Proof.
  assert (Hcons : forall x l, np.size_of (x :: l) = x * np.size_of l) by reflexivity.
  assert (Hnil : np.size_of [] = 1) by reflexivity.
  split.
  - intros Hr Hpos Hsz.
    destruct (input_layouts g Hr Hpos Hsz)
      as (mid & spatial & _ & _ & Pt & Pm & Ps & _ & Hnf & Hcs & Hds & _).
    rewrite Hcs, Hds. split.
    + rewrite Hnf. destruct (_keep_time_axis g); rewrite !Hcons; lia.
    + eexists. split; [reflexivity |].
      destruct (_keep_time_axis g); rewrite !Hcons, Hnil; [| lia].
      rewrite Hnf at 1. rewrite div_exact by lia. lia.
  - intros Hr Hpos Hsz.
    destruct (output_layouts g Hr Hpos Hsz)
      as (mid & spatial & _ & _ & Pt & Pm & Ps & Hnf & Hcs & Hds).
    rewrite Hcs, Hds. split.
    + rewrite Hnf. destruct (_keep_time_axis g); rewrite !Hcons; lia.
    + eexists. split; [reflexivity |].
      destruct (_keep_time_axis g); rewrite !Hcons, Hnil; [| lia].
      rewrite Hnf at 1. rewrite div_exact by lia. lia.
Qed.

Lemma convolution_shape_keep (b : bool) (g : t val) :
  convolution_shape (set_keep_time_axis b g)
  = if b then
      [_input_time_steps g]
        ++ [np.prod (Py.slice (Some 1) (Some (- rank g)) (shape g)) + _add_insolation g]
        ++ Py.slice (Some (- rank g)) None (shape g)
    else
      [np.prod (Py.slice None (Some (- rank g)) (shape g))
       + _input_time_steps g * _add_insolation g]
        ++ Py.slice (Some (- rank g)) None (np.shape (input_da g)).
Proof. destruct g, b; reflexivity. Qed.

(** X9. [shape_2d] folds the time axis into the channels: under the same
    conditions on the input array, if the recurrent layout of the
    convolution shape is [(time, c, spatial...)], then [shape_2d] is
    [(time * c, spatial...)], with the same spatial axes; and
    [insolation_shape] is [(time, 1, spatial...)] over these axes too. *)
Theorem shape_2d_folds_time_into_channels (g : t val) :
  0 < rank g <= Py.len (np.shape (input_da g)) - 1 ->
  Forall (fun d => 0 < d) (shape g) ->
  np.size_of (shape g) < 2 ^ 63 ->
  exists c spatial,
    Py.len spatial = rank g
    /\ convolution_shape (set_keep_time_axis true g) = _input_time_steps g :: c :: spatial
    /\ fst (shape_2d g) = _input_time_steps g * c :: spatial
    /\ insolation_shape g = _input_time_steps g :: 1 :: spatial.
Proof.
  intros Hr Hpos Hsz.
  destruct (shape_cons (np.shape (input_da g)) ltac:(lia)) as (d0 & Hd0).
  set (s := tl (np.shape (input_da g))) in *.
  assert (Hshape : shape g = _input_time_steps g :: s).
  { unfold shape. now rewrite slice_from_1. }
  assert (Hrs : 0 < rank g <= Py.len s).
  { unfold s. rewrite len_tl by lia. lia. }
  rewrite Hshape in Hpos, Hsz.
  destruct (layout (_input_time_steps g) d0 (rank g) s Hrs Hpos Hsz)
    as (L1 & L2 & L3 & L4 & L5 & L6 & Pt & Pm & Ps).
  set (mid := firstn (Z.to_nat (Py.len s - rank g)) s) in *.
  set (spatial := skipn (Z.to_nat (Py.len s - rank g)) s) in *.
  assert (Hsp : Py.len spatial = rank g).
  { unfold spatial, Py.len. rewrite length_skipn. unfold Py.len in Hrs. lia. }
  exists (np.size_of mid + _add_insolation g), spatial.
  split; [exact Hsp |].
  assert (H2d : fst (shape_2d g) = convolution_shape (set_keep_time_axis false g)).
  { unfold shape_2d. destruct (_keep_time_axis g) eqn:E; [reflexivity |].
    cbn [fst]. now rewrite <- E, set_keep_time_axis_same. }
  rewrite H2d, !convolution_shape_keep, Hshape, Hd0, L1, L2, L3, L4. cbn [app].
  split; [reflexivity |]. split; [f_equal; lia |].
  unfold insolation_shape.
  assert (Hc : exists x rest, convolution_shape g = x :: rest ++ spatial
                              /\ Py.len (x :: rest ++ spatial) = Py.len (x :: rest) + rank g).
  { unfold convolution_shape. rewrite Hshape, Hd0, L1, L2.
    destruct (_keep_time_axis g); cbn [app].
    - eexists _, [_]. split; [reflexivity |]. unfold Py.len in *. cbn [length app]. lia.
    - eexists _, []. split; [reflexivity |]. unfold Py.len in *. cbn [length app]. lia. }
  destruct Hc as (x & rest & -> & Hl).
  rewrite slice_last by (rewrite Hl; unfold Py.len; cbn [length]; lia).
  rewrite Hl. cbn [app]. f_equal. f_equal.
  replace (Z.to_nat (Py.len (x :: rest) + rank g - rank g)) with (length (x :: rest))
    by (unfold Py.len; lia).
  change (x :: rest ++ spatial) with ((x :: rest) ++ spatial).
  rewrite skipn_app, Nat.sub_diag, skipn_all. reflexivity.
Qed.

End Layouts.

Lemma slice_last_cons {A : Type} (r : Z) (x : A) (l : list A) :
  0 < r <= Py.len l ->
  Py.slice (Some (- r)) None (x :: l) = Py.slice (Some (- r)) None l.
Proof.
  intros Hr.
  assert (Hl : Py.len (x :: l) = Py.len l + 1) by (unfold Py.len; simpl length; lia).
  rewrite !slice_last by lia. rewrite Hl.
  replace (Z.to_nat (Py.len l + 1 - r)) with (S (Z.to_nat (Py.len l - r))) by lia.
  reflexivity.
Qed.

Section DataGeneratorLayouts.
Context {val : Type} `{Backend val}.
Import DataGenerator.

(** X10. The layouts of [DataGenerator] describe the same number of values
    per sample: when [shape] has a time axis and at least two more axes,
    all of positive length, and the feature count is within 64 bits, then
    [convolution_shape] and [dense_shape] are defined, in the recurrent
    layout as in the other, and the product of each is [n_features]. *)
Theorem DataGenerator_layouts_hold_n_features (g : t val) :
  3 <= Py.len (shape g) ->
  Forall (fun d => 0 < d) (shape g) ->
  np.size_of (shape g) < 2 ^ 63 ->
  exists cs dsh,
    convolution_shape g = Ok cs /\ np.size_of cs = n_features g
    /\ dense_shape g = Ok dsh /\ np.size_of dsh = n_features g.
Proof.
  intros Hlen Hpos Hsz.
  assert (Hcons : forall x l, np.size_of (x :: l) = x * np.size_of l) by reflexivity.
  assert (Hnil : np.size_of [] = 1) by reflexivity.
  destruct (shape_cons (shape g) ltac:(lia)) as (t0 & Ht0).
  set (s := tl (shape g)) in *.
  assert (Hrs : 0 < 2 <= Py.len s) by (unfold s; rewrite len_tl by lia; lia).
  assert (Hlast : Py.slice (Some (- 2)) None (np.shape (xr.predictors (ds g)))
                  = Py.slice (Some (- 2)) None (t0 :: s)).
  { revert Ht0. unfold shape. rewrite slice_from_1.
    destruct (np.shape (xr.predictors (ds g))) as [| d0 ps] eqn:Eps.
    - exfalso. clear - Hlen Eps. unfold shape in Hlen. rewrite slice_from_1, Eps in Hlen.
      destruct (_has_time_step g); unfold Py.len in Hlen; simpl in Hlen; lia.
    - cbn [tl]. destruct (_has_time_step g).
      + intros ->. apply (slice_last_cons 2).
        unfold Py.len in *. cbn [length] in *. lia.
      + cbn [app]. intros Hc. injection Hc as <- <-.
        rewrite !(slice_last_cons 2); try reflexivity; exact Hrs. }
  rewrite Ht0 in Hpos, Hsz.
  destruct (layout t0 t0 2 s Hrs Hpos Hsz) as (L1 & _ & L3 & L4 & L5 & L6 & Pt & Pm & Ps).
  set (mid := firstn (Z.to_nat (Py.len s - 2)) s) in *.
  set (spatial := skipn (Z.to_nat (Py.len s - 2)) s) in *.
  assert (Hnf : n_features g = t0 * (np.size_of mid * np.size_of spatial)).
  { unfold n_features. rewrite Ht0, L6. lia. }
  change (- (2)) with (-2) in *.
  unfold convolution_shape, dense_shape. rewrite Hlast, Ht0, L1, L3, L4.
  destruct (_keep_time_axis g); cbn [np.item nth_error bind app].
  - unfold Py.floordiv. destruct (t0 =? 0) eqn:E; [lia |]. cbn [bind].
    eexists _, _. split; [reflexivity |]. split; [rewrite !Hcons; lia |].
    split; [reflexivity |]. rewrite !Hcons, Hnil, Hnf, div_exact by lia. lia.
  - eexists _, _. split; [reflexivity |]. split; [rewrite !Hcons; lia |].
    split; [reflexivity |]. rewrite Hcons, Hnil. lia.
Qed.

End DataGeneratorLayouts.

(** ** Reads that stay in range *)

Section InRange.
Context {val : Type}.

Lemma mapM_all_Ok {A B : Type} (f : A -> result B) (f' : A -> B) (l : list A) :
  (forall a, In a l -> f a = Ok (f' a)) -> mapM f l = Ok (map f' l).
Proof.
  induction l as [| a l IH]; intros Hf; simpl; [reflexivity |].
  rewrite (Hf a) by now left. cbn [bind].
  rewrite IH by (intros a' Ha'; apply Hf; now right). reflexivity.
Qed.

Lemma index0_in_range (a : np.ndarray val) (d0 : Z) (rest : list Z) (i : Z) :
  np.shape a = d0 :: rest -> 0 <= i < d0 -> np.index0 a i = Ok (observation a i).
Proof.
  intros Hs Hi. unfold observation, np.index0. rewrite Hs.
  destruct (i <? 0) eqn:E; [lia |].
  replace ((0 <=? i) && (i <? d0)) with true by lia. reflexivity.
Qed.

Lemma index0_out_of_range (a : np.ndarray val) (d0 : Z) (rest : list Z) (i : Z) :
  np.shape a = d0 :: rest -> d0 <= i -> 0 <= i -> np.index0 a i = Raise IndexError.
Proof.
  intros Hs Hi Hi0. unfold np.index0. rewrite Hs.
  destruct (i <? 0) eqn:E; [lia |].
  replace ((0 <=? i) && (i <? d0)) with false by lia. reflexivity.
Qed.

Lemma take_newaxis_in_range (a : np.ndarray val) (d0 : Z) (rest : list Z)
    (idx : list Z) (k : nat) :
  np.shape a = d0 :: rest -> (forall i, In i idx -> 0 <= i < d0) ->
  np.take_newaxis a idx k
  = Ok (np.mk_ndarray (Py.len idx :: repeat 1 k ++ rest) (flat_map (observation a) idx)).
Proof.
  intros Hs Hidx. unfold np.take_newaxis.
  rewrite (mapM_all_Ok _ (observation a)).
  - cbn [bind]. rewrite Hs. cbn [tl]. now rewrite flat_map_concat_map.
  - intros i Hi. apply (index0_in_range _ _ _ _ Hs). now apply Hidx.
Qed.

Lemma agree_off_axis_refl (axis : nat) (s : list Z) : np.agree_off_axis axis s s = true.
Proof.
  unfold np.agree_off_axis. rewrite Nat.eqb_refl. cbn [andb].
  assert (Hc : forall l : list Z, forallb (fun d => fst d =? snd d) (combine l l) = true).
  { induction l as [| x l IH]; simpl; [reflexivity |]. now rewrite Z.eqb_refl. }
  now rewrite !Hc.
Qed.

(** A window whose reads are all in range is returned. *)
Lemma window_in_range `{Backend val} (a : np.ndarray val) (d0 : Z) (rest : list Z)
    (samples : list Z) (off : Z -> Z -> Z) (k : nat) (steps : Z) :
  np.shape a = d0 :: rest -> 0 < steps ->
  (forall x j, In x samples -> 0 <= j < steps -> 0 <= off x j < d0) ->
  exists w,
    SeriesDataGenerator.window a (fun j => map (fun x => off x j) samples) (S k) steps = Ok w.
Proof.
  intros Hs Hsteps Hoff. unfold SeriesDataGenerator.window.
  set (colf := fun j : Z =>
                 np.mk_ndarray (Py.len (map (fun x => off x j) samples)
                                  :: repeat 1 (S k) ++ rest)
                               (flat_map (observation a) (map (fun x => off x j) samples))).
  rewrite (mapM_all_Ok _ colf).
  - cbn [bind]. destruct (range_cons steps Hsteps) as (js & Hjs).
    rewrite Hjs. cbn [map]. unfold np.concatenate.
    replace (1 <? length (np.shape (colf 0%Z)))%nat with true
      by (symmetry; apply Nat.ltb_lt; cbn; lia).
    cbn [andb].
    assert (Hall : forallb (fun c => np.agree_off_axis 1 (np.shape (colf 0)) (np.shape c))
                           (colf 0 :: map colf js) = true).
    { apply forallb_forall. intros c Hc.
      assert (Hsh : np.shape c = np.shape (colf 0)).
      { destruct Hc as [<- | Hc]; [reflexivity |].
        apply in_map_iff in Hc. destruct Hc as (j & <- & _).
        unfold colf. cbn [np.shape]. unfold Py.len. now rewrite !length_map. }
      rewrite Hsh. apply agree_off_axis_refl. }
    rewrite Hall. eexists. reflexivity.
  - intros j Hj. apply In_range in Hj. unfold colf.
    apply (take_newaxis_in_range _ _ _ _ _ Hs).
    intros i Hi. apply in_map_iff in Hi. destruct Hi as (x & <- & Hx). now apply Hoff.
Qed.

(** A window with a read past the end raises [IndexError]. *)
Lemma window_past_end `{Backend val} (a : np.ndarray val) (d0 : Z) (rest : list Z)
    (samples : list Z) (off : Z -> Z -> Z) (k : nat) (steps : Z) (x j : Z) :
  np.shape a = d0 :: rest ->
  (forall x j, In x samples -> 0 <= j < steps -> 0 <= off x j) ->
  In x samples -> 0 <= j < steps -> d0 <= off x j ->
  SeriesDataGenerator.window a (fun j => map (fun x => off x j) samples) k steps
  = Raise IndexError.
Proof.
  intros Hs Hnn Hx Hj Hpast. unfold SeriesDataGenerator.window.
  assert (Hcol : forall j', 0 <= j' < steps ->
                 (exists c, np.take_newaxis a (map (fun x => off x j') samples) k = Ok c)
                 \/ np.take_newaxis a (map (fun x => off x j') samples) k = Raise IndexError).
  { intros j' Hj'. unfold np.take_newaxis.
    assert (Hrow : forall l : list Z, (forall i, In i l -> 0 <= i) ->
                   (exists rs, mapM (np.index0 a) l = Ok rs)
                   \/ mapM (np.index0 a) l = Raise IndexError).
    { induction l as [| i l IH]; intros Hl; simpl.
      - left. now eexists.
      - destruct (Z.lt_ge_cases i d0) as [Hi | Hi].
        + rewrite (index0_in_range _ _ _ _ Hs) by (split; [apply Hl; now left | exact Hi]).
          cbn [bind]. destruct IH as [(rs & ->) | ->].
          * intros i' Hi'. apply Hl. now right.
          * left. now eexists.
          * now right.
        + rewrite (index0_out_of_range _ _ _ _ Hs Hi) by (apply Hl; now left). now right. }
    destruct (Hrow (map (fun x => off x j') samples)) as [(rs & ->) | ->].
    - intros i Hi. apply in_map_iff in Hi. destruct Hi as (x' & <- & Hx'). now apply Hnn.
    - left. now eexists.
    - now right. }
  assert (Hbad : np.take_newaxis a (map (fun x => off x j) samples) k = Raise IndexError).
  { unfold np.take_newaxis.
    apply in_split in Hx. destruct Hx as (l1 & l2 & ->).
    rewrite map_app. cbn [map].
    assert (Hpre : forall l : list Z, (forall i, In i l -> 0 <= i) ->
                   forall l', mapM (np.index0 a) (l ++ off x j :: l') = Raise IndexError).
    { induction l as [| i l IH]; intros Hl l'; simpl.
      - now rewrite (index0_out_of_range _ _ _ _ Hs Hpast) by (apply Hnn; [apply in_elt | exact Hj]).
      - destruct (Z.lt_ge_cases i d0) as [Hi | Hi].
        + rewrite (index0_in_range _ _ _ _ Hs) by (split; [apply Hl; now left | exact Hi]).
          cbn [bind]. rewrite IH; [reflexivity |]. intros i' Hi'. apply Hl. now right.
        + now rewrite (index0_out_of_range _ _ _ _ Hs Hi) by (apply Hl; now left). }
    rewrite Hpre; [reflexivity |].
    intros i Hi. apply in_map_iff in Hi. destruct Hi as (x' & <- & Hx').
    apply Hnn; [| exact Hj]. apply in_or_app. now left. }
  assert (Hm : forall l : list Z, (forall j', In j' l -> 0 <= j' < steps) -> In j l ->
               mapM (fun n => np.take_newaxis a (map (fun x => off x n) samples) k) l
               = Raise IndexError).
  { induction l as [| j' l IH]; intros Hl Hin; simpl; [contradiction |].
    destruct (Hcol j' (Hl j' (or_introl eq_refl))) as [(c & Hc) | Hc].
    - destruct Hin as [-> | Hin].
      + rewrite Hbad in Hc. discriminate Hc.
      + rewrite Hc. cbn [bind]. rewrite IH; [reflexivity | | exact Hin].
        intros j'' Hj''. apply Hl. now right.
    - now rewrite Hc. }
  rewrite Hm; [reflexivity | |].
  - intros j' Hj'. now apply In_range.
  - now apply In_range.
Qed.

Lemma flat_map_length_const {A B : Type} (f : A -> list B) (c : nat) (l : list A) :
  (forall a, In a l -> length (f a) = c) -> length (flat_map f l) = (length l * c)%nat.
Proof.
  induction l as [| a l IH]; intros Hf; simpl; [reflexivity |].
  rewrite length_app, (Hf a) by now left.
  rewrite IH by (intros a' Ha'; apply Hf; now right). lia.
Qed.

(** [a.reshape((n, -1))] on [n * m] values. *)
Lemma reshape_rows_Ok (a : np.ndarray val) (n m : Z) :
  0 < n -> 0 <= m -> Py.len (np.data a) = n * m ->
  np.reshape a [n; -1] = Ok (np.mk_ndarray [n; m] (np.data a)).
Proof.
  intros Hn Hm Hlen. unfold np.reshape. cbn [count_occ].
  destruct (Z.eq_dec n (-1)) as [Hc | _]; [lia |].
  destruct (Z.eq_dec (-1) (-1)) as [_ | Hc]; [| contradiction].
  cbn [remove].
  destruct (Z.eq_dec (-1) n) as [Hc | _]; [lia |].
  destruct (Z.eq_dec (-1) (-1)) as [_ | Hc]; [| contradiction].
  cbn [forallb np.size_of fold_right map]. rewrite Hlen.
  replace (-1 <=? n) with true by lia.
  replace (n * 1 =? 0) with false by lia.
  replace (n * m mod (n * 1)) with 0
    by (rewrite Z.mul_1_r, Z.mul_comm, Z.mod_mul by lia; reflexivity).
  cbn. replace (n =? -1) with false by lia.
  rewrite Z.mul_1_r, div_exact by exact Hn. reflexivity.
Qed.

Lemma observation_length (a : np.ndarray val) (d0 : Z) (rest : list Z) (i : Z) :
  np.wf a -> np.shape a = d0 :: rest -> 0 <= i < d0 ->
  length (observation a i) = Z.to_nat (np.size_of rest).
Proof.
  intros Hwf Hs Hi.
  rewrite (index0_length a i (observation a i) Hwf (index0_in_range _ _ _ _ Hs Hi)).
  now rewrite Hs.
Qed.

End InRange.

Section ByWindows.
Context {val : Type} `{Backend val}.
Import SeriesDataGenerator.

(** The window of an array and its flattening, when the reads are in
    range. *)
Lemma window_flat (a : np.ndarray val) (total : Z) (xs : list Z) (off : Z -> Z -> Z)
    (start : Z -> Z) (steps : Z) :
  np.wf a -> rows_eq total a -> 0 < steps -> 0 < Py.len xs ->
  (forall x j, off x j = start x + j) ->
  (forall x j, In x xs -> 0 <= j < steps -> 0 <= start x + j < total) ->
  (w <- window a (fun j => map (fun x => off x j) xs) 1 steps ;;
   np.reshape w [Py.len xs; -1])
  = Ok (window_rows a start steps xs).
Proof.
  intros Hwf (rest & Hs) Hsteps Hn Hoff Hin.
  destruct (window_in_range a total rest xs off 0 steps Hs Hsteps) as (w & Hw).
  { intros x j Hx Hj. rewrite Hoff. now apply Hin. }
  rewrite Hw. cbn [bind].
  destruct (window_contents _ _ _ _ _ Hwf Hw) as (_ & Hdata & Hshape).
  assert (HF : 0 <= np.size_of rest).
  { destruct Hwf as (Hpos & _). rewrite Hs in Hpos. apply size_of_nonneg.
    now inversion Hpos. }
  assert (Hd : np.data w
               = flat_map (fun x => flat_map (fun j => observation a (start x + j))
                                             (Py.range steps)) xs).
  { rewrite Hdata. apply flat_map_ext_in. intros x _.
    apply flat_map_ext_in. intros j _. now rewrite Hoff. }
  rewrite (reshape_rows_Ok w (Py.len xs) (steps * np.size_of rest)).
  - unfold window_rows. now rewrite Hd, Hs.
  - exact Hn.
  - nia.
  - rewrite Hd. unfold Py.len.
    rewrite (flat_map_length_const _ (Z.to_nat (steps * np.size_of rest))).
    + nia.
    + intros x Hx.
      rewrite (flat_map_length_const _ (Z.to_nat (np.size_of rest))).
      * rewrite range_length. nia.
      * intros j Hj. apply In_range in Hj.
        apply (observation_length a total rest); [exact Hwf | exact Hs |].
        now apply Hin.
Qed.

Lemma requested_in_range (g : t val) (samples : list Z) :
  0 < _n_sample g ->
  Forall (fun x => 0 <= x < _n_sample g) samples ->
  0 < Py.len (requested g samples)
  /\ forall x, In x (requested g samples) -> 0 <= x < _n_sample g.
Proof.
  intros Hn Hs. unfold requested.
  destruct (Py.len samples =? 0) eqn:E.
  - unfold np.arange. rewrite len_range. split; [lia |].
    intros x Hx. now apply In_range in Hx.
  - split; [pose proof (len_nonneg samples); lia |].
    now apply Forall_forall.
Qed.

(** Outside sequence mode and without insolation, [generate] on a loaded
    generator is the post-processing block applied to the flattened
    predictor and target windows of the offsets, when these are in
    range. *)
Lemma generate_by_windows (g : t val) (samples : list Z) (scale_and_impute : bool)
    (total : Z) :
  _is_loaded g = true -> _add_insolation g = 0 -> _sequence g = None ->
  np.wf (input_da g) -> np.wf (output_da g) ->
  rows_eq total (input_da g) -> rows_eq total (output_da g) ->
  0 < _input_time_steps g -> 0 < _output_time_steps g -> 0 < _interval g ->
  0 < _n_sample g <= total - _input_time_steps g - _output_time_steps g + 2 - _interval g ->
  Forall (fun x => 0 <= x < _n_sample g) samples ->
  let xs := requested g samples in
  let p0 := window_rows (input_da g) (fun x => x) (_input_time_steps g) xs in
  let t0 := window_rows (output_da g)
                        (fun x => x + _input_time_steps g + _interval g - 1)
                        (_output_time_steps g) xs in
  generate g samples scale_and_impute
  = ('(p, t) <- finish g (Py.len xs) scale_and_impute p0 t0 ;; Ok (Arr p, Arr t, g)).
Proof.
  intros Hld Hadd Hseq Hwi Hwo Hri Hro Hits Hots Hint Hn Hs xs p0 t0.
  destruct (requested_in_range g samples (proj1 Hn) Hs) as (Hlen & Hxs).
  fold xs in Hlen, Hxs.
  unfold generate. fold (requested g samples). fold xs.
  rewrite Hld. cbn [negb bind].
  pose proof (window_flat (input_da g) total xs (fun x n => x + n) (fun x => x)
                (_input_time_steps g) Hwi Hri Hits Hlen) as Hp.
  pose proof (window_flat (output_da g) total xs
                (fun x n => x + _input_time_steps g + n + _interval g - 1)
                (fun x => x + _input_time_steps g + _interval g - 1)
                (_output_time_steps g) Hwo Hro Hots Hlen) as Ht.
  fold p0 in Hp. fold t0 in Ht.
  assert (Hp' := Hp ltac:(reflexivity)
                    ltac:(intros x j Hx Hj; specialize (Hxs x Hx); cbv beta; lia)).
  assert (Ht' := Ht ltac:(intros x j; cbv beta; lia)
                    ltac:(intros x j Hx Hj; specialize (Hxs x Hx); cbv beta; lia)).
  clear Hp Ht.
  apply bind_Ok_inv in Hp'. destruct Hp' as (wp & Hwp & Hrp).
  apply bind_Ok_inv in Ht'. destruct Ht' as (wt & Hwt & Hrt).
  rewrite Hwp. cbn [bind]. rewrite Hadd. cbn [Z.eqb negb bind].
  rewrite Hrp. cbn [bind]. rewrite Hseq. rewrite Hwt. cbn [bind]. rewrite Hrt.
  cbn [bind]. destruct (finish g (Py.len xs) scale_and_impute p0 t0) as [(p, t) | e];
    reflexivity.
Qed.

(** X11. Outside sequence mode and without insolation, on a loaded generator
    whose two views are well-formed arrays of [total] samples and whose
    [_n_sample] leaves room for the windows, [generate] never fails in
    reading offsets from 0 to [_n_sample - 1]: it is the post-processing
    block applied to the flattened predictor rows, the observations
    [x .. x + input_time_steps - 1] of the input view, and the flattened
    target rows, the observations from [x + input_time_steps + interval - 1]
    on of the output view, and it leaves the instance as it is. In the flat
    layout without NaN removal and scaling it returns these two arrays
    themselves. *)
Theorem generate_reads_windows (g : t val) (samples : list Z) (scale_and_impute : bool)
    (total : Z) :
  _is_loaded g = true -> _add_insolation g = 0 -> _sequence g = None ->
  np.wf (input_da g) -> np.wf (output_da g) ->
  rows_eq total (input_da g) -> rows_eq total (output_da g) ->
  0 < _input_time_steps g -> 0 < _output_time_steps g -> 0 < _interval g ->
  0 < _n_sample g <= total - _input_time_steps g - _output_time_steps g + 2 - _interval g ->
  Forall (fun x => 0 <= x < _n_sample g) samples ->
  let xs := requested g samples in
  let p0 := window_rows (input_da g) (fun x => x) (_input_time_steps g) xs in
  let t0 := window_rows (output_da g)
                        (fun x => x + _input_time_steps g + _interval g - 1)
                        (_output_time_steps g) xs in
  generate g samples scale_and_impute
  = ('(p, t) <- finish g (Py.len xs) scale_and_impute p0 t0 ;; Ok (Arr p, Arr t, g))
  /\ (_remove_nan g = false -> _is_convolutional g = false -> _keep_time_axis g = false ->
      generate g samples false = Ok (Arr p0, Arr t0, g)).
Proof.
  intros Hld Hadd Hseq Hwi Hwo Hri Hro Hits Hots Hint Hn Hs xs p0 t0.
  split.
  - now apply (generate_by_windows g samples scale_and_impute total).
  - intros Hrn Hconv Hkeep.
    rewrite (generate_by_windows g samples false total) by assumption.
    unfold finish. rewrite Hrn, Hconv, Hkeep. reflexivity.
Qed.

End ByWindows.

Section PastEnd.
Context {val : Type} `{Backend val}.
Import SeriesDataGenerator.

(** X12. [_n_sample] is the exact number of offsets that [generate] can
    serve: on a loaded generator without insolation, outside sequence
    mode, whose two views hold [total] samples and whose [_n_sample] is
    what the constructor computes from [total], a request that holds an
    offset at or past [_n_sample], beside other offsets that are not
    negative, raises [IndexError], since a window would read past the last
    sample. *)
Theorem generate_past_last_offset (g : t val) (samples : list Z)
    (scale_and_impute : bool) (total : Z) :
  _is_loaded g = true -> _add_insolation g = 0 -> _sequence g = None ->
  np.wf (input_da g) -> np.wf (output_da g) ->
  rows_eq total (input_da g) -> rows_eq total (output_da g) ->
  0 < _input_time_steps g -> 0 < _output_time_steps g -> 0 < _interval g ->
  _n_sample g = total - _input_time_steps g - _output_time_steps g + 2 - _interval g ->
  Forall (fun x => 0 <= x) samples ->
  Exists (fun x => _n_sample g <= x) samples ->
  generate g samples scale_and_impute = Raise IndexError.
Proof.
  intros Hld Hadd Hseq Hwi Hwo Hri Hro Hits Hots Hint Hn Hnn Hex.
  apply Exists_exists in Hex. destruct Hex as (x & Hx & Hpast).
  assert (Hlen : 0 < Py.len samples).
  { destruct samples; [contradiction | unfold Py.len; simpl length; lia]. }
  unfold generate. replace (Py.len samples =? 0) with false by lia.
  rewrite Hld. cbn [negb bind].
  pose proof (proj1 (Forall_forall _ _) Hnn) as Hnn'.
  destruct (Forall_Exists_dec (fun x => x + _input_time_steps g <= total)
              (fun x => Z_le_dec (x + _input_time_steps g) total) samples) as [Hall | Hsome].
  - (* the predictor windows fit: the target window of [x] does not *)
    pose proof (proj1 (Forall_forall _ _) Hall) as Hall'.
    pose proof (window_flat (input_da g) total samples (fun x n => x + n) (fun x => x)
                  (_input_time_steps g) Hwi Hri Hits Hlen ltac:(reflexivity)
                  ltac:(intros y j Hy Hj; specialize (Hall' y Hy);
                        specialize (Hnn' y Hy); cbv beta in *; lia)) as Hp.
    apply bind_Ok_inv in Hp. destruct Hp as (wp & Hwp & Hrp).
    rewrite Hwp. cbn [bind]. rewrite Hadd. cbn [Z.eqb negb bind].
    rewrite Hrp. cbn [bind]. rewrite Hseq.
    destruct Hro as (rest & Hso).
    rewrite (window_past_end (output_da g) total rest samples
               (fun x n => x + _input_time_steps g + n + _interval g - 1) 1
               (_output_time_steps g) x (_output_time_steps g - 1) Hso);
      [reflexivity | | exact Hx | lia | lia].
    intros y j Hy Hj. specialize (Hnn' y Hy). cbv beta in *. lia.
  - apply Exists_exists in Hsome. destruct Hsome as (y & Hy & Hyp).
    destruct Hri as (rest & Hsi).
    rewrite (window_past_end (input_da g) total rest samples (fun x n => x + n) 1
               (_input_time_steps g) y (_input_time_steps g - 1) Hsi);
      [reflexivity | | exact Hy | lia | lia].
    intros z j Hz Hj. specialize (Hnn' z Hz). cbv beta in *. lia.
Qed.

End PastEnd.

(** ** NaN removal under a fixed layout *)

Section Mismatch.
Context {val : Type} `{Backend val}.
Import SeriesDataGenerator.

Lemma keep_rows_Forall (P : list val -> Prop) (keep : Z -> bool) (i : Z)
    (rs : list (list val)) :
  Forall P rs -> Forall P (util.keep_rows keep i rs).
Proof.
  intros Hrs. revert i. induction Hrs as [| r rs Hr _ IH]; intros i; simpl.
  - constructor.
  - destruct (keep i); [constructor; [exact Hr | apply IH] | apply IH].
Qed.

Lemma keep_rows_drops (keep : Z -> bool) (i j : Z) (rs : list (list val)) :
  i <= j < i + Z.of_nat (length rs) -> keep j = false ->
  (length (util.keep_rows keep i rs) < length rs)%nat.
Proof.
  revert i. induction rs as [| r rs IH]; intros i Hj Hk; simpl in *; [lia |].
  destruct (Z.eq_dec j i) as [-> | Hne].
  - rewrite Hk. pose proof (keep_rows_le keep (i + 1) rs). lia.
  - specialize (IH (i + 1) ltac:(lia) Hk).
    destruct (keep i); simpl; lia.
Qed.

Lemma concat_length_const {A : Type} (c : nat) (ls : list (list A)) :
  Forall (fun l => length l = c) ls -> length (concat ls) = (length ls * c)%nat.
Proof.
  induction 1 as [| l ls Hl _ IH]; simpl; [reflexivity |].
  rewrite length_app, Hl, IH. lia.
Qed.

(** The rows of a flat array of [n] rows of [c] values have [c] values
    each. *)
Lemma rows_flat (a : np.ndarray val) (n c : Z) :
  np.shape a = [n; c] -> 0 <= n -> 0 <= c -> Py.len (np.data a) = n * c ->
  length (np.rows a) = Z.to_nat n
  /\ Forall (fun r => length r = Z.to_nat c) (np.rows a).
Proof.
  intros Hs Hn Hc Hlen. unfold np.rows. rewrite Hs.
  split; [now rewrite length_map, range_length |].
  apply Forall_map, Forall_forall. intros i Hi. apply In_range in Hi.
  unfold np.block. cbn [np.size_of fold_right].
  rewrite length_firstn, length_skipn. unfold Py.len in Hlen. nia.
Qed.

Lemma count_occ_positive (sh : list Z) :
  Forall (fun d => 0 < d) sh -> count_occ Z.eq_dec sh (-1) = O.
Proof.
  intros Hsh. apply count_occ_not_In. intros Hin.
  apply (proj1 (Forall_forall _ _) Hsh) in Hin. lia.
Qed.

(** Reshaping to a shape without [-1] that announces another number of
    values raises [ValueError]. *)
Lemma reshape_size_mismatch (a : np.ndarray val) (sh : list Z) :
  Forall (fun d => 0 < d) sh -> np.size_of sh <> Py.len (np.data a) ->
  np.reshape a sh = Raise ValueError.
Proof.
  intros Hsh Hne. unfold np.reshape. rewrite (count_occ_positive _ Hsh).
  replace (np.size_of sh =? Py.len (np.data a)) with false by lia.
  now rewrite andb_false_r.
Qed.

(** What [delete_nan_samples] leaves of two flat arrays when row [i] of
    one of them holds a NaN: fewer values than [n] rows hold. *)
Lemma delete_nan_samples_short (p t : np.ndarray val) (n c i : Z) :
  np.shape p = [n; c] -> 0 < c -> Py.len (np.data p) = n * c ->
  0 <= i < n -> (util.nan_row p i || util.nan_row t i) = true ->
  Py.len (np.data (fst (util.delete_nan_samples p t))) < n * c.
Proof.
  intros Hs Hc Hlen Hi Hnan. unfold util.delete_nan_samples. cbn [fst np.data].
  destruct (rows_flat p n c Hs ltac:(lia) ltac:(lia) Hlen) as (Hrows & Hall).
  set (keep := fun i => negb (util.nan_row p i || util.nan_row t i)).
  unfold Py.len.
  rewrite (concat_length_const (Z.to_nat c)) by (apply keep_rows_Forall; exact Hall).
  assert (Hdrop : (length (util.keep_rows keep 0 (np.rows p)) < length (np.rows p))%nat).
  { apply (keep_rows_drops keep 0 i); [rewrite Hrows; lia |].
    unfold keep. now rewrite Hnan. }
  rewrite Hrows in Hdrop. nia.
Qed.

End Mismatch.

(** ** Transforms that return *)

Section Transforms.
Context {val : Type} `{Backend val}.
Import SeriesDataGenerator.

(** The block "scale and impute" of [generate], for transforms that
    return. *)
Lemma transforms_step (m : Model val) (impute_missing scale_and_impute : bool)
    (p1 t1 : np.ndarray val) :
  (scale_and_impute = true -> transforms_return m) ->
  exists p2 t2,
    (if scale_and_impute then
       '(p, t) <- (if impute_missing then imputer_transform m p1 t1 else Ok (p1, t1)) ;;
       scaler_transform m p t
     else Ok (p1, t1)) = Ok (p2, t2)
    /\ np.shape p2 = np.shape p1 /\ np.shape t2 = np.shape t1
    /\ Py.len (np.data p2) = Py.len (np.data p1)
    /\ Py.len (np.data t2) = Py.len (np.data t1).
Proof.
  intros Hm. destruct scale_and_impute.
  - destruct (Hm eq_refl) as (Hs & Hi).
    destruct impute_missing.
    + destruct (Hi p1 t1) as (pa & ta & -> & A1 & A2 & A3 & A4). cbn [bind].
      destruct (Hs pa ta) as (pb & tb & -> & B1 & B2 & B3 & B4).
      exists pb, tb. repeat split; congruence.
    + cbn [bind]. destruct (Hs p1 t1) as (pb & tb & -> & B1 & B2 & B3 & B4).
      exists pb, tb. now repeat split.
  - exists p1, t1. now repeat split.
Qed.

(** In the flat layout the block [finish] returns, for transforms that
    return. *)
Lemma finish_flat_returns (g : t val) (n : Z) (scale_and_impute : bool)
    (p0 t0 : np.ndarray val) :
  _is_convolutional g = false -> _keep_time_axis g = false ->
  (scale_and_impute = true -> transforms_return (model g)) ->
  0 <= n -> rows_eq n p0 -> rows_eq n t0 ->
  exists p t,
    finish g n scale_and_impute p0 t0 = Ok (p, t)
    /\ rows_le n p /\ rows_le n t
    /\ (_remove_nan g = false -> rows_eq n p /\ rows_eq n t).
Proof.
  intros Hc Hk Hm Hn Rp Rt. unfold finish. rewrite Hc, Hk.
  destruct (if _remove_nan g then util.delete_nan_samples p0 t0 else (p0, t0))
    as (p1, t1) eqn:Hd.
  destruct (transforms_step (model g) (_impute_missing g) scale_and_impute p1 t1 Hm)
    as (p2 & t2 & -> & S1 & S2 & _). cbn [bind].
  exists p2, t2. split; [reflexivity |].
  destruct (_remove_nan g).
  - destruct (delete_nan_samples_rows _ _ _ _ n Hd) as (A & B & _).
    split; [apply (rows_le_shape _ p1 _ S1), A; now apply rows_eq_le |].
    split; [apply (rows_le_shape _ t1 _ S2), B; now apply rows_eq_le |].
    intros Hf; discriminate Hf.
  - injection Hd as <- <-.
    split; [apply (rows_le_shape _ p0 _ S1); now apply rows_eq_le |].
    split; [apply (rows_le_shape _ t0 _ S2); now apply rows_eq_le |].
    intros _. split; [now apply (rows_eq_shape _ p0) | now apply (rows_eq_shape _ t0)].
Qed.

End Transforms.

Section FixedLayout.
Context {val : Type} `{Backend val}.
Import SeriesDataGenerator.

Lemma reshape_exact (a : np.ndarray val) (sh : list Z) :
  Forall (fun d => 0 < d) sh -> np.size_of sh = Py.len (np.data a) ->
  np.reshape a sh = Ok (np.mk_ndarray sh (np.data a)).
Proof.
  intros Hsh Hsz. unfold np.reshape. rewrite (count_occ_positive _ Hsh).
  replace (forallb (fun d => 0 <=? d) sh) with true.
  - rewrite Hsz, Z.eqb_refl. reflexivity.
  - symmetry. apply forallb_forall. intros d Hd.
    apply (proj1 (Forall_forall _ _) Hsh) in Hd. lia.
Qed.

(** The values that the flattened windows hold. *)
Lemma window_rows_size (a : np.ndarray val) (total : Z) (start : Z -> Z) (steps : Z)
    (xs : list Z) :
  np.wf a -> rows_eq total a -> 0 <= steps ->
  (forall x j, In x xs -> 0 <= j < steps -> 0 <= start x + j < total) ->
  Py.len (np.data (window_rows a start steps xs))
  = Py.len xs * (steps * np.size_of (tl (np.shape a)))
  /\ 0 <= np.size_of (tl (np.shape a)).
Proof.
  intros Hwf (rest & Hs) Hsteps Hin.
  assert (HF : 0 <= np.size_of rest).
  { destruct Hwf as (Hpos & _). rewrite Hs in Hpos. apply size_of_nonneg.
    now inversion Hpos. }
  rewrite Hs. cbn [tl]. split; [| exact HF].
  unfold window_rows. cbn [np.data]. unfold Py.len.
  rewrite (flat_map_length_const _ (Z.to_nat (steps * np.size_of rest))).
  - nia.
  - intros x Hx.
    rewrite (flat_map_length_const _ (Z.to_nat (np.size_of rest))).
    + rewrite range_length. nia.
    + intros j Hj. apply In_range in Hj.
      apply (observation_length a total rest); [exact Hwf | exact Hs |].
      now apply Hin.
Qed.

(** What the two flattened windows hold under the conditions of
    [generate_by_windows] and of the input layouts. *)
Lemma predictor_rows_size (g : t val) (total : Z) (xs : list Z) (mid spatial : list Z) :
  np.wf (input_da g) -> rows_eq total (input_da g) -> 0 < _input_time_steps g ->
  (forall x, In x xs -> 0 <= x /\ x + _input_time_steps g <= total) ->
  shape g = _input_time_steps g :: mid ++ spatial ->
  let p0 := window_rows (input_da g) (fun x => x) (_input_time_steps g) xs in
  np.shape p0 = [Py.len xs; _input_time_steps g * (np.size_of mid * np.size_of spatial)]
  /\ Py.len (np.data p0)
     = Py.len xs * (_input_time_steps g * (np.size_of mid * np.size_of spatial)).
Proof.
  intros Hwf Hr Hits Hxs Hshape p0.
  assert (Htl : tl (np.shape (input_da g)) = mid ++ spatial).
  { unfold shape in Hshape. rewrite slice_from_1 in Hshape. now injection Hshape. }
  destruct (window_rows_size (input_da g) total (fun x => x) (_input_time_steps g) xs
              Hwf Hr ltac:(lia)) as (Hlen & _).
  { intros x j Hx Hj. specialize (Hxs x Hx). cbv beta. lia. }
  fold p0 in Hlen. rewrite Htl, size_of_app in Hlen. split; [| exact Hlen].
  unfold p0, window_rows. cbn [np.shape]. now rewrite Htl, size_of_app.
Qed.

Lemma target_rows_size (g : t val) (total : Z) (xs : list Z) (mid spatial : list Z) :
  np.wf (output_da g) -> rows_eq total (output_da g) -> 0 < _output_time_steps g ->
  (forall x, In x xs ->
             0 <= x + _input_time_steps g + _interval g - 1
             /\ x + _input_time_steps g + _interval g - 1 + _output_time_steps g <= total) ->
  output_shape g = _output_time_steps g :: mid ++ spatial ->
  let t0 := window_rows (output_da g)
                        (fun x => x + _input_time_steps g + _interval g - 1)
                        (_output_time_steps g) xs in
  np.shape t0 = [Py.len xs; _output_time_steps g * (np.size_of mid * np.size_of spatial)]
  /\ Py.len (np.data t0)
     = Py.len xs * (_output_time_steps g * (np.size_of mid * np.size_of spatial)).
Proof.
  intros Hwf Hr Hots Hxs Hshape t0.
  assert (Htl : tl (np.shape (output_da g)) = mid ++ spatial).
  { unfold output_shape in Hshape. rewrite slice_from_1 in Hshape. now injection Hshape. }
  destruct (window_rows_size (output_da g) total
              (fun x => x + _input_time_steps g + _interval g - 1)
              (_output_time_steps g) xs Hwf Hr ltac:(lia)) as (Hlen & _).
  { intros x j Hx Hj. specialize (Hxs x Hx). cbv beta. lia. }
  fold t0 in Hlen. rewrite Htl, size_of_app in Hlen. split; [| exact Hlen].
  unfold t0, window_rows. cbn [np.shape]. now rewrite Htl, size_of_app.
Qed.

(** X13. With NaN removal, a model that is convolutional or recurrent, and
    no insolation (outside sequence mode, offsets in range, input array
    with [rank] trailing axes of positive length): when a requested sample
    holds a NaN in its predictor row or in its target row, [generate]
    raises [ValueError], with [scale_and_impute=False] and, for a model
    whose imputer and scaler return arrays of the shape and size that they
    were given, with [scale_and_impute=True] as well; so does
    [__getitem__], which passes [scale_and_impute=True], for a batch whose
    slice of the ordering holds such a sample. The row is removed, and the
    reshape that follows asks for the number of samples requested, which
    the rows that are left no longer fill. *)
Theorem generate_nan_under_fixed_layout (g : t val) (samples : list Z) (total i : Z)
    (scale_and_impute : bool) :
  _is_loaded g = true -> _add_insolation g = 0 -> _sequence g = None ->
  np.wf (input_da g) -> np.wf (output_da g) ->
  rows_eq total (input_da g) -> rows_eq total (output_da g) ->
  0 < _input_time_steps g -> 0 < _output_time_steps g -> 0 < _interval g ->
  0 < _n_sample g <= total - _input_time_steps g - _output_time_steps g + 2 - _interval g ->
  Forall (fun x => 0 <= x < _n_sample g) samples ->
  0 < rank g <= Py.len (np.shape (input_da g)) - 1 ->
  Forall (fun d => 0 < d) (shape g) ->
  np.size_of (shape g) < 2 ^ 63 ->
  _remove_nan g = true ->
  _is_convolutional g = true \/ _keep_time_axis g = true ->
  let xs := requested g samples in
  let p0 := window_rows (input_da g) (fun x => x) (_input_time_steps g) xs in
  let t0 := window_rows (output_da g)
                        (fun x => x + _input_time_steps g + _interval g - 1)
                        (_output_time_steps g) xs in
  0 <= i < Py.len xs ->
  (util.nan_row p0 i || util.nan_row t0 i) = true ->
  (scale_and_impute = true -> transforms_return (model g)) ->
  generate g samples scale_and_impute = Raise ValueError
  /\ (forall b k,
         scale_and_impute = true ->
         __len__ g = Ok k -> 0 <= b < k ->
         samples = Py.slice (Some (b * _batch_size g)) (Some ((b + 1) * _batch_size g))
                            (_indices g) ->
         __getitem__ g b = Raise ValueError).
Proof.
  intros Hld Hadd Hseq Hwi Hwo Hri Hro Hits Hots Hint Hn Hs Hr Hpos Hsz Hrn Hlay
         xs p0 t0 Hi Hnan Hm.
  assert (Hgen : generate g samples scale_and_impute = Raise ValueError).
  { rewrite (generate_by_windows g samples scale_and_impute total) by assumption.
    fold xs. fold p0. fold t0.
    destruct (requested_in_range g samples (proj1 Hn) Hs) as (Hlen & Hxs).
    fold xs in Hlen, Hxs.
    destruct (input_layouts g Hr Hpos Hsz)
      as (mid & spatial & Hshape & Hsp & Pt & Pm & Ps & _ & Hnf & Hcs & Hds & _).
    rewrite Hadd in Hnf, Hcs.
    destruct (predictor_rows_size g total xs mid spatial Hwi Hri Hits) as (Hsh0 & Hlen0).
    { intros x Hx. specialize (Hxs x Hx). lia. }
    { exact Hshape. }
    fold p0 in Hsh0, Hlen0.
    set (c := _input_time_steps g * (np.size_of mid * np.size_of spatial)) in *.
    assert (Hc : 0 < c) by (unfold c; nia).
    pose proof (delete_nan_samples_short p0 t0 (Py.len xs) c i Hsh0 Hc Hlen0 Hi Hnan)
      as Hshort.
    assert (Hcons : forall x l, np.size_of (x :: l) = x * np.size_of l) by reflexivity.
    assert (Hnil : np.size_of [] = 1) by reflexivity.
    unfold finish. rewrite Hrn.
    destruct (util.delete_nan_samples p0 t0) as (p1, t1). cbn [fst] in Hshort.
    destruct (transforms_step (model g) (_impute_missing g) scale_and_impute p1 t1 Hm)
      as (p2 & t2 & -> & _ & _ & L1 & _).
    rewrite <- L1 in Hshort. cbn [bind].
    assert (Hfail : forall sh, Forall (fun d => 0 < d) sh -> np.size_of sh = c ->
                               np.reshape p2 ([Py.len xs] ++ sh) = Raise ValueError).
    { intros sh Hsh Hsize. apply reshape_size_mismatch.
      - constructor; [exact Hlen | exact Hsh].
      - cbn [app]. rewrite Hcons, Hsize. lia. }
    destruct (_is_convolutional g) eqn:Econv.
    - rewrite Hfail; [reflexivity | |].
      + rewrite Hcs. destruct (_keep_time_axis g); repeat constructor; try nia; exact Hsp.
      + rewrite Hcs. unfold c. destruct (_keep_time_axis g); rewrite !Hcons; lia.
    - destruct Hlay as [Hc' | Hkeep]; [discriminate |].
      rewrite Hkeep in *. rewrite Hds. cbn [bind].
      assert (Hq : n_features g / _input_time_steps g = np.size_of mid * np.size_of spatial).
      { rewrite Hnf, div_exact by lia. lia. }
      rewrite Hfail; [reflexivity | |].
      + rewrite Hq. repeat constructor; nia.
      + rewrite Hq, !Hcons, Hnil. unfold c. lia. }
  split; [exact Hgen |].
  intros b k Hsc Hk Hb Hsl.
  rewrite (getitem_in_range g k b Hk Hb), <- Hsl, <- Hsc. exact Hgen.
Qed.

(** The post-processing block without NaN removal and scaling, on flat
    arrays of [n] rows that hold [n_features] and [output_n_features]
    values per row: it returns in every layout. *)
Lemma finish_layout (g : t val) (n : Z) (p2 t2 : np.ndarray val) :
  0 < n -> 0 <= _add_insolation g ->
  0 < rank g <= Py.len (np.shape (input_da g)) - 1 ->
  Forall (fun d => 0 < d) (shape g) -> np.size_of (shape g) < 2 ^ 63 ->
  0 < rank g <= Py.len (np.shape (output_da g)) - 1 ->
  Forall (fun d => 0 < d) (output_shape g) -> np.size_of (output_shape g) < 2 ^ 63 ->
  _remove_nan g = false ->
  np.shape p2 = [n; n_features g] -> Py.len (np.data p2) = n * n_features g ->
  np.shape t2 = [n; output_n_features g] ->
  Py.len (np.data t2) = n * output_n_features g ->
  exists p t,
    finish g n false p2 t2 = Ok (p, t)
    /\ np.data p = np.data p2 /\ np.data t = np.data t2
    /\ np.wf p /\ np.wf t
    /\ (if _is_convolutional g then
          np.shape p = n :: convolution_shape g
          /\ np.shape t = n :: output_convolution_shape g
        else
          exists dsh odsh,
            dense_shape g = Ok dsh /\ output_dense_shape g = Ok odsh
            /\ np.shape p = n :: dsh /\ np.shape t = n :: odsh).
Proof.
  intros Hn Hadd Hr Hpos Hsz Hr' Hpos' Hsz' Hrn Hsh0 Hlen0 Hsh1 Hlen1.
  destruct (input_layouts g Hr Hpos Hsz)
    as (mid & spatial & Hshape & Hsp & Pt & Pm & Ps & _ & Hnf & Hcs & Hds & _).
  destruct (output_layouts g Hr' Hpos' Hsz')
    as (omid & ospatial & Hoshape & Hosp & Pot & Pom & Pos & Honf & Hocs & Hods).
  assert (Hcons : forall x l, np.size_of (x :: l) = x * np.size_of l) by reflexivity.
  assert (Hnil : np.size_of [] = 1) by reflexivity.
  assert (Hwf : forall (a : np.ndarray val) sh,
             Forall (fun d => 0 < d) sh -> np.size_of sh = Py.len (np.data a) ->
             np.wf (np.mk_ndarray sh (np.data a))).
  { intros a sh Hsh Hsize. split; cbn [np.shape np.data]; [| now symmetry].
    eapply Forall_impl; [| exact Hsh]. intros d Hd. simpl in Hd. lia. }
  assert (Hq : n_features g / _input_time_steps g
               = np.size_of mid * np.size_of spatial
                 + np.size_of spatial * _add_insolation g).
  { rewrite Hnf, div_exact by lia. lia. }
  assert (Hoq : output_n_features g / _output_time_steps g
                = np.size_of omid * np.size_of ospatial).
  { rewrite Honf, div_exact by lia. reflexivity. }
  assert (Hdsh : forall sh, In sh [convolution_shape g;
                                   [_input_time_steps g;
                                    n_features g / _input_time_steps g];
                                   [n_features g]] ->
                 Forall (fun d => 0 < d) (n :: sh)
                 /\ np.size_of (n :: sh) = Py.len (np.data p2)).
  { intros sh Hin. rewrite Hlen0, Hcons.
    destruct Hin as [<- | [<- | [<- | []]]].
    - rewrite Hcs, Hnf. destruct (_keep_time_axis g); rewrite !Hcons;
        (split; [repeat constructor; try nia; exact Hsp | lia]).
    - rewrite Hq, !Hcons, Hnil, Hnf. split; [repeat constructor; nia | lia].
    - rewrite Hnf, !Hcons, Hnil. split; [repeat constructor; nia | lia]. }
  assert (Hodsh : forall sh, In sh [output_convolution_shape g;
                                    [_output_time_steps g;
                                     output_n_features g / _output_time_steps g];
                                    [output_n_features g]] ->
                  Forall (fun d => 0 < d) (n :: sh)
                  /\ np.size_of (n :: sh) = Py.len (np.data t2)).
  { intros sh Hin. rewrite Hlen1, Hcons.
    destruct Hin as [<- | [<- | [<- | []]]].
    - rewrite Hocs, Honf. destruct (_keep_time_axis g); rewrite !Hcons;
        (split; [repeat constructor; try nia; exact Hosp | lia]).
    - rewrite Hoq, !Hcons, Hnil, Honf. split; [repeat constructor; nia | lia].
    - rewrite Honf, !Hcons, Hnil. split; [repeat constructor; nia | lia]. }
  unfold finish. rewrite Hrn. cbn [bind].
  destruct (_is_convolutional g) eqn:Econv.
  - destruct (Hdsh (convolution_shape g) ltac:(now left)) as (A1 & A2).
    destruct (Hodsh (output_convolution_shape g) ltac:(now left)) as (B1 & B2).
    cbn [app]. rewrite (reshape_exact p2 _ A1 A2). cbn [bind].
    rewrite (reshape_exact t2 _ B1 B2). cbn [bind].
    eexists _, _. split; [reflexivity |]. cbn [np.data np.shape].
    do 2 (split; [reflexivity |]).
    split; [now apply Hwf |]. split; [now apply Hwf |]. now split.
  - rewrite Hds, Hods. destruct (_keep_time_axis g) eqn:Ekeep; cbn [bind app].
    + destruct (Hdsh [_input_time_steps g; n_features g / _input_time_steps g]
                  ltac:(right; now left)) as (A1 & A2).
      destruct (Hodsh [_output_time_steps g; output_n_features g / _output_time_steps g]
                  ltac:(right; now left)) as (B1 & B2).
      rewrite (reshape_exact p2 _ A1 A2). cbn [bind].
      rewrite (reshape_exact t2 _ B1 B2). cbn [bind].
      eexists _, _. split; [reflexivity |]. cbn [np.data np.shape].
      do 2 (split; [reflexivity |]).
      split; [now apply Hwf |]. split; [now apply Hwf |].
      eexists _, _. repeat split; reflexivity.
    + destruct (Hdsh [n_features g] ltac:(right; right; now left)) as (A1 & A2).
      destruct (Hodsh [output_n_features g] ltac:(right; right; now left)) as (B1 & B2).
      exists p2, t2. split; [reflexivity |].
      do 2 (split; [reflexivity |]).
      split.
      { unfold np.wf. rewrite Hsh0. split; [| now symmetry].
        eapply Forall_impl; [| exact A1]. intros d Hd. simpl in Hd. lia. }
      split.
      { unfold np.wf. rewrite Hsh1. split; [| now symmetry].
        eapply Forall_impl; [| exact B1]. intros d Hd. simpl in Hd. lia. }
      eexists _, _. repeat split; assumption.
Qed.

(** X14. Without NaN removal and scaling, [generate] returns in every
    layout (outside sequence mode, without insolation, offsets in range,
    arrays with [rank] trailing axes of positive length): the predictor
    array holds the values of the predictor windows, row after row, in the
    shape [(n,) + convolution_shape] for a convolutional model,
    [(n,) + dense_shape] for a recurrent one and [(n, n_features)]
    otherwise, and the target array the values of the target windows in
    the corresponding output shape; both are well-formed, [n] being the
    number of offsets. *)
Theorem generate_returns_in_every_layout (g : t val) (samples : list Z) (total : Z) :
  _is_loaded g = true -> _add_insolation g = 0 -> _sequence g = None ->
  np.wf (input_da g) -> np.wf (output_da g) ->
  rows_eq total (input_da g) -> rows_eq total (output_da g) ->
  0 < _input_time_steps g -> 0 < _output_time_steps g -> 0 < _interval g ->
  0 < _n_sample g <= total - _input_time_steps g - _output_time_steps g + 2 - _interval g ->
  Forall (fun x => 0 <= x < _n_sample g) samples ->
  0 < rank g <= Py.len (np.shape (input_da g)) - 1 ->
  Forall (fun d => 0 < d) (shape g) -> np.size_of (shape g) < 2 ^ 63 ->
  0 < rank g <= Py.len (np.shape (output_da g)) - 1 ->
  Forall (fun d => 0 < d) (output_shape g) -> np.size_of (output_shape g) < 2 ^ 63 ->
  _remove_nan g = false ->
  let xs := requested g samples in
  let n := Py.len xs in
  let p0 := window_rows (input_da g) (fun x => x) (_input_time_steps g) xs in
  let t0 := window_rows (output_da g)
                        (fun x => x + _input_time_steps g + _interval g - 1)
                        (_output_time_steps g) xs in
  exists p t,
    generate g samples false = Ok (Arr p, Arr t, g)
    /\ np.data p = np.data p0 /\ np.data t = np.data t0
    /\ np.wf p /\ np.wf t
    /\ (if _is_convolutional g then
          np.shape p = n :: convolution_shape g
          /\ np.shape t = n :: output_convolution_shape g
        else
          exists dsh odsh,
            dense_shape g = Ok dsh /\ output_dense_shape g = Ok odsh
            /\ np.shape p = n :: dsh /\ np.shape t = n :: odsh).
Proof.
  intros Hld Hadd Hseq Hwi Hwo Hri Hro Hits Hots Hint Hn Hs Hr Hpos Hsz Hr' Hpos' Hsz' Hrn
         xs n p0 t0.
  rewrite (generate_by_windows g samples false total) by assumption.
  fold xs. fold p0. fold t0. fold n.
  destruct (requested_in_range g samples (proj1 Hn) Hs) as (Hlen & Hxs).
  fold xs in Hlen, Hxs. fold n in Hlen.
  destruct (input_layouts g Hr Hpos Hsz)
    as (mid & spatial & Hshape & Hsp & Pt & Pm & Ps & _ & Hnf & _).
  destruct (output_layouts g Hr' Hpos' Hsz')
    as (omid & ospatial & Hoshape & Hosp & Pot & Pom & Pos & Honf & _).
  rewrite Hadd in Hnf.
  destruct (predictor_rows_size g total xs mid spatial Hwi Hri Hits) as (Hsh0 & Hlen0).
  { intros x Hx. specialize (Hxs x Hx). lia. }
  { exact Hshape. }
  destruct (target_rows_size g total xs omid ospatial Hwo Hro Hots) as (Hsh1 & Hlen1).
  { intros x Hx. specialize (Hxs x Hx). lia. }
  { exact Hoshape. }
  fold p0 in Hsh0, Hlen0. fold t0 in Hsh1, Hlen1. fold n in Hsh0, Hlen0, Hsh1, Hlen1.
  destruct (finish_layout g n p0 t0 Hlen ltac:(lia) Hr Hpos Hsz Hr' Hpos' Hsz' Hrn)
    as (p & t & Hfin & Hdp & Hdt & Hwp & Hwt & Hshapes).
  { rewrite Hsh0, Hnf. f_equal. f_equal. lia. }
  { rewrite Hlen0, Hnf. lia. }
  { now rewrite Hsh1, Honf. }
  { now rewrite Hlen1, Honf. }
  exists p, t. rewrite Hfin. cbn [bind].
  split; [reflexivity |]. do 4 (split; [assumption |]). exact Hshapes.
Qed.

End FixedLayout.

(** ** The empty selector *)

Section EmptySelector.
Context {val : Type} `{Backend val}.
Import SeriesDataGenerator.

(** A call of [generate] on an instance whose data is still to be loaded
    is the call on the loaded instance. *)
Lemma generate_after_load (g g1 : t val) (samples : list Z) (scale_and_impute : bool) :
  (if negb (_is_loaded g) then _load_data g else Ok g) = Ok g1 ->
  generate g samples scale_and_impute = generate g1 samples scale_and_impute
  /\ _is_loaded g1 = true
  /\ unloaded_part g1 = unloaded_part g.
Proof.
  intros Hl.
  assert (Hfr : unloaded_part g1 = unloaded_part g /\ _is_loaded g1 = true).
  { destruct (_is_loaded g) eqn:E; simpl in Hl.
    - injection Hl as <-. now split.
    - now apply _load_data_frame. }
  destruct Hfr as (Hfr & Hld). split; [| now split].
  unfold generate. rewrite Hl, Hld. cbn [negb bind].
  unfold unloaded_part in Hfr.
  injection Hfr as _ _ _ _ _ _ _ _ _ _ Hn _ _ _ _ _ _ _ _ _ _.
  now rewrite Hn.
Qed.

(** An empty selector stands for all the valid offsets. *)
Lemma generate_empty_is_all (g : t val) (scale_and_impute : bool) :
  generate g [] scale_and_impute
  = generate g (np.arange (_n_sample g)) scale_and_impute.
Proof.
  unfold generate. change (Py.len [] =? 0) with true. cbv iota.
  now destruct (Py.len (np.arange (_n_sample g)) =? 0).
Qed.

(** The block [finish] without NaN removal returns in every layout, for
    transforms that return. *)
Lemma finish_layout_scaled (g : t val) (n : Z) (scale_and_impute : bool)
    (p0 t0 : np.ndarray val) :
  0 < n -> 0 <= _add_insolation g ->
  0 < rank g <= Py.len (np.shape (input_da g)) - 1 ->
  Forall (fun d => 0 < d) (shape g) -> np.size_of (shape g) < 2 ^ 63 ->
  0 < rank g <= Py.len (np.shape (output_da g)) - 1 ->
  Forall (fun d => 0 < d) (output_shape g) -> np.size_of (output_shape g) < 2 ^ 63 ->
  _remove_nan g = false ->
  (scale_and_impute = true -> transforms_return (model g)) ->
  np.shape p0 = [n; n_features g] -> Py.len (np.data p0) = n * n_features g ->
  np.shape t0 = [n; output_n_features g] ->
  Py.len (np.data t0) = n * output_n_features g ->
  exists p t,
    finish g n scale_and_impute p0 t0 = Ok (p, t) /\ rows_eq n p /\ rows_eq n t.
Proof.
  intros Hn Hadd Hr Hpos Hsz Hr' Hpos' Hsz' Hrn Hm Hsh0 Hlen0 Hsh1 Hlen1.
  destruct (transforms_step (model g) (_impute_missing g) scale_and_impute p0 t0 Hm)
    as (p2 & t2 & Htr & S1 & S2 & L1 & L2).
  destruct (finish_layout g n p2 t2 Hn Hadd Hr Hpos Hsz Hr' Hpos' Hsz' Hrn)
    as (p & t & Hfin & _ & _ & _ & _ & Hshapes); try congruence.
  exists p, t. split.
  - unfold finish in Hfin |- *. rewrite Hrn in Hfin |- *. rewrite Htr.
    cbn [bind] in Hfin |- *. exact Hfin.
  - destruct (_is_convolutional g).
    + destruct Hshapes as (A & B). split; eexists; eassumption.
    + destruct Hshapes as (dsh & odsh & _ & _ & A & B). split; eexists; eassumption.
Qed.

(** Outside sequence mode and without insolation, [generate] with an
    empty selector returns, with one row per valid offset. *)
Lemma generate_all_returns (g g1 : t val) (scale_and_impute : bool) (total : Z) :
  (if negb (_is_loaded g) then _load_data g else Ok g) = Ok g1 ->
  _add_insolation g = 0 -> _sequence g = None ->
  np.wf (input_da g1) -> np.wf (output_da g1) ->
  rows_eq total (input_da g1) -> rows_eq total (output_da g1) ->
  0 < _input_time_steps g -> 0 < _output_time_steps g -> 0 < _interval g ->
  0 < _n_sample g <= total - _input_time_steps g - _output_time_steps g + 2 - _interval g ->
  (scale_and_impute = true -> transforms_return (model g)) ->
  (_is_convolutional g = false /\ _keep_time_axis g = false)
  \/ (_remove_nan g = false
      /\ 0 < rank g <= Py.len (np.shape (input_da g1)) - 1
      /\ Forall (fun d => 0 < d) (shape g1) /\ np.size_of (shape g1) < 2 ^ 63
      /\ 0 < rank g <= Py.len (np.shape (output_da g1)) - 1
      /\ Forall (fun d => 0 < d) (output_shape g1)
      /\ np.size_of (output_shape g1) < 2 ^ 63) ->
  exists p t,
    generate g [] scale_and_impute = Ok (Arr p, Arr t, g1)
    /\ rows_le (_n_sample g) p /\ rows_le (_n_sample g) t
    /\ (_remove_nan g = false -> rows_eq (_n_sample g) p /\ rows_eq (_n_sample g) t).
Proof.
  intros Hl Hadd Hseq Hwi Hwo Hri Hro Hits Hots Hint Hn Hm Hlay.
  destruct (generate_after_load g g1 [] scale_and_impute Hl) as (-> & Hld & Hfr).
  unfold unloaded_part in Hfr.
  injection Hfr as Emodel _ _ _ Ern Econv Ekeep _ _ Eseq En Erank _ _ Eits Eots Eint Eadd _ _ _.
  rewrite <- Emodel in Hm. rewrite <- Ern. rewrite <- Econv, <- Ekeep in Hlay.
  rewrite <- Ern, <- Erank in Hlay.
  rewrite <- Eseq in Hseq. rewrite <- Eadd in Hadd.
  rewrite <- Eits in Hits. rewrite <- Eots in Hots. rewrite <- Eint in Hint.
  rewrite <- En, <- Eits, <- Eots, <- Eint in Hn. rewrite <- En.
  clear Emodel Ern Econv Ekeep Eseq En Erank Eits Eots Eint Eadd Hl g.
  rename g1 into g.
  rewrite (generate_by_windows g [] scale_and_impute total) by (try assumption; constructor).
  destruct (requested_in_range g [] (proj1 Hn) (Forall_nil _)) as (Hlen & Hxs).
  assert (Hreq : Py.len (requested g []) = _n_sample g).
  { unfold requested. change (Py.len [] =? 0) with true. cbv iota.
    unfold np.arange. rewrite len_range. lia. }
  set (xs := requested g []) in *.
  set (p0 := window_rows (input_da g) (fun x => x) (_input_time_steps g) xs).
  set (t0 := window_rows (output_da g)
                         (fun x => x + _input_time_steps g + _interval g - 1)
                         (_output_time_steps g) xs).
  rewrite Hreq in *.
  assert (Rp0 : rows_eq (_n_sample g) p0).
  { eexists. unfold p0, window_rows. cbn [np.shape]. now rewrite Hreq. }
  assert (Rt0 : rows_eq (_n_sample g) t0).
  { eexists. unfold t0, window_rows. cbn [np.shape]. now rewrite Hreq. }
  destruct Hlay as [(Hc & Hk) | (Hrn & Hr & Hpos & Hsz & Hr' & Hpos' & Hsz')].
  - destruct (finish_flat_returns g (_n_sample g) scale_and_impute p0 t0 Hc Hk Hm
                ltac:(lia) Rp0 Rt0) as (p & t & -> & A & B & C).
    exists p, t. cbn [bind]. split; [reflexivity |]. now split; [| split].
  - destruct (input_layouts g Hr Hpos Hsz)
      as (mid & spatial & Hshape & Hsp & Pt & Pm & Ps & _ & Hnf & _).
    destruct (output_layouts g Hr' Hpos' Hsz')
      as (omid & ospatial & Hoshape & Hosp & Pot & Pom & Pos & Honf & _).
    rewrite Hadd in Hnf.
    destruct (predictor_rows_size g total xs mid spatial Hwi Hri Hits) as (Hsh0 & Hlen0).
    { intros x Hx. specialize (Hxs x Hx). lia. }
    { exact Hshape. }
    destruct (target_rows_size g total xs omid ospatial Hwo Hro Hots) as (Hsh1 & Hlen1).
    { intros x Hx. specialize (Hxs x Hx). lia. }
    { exact Hoshape. }
    fold p0 in Hsh0, Hlen0. fold t0 in Hsh1, Hlen1. rewrite Hreq in Hsh0, Hlen0, Hsh1, Hlen1.
    destruct (finish_layout_scaled g (_n_sample g) scale_and_impute p0 t0
                (proj1 Hn) ltac:(lia) Hr Hpos Hsz Hr' Hpos' Hsz' Hrn Hm)
      as (p & t & -> & A & B).
    { rewrite Hsh0, Hnf. f_equal. f_equal. lia. }
    { rewrite Hlen0, Hnf. lia. }
    { now rewrite Hsh1, Honf. }
    { now rewrite Hlen1, Honf. }
    exists p, t. cbn [bind]. split; [reflexivity |].
    split; [apply rows_eq_le; [lia | exact A] |].
    split; [apply rows_eq_le; [lia | exact B] |]. intros _. now split.
Qed.

(** [DataGenerator.generate] with an empty selector returns in the flat
    layout, with one row per sample of the dataset. *)
Lemma DataGenerator_generate_all_returns (g : DataGenerator.t val)
    (scale_and_impute : bool) (n : Z) :
  np.wf (xr.predictors (DataGenerator.ds g)) -> np.wf (xr.targets (DataGenerator.ds g)) ->
  rows_eq n (xr.predictors (DataGenerator.ds g)) ->
  rows_eq n (xr.targets (DataGenerator.ds g)) ->
  0 < n ->
  DataGenerator._is_convolutional g = false -> DataGenerator._keep_time_axis g = false ->
  (scale_and_impute = true -> transforms_return (DataGenerator.model g)) ->
  exists p t,
    DataGenerator.generate g [] scale_and_impute = Ok (p, t)
    /\ rows_le n p /\ rows_le n t
    /\ (DataGenerator._remove_nan g = false -> rows_eq n p /\ rows_eq n t).
Proof.
  intros (Hpp & Hlp) (Hpt & Hlt) (shp & Hsp) (sht & Hst) Hn Hc Hk Hm.
  unfold DataGenerator.generate. change (Py.len [] >? 0) with false. cbv iota.
  cbn [bind]. rewrite Hsp. cbn [np.item nth_error bind].
  rewrite Hsp in Hpp, Hlp. rewrite Hst in Hpt, Hlt.
  assert (Hcons : forall x l, np.size_of (x :: l) = x * np.size_of l) by reflexivity.
  rewrite Hcons in Hlp, Hlt.
  rewrite (reshape_rows_Ok _ n (np.size_of shp) Hn
             ltac:(apply size_of_nonneg; now inversion Hpp) Hlp).
  cbn [bind].
  rewrite (reshape_rows_Ok _ n (np.size_of sht) Hn
             ltac:(apply size_of_nonneg; now inversion Hpt) Hlt).
  cbn [bind].
  set (p0 := np.mk_ndarray [n; np.size_of shp] _).
  set (t0 := np.mk_ndarray [n; np.size_of sht] _).
  assert (Rp0 : rows_eq n p0) by (eexists; reflexivity).
  assert (Rt0 : rows_eq n t0) by (eexists; reflexivity).
  destruct (if DataGenerator._remove_nan g then util.delete_nan_samples p0 t0
            else (p0, t0)) as (p1, t1) eqn:Hd.
  destruct (transforms_step (DataGenerator.model g) (DataGenerator._impute_missing g)
              scale_and_impute p1 t1 Hm) as (p2 & t2 & -> & S1 & S2 & _).
  cbn [bind]. rewrite Hc, Hk.
  exists p2, t2. split; [reflexivity |].
  destruct (DataGenerator._remove_nan g).
  - destruct (delete_nan_samples_rows _ _ _ _ n Hd) as (A & B & _).
    split; [apply (rows_le_shape _ p1 _ S1), A; apply rows_eq_le; [lia | exact Rp0] |].
    split; [apply (rows_le_shape _ t1 _ S2), B; apply rows_eq_le; [lia | exact Rt0] |].
    intros Hf; discriminate Hf.
  - injection Hd as <- <-.
    split; [apply (rows_le_shape _ p0 _ S1); apply rows_eq_le; [lia | exact Rp0] |].
    split; [apply (rows_le_shape _ t0 _ S2); apply rows_eq_le; [lia | exact Rt0] |].
    intros _. split; [now apply (rows_eq_shape _ p0) | now apply (rows_eq_shape _ t0)].
Qed.

(** C8, as amended. For [SeriesDataGenerator], calling [generate] with an
    empty selector is calling it with all the valid offsets
    [0 .. n_sample - 1]. The call does not return for every generator: it
    raises whenever [n_sample <= 0], and [DataGenerator.generate] raises
    on a dataset without samples. Whenever the call returns, under the
    model's contract, [n_sample] is positive, a predictor array is
    returned and, outside sequence mode or for [sequence >= 1], a target
    array too, every array returned has at most [n_sample] rows, and
    exactly [n_sample] rows when NaN removal is disabled. And the call does
    return, with these numbers of rows, in the following cases, for model
    transforms that return (keeping shapes and sizes) when
    [scale_and_impute] is set: for a [SeriesDataGenerator] outside
    sequence mode and without insolation whose data loads into well-formed
    input and output arrays of [total] samples, with
    [0 < n_sample <= total - input_time_steps - output_time_steps + 2 - interval],
    in the flat layout with or without NaN removal, and in every layout
    without NaN removal when the arrays have [rank] trailing axes of
    positive length; and for a [DataGenerator] in the flat layout whose
    [predictors] and [targets] are well-formed arrays of [n_sample > 0]
    samples. *)
Theorem generate_empty_selector_rows :
  (forall (g : t val) (scale_and_impute : bool),
      generate g [] scale_and_impute
      = generate g (np.arange (_n_sample g)) scale_and_impute)
  /\ (forall (g : t val) (scale_and_impute : bool),
         _n_sample g <= 0 -> exists e, generate g [] scale_and_impute = Raise e)
  /\ (forall (g g' : t val) (scale_and_impute : bool) (P T : output val),
         contract (model g) ->
         generate g [] scale_and_impute = Ok (P, T, g') ->
         0 < _n_sample g
         /\ arrays_of P <> []
         /\ ((forall sq, _sequence g = Some sq -> 0 < sq) -> arrays_of T <> [])
         /\ (_remove_nan g = false ->
             Forall (eq (_n_sample g)) (first_dims P ++ first_dims T))
         /\ Forall (fun d => 0 <= d <= _n_sample g) (first_dims P ++ first_dims T))
  /\ (forall (g g1 : t val) (scale_and_impute : bool) (total : Z),
         (if negb (_is_loaded g) then _load_data g else Ok g) = Ok g1 ->
         _add_insolation g = 0 -> _sequence g = None ->
         np.wf (input_da g1) -> np.wf (output_da g1) ->
         rows_eq total (input_da g1) -> rows_eq total (output_da g1) ->
         0 < _input_time_steps g -> 0 < _output_time_steps g -> 0 < _interval g ->
         0 < _n_sample g
         <= total - _input_time_steps g - _output_time_steps g + 2 - _interval g ->
         (scale_and_impute = true -> transforms_return (model g)) ->
         (_is_convolutional g = false /\ _keep_time_axis g = false)
         \/ (_remove_nan g = false
             /\ 0 < rank g <= Py.len (np.shape (input_da g1)) - 1
             /\ Forall (fun d => 0 < d) (shape g1) /\ np.size_of (shape g1) < 2 ^ 63
             /\ 0 < rank g <= Py.len (np.shape (output_da g1)) - 1
             /\ Forall (fun d => 0 < d) (output_shape g1)
             /\ np.size_of (output_shape g1) < 2 ^ 63) ->
         exists p t,
           generate g [] scale_and_impute = Ok (Arr p, Arr t, g1)
           /\ rows_le (_n_sample g) p /\ rows_le (_n_sample g) t
           /\ (_remove_nan g = false ->
               rows_eq (_n_sample g) p /\ rows_eq (_n_sample g) t))
  /\ (forall (g : DataGenerator.t val) (scale_and_impute : bool) (n : Z),
         rows_eq n (xr.predictors (DataGenerator.ds g)) -> n <= 0 ->
         exists e, DataGenerator.generate g [] scale_and_impute = Raise e)
  /\ (forall (g : DataGenerator.t val) (scale_and_impute : bool) (p t : np.ndarray val),
         contract (DataGenerator.model g) ->
         rows_eq (DataGenerator._n_sample g) (xr.predictors (DataGenerator.ds g)) ->
         DataGenerator.generate g [] scale_and_impute = Ok (p, t) ->
         0 < DataGenerator._n_sample g
         /\ hd 0 (np.shape p) = hd 0 (np.shape t)
         /\ 0 <= hd 0 (np.shape p) <= DataGenerator._n_sample g
         /\ (DataGenerator._remove_nan g = false ->
             hd 0 (np.shape p) = DataGenerator._n_sample g))
  /\ (forall (g : DataGenerator.t val) (scale_and_impute : bool),
         np.wf (xr.predictors (DataGenerator.ds g)) ->
         np.wf (xr.targets (DataGenerator.ds g)) ->
         rows_eq (DataGenerator._n_sample g) (xr.predictors (DataGenerator.ds g)) ->
         rows_eq (DataGenerator._n_sample g) (xr.targets (DataGenerator.ds g)) ->
         0 < DataGenerator._n_sample g ->
         DataGenerator._is_convolutional g = false ->
         DataGenerator._keep_time_axis g = false ->
         (scale_and_impute = true -> transforms_return (DataGenerator.model g)) ->
         exists p t,
           DataGenerator.generate g [] scale_and_impute = Ok (p, t)
           /\ rows_le (DataGenerator._n_sample g) p
           /\ rows_le (DataGenerator._n_sample g) t
           /\ (DataGenerator._remove_nan g = false ->
               rows_eq (DataGenerator._n_sample g) p
               /\ rows_eq (DataGenerator._n_sample g) t)).
Proof.
  split; [exact generate_empty_is_all |].
  split.
  { intros g sc Hn.
    destruct (generate g [] sc) as [((P, T), g') |e] eqn:Hg; [| now exists e].
    apply generate_inv in Hg. destruct Hg as (_ & _ & _ & _ & _ & Hpos & _).
    unfold requested in Hpos. change (Py.len [] =? 0) with true in Hpos. cbv iota in Hpos.
    unfold np.arange in Hpos. rewrite len_range in Hpos. lia. }
  split.
  { intros g g' sc P T Hc Hg.
    destruct (generate_rows _ _ _ _ _ _ Hc Hg) as (Hn & A & B & _).
    change (requested g []) with (np.arange (_n_sample g)) in Hn, A, B.
    unfold np.arange in Hn, A, B. rewrite len_range in Hn, A, B.
    assert (Hpos : 0 < _n_sample g) by lia.
    rewrite Z.max_r in A, B by lia.
    split; [exact Hpos |].
    split.
    { destruct (generate_blocks _ _ _ _ _ _ Hg) as (p & rest & -> & _). discriminate. }
    split; [| split; assumption].
    intros Hsq. exact (proj1 (generate_reshaped _ _ _ _ _ _ Hg Hsq)). }
  split; [exact generate_all_returns |].
  split.
  { intros g sc n (sh & Hs) Hn.
    destruct (DataGenerator.generate g [] sc) as [(p, t) | e] eqn:Hg; [| now exists e].
    destruct (DataGenerator_generate_reshaped _ _ _ _ _ Hg) as (n' & Hn' & Hsel & _).
    change (Py.len [] >? 0) with false in Hsel. cbv iota in Hsel.
    destruct Hsel as (sh' & Hs'). rewrite Hs in Hs'. injection Hs' as -> _. lia. }
  split.
  { intros g sc p t Hc (sh & Hds) Hg.
    destruct (DataGenerator_generate_rows _ _ _ _ _ Hc Hg)
      as (n & Hn & Hsel & Rp & Rt & Heq & Hr & _).
    change (Py.len [] >? 0) with false in Hsel. cbv iota in Hsel.
    destruct Hsel as (sh' & Hds'). rewrite Hds in Hds'. injection Hds' as Hn' _.
    rewrite Hn'. split; [exact Hn |]. split; [exact Heq |].
    split; [now apply rows_le_hd |].
    intros Hrn. now apply rows_eq_hd, Hr. }
  intros g sc Hwp Hwt Rp Rt Hn Hc Hk Hm.
  exact (DataGenerator_generate_all_returns g sc _ Hwp Hwt Rp Rt Hn Hc Hk Hm).
Qed.

End EmptySelector.

Section SequenceScaling.
Context {val : Type} `{Backend val}.
Import SeriesDataGenerator.

(** The sequence loop with scaling against the loop without, in the flat
    layout, without NaN removal and imputing, for a scaler that acts on
    the predictors by [fp] and on the targets by [ft]. *)
Lemma sequence_loop_scales (g : t val) (xs : list Z) (n : Z)
    (fp ft : np.ndarray val -> np.ndarray val) (l : list Z) :
  _remove_nan g = false -> _impute_missing g = false ->
  _is_convolutional g = false -> _keep_time_axis g = false ->
  (forall p t, scaler_transform (model g) p t = Ok (fp p, ft t)) ->
  forall (p p' q : np.ndarray val) (ts ts' us : list (np.ndarray val)),
    foldM (sequence_step g xs n false) l (p, ts) = Ok (p', ts') ->
    exists new,
      p' = p /\ ts' = ts ++ new /\ length new = length l
      /\ foldM (sequence_step g xs n true) l (q, us)
         = Ok (Nat.iter (length l) fp q, us ++ map ft new).
Proof.
  intros Hrn Himp Hconv Hkeep Hsc.
  induction l as [| s l IH]; intros p p' q ts ts' us Hf; simpl in Hf.
  - injection Hf as <- <-. exists []. now rewrite !app_nil_r.
  - apply bind_Ok_inv in Hf. destruct Hf as ((p1, ts1) & Hs & Hf).
    unfold sequence_step in Hs.
    apply bind_Ok_inv in Hs. destruct Hs as (traw & Hw & Hs).
    apply bind_Ok_inv in Hs. destruct Hs as (t0 & Hr & Hs).
    unfold finish in Hs. rewrite Hrn, Hconv, Hkeep in Hs. cbn [bind] in Hs.
    injection Hs as <- <-.
    destruct (IH _ _ (fp q) _ _ (us ++ [ft t0]) Hf) as (new & -> & -> & Hlen & Hfold).
    exists (t0 :: new). split; [reflexivity |].
    split; [now rewrite <- app_assoc |]. split; [simpl; now rewrite Hlen |].
    cbn [foldM]. unfold sequence_step at 1. rewrite Hw. cbn [bind]. rewrite Hr. cbn [bind].
    unfold finish. rewrite Hrn, Himp, Hconv, Hkeep. cbn [bind].
    rewrite Hsc. cbn [bind]. rewrite Hfold. cbn [length map].
    rewrite <- app_assoc. cbn [app]. f_equal. f_equal.
    symmetry. apply Nat.iter_succ_r.
Qed.

(** X15. In sequence mode the predictors go through the scaler once per
    sequence step. In the flat layout, without insolation, NaN removal and
    imputing, and for a scaler that transforms the predictors by [fp] and
    the targets by [ft]: when [generate] with [scale_and_impute=False]
    returns the predictor array [p] and the targets [ts], then with
    [scale_and_impute=True] it returns [fp] applied [sequence] times to
    [p], and [ft] applied once to each target. *)
Theorem sequence_rescales_predictors (g g' : t val) (samples : list Z) (sq : Z)
    (fp ft : np.ndarray val -> np.ndarray val) (p : np.ndarray val)
    (ts : list (np.ndarray val)) :
  _sequence g = Some sq -> _add_insolation g = 0 ->
  _remove_nan g = false -> _impute_missing g = false ->
  _is_convolutional g = false -> _keep_time_axis g = false ->
  (forall p t, scaler_transform (model g) p t = Ok (fp p, ft t)) ->
  generate g samples false = Ok (Arr p, Arrs ts, g') ->
  generate g samples true
  = Ok (Arr (Nat.iter (Z.to_nat sq) fp p), Arrs (map ft ts), g')
  /\ Py.len ts = Z.max 0 sq.
Proof.
  intros Hseq Hadd Hrn Himp Hconv Hkeep Hsc Hg.
  unfold generate in Hg |- *.
  set (xs := if Py.len samples =? 0 then np.arange (_n_sample g) else samples) in *.
  destruct (if negb (_is_loaded g) then _load_data g else Ok g) as [g1 |] eqn:Hload;
    [| discriminate Hg].
  cbn [bind] in Hg |- *.
  assert (Hfr : unloaded_part g1 = unloaded_part g).
  { destruct (negb (_is_loaded g)).
    - now apply _load_data_frame.
    - now injection Hload as <-. }
  unfold unloaded_part in Hfr.
  injection Hfr as Hm _ _ _ Hrn1 Hconv1 Hkeep1 Himp1 _ Hseq1 _ _ _ _ _ _ _ Hadd1 _ _ _.
  destruct (window (input_da g1) (fun n => map (fun x => x + n) xs) 1
                   (_input_time_steps g1)) as [wp |]; [| discriminate Hg].
  cbn [bind] in Hg |- *.
  rewrite Hadd1, Hadd in Hg. rewrite Hadd1, Hadd. cbn [Z.eqb negb bind] in Hg |- *.
  destruct (np.reshape wp [Py.len xs; -1]) as [p2 |]; [| discriminate Hg].
  cbn [bind] in Hg |- *.
  rewrite Hseq1, Hseq in Hg. rewrite Hseq1, Hseq.
  apply bind_Ok_inv in Hg. destruct Hg as ((p', targets) & Hfold & Hg).
  rewrite Hadd1, Hadd in Hg. cbn [Z.eqb negb] in Hg. injection Hg as <- <- <-.
  destruct (sequence_loop_scales g1 xs (Py.len xs) fp ft (Py.range sq)
              ltac:(congruence) ltac:(congruence) ltac:(congruence) ltac:(congruence)
              ltac:(rewrite Hm; exact Hsc) p2 p' p2 [] targets [] Hfold)
    as (new & -> & Hts & Hlen & Hscaled).
  cbn [app] in Hts. subst new.
  rewrite Hscaled. cbn [bind app]. rewrite Hadd1, Hadd. cbn [Z.eqb negb].
  rewrite range_length.
  split; [reflexivity |]. unfold Py.len. rewrite Hlen, range_length. lia.
Qed.

End SequenceScaling.

Section Blocks.
Context {val : Type}.

(** The first [n] blocks of [sz] values are the first [n * sz] values. *)
Lemma blocks_firstn (sz : Z) (l : list val) (n : nat) :
  0 <= sz ->
  flat_map (np.block sz l) (Py.range (Z.of_nat n)) = firstn (Z.to_nat (Z.of_nat n * sz)) l.
Proof.
  intros Hsz. induction n as [| n IH].
  - reflexivity.
  - rewrite Nat2Z.inj_succ, <- Z.add_1_r.
    rewrite range_succ by lia.
    rewrite flat_map_app, IH. cbn [flat_map]. rewrite app_nil_r.
    unfold np.block.
    replace (Z.to_nat ((Z.of_nat n + 1) * sz))
      with (Z.to_nat (Z.of_nat n * sz) + Z.to_nat sz)%nat by nia.
    now rewrite firstn_plus.
Qed.

(** The rows of a well-formed array, put end to end, are its values. *)
Lemma observations_all (a : np.ndarray val) (d0 : Z) (rest : list Z) :
  np.wf a -> np.shape a = d0 :: rest ->
  flat_map (observation a) (Py.range d0) = np.data a.
Proof.
  intros (Hpos & Hlen) Hs. rewrite Hs in Hpos, Hlen.
  inversion Hpos as [| ? ? Hd0 Hrest]; subst.
  pose proof (size_of_nonneg _ Hrest) as HF.
  rewrite (flat_map_ext_in (observation a) (np.block (np.size_of rest) (np.data a))).
  - rewrite <- (Z2Nat.id d0) by lia. rewrite blocks_firstn by exact HF.
    apply firstn_all2. change (np.size_of (d0 :: rest)) with (d0 * np.size_of rest) in Hlen.
    unfold Py.len in Hlen. nia.
  - intros i Hi. apply In_range in Hi. unfold observation.
    rewrite (index0_in_range a d0 rest i Hs Hi). unfold observation, np.index0.
    rewrite Hs. destruct (i <? 0) eqn:E; [lia |].
    now replace ((0 <=? i) && (i <? d0)) with true by lia.
Qed.

End Blocks.

Section DataGeneratorRows.
Context {val : Type} `{Backend val}.
Import DataGenerator.

(** X16. [DataGenerator.generate] keeps predictors and targets aligned and in
    the order asked for: with well-formed [predictors] and [targets] of
    [total] samples, in the flat layout without NaN removal and scaling,
    a request for indices within range returns two flat arrays whose row
    [k] is the predictor row, and the target row, of the [k]-th index
    requested; an empty request returns all the rows, in their order. *)
Theorem DataGenerator_generate_rows_aligned (g : t val) (samples : list Z) (total : Z) :
  np.wf (xr.predictors (ds g)) -> np.wf (xr.targets (ds g)) ->
  rows_eq total (xr.predictors (ds g)) -> rows_eq total (xr.targets (ds g)) ->
  _remove_nan g = false -> _is_convolutional g = false -> _keep_time_axis g = false ->
  0 < total -> Forall (fun x => 0 <= x < total) samples ->
  let xs := if Py.len samples >? 0 then samples else Py.range total in
  generate g samples false
  = Ok (np.mk_ndarray [Py.len xs; np.size_of (tl (np.shape (xr.predictors (ds g))))]
                      (flat_map (observation (xr.predictors (ds g))) xs),
        np.mk_ndarray [Py.len xs; np.size_of (tl (np.shape (xr.targets (ds g))))]
                      (flat_map (observation (xr.targets (ds g))) xs)).
Proof.
  intros Hwp Hwt (rp & Hsp) (rt & Hst) Hrn Hconv Hkeep Htot Hs xs.
  pose proof (proj1 (Forall_forall _ _) Hs) as Hs'.
  assert (HFp : 0 <= np.size_of rp).
  { destruct Hwp as (Hpos & _). rewrite Hsp in Hpos. apply size_of_nonneg.
    now inversion Hpos. }
  assert (HFt : 0 <= np.size_of rt).
  { destruct Hwt as (Hpos & _). rewrite Hst in Hpos. apply size_of_nonneg.
    now inversion Hpos. }
  assert (Hxs : 0 < Py.len xs /\ forall x, In x xs -> 0 <= x < total).
  { unfold xs. destruct (Py.len samples >? 0) eqn:E.
    - split; [lia | exact Hs'].
    - rewrite len_range. split; [lia |]. intros x Hx. now apply In_range in Hx. }
  destruct Hxs as (Hlen & Hin).
  assert (Hsel : (if Py.len samples >? 0 then
                    dp <- np.take_newaxis (xr.predictors (ds g)) samples 0 ;;
                    dt <- np.take_newaxis (xr.targets (ds g)) samples 0 ;;
                    Ok (dp, dt)
                  else Ok (xr.predictors (ds g), xr.targets (ds g)))
                 = Ok (np.mk_ndarray (Py.len xs :: rp)
                                     (flat_map (observation (xr.predictors (ds g))) xs),
                       np.mk_ndarray (Py.len xs :: rt)
                                     (flat_map (observation (xr.targets (ds g))) xs))).
  { unfold xs. destruct (Py.len samples >? 0) eqn:E.
    - rewrite (take_newaxis_in_range _ total rp samples 0 Hsp Hs'). cbn [bind].
      rewrite (take_newaxis_in_range _ total rt samples 0 Hst Hs'). reflexivity.
    - rewrite len_range, Z.max_r by lia.
      rewrite (observations_all _ total rp Hwp Hsp), (observations_all _ total rt Hwt Hst).
      rewrite <- Hsp, <- Hst.
      now destruct (xr.predictors (ds g)), (xr.targets (ds g)). }
  unfold generate. rewrite Hsel. cbn [bind np.shape np.item nth_error].
  assert (Hobs : forall (a : np.ndarray val) r, np.wf a -> np.shape a = total :: r ->
                 Py.len (flat_map (observation a) xs) = Py.len xs * np.size_of r).
  { intros a r Hw Hsa. unfold Py.len.
    rewrite (flat_map_length_const _ (Z.to_nat (np.size_of r))).
    - assert (0 <= np.size_of r).
      { destruct Hw as (Hpos & _). rewrite Hsa in Hpos. apply size_of_nonneg.
        now inversion Hpos. }
      nia.
    - intros x Hx.
      apply (observation_length a total r); [exact Hw | exact Hsa | now apply Hin]. }
  rewrite (reshape_rows_Ok _ (Py.len xs) (np.size_of rp)); cbn [np.data];
    [| exact Hlen | exact HFp | now apply Hobs].
  cbn [bind].
  rewrite (reshape_rows_Ok _ (Py.len xs) (np.size_of rt)); cbn [np.data];
    [| exact Hlen | exact HFt | now apply Hobs].
  cbn [bind]. rewrite Hrn, Hconv, Hkeep. cbn [bind]. rewrite Hsp, Hst. reflexivity.
Qed.

(** X17. What the constructor of [DataGenerator] does: it raises
    [ValueError] exactly when the dataset lacks [predictors] or [targets];
    otherwise it raises [KeyError] exactly when the dataset has no
    dimension ['sample']; otherwise it returns an instance that holds the
    arguments, the three flags of the model, [_n_sample] the length of the
    dimension ['sample'], and an ordering that is [0 .. _n_sample - 1], or
    what the random generator makes of it when [shuffle] is set. *)
Theorem DataGenerator_init (shuffle : list Z -> list Z) (m : Model val)
    (d : xr.Dataset val) (batch_size : Z) (shuffle_ remove_nan : bool) :
  let r := __init__ shuffle m d batch_size shuffle_ remove_nan in
  (r = Raise ValueError <-> xr.has_predictors d = false \/ xr.has_targets d = false)
  /\ (r = Raise KeyError <->
      xr.has_predictors d = true /\ xr.has_targets d = true
      /\ Py.contains (xr.dims d) "sample" = false)
  /\ (forall n, xr.has_predictors d = true -> xr.has_targets d = true ->
                Py.getitem (xr.dims d) "sample" = Ok n ->
                exists g,
                  r = Ok g
                  /\ model g = m /\ ds g = d /\ _batch_size g = batch_size
                  /\ _shuffle g = shuffle_ /\ _remove_nan g = remove_nan
                  /\ _is_convolutional g = is_convolutional m
                  /\ _keep_time_axis g = is_recurrent m
                  /\ _impute_missing g = impute m
                  /\ _n_sample g = n
                  /\ _has_time_step g = Py.contains (xr.dims d) "time_step"
                  /\ _indices g = (if shuffle_ then shuffle (Py.range n) else Py.range n)).
Proof.
  intros r. subst r. unfold __init__.
  destruct (xr.has_predictors d) eqn:Ep, (xr.has_targets d) eqn:Et; cbn [negb orb].
  - destruct (Py.contains (xr.dims d) "sample") eqn:Ec.
    + destruct (contains_getitem_Ok _ _ Ec) as (n & Hn). rewrite Hn. cbn [bind].
      split; [split; [discriminate | intros [Hc | Hc]; discriminate Hc] |].
      split; [split; [discriminate | intros (_ & _ & Hc); discriminate Hc] |].
      intros n' _ _ [= <-]. eexists. split; [reflexivity |].
      unfold on_epoch_end. cbn. destruct shuffle_; cbn; repeat split; reflexivity.
    + rewrite (contains_getitem _ _ Ec). cbn [bind].
      split; [split; [discriminate | intros [Hc | Hc]; discriminate Hc] |].
      split; [split; [now intros _ | reflexivity] |].
      intros n' _ _ Hc. discriminate Hc.
  - split; [split; [now right | reflexivity] |].
    split; [split; [discriminate | intros (_ & Hc & _); discriminate Hc] |].
    intros n _ Hc. discriminate Hc.
  - split; [split; [now left | reflexivity] |].
    split; [split; [discriminate | intros (Hc & _); discriminate Hc] |].
    intros n Hc. discriminate Hc.
  - split; [split; [now left | reflexivity] |].
    split; [split; [discriminate | intros (Hc & _); discriminate Hc] |].
    intros n Hc. discriminate Hc.
Qed.

End DataGeneratorRows.

Section AtLen.
Context {val : Type} `{Backend val}.




End AtLen.

Section Smart.
Context {val : Type} `{Backend val}.
Import SmartDataGenerator.

(** X19. The windows of [SmartDataGenerator.generate]: on a well-formed
    data array of [total] samples, for offsets [x] with
    [0 <= x] and [x + 2 * time_dim <= total], in the flat layout without NaN
    removal and scaling, the predictor row of [x] is the [time_dim]
    observations [x .. x + time_dim - 1] and the target row is the
    [time_dim] observations that follow, [x + time_dim .. x + 2 * time_dim - 1];
    an empty request stands for the offsets [0 .. _n_sample - 1]. *)
Theorem SmartDataGenerator_generate_windows (g : t val) (samples : list Z) (total : Z) :
  np.wf (da g) -> rows_eq total (da g) -> 0 < time_dim g ->
  _remove_nan g = false -> _is_convolutional g = false -> _keep_time_axis g = false ->
  let xs := if Py.len samples =? 0 then np.arange (_n_sample g) else samples in
  0 < Py.len xs ->
  Forall (fun x => 0 <= x /\ x + 2 * time_dim g <= total) xs ->
  generate g samples false
  = Ok (window_rows (da g) (fun x => x) (time_dim g) xs,
        window_rows (da g) (fun x => x + time_dim g) (time_dim g) xs).
Proof.
  intros Hwf Hr Htd Hrn Hconv Hkeep xs Hlen Hxs.
  pose proof (proj1 (Forall_forall _ _) Hxs) as Hxs'.
  unfold generate. fold xs.
  pose proof (window_flat (da g) total xs (fun x n => x + n) (fun x => x)
                (time_dim g) Hwf Hr Htd Hlen ltac:(reflexivity)
                ltac:(intros x j Hx Hj; specialize (Hxs' x Hx); cbv beta in *; lia)) as Hp.
  pose proof (window_flat (da g) total xs (fun x n => x + time_dim g + n)
                (fun x => x + time_dim g)
                (time_dim g) Hwf Hr Htd Hlen ltac:(reflexivity)
                ltac:(intros x j Hx Hj; specialize (Hxs' x Hx); cbv beta in *; lia)) as Ht.
  apply bind_Ok_inv in Hp. destruct Hp as (wp & Hwp & Hrp).
  apply bind_Ok_inv in Ht. destruct Ht as (wt & Hwt & Hrt).
  rewrite Hwp. cbn [bind]. rewrite Hrp. cbn [bind].
  rewrite Hwt. cbn [bind]. rewrite Hrt. cbn [bind].
  rewrite Hrn, Hconv, Hkeep. reflexivity.
Qed.

End Smart.

Section OkOrIndexError.
Context {val : Type}.

Lemma mapM_Raise_inv {A B : Type} (f : A -> result B) (l : list A) (e : exn) :
  mapM f l = Raise e -> exists a, In a l /\ f a = Raise e.
Proof.
  induction l as [| a l IH]; simpl; [discriminate |].
  destruct (f a) as [b | e'] eqn:Ea; cbn [bind].
  - destruct (mapM f l) as [bs | e'']; cbn [bind]; [discriminate |].
    intros [= ->]. destruct (IH eq_refl) as (a' & Ha' & Hf). exists a'. split; [now right | exact Hf].
  - intros [= ->]. exists a. split; [now left | exact Ea].
Qed.

Lemma mapM_Raise_at {A B : Type} (f : A -> result B) (l1 l2 : list A) (a : A) (e : exn) :
  (forall x, In x l1 -> (exists b, f x = Ok b) \/ f x = Raise e) -> f a = Raise e ->
  mapM f (l1 ++ a :: l2) = Raise e.
Proof.
  induction l1 as [| x l1 IH]; intros Hf Ha; simpl.
  - now rewrite Ha.
  - destruct (Hf x (or_introl eq_refl)) as [(b & ->) | ->]; [| reflexivity].
    cbn [bind]. rewrite IH; [reflexivity | | exact Ha].
    intros y Hy. apply Hf. now right.
Qed.

Lemma index0_Raise (a : np.ndarray val) (i : Z) (e : exn) :
  np.index0 a i = Raise e -> e = IndexError.
Proof.
  unfold np.index0. destruct (np.shape a) as [| d0 rest]; [now intros [= <-] |].
  destruct ((0 <=? (if i <? 0 then i + d0 else i)) && ((if i <? 0 then i + d0 else i) <? d0));
    [discriminate | now intros [= <-]].
Qed.

Lemma take_newaxis_Raise (a : np.ndarray val) (idx : list Z) (k : nat) (e : exn) :
  np.take_newaxis a idx k = Raise e -> e = IndexError.
Proof.
  unfold np.take_newaxis. destruct (mapM (np.index0 a) idx) as [rs | e'] eqn:Em;
    cbn [bind]; [discriminate |].
  intros [= <-]. apply mapM_Raise_inv in Em. destruct Em as (i & _ & Hi).
  now apply index0_Raise in Hi.
Qed.

(** A window is returned, or a read is out of range. *)
Lemma window_Ok_or_IndexError `{Backend val} (a : np.ndarray val) (samples : list Z)
    (off : Z -> Z -> Z) (k : nat) (steps : Z) :
  0 < steps ->
  (exists w,
      SeriesDataGenerator.window a (fun j => map (fun x => off x j) samples) (S k) steps
      = Ok w)
  \/ SeriesDataGenerator.window a (fun j => map (fun x => off x j) samples) (S k) steps
     = Raise IndexError.
Proof.
  intros Hsteps. unfold SeriesDataGenerator.window.
  destruct (mapM (fun n => np.take_newaxis a (map (fun x => off x n) samples) (S k))
                 (Py.range steps)) as [cols | e] eqn:Em; cbn [bind].
  - left. pose proof (mapM_Forall2 _ _ _ Em) as Hall.
    assert (Hsh : Forall (fun c => np.shape c
                                   = Py.len samples :: repeat 1 (S k) ++ tl (np.shape a)) cols).
    { clear Em. induction Hall as [| j c js cs Hc _ IH]; constructor; [| exact IH].
      rewrite (take_newaxis_shape _ _ _ _ Hc). unfold Py.len. now rewrite length_map. }
    destruct cols as [| c0 cols].
    + destruct (range_cons steps Hsteps) as (js & Hjs). rewrite Hjs in Em.
      simpl in Em. inv_result Em.
    + unfold np.concatenate.
      pose proof (proj1 (Forall_forall _ _) Hsh) as Hsh'.
      rewrite (Hsh' c0 (or_introl eq_refl)).
      replace (Nat.ltb 1 (length (Py.len samples :: repeat 1 (S k) ++ tl (np.shape a))))
        with true by (symmetry; apply Nat.ltb_lt; cbn; lia).
      cbn [andb].
      replace (forallb _ (c0 :: cols)) with true; [eexists; reflexivity |].
      symmetry. apply forallb_forall. intros c Hc. rewrite (Hsh' c Hc).
      apply agree_off_axis_refl.
  - right. apply mapM_Raise_inv in Em. destruct Em as (j & _ & Hj).
    apply take_newaxis_Raise in Hj. now subst e.
Qed.

End OkOrIndexError.

Section InsolationPastEnd.
Context {val : Type} `{Backend val}.
Import SeriesDataGenerator.

(** X20. In sequence mode with insolation, the insolation window of step
    [s] starts at [x + input_time_steps * s], whereas [_n_sample] counts
    on steps of [output_time_steps]. So when
    [sequence * (input_time_steps - output_time_steps) >= interval + input_time_steps]
    (for instance 2 input steps, 1 output step, an interval of 1 and a
    sequence of 3), the last of the valid offsets reads the insolation
    past its last sample: [generate] with an empty selector, that is for
    all the samples, raises [IndexError]. *)
Theorem sequence_insolation_reads_past_end (g : t val) (scale_and_impute : bool)
    (total sq : Z) (sol : np.ndarray val) :
  _is_loaded g = true -> _add_insolation g = 1 ->
  _sequence g = Some sq -> 0 < sq ->
  insolation_da g = Some sol -> rows_eq total sol ->
  rows_eq total (input_da g) ->
  0 < _input_time_steps g -> 0 < _output_time_steps g -> 0 < _interval g ->
  _n_sample g
  = total - _input_time_steps g - _output_time_steps g * sq + 2 - _interval g ->
  0 < _n_sample g ->
  sq * (_input_time_steps g - _output_time_steps g) >= _interval g + _input_time_steps g ->
  generate g [] scale_and_impute = Raise IndexError.
Proof.
  intros Hld Hadd Hseq Hsq Hsol (srest & Hss) (irest & Hsi) Hits Hots Hint Hn Hpos Hbad.
  unfold generate. change (Py.len [] =? 0) with true. cbv iota.
  set (xs := np.arange (_n_sample g)).
  assert (Hxs : forall x, In x xs <-> 0 <= x < _n_sample g) by (intros x; apply In_range).
  rewrite Hld. cbn [negb bind].
  destruct (window_in_range (input_da g) total irest xs (fun x n => x + n) 0
              (_input_time_steps g) Hsi Hits) as (wp & Hwp).
  { intros x j Hx Hj. apply Hxs in Hx. nia. }
  rewrite Hwp. cbn [bind]. rewrite Hadd. cbn [Z.eqb negb].
  replace (insolation_da
             (set_keep_time_axis (_keep_time_axis (set_add_insolation 0 g))
                (set_add_insolation 1 (set_keep_time_axis true (set_add_insolation 0 g)))))
    with (Some sol) by (rewrite insolation_block_state; now destruct g).
  cbn [bind].
  replace (_sequence
             (set_keep_time_axis (_keep_time_axis (set_add_insolation 0 g))
                (set_add_insolation 1 (set_keep_time_axis true (set_add_insolation 0 g)))))
    with (Some sq) by (rewrite insolation_block_state; now destruct g).
  replace (_input_time_steps
             (set_keep_time_axis (_keep_time_axis (set_add_insolation 0 g))
                (set_add_insolation 1 (set_keep_time_axis true (set_add_insolation 0 g)))))
    with (_input_time_steps g) by (rewrite insolation_block_state; now destruct g).
  assert (Hm : mapM (fun s => window sol
                                (fun n => map (fun x => x + _input_time_steps g * s + n) xs)
                                2 (_input_time_steps g))
                    (Py.range sq)
               = Raise IndexError).
  { replace sq with ((sq - 1) + 1) at 1 by lia. rewrite range_succ by lia.
    apply mapM_Raise_at.
    - intros s _.
      apply (window_Ok_or_IndexError sol xs (fun x n => x + _input_time_steps g * s + n) 1
               (_input_time_steps g) Hits).
    - apply (window_past_end sol total srest xs
               (fun x n => x + _input_time_steps g * (sq - 1) + n) 2 (_input_time_steps g)
               (_n_sample g - 1) (_input_time_steps g - 1) Hss).
      + intros x j Hx Hj. apply Hxs in Hx. nia.
      + apply Hxs. lia.
      + lia.
      + nia. }
  rewrite Hm. reflexivity.
Qed.

End InsolationPastEnd.

Section SequenceWindows.
Context {val : Type} `{Backend val}.
Import SeriesDataGenerator.

(** X21. In sequence mode without insolation, on a loaded generator whose
    two views are well-formed arrays of [total] samples and whose
    [_n_sample] leaves room for the [sequence] target windows, [generate]
    in the flat layout without NaN removal and scaling returns, for
    offsets from 0 to [_n_sample - 1]: the flattened predictor rows, and
    one target array per sequence step [s], in the order of the steps,
    whose row for the offset [x] is the [output_time_steps] observations
    from [x + input_time_steps + interval - 1 + output_time_steps * s] on.
    No read is out of range, and the instance is left as it is. *)
Theorem generate_sequence_reads_windows (g : t val) (samples : list Z) (total sq : Z) :
  _is_loaded g = true -> _add_insolation g = 0 -> _sequence g = Some sq -> 0 < sq ->
  np.wf (input_da g) -> np.wf (output_da g) ->
  rows_eq total (input_da g) -> rows_eq total (output_da g) ->
  0 < _input_time_steps g -> 0 < _output_time_steps g -> 0 < _interval g ->
  0 < _n_sample g
  <= total - _input_time_steps g - _output_time_steps g * sq + 2 - _interval g ->
  Forall (fun x => 0 <= x < _n_sample g) samples ->
  _remove_nan g = false -> _is_convolutional g = false -> _keep_time_axis g = false ->
  let xs := requested g samples in
  generate g samples false
  = Ok (Arr (window_rows (input_da g) (fun x => x) (_input_time_steps g) xs),
        Arrs (map (fun s =>
                     window_rows (output_da g)
                       (fun x => x + _input_time_steps g + _interval g - 1
                                 + _output_time_steps g * s)
                       (_output_time_steps g) xs)
                  (Py.range sq)),
        g).
Proof.
  intros Hld Hadd Hseq Hsq Hwi Hwo Hri Hro Hits Hots Hint Hn Hs Hrn Hconv Hkeep xs.
  destruct (requested_in_range g samples (proj1 Hn) Hs) as (Hlen & Hxs).
  fold xs in Hlen, Hxs.
  unfold generate. fold (requested g samples). fold xs.
  rewrite Hld. cbn [negb bind].
  pose proof (window_flat (input_da g) total xs (fun x n => x + n) (fun x => x)
                (_input_time_steps g) Hwi Hri Hits Hlen ltac:(reflexivity)
                ltac:(intros x j Hx Hj; specialize (Hxs x Hx); cbv beta; nia)) as Hp.
  apply bind_Ok_inv in Hp. destruct Hp as (wp & Hwp & Hrp).
  rewrite Hwp. cbn [bind]. rewrite Hadd. cbn [Z.eqb negb bind].
  rewrite Hrp. cbn [bind]. rewrite Hseq.
  set (p0 := window_rows (input_da g) (fun x => x) (_input_time_steps g) xs).
  set (T := fun s => window_rows (output_da g)
                       (fun x => x + _input_time_steps g + _interval g - 1
                                 + _output_time_steps g * s)
                       (_output_time_steps g) xs).
  assert (Hfold : forall l ts, (forall s, In s l -> 0 <= s < sq) ->
                  foldM (sequence_step g xs (Py.len xs) false) l (p0, ts)
                  = Ok (p0, ts ++ map T l)).
  { induction l as [| s l IH]; intros ts Hl; cbn [foldM map].
    - now rewrite app_nil_r.
    - assert (Hs0 : 0 <= s < sq) by (apply Hl; now left).
      unfold sequence_step at 1. unfold target_index.
      pose proof (window_flat (output_da g) total xs
                    (fun x n => x + _input_time_steps g + _interval g - 1
                                + _output_time_steps g * s + n)
                    (fun x => x + _input_time_steps g + _interval g - 1
                              + _output_time_steps g * s)
                    (_output_time_steps g) Hwo Hro Hots Hlen ltac:(reflexivity)
                    ltac:(intros x j Hx Hj; specialize (Hxs x Hx); cbv beta; nia)) as Ht.
      apply bind_Ok_inv in Ht. destruct Ht as (wt & Hwt & Hrt).
      rewrite Hwt. cbn [bind]. rewrite Hrt. cbn [bind].
      unfold finish. rewrite Hrn, Hconv, Hkeep. cbn [bind].
      rewrite IH by (intros s' Hs'; apply Hl; now right).
      now rewrite <- app_assoc. }
  rewrite Hfold by (intros s Hs'; now apply In_range).
  cbn [bind app]. rewrite Hadd. reflexivity.
Qed.

End SequenceWindows.

(** [len(self)] by cases on the sample count [n] and the batch size [bs]. *)
Lemma len_cases (n bs : Z) :
  let len_ := l <- np.ceil_div n bs ;; if l <? 0 then Raise ValueError else Ok l in
  (bs = 0 -> len_ = Raise ZeroDivisionError)
  /\ (0 < bs -> - bs < n -> exists k, len_ = Ok k /\ 0 <= k /\ is_ceil k n bs)
  /\ (0 < bs -> n <= - bs -> len_ = Raise ValueError)
  /\ (bs < 0 -> n < - bs -> exists k, len_ = Ok k /\ 0 <= k)
  /\ (bs < 0 -> - bs <= n -> len_ = Raise ValueError).
Proof.
  intros len_. subst len_. unfold np.ceil_div.
  split; [intros ->; reflexivity |].
  assert (Hdiv : forall b, b <> 0 -> (- n) = b * ((- n) / b) + (- n) mod b)
    by (intros b Hb; now apply Z.div_mod).
  split; [| split; [| split]].
  - intros Hbs Hn. destruct (bs =? 0) eqn:E; [lia |]. cbn [bind].
    pose proof (Hdiv bs ltac:(lia)). pose proof (Z.mod_pos_bound (- n) bs Hbs).
    destruct (- (- n / bs) <? 0) eqn:E1; [nia |].
    eexists. split; [reflexivity |]. unfold is_ceil. split; nia.
  - intros Hbs Hn. destruct (bs =? 0) eqn:E; [lia |]. cbn [bind].
    pose proof (Hdiv bs ltac:(lia)). pose proof (Z.mod_pos_bound (- n) bs Hbs).
    destruct (- (- n / bs) <? 0) eqn:E1; [reflexivity | nia].
  - intros Hbs Hn. destruct (bs =? 0) eqn:E; [lia |]. cbn [bind].
    pose proof (Hdiv bs ltac:(lia)). pose proof (Z.mod_neg_bound (- n) bs Hbs).
    destruct (- (- n / bs) <? 0) eqn:E1; [nia |].
    eexists. split; [reflexivity | nia].
  - intros Hbs Hn. destruct (bs =? 0) eqn:E; [lia |]. cbn [bind].
    pose proof (Hdiv bs ltac:(lia)). pose proof (Z.mod_neg_bound (- n) bs Hbs).
    destruct (- (- n / bs) <? 0) eqn:E1; [reflexivity | nia].
Qed.

Section Length.
Context {val : Type} `{Backend val}.

(** X22. [len(generator)] at the edges. [DataGenerator] and
    [SmartDataGenerator] take any batch size: with a batch size of 0
    [len] raises [ZeroDivisionError], and with a negative one it raises
    [ValueError] as soon as there are [-batch_size] samples, the length
    that [__len__] returns being negative. For a positive batch size, the
    only one that [SeriesDataGenerator] accepts, [len] is the ceiling of
    [n_sample / batch_size], not negative, as long as
    [n_sample > -batch_size] (it is 0 for a series too short to hold one
    window), and raises [ValueError] below. *)
Theorem len_at_the_edges :
  (forall g : SeriesDataGenerator.t val,
      let n := SeriesDataGenerator._n_sample g in
      let bs := SeriesDataGenerator._batch_size g in
      (0 < bs -> - bs < n ->
       exists k, SeriesDataGenerator.len_ g = Ok k /\ 0 <= k /\ is_ceil k n bs)
      /\ (0 < bs -> n <= - bs -> SeriesDataGenerator.len_ g = Raise ValueError))
  /\ (forall g : DataGenerator.t val,
         let n := DataGenerator._n_sample g in
         let bs := DataGenerator._batch_size g in
         (bs = 0 -> DataGenerator.len_ g = Raise ZeroDivisionError)
         /\ (0 < bs -> - bs < n ->
             exists k, DataGenerator.len_ g = Ok k /\ 0 <= k /\ is_ceil k n bs)
         /\ (0 < bs -> n <= - bs -> DataGenerator.len_ g = Raise ValueError)
         /\ (bs < 0 -> n < - bs -> exists k, DataGenerator.len_ g = Ok k /\ 0 <= k)
         /\ (bs < 0 -> - bs <= n -> DataGenerator.len_ g = Raise ValueError))
  /\ (forall g : SmartDataGenerator.t val,
         let n := SmartDataGenerator._n_sample g in
         let bs := SmartDataGenerator._batch_size g in
         (bs = 0 -> SmartDataGenerator.len_ g = Raise ZeroDivisionError)
         /\ (0 < bs -> - bs < n ->
             exists k, SmartDataGenerator.len_ g = Ok k /\ 0 <= k /\ is_ceil k n bs)
         /\ (0 < bs -> n <= - bs -> SmartDataGenerator.len_ g = Raise ValueError)
         /\ (bs < 0 -> n < - bs -> exists k, SmartDataGenerator.len_ g = Ok k /\ 0 <= k)
         /\ (bs < 0 -> - bs <= n -> SmartDataGenerator.len_ g = Raise ValueError)).
Proof.
  split; [| split].
  - intros g n bs. destruct (len_cases n bs) as (_ & A & B & _). split; assumption.
  - intros g n bs. exact (len_cases n bs).
  - intros g n bs. exact (len_cases n bs).
Qed.

End Length.

Section SmartEpoch.
Context {val : Type} `{Backend val}.
Import SmartDataGenerator.

Lemma Smart_set_keep_time_axis_same (g : t val) :
  set_keep_time_axis (_keep_time_axis g) g = g.
Proof. destruct g; reflexivity. Qed.

Lemma Smart_set_keep_time_axis_twice (b b' : bool) (g : t val) :
  set_keep_time_axis b (set_keep_time_axis b' g) = set_keep_time_axis b g.
Proof. destruct g; reflexivity. Qed.

(** X23. [SmartDataGenerator] runs its epochs as the other two classes do:
    after [on_epoch_end], for a random generator that permutes and a
    positive batch size, batch [i] of [k] is generated from the slice
    [[i * batch_size, (i + 1) * batch_size)] of the ordering, and the
    [k] slices put end to end are a permutation of [0 .. _n_sample - 1];
    and reading [shape_2d] returns the convolution shape without the time
    axis and leaves the instance as it was. *)
Theorem SmartDataGenerator_epoch (shuffle : list Z -> list Z) :
  (forall l : list Z, Permutation l (shuffle l)) ->
  (forall (g : t val) (k : Z),
      0 < _batch_size g ->
      let g' := on_epoch_end shuffle g in
      __len__ g' = Ok k ->
      (forall i, 0 <= i < k ->
                 __getitem__ g' i
                 = generate g' (Py.slice (Some (i * _batch_size g'))
                                         (Some ((i + 1) * _batch_size g')) (_indices g'))
                            true)
      /\ Permutation (concat (epoch_batches (_indices g') (_batch_size g') k))
                     (Py.range (_n_sample g')))
  /\ (forall g : t val,
         fst (shape_2d g) = convolution_shape (set_keep_time_axis false g)
         /\ snd (shape_2d g) = g).
Proof.
  intros Hperm. split.
  - intros g k Hbs g' Hk.
    assert (Hfr : _batch_size g' = _batch_size g /\ _n_sample g' = _n_sample g
                  /\ _indices g' = if _shuffle g then shuffle (np.arange (_n_sample g))
                                   else np.arange (_n_sample g)).
    { subst g'. unfold on_epoch_end. destruct g; cbn. destruct _shuffle0; repeat split. }
    destruct Hfr as (Hb & Hn & Hidx). split.
    + intros i Hi. unfold __getitem__, len_. rewrite Hk. cbn [bind].
      destruct (i <? 0) eqn:E; [lia |]. cbn [bind].
      destruct (k <? 0) eqn:E0; [lia |]. cbn [bind].
      destruct (i >? k) eqn:E1; [lia | reflexivity].
    + unfold epoch_batches. rewrite batches_cover with (n := _n_sample g').
      * rewrite Hidx, Hn. now apply ordering_permutes.
      * lia.
      * rewrite Hidx, Hn. now apply ordering_length.
      * apply ceil_div_spec; [lia |]. exact Hk.
  - intros g. unfold shape_2d. destruct (_keep_time_axis g) eqn:E; cbn [fst snd].
    + split; [reflexivity |].
      rewrite Smart_set_keep_time_axis_twice, <- E. apply Smart_set_keep_time_axis_same.
    + split; [| reflexivity]. now rewrite <- E, Smart_set_keep_time_axis_same.
Qed.

Lemma concat_sample_rows (a b c : np.ndarray val) :
  concat_sample a b = Ok c ->
  hd 0 (np.shape c) = hd 0 (np.shape a) + hd 0 (np.shape b)
  /\ tl (np.shape c) = tl (np.shape a).
Proof.
  unfold concat_sample, np.concatenate. intros Hc. inv_result Hc. subst c.
  cbn [np.shape firstn app hd map fold_right tl].
  apply andb_prop in E. destruct E as (Hax & _). apply Nat.ltb_lt in Hax.
  destruct (np.shape a) as [| da sa]; [simpl in Hax; lia |].
  destruct (np.shape b) as [| db sb]; cbn [nth hd skipn tl]; split; (lia || reflexivity).
Qed.

Lemma isel_sample_from_rows (a : np.ndarray val) (n lo : Z) :
  rows_eq n a -> 0 <= lo <= n ->
  hd 0 (np.shape (isel_sample_from a lo)) = n - lo.
Proof.
  intros (sh & Hs) Hlo. unfold isel_sample_from. cbn [np.shape hd].
  unfold Py.slice, Py.clamp. destruct (lo <? 0) eqn:E; [lia |].
  assert (Hl : Py.len (np.rows a) = n).
  { unfold Py.len. rewrite (rows_length a n sh Hs). lia. }
  rewrite Hl. unfold Py.len. rewrite length_firstn, length_skipn.
  unfold Py.len in Hl. lia.
Qed.

(** X24. The data array that the constructor of [SmartDataGenerator] builds
    is as long as [generate] needs it: for a dataset with [targets] and a
    dimension ['time_step'] of length [td], [1 <= td <= n], whose
    [predictors] and [targets] have [n] samples (and a selection of one
    time step that keeps the samples), the array [da] has
    [n + 2 * td - 1] samples, [_n_sample] is [n] and [time_dim] is [td]; so
    the target window of the last offset, [n - 1], ends on the last
    sample of [da]. *)
Theorem SmartDataGenerator_init_rows (shuffle : list Z -> list Z) (m : Model val)
    (d : xr.Dataset val) (batch_size : Z) (shuffle_ remove_nan load : bool)
    (g : t val) (n td : Z) :
  __init__ shuffle m d batch_size shuffle_ remove_nan load = Ok g ->
  Py.getitem (xr.dims d) "sample" = Ok n ->
  Py.getitem (xr.dims d) "time_step" = Ok td ->
  xr.has_targets d = true ->
  1 <= td <= n ->
  rows_eq n (xr.predictors d) -> rows_eq n (xr.targets d) ->
  (forall a i, hd 0 (np.shape (isel_time_step a i)) = hd 0 (np.shape a)) ->
  _n_sample g = n /\ time_dim g = td
  /\ hd 0 (np.shape (da g)) = n + 2 * td - 1
  /\ (n - 1) + time_dim g + (time_dim g - 1) = hd 0 (np.shape (da g)) - 1.
Proof.
  intros Hi Hn Htd Htg Hr Hp Ht Hisel. unfold __init__ in Hi.
  destruct (negb (xr.has_predictors d)); [discriminate Hi |].
  rewrite Hn, (getitem_contains _ _ _ Htd), Htd, Htg in Hi. cbn [bind] in Hi.
  apply bind_Ok_inv in Hi. destruct Hi as ((td', da1) & H1 & Hi).
  apply bind_Ok_inv in H1. destruct H1 as (da0 & Hc0 & H1). injection H1 as <- <-.
  apply bind_Ok_inv in Hi. destruct Hi as (da2 & Hc1 & Hi). injection Hi as <-.
  destruct (concat_sample_rows _ _ _ Hc0) as (R0 & _).
  destruct (concat_sample_rows _ _ _ Hc1) as (R1 & _).
  rewrite !Hisel in R0. rewrite Hisel in R1.
  rewrite (isel_sample_from_rows _ n _ Hp) in R0 by lia.
  rewrite (isel_sample_from_rows _ n _ Ht) in R1 by lia.
  rewrite (rows_eq_hd _ _ Hp) in R0.
  assert (Hg : forall g0 : t val,
             _n_sample (on_epoch_end shuffle g0) = _n_sample g0
             /\ time_dim (on_epoch_end shuffle g0) = time_dim g0
             /\ da (on_epoch_end shuffle g0) = da g0).
  { intros g0. unfold on_epoch_end. destruct g0; cbn. destruct _shuffle0; repeat split. }
  match goal with
  | |- context [on_epoch_end shuffle ?g0] => destruct (Hg g0) as (-> & -> & ->)
  end.
  cbn [_n_sample time_dim da]. repeat split; lia.
Qed.

End SmartEpoch.

Section Channels.
Context {val : Type}.

Lemma block_length (c : Z) (l : list val) (o outer : Z) :
  0 <= c -> 0 <= o < outer -> Py.len l = outer * c ->
  length (np.block c l o) = Z.to_nat c.
Proof.
  intros Hc Ho Hl. unfold np.block. rewrite length_firstn, length_skipn.
  unfold Py.len in Hl. nia.
Qed.

Lemma combine_same_eqb (l : list Z) :
  forallb (fun d => fst d =? snd d) (combine l l) = true.
Proof.
  induction l as [| x l IH]; simpl; [reflexivity |]. now rewrite Z.eqb_refl.
Qed.

(** Appending one channel to [m] channels: the concatenation along axis 2
    of an array of shape [(n, t, m, spatial...)] and one of shape
    [(n, t, 1, spatial...)]. *)
Lemma concatenate_channel (p i : np.ndarray val) (n t m : Z) (sp : list Z) :
  np.shape p = n :: t :: m :: sp -> np.shape i = n :: t :: 1 :: sp ->
  0 <= n -> 0 <= t -> 0 <= m -> 0 <= np.size_of sp ->
  Py.len (np.data p) = (n * t) * (m * np.size_of sp) ->
  Py.len (np.data i) = (n * t) * (1 * np.size_of sp) ->
  exists w,
    np.concatenate [p; i] 2 = Ok w
    /\ np.shape w = n :: t :: m + 1 :: sp
    /\ Py.len (np.data w) = n * (t * ((m + 1) * np.size_of sp)).
Proof.
  intros Hsp Hsi Hn Ht Hm Hs Hlp Hli.
  unfold np.concatenate. rewrite Hsp.
  replace (Nat.ltb 2 (length (n :: t :: m :: sp))) with true
    by (symmetry; apply Nat.ltb_lt; cbn; lia).
  cbn [andb forallb]. rewrite Hsp, Hsi. rewrite agree_off_axis_refl.
  replace (np.agree_off_axis 2 (n :: t :: m :: sp) (n :: t :: 1 :: sp)) with true.
  2:{ unfold np.agree_off_axis. cbn [length firstn skipn combine forallb fst snd].
      rewrite Nat.eqb_refl, !Z.eqb_refl, combine_same_eqb. reflexivity. }
  cbn [andb]. eexists. split; [reflexivity |].
  cbn [np.shape np.data firstn skipn app map nth fold_right]. split.
  { rewrite Hsp, Hsi. cbn [nth]. replace (m + (1 + 0)) with (m + 1) by lia.
    reflexivity. }
  assert (Hcons : forall x l, np.size_of (x :: l) = x * np.size_of l) by reflexivity.
  unfold Py.len.
  rewrite (flat_map_length_const _ (Z.to_nat ((m + 1) * np.size_of sp))).
  - rewrite range_length, !Hcons. unfold np.size_of at 1. cbn [fold_right]. nia.
  - intros o Ho. apply In_range in Ho. rewrite !Hcons in Ho.
    unfold np.size_of in Ho at 1. cbn [fold_right] in Ho.
    cbn [flat_map]. rewrite app_nil_r, length_app, Hsp, Hsi. cbn [skipn].
    rewrite !Hcons.
    rewrite (block_length (m * np.size_of sp) (np.data p) o (n * t)) by (try nia; exact Hlp).
    rewrite (block_length (1 * np.size_of sp) (np.data i) o (n * t)) by (try nia; exact Hli).
    nia.
Qed.

End Channels.

Section WindowSizes.
Context {val : Type} `{Backend val}.

Lemma size_of_ones (k : nat) : np.size_of (repeat 1 k) = 1.
Proof.
  induction k as [| k IH]; [reflexivity |].
  cbn [repeat]. change (np.size_of (1 :: repeat 1 k)) with (1 * np.size_of (repeat 1 k)).
  rewrite IH. reflexivity.
Qed.

(** The shape of a window with any number of new axes, and the number of
    values that it holds. *)
Lemma window_shape_len (a w : np.ndarray val) (total : Z) (samples : list Z)
    (off : Z -> Z -> Z) (k : nat) (steps : Z) :
  np.wf a -> rows_eq total a -> 0 < steps ->
  (forall x j, In x samples -> 0 <= j < steps -> 0 <= off x j < total) ->
  SeriesDataGenerator.window a (fun j => map (fun x => off x j) samples) (S k) steps = Ok w ->
  np.shape w = Py.len samples :: steps :: repeat 1 k ++ tl (np.shape a)
  /\ Py.len (np.data w) = Py.len samples * (steps * np.size_of (tl (np.shape a))).
Proof.
  intros Hwf (rest & Hs) Hsteps Hoff Hw.
  assert (HF : 0 <= np.size_of rest).
  { destruct Hwf as (Hpos & _). rewrite Hs in Hpos. apply size_of_nonneg.
    now inversion Hpos. }
  unfold SeriesDataGenerator.window in Hw.
  set (colf := fun j : Z =>
                 np.mk_ndarray (Py.len (map (fun x => off x j) samples)
                                  :: repeat 1 (S k) ++ rest)
                               (flat_map (observation a) (map (fun x => off x j) samples))).
  rewrite (mapM_all_Ok _ colf) in Hw.
  2:{ intros j Hj. apply In_range in Hj. unfold colf.
      apply (take_newaxis_in_range _ _ _ _ _ Hs).
      intros i Hi. apply in_map_iff in Hi. destruct Hi as (x & <- & Hx). now apply Hoff. }
  cbn [bind] in Hw.
  destruct (concatenate_Ok _ _ _ Hw) as (a0 & cols & Ha0 & ->).
  destruct (range_cons steps Hsteps) as (js & Hjs).
  assert (Hc0 : a0 = colf 0) by (rewrite Hjs in Ha0; now injection Ha0 as <- _).
  subst a0. clear Ha0 Hw.
  rewrite Hs. cbn [tl np.shape np.data colf firstn skipn app].
  assert (HN : forall j, Py.len (map (fun x => off x j) samples) = Py.len samples)
    by (intros j; unfold Py.len; now rewrite length_map).
  rewrite HN. split.
  - rewrite map_map. cbn [np.shape nth repeat app].
    rewrite sum_ones, len_range, Z.max_r by lia. reflexivity.
  - assert (Hcons : forall x l, np.size_of (x :: l) = x * np.size_of l) by reflexivity.
    unfold Py.len at 1.
    rewrite (flat_map_length_const _ (Z.to_nat (steps * np.size_of rest))).
    + rewrite range_length, Hcons. unfold np.size_of at 1. cbn [fold_right].
      pose proof (len_nonneg samples). nia.
    + intros o Ho. apply In_range in Ho. rewrite Hcons in Ho.
      unfold np.size_of in Ho at 1. cbn [fold_right] in Ho.
      rewrite (flat_map_length_const _ (Z.to_nat (np.size_of rest))).
      * rewrite length_map, range_length. nia.
      * intros c Hc. apply in_map_iff in Hc. destruct Hc as (j & <- & Hj).
        apply In_range in Hj. cbn [colf np.shape np.data skipn].
        rewrite size_of_app, size_of_ones, Z.mul_1_l.
        apply (block_length _ _ o (Py.len samples)); [lia | lia |].
        unfold Py.len.
        rewrite (flat_map_length_const _ (Z.to_nat (np.size_of rest))).
        -- rewrite length_map. nia.
        -- intros i Hi. apply in_map_iff in Hi. destruct Hi as (x & <- & Hx).
           apply (observation_length a total rest); [exact Hwf | exact Hs |].
           now apply Hoff.
Qed.

End WindowSizes.

Section Insolation.
Context {val : Type} `{Backend val}.
Import SeriesDataGenerator.

Lemma convolution_shape_flags (b : bool) (a : Z) (g : t val) :
  convolution_shape (set_keep_time_axis b (set_add_insolation a g))
  = if b then
      [_input_time_steps g]
        ++ [np.prod (Py.slice (Some 1) (Some (- rank g)) (shape g)) + a]
        ++ Py.slice (Some (- rank g)) None (shape g)
    else
      [np.prod (Py.slice None (Some (- rank g)) (shape g)) + _input_time_steps g * a]
        ++ Py.slice (Some (- rank g)) None (np.shape (input_da g)).
Proof. destruct g, b; reflexivity. Qed.

(** X25. With insolation, the predictors that [generate] returns hold
    [n_features] values per sample, laid out as [convolution_shape] and
    [dense_shape] say. Outside sequence mode, on a loaded generator with
    [_add_insolation] 1 whose insolation array is well-formed, has [total]
    samples and the spatial axes of the input array, for offsets in range
    and without NaN removal and scaling: [generate] returns, the
    predictor array is well-formed with [n * n_features] values in the
    shape [(n,) + convolution_shape] for a convolutional model,
    [(n,) + dense_shape] for a recurrent one and [(n, n_features)]
    otherwise, and the instance is left as it is, its flags
    [_add_insolation] and [_keep_time_axis] included. *)
Theorem generate_with_insolation_returns (g : t val) (samples : list Z) (total : Z)
    (sol : np.ndarray val) :
  _is_loaded g = true -> _add_insolation g = 1 -> _sequence g = None ->
  insolation_da g = Some sol -> np.wf sol -> rows_eq total sol ->
  tl (np.shape sol) = Py.slice (Some (- rank g)) None (shape g) ->
  np.wf (input_da g) -> np.wf (output_da g) ->
  rows_eq total (input_da g) -> rows_eq total (output_da g) ->
  0 < _input_time_steps g -> 0 < _output_time_steps g -> 0 < _interval g ->
  0 < _n_sample g <= total - _input_time_steps g - _output_time_steps g + 2 - _interval g ->
  Forall (fun x => 0 <= x < _n_sample g) samples ->
  0 < rank g <= Py.len (np.shape (input_da g)) - 1 ->
  Forall (fun d => 0 < d) (shape g) -> np.size_of (shape g) < 2 ^ 63 ->
  0 < rank g <= Py.len (np.shape (output_da g)) - 1 ->
  Forall (fun d => 0 < d) (output_shape g) -> np.size_of (output_shape g) < 2 ^ 63 ->
  _remove_nan g = false ->
  let n := Py.len (requested g samples) in
  exists p t,
    generate g samples false = Ok (Arr p, Arr t, g)
    /\ np.wf p /\ np.wf t
    /\ Py.len (np.data p) = n * n_features g
    /\ (if _is_convolutional g then
          np.shape p = n :: convolution_shape g
          /\ np.shape t = n :: output_convolution_shape g
        else
          exists dsh odsh,
            dense_shape g = Ok dsh /\ output_dense_shape g = Ok odsh
            /\ np.shape p = n :: dsh /\ np.shape t = n :: odsh).
Proof.
  intros Hld Hadd Hseq Hsol Hws Hrs Hspat Hwi Hwo Hri Hro Hits Hots Hint Hn Hs
         Hr Hpos Hsz Hr' Hpos' Hsz' Hrn n.
  set (xs := requested g samples) in *.
  destruct (requested_in_range g samples (proj1 Hn) Hs) as (Hlen & Hxs).
  fold xs in Hlen, Hxs. fold n in Hlen.
  destruct (input_layouts g Hr Hpos Hsz)
    as (mid & spatial & Hshape & Hsp & Pt & Pm & Ps & _ & Hnf & _ & _ & L1 & L2 & L3 & L4 & Lsp).
  destruct (output_layouts g Hr' Hpos' Hsz')
    as (omid & ospatial & Hoshape & Hosp & Pot & Pom & Pos & Honf & _).
  rewrite Hadd in Hnf. rewrite L1 in Hspat.
  assert (Hcons : forall x l, np.size_of (x :: l) = x * np.size_of l) by reflexivity.
  assert (Htl : tl (np.shape (input_da g)) = mid ++ spatial).
  { unfold shape in Hshape. rewrite slice_from_1 in Hshape. now injection Hshape. }
  (* the predictor window *)
  destruct (window_in_range (input_da g) total (tl (np.shape (input_da g))) xs
              (fun x n => x + n) 0 (_input_time_steps g)) as (wp & Hwp); [| exact Hits | |].
  { destruct Hri as (rest & Hsi). now rewrite Hsi. }
  { intros x j Hx Hj. specialize (Hxs x Hx). lia. }
  destruct (window_shape_len (input_da g) wp total xs (fun x n => x + n) 0
              (_input_time_steps g) Hwi Hri Hits) as (Hshp & Hlenp); [| exact Hwp |].
  { intros x j Hx Hj. specialize (Hxs x Hx). lia. }
  cbn [repeat app] in Hshp. rewrite Htl, size_of_app in Hlenp. fold n in Hshp, Hlenp.
  (* the insolation window *)
  destruct (window_in_range sol total (tl (np.shape sol)) xs
              (fun x n => x + n) 1 (_input_time_steps g)) as (wi & Hwin); [| exact Hits | |].
  { destruct Hrs as (rest & Hss). now rewrite Hss. }
  { intros x j Hx Hj. specialize (Hxs x Hx). lia. }
  destruct (window_shape_len sol wi total xs (fun x n => x + n) 1
              (_input_time_steps g) Hws Hrs Hits) as (Hshi & Hleni); [| exact Hwin |].
  { intros x j Hx Hj. specialize (Hxs x Hx). lia. }
  cbn [repeat app] in Hshi. rewrite Hspat in Hshi, Hleni. fold n in Hshi, Hleni.
  (* the target window *)
  pose proof (window_flat (output_da g) total xs
                (fun x n => x + _input_time_steps g + n + _interval g - 1)
                (fun x => x + _input_time_steps g + _interval g - 1)
                (_output_time_steps g) Hwo Hro Hots Hlen
                ltac:(intros x j; cbv beta; lia)
                ltac:(intros x j Hx Hj; specialize (Hxs x Hx); cbv beta; lia)) as Ht.
  apply bind_Ok_inv in Ht. destruct Ht as (wt & Hwt & Hrt).
  set (t0 := window_rows (output_da g)
                         (fun x => x + _input_time_steps g + _interval g - 1)
                         (_output_time_steps g) xs) in *.
  destruct (target_rows_size g total xs omid ospatial Hwo Hro Hots) as (Hsh1 & Hlen1).
  { intros x Hx. specialize (Hxs x Hx). lia. }
  { exact Hoshape. }
  fold t0 in Hsh1, Hlen1. fold n in Hsh1, Hlen1.
  (* the reshape before the concatenation *)
  assert (Hpr : np.reshape wp ([n] ++ [_input_time_steps g; np.size_of mid + 0] ++ spatial)
                = Ok (np.mk_ndarray (n :: _input_time_steps g :: np.size_of mid + 0 :: spatial)
                                    (np.data wp))).
  { apply reshape_exact.
    - repeat constructor; try lia. exact Hsp.
    - cbn [app]. rewrite !Hcons, Hlenp. lia. }
  destruct (concatenate_channel
              (np.mk_ndarray (n :: _input_time_steps g :: np.size_of mid + 0 :: spatial)
                             (np.data wp))
              wi n (_input_time_steps g) (np.size_of mid + 0) spatial
              eq_refl Hshi ltac:(lia) ltac:(lia) ltac:(lia) ltac:(lia))
    as (w2 & Hcat & Hsh2 & Hlen2).
  { cbn [np.data]. rewrite Hlenp. lia. }
  { rewrite Hleni. lia. }
  assert (Hflat : np.reshape w2 [n; -1] = Ok (np.mk_ndarray [n; n_features g] (np.data w2))).
  { rewrite (reshape_rows_Ok w2 n (n_features g)); [reflexivity | exact Hlen | nia |].
    rewrite Hlen2, Hnf. lia. }
  destruct (finish_layout g n (np.mk_ndarray [n; n_features g] (np.data w2)) t0
              Hlen ltac:(lia) Hr Hpos Hsz Hr' Hpos' Hsz' Hrn eq_refl)
    as (p & t & Hfin & Hdp & Hdt & Hwfp & Hwft & Hshapes).
  { cbn [np.data]. rewrite Hlen2, Hnf. lia. }
  { now rewrite Hsh1, Honf. }
  { now rewrite Hlen1, Honf. }
  exists p, t.
  split.
  { unfold generate. fold (requested g samples). fold xs. fold n.
    rewrite Hld. cbn [negb bind]. rewrite Hwp. cbn [bind].
    rewrite Hadd. cbn [Z.eqb negb].
    rewrite insolation_block_state.
    replace (set_add_insolation 1 g) with g
      by (rewrite <- Hadd; symmetry; apply set_add_insolation_same).
    rewrite convolution_shape_flags, L1, L3.
    rewrite Hsol. cbn [bind]. rewrite Hseq. rewrite Hwin. cbn [bind].
    cbn [app] in Hpr |- *. rewrite Hpr. cbn [bind]. rewrite Hcat. cbn [bind]. rewrite Hflat. cbn [bind].
    rewrite Hseq, Hwt. cbn [bind]. fold n in Hrt. rewrite Hrt. cbn [bind].
    rewrite Hfin. reflexivity. }
  split; [exact Hwfp |]. split; [exact Hwft |].
  split; [| exact Hshapes].
  rewrite Hdp. cbn [np.data]. rewrite Hlen2, Hnf. lia.
Qed.

End Insolation.

(** ** The properties on the small data set *)

Import SeriesDataGenerator.

Lemma Demo_model_contract (c r : bool) : contract (Demo.model c r).
Proof.
  split; intros p t p' t' [= <- <-]; split; reflexivity.
Qed.

Lemma Demo_model_returns (c r : bool) : transforms_return (Demo.model c r).
Proof.
  split; intros p t; eexists _, _; (split; [reflexivity |]); cbn [np.shape np.data Demo.double];
    unfold Py.len; rewrite ?length_map; repeat split; reflexivity.
Qed.

Lemma Demo_series_wf : np.wf (Demo.series 10).
Proof.
  split; [| reflexivity]. repeat constructor; lia.
Qed.

(** C1 on 100 samples. *)
Lemma len_is_ceil_of_n_sample_witness :
  exists g,
    Demo.generator (Demo.model false false) (Demo.series 100) None
                      (Py.Bool false) 32 false (Py.Str "required") = Ok g
    /\ exists total k,
      Py.getitem (xr.dims (Demo.dataset (Demo.series 100))) "sample" = Ok total
      /\ _n_sample g = n_sample_spec total 2 1 None 1
      /\ __len__ g = Ok k
      /\ is_ceil k (_n_sample g) 32
      /\ (0 <= _n_sample g -> len_ g = Ok k)
      /\ (total = 100 -> 2 = 2 -> 1 = 1 -> 1 = 1 -> @None Z = None -> 32 = 32 ->
          _n_sample g = 98 /\ k = 4).
Proof.
  eexists. split.
  - vm_compute. reflexivity.
  - apply (len_is_ceil_of_n_sample (fun l => l) (Demo.model false false)
             (Demo.dataset (Demo.series 100)) 2 [] [] 2 1 None 1
             (Py.Bool false) 32 false false (Py.Str "required") false).
    vm_compute. reflexivity.
Defined.

(** C2 at the failing index: with 8 valid offsets in batches of 4 there
    are 2 batches, and asking for batch 2 raises nothing: the slice is
    empty, which [generate] reads as "all samples", so the call returns
    all 8 samples. [DataGenerator] does the same (10 samples, 3 batches,
    batch 3 returns 10 rows). *)
Lemma getitem_at_len_returns_every_sample :
  (exists g P T g',
      Demo.generator (Demo.model false false) (Demo.series 10) None
                        (Py.Bool false) 4 false (Py.Str "required") = Ok g
      /\ len_ g = Ok 2
      /\ __getitem__ g 2 = Ok (P, T, g')
      /\ first_dims P = [8] /\ first_dims T = [8])
  /\ (exists g p t,
         DataGenerator.__init__ (fun l => l) (Demo.model false false)
                                (Demo.dataset (Demo.series 10)) 4 false false = Ok g
         /\ DataGenerator.len_ g = Ok 3
         /\ DataGenerator.__getitem__ g 3 = Ok (p, t)
         /\ np.shape p = [10; 4] /\ np.shape t = [10; 4]).
Proof.
  split.
  - eexists _, _, _, _. split; [vm_compute; reflexivity |].
    split; [vm_compute; reflexivity |].
    split; [vm_compute; reflexivity |].
    split; vm_compute; reflexivity.
  - eexists _, _, _. split; [vm_compute; reflexivity |].
    split; [vm_compute; reflexivity |].
    split; [vm_compute; reflexivity |].
    split; vm_compute; reflexivity.
Qed.

(** C3 on the offsets 0 and 1. *)
Lemma target_windows_witness :
  exists g P T g',
    Demo.generator (Demo.model false false) (Demo.series 10) None
                      (Py.Bool false) 4 false (Py.Str "required") = Ok g
    /\ generate g [0; 1] false = Ok (P, T, g')
    /\ np.wf (output_da g')
    /\ match _sequence g with
       | None =>
           exists t,
             T = Arr t
             /\ target_window g' (requested g [0; 1]) false
                              (fun x => x + _input_time_steps g + _interval g - 1) t
       | Some sq =>
           exists targets,
             T = Arrs targets
             /\ Forall2 (fun s t =>
                           target_window g' (requested g [0; 1]) false
                             (fun x => x + _input_time_steps g + _interval g - 1
                                       + _output_time_steps g * s) t)
                        (Py.range sq) targets
       end.
Proof.
  eexists _, _, _, _. split; [vm_compute; reflexivity |].
  match goal with
  | |- generate ?G ?S ?sc = Ok (?P, ?T, ?G') /\ _ =>
      assert (Hgen : generate G S sc = Ok (P, T, G')) by (vm_compute; reflexivity)
  end.
  split; [exact Hgen |].
  split; [exact Demo_series_wf |].
  exact (target_windows _ _ _ _ _ _ Hgen Demo_series_wf).
Defined.

(** C4, as stated, fails in the non-recurrent layout: with two input time
    steps the insolation adds two channels. *)
Lemma convolution_shape_insolation_counterexample :
  exists g g0,
    Demo.generator (Demo.model true false) (Demo.series 10) None
                      (Py.Bool true) 4 false (Py.Str "required") = Ok g
    /\ Demo.generator (Demo.model true false) (Demo.series 10) None
                         (Py.Bool false) 4 false (Py.Str "required") = Ok g0
    /\ _add_insolation g = 1 /\ _add_insolation g0 = 0
    /\ _keep_time_axis g = false
    /\ convolution_shape g0 = [2; 2; 2]
    /\ convolution_shape g = [4; 2; 2]
    /\ (hd 0 (convolution_shape g) =? hd 0 (convolution_shape g0) + 1) = false.
Proof.
  eexists _, _. split; [vm_compute; reflexivity |].
  split; [vm_compute; reflexivity |].
  repeat (match goal with |- _ /\ _ => split end); vm_compute; reflexivity.
Qed.

Lemma convolution_shape_insolation_channels_witness :
  exists g,
    Demo.generator (Demo.model true true) (Demo.series 10) None
                      (Py.Bool true) 4 false (Py.Str "required") = Ok g
    /\ _add_insolation g = 1
    /\ (_keep_time_axis g = true ->
        exists c spatial,
          convolution_shape (set_add_insolation 0 g) = [_input_time_steps g; c] ++ spatial
          /\ convolution_shape g = [_input_time_steps g; c + 1] ++ spatial)
    /\ (_keep_time_axis g = false ->
        exists c spatial,
          convolution_shape (set_add_insolation 0 g) = [c] ++ spatial
          /\ convolution_shape g = [c + _input_time_steps g] ++ spatial).
Proof.
  eexists. split; [vm_compute; reflexivity |].
  split; [vm_compute; reflexivity |].
  refine (convolution_shape_insolation_channels _ _).
  vm_compute. reflexivity.
Defined.

(** C5 with the ordering reversed at the end of the epoch. *)
Lemma epoch_visits_each_index_once_witness :
  exists g,
    __init__ (@rev Z) (Demo.model false false) (Demo.dataset (Demo.series 10))
             2 [] [] 2 1 None 1 (Py.Bool false) 4 true false (Py.Str "required") false
    = Ok g
    /\ 0 < _batch_size g
    /\ __len__ (on_epoch_end (@rev Z) g) = Ok 2
    /\ (forall i, 0 <= i < 2 ->
                  __getitem__ (on_epoch_end (@rev Z) g) i
                  = generate (on_epoch_end (@rev Z) g)
                             (nth (Z.to_nat i)
                                  (epoch_batches (_indices (on_epoch_end (@rev Z) g))
                                                 (_batch_size (on_epoch_end (@rev Z) g)) 2)
                                  []) true)
    /\ Permutation (concat (epoch_batches (_indices (on_epoch_end (@rev Z) g))
                                          (_batch_size (on_epoch_end (@rev Z) g)) 2))
                   (Py.range (_n_sample (on_epoch_end (@rev Z) g))).
Proof.
  eexists. split; [vm_compute; reflexivity |].
  split; [vm_compute; reflexivity |].
  split; [vm_compute; reflexivity |].
  refine (proj1 (epoch_visits_each_index_once (@rev Z) (@Permutation_rev Z)) _ 2 _ _).
  - vm_compute. reflexivity.
  - vm_compute. reflexivity.
Defined.

(** C6, as stated, fails when NaN removal drops a sample: batch 0 of 2,
    which is not the last one, comes back with 3 rows for a batch size of
    4. *)
Lemma batch_first_dimensions_counterexample :
  exists g P T g',
    Demo.generator (Demo.model false false) (Demo.series_nan 10) None
                      (Py.Bool false) 4 true (Py.Str "required") = Ok g
    /\ _remove_nan g = true /\ _batch_size g = 4 /\ __len__ g = Ok 2
    /\ __getitem__ g 0 = Ok (P, T, g')
    /\ first_dims P = [3] /\ first_dims T = [3]
    /\ (3 =? _batch_size g) = false.
Proof.
  eexists _, _, _, _. split; [vm_compute; reflexivity |].
  repeat (match goal with |- _ /\ _ => split end); vm_compute; reflexivity.
Qed.

Lemma batch_first_dimensions_witness :
  exists g P T g',
    Demo.generator (Demo.model false false) (Demo.series 10) None
                      (Py.Bool false) 4 false (Py.Str "required") = Ok g
    /\ __getitem__ g 1 = Ok (P, T, g')
    /\ 0 < Z.min (_batch_size g) (_n_sample g - 1 * _batch_size g) <= _batch_size g
    /\ (1 < 2 - 1 -> Z.min (_batch_size g) (_n_sample g - 1 * _batch_size g)
                     = _batch_size g)
    /\ Forall (fun d => 0 <= d <= Z.min (_batch_size g) (_n_sample g - 1 * _batch_size g))
              (first_dims P ++ first_dims T)
    /\ (_sequence g = None -> exists d, first_dims P = [d] /\ first_dims T = [d])
    /\ (_remove_nan g = false ->
        Forall (eq (Z.min (_batch_size g) (_n_sample g - 1 * _batch_size g)))
               (first_dims P ++ first_dims T)).
Proof.
  eexists _, _, _, _. split; [vm_compute; reflexivity |].
  match goal with
  | |- __getitem__ ?G ?i = Ok (?P, ?T, ?G') /\ _ =>
      assert (Hget : __getitem__ G i = Ok (P, T, G')) by (vm_compute; reflexivity)
  end.
  split; [exact Hget |].
  refine (batch_first_dimensions _ _ 1 2 _ _ _ _ _ _ _ Hget).
  - apply Demo_model_contract.
  - vm_compute. apply Permutation_refl.
  - vm_compute. reflexivity.
  - vm_compute. reflexivity.
  - lia.
Defined.



(** C8, as stated, fails on generators as the constructors make them: a
    series of two samples leaves no valid offset ([n_sample] is 0), and
    [generate([])], with NaN removal disabled, raises [ValueError] where
    the claim has it return 0 rows; [DataGenerator.generate([])] does the
    same on a dataset without samples. *)
Lemma generate_empty_selector_rows_counterexample :
  (exists g,
      Demo.generator (Demo.model false false) (Demo.series 2) None
                        (Py.Bool false) 4 false (Py.Str "required") = Ok g
      /\ _n_sample g = 0 /\ _remove_nan g = false
      /\ generate g [] true = Raise ValueError
      /\ generate g [] false = Raise ValueError)
  /\ (exists g,
         DataGenerator.__init__ (fun l => l) (Demo.model false false)
                                (Demo.dataset (Demo.series 0)) 4 false false = Ok g
         /\ DataGenerator._n_sample g = 0 /\ DataGenerator._remove_nan g = false
         /\ DataGenerator.generate g [] true = Raise ValueError).
Proof.
  split.
  - eexists. split; [vm_compute; reflexivity |].
    repeat (match goal with |- _ /\ _ => split end); vm_compute; reflexivity.
  - eexists. split; [vm_compute; reflexivity |].
    repeat (match goal with |- _ /\ _ => split end); vm_compute; reflexivity.
Qed.

(** The small series, loaded by the call itself, with scaling: eight
    offsets, eight rows. *)
Lemma generate_empty_selector_rows_witness :
  exists g g1,
    Demo.generator (Demo.model false false) (Demo.series 10) None
                      (Py.Bool false) 4 false (Py.Str "required") = Ok g
    /\ _load_data g = Ok g1
    /\ _n_sample g = 8
    /\ exists p t,
        generate g [] true = Ok (Arr p, Arr t, g1)
        /\ rows_le (_n_sample g) p /\ rows_le (_n_sample g) t
        /\ (_remove_nan g = false ->
            rows_eq (_n_sample g) p /\ rows_eq (_n_sample g) t).
Proof.
  eexists _, _. split; [vm_compute; reflexivity |].
  match goal with
  | |- _load_data ?G = Ok ?G1 /\ _ =>
      assert (Hl : (if negb (_is_loaded G) then _load_data G else Ok G) = Ok G1)
        by (vm_compute; reflexivity)
  end.
  split; [exact Hl |]. split; [reflexivity |].
  match goal with
  | |- exists p t, generate ?G _ _ = Ok (_, _, ?G1) /\ _ =>
      refine (proj1 (proj2 (proj2 (proj2 generate_empty_selector_rows))) G G1 true 10 Hl
                _ _ _ _ _ _ _ _ _ _ _ _)
  end.
  - reflexivity.
  - reflexivity.
  - vm_compute. repeat constructor; intro; discriminate.
  - vm_compute. repeat constructor; intro; discriminate.
  - eexists. reflexivity.
  - eexists. reflexivity.
  - reflexivity.
  - reflexivity.
  - reflexivity.
  - vm_compute. split; [reflexivity | intro; discriminate].
  - intros _. apply Demo_model_returns.
  - left. split; reflexivity.
Defined.

(** C10, as stated, fails for a falsy [load]: the first call of
    [generate] sets [_is_loaded] and loads nothing, whereas with
    ['required'] it loads the two views. *)
Lemma load_validation_counterexample :
  (exists g P T g',
      Demo.generator (Demo.model false false) (Demo.series 10) None
                        (Py.Bool false) 4 false (Py.Bool false) = Ok g
      /\ _load g = Py.Bool false /\ _is_loaded g = false /\ in_memory g = []
      /\ generate g [] true = Ok (P, T, g')
      /\ _is_loaded g' = true /\ in_memory g' = [])
  /\ (exists g P T g',
         Demo.generator (Demo.model false false) (Demo.series 10) None
                           (Py.Bool false) 4 false (Py.Str "required") = Ok g
         /\ _is_loaded g = false /\ in_memory g = []
         /\ generate g [] true = Ok (P, T, g')
         /\ _is_loaded g' = true /\ in_memory g' = [Load_output_da; Load_input_da]).
Proof.
  split.
  - eexists _, _, _, _. split; [vm_compute; reflexivity |].
    repeat (match goal with |- _ /\ _ => split end); vm_compute; reflexivity.
  - eexists _, _, _, _. split; [vm_compute; reflexivity |].
    repeat (match goal with |- _ /\ _ => split end); vm_compute; reflexivity.
Qed.

Lemma load_validation_witness :
  exists g P T g',
    Demo.generator (Demo.model false false) (Demo.series 10) None
                      (Py.Bool false) 4 false Py.None_ = Ok g
    /\ generate g [] true = Ok (P, T, g')
    /\ (check_load Py.None_ = Ok (_load g)
        /\ (false = false -> _is_loaded g = false /\ in_memory g = [])
        /\ (Py.truthy Py.None_ = false -> _load g = Py.None_ /\ in_memory g = []))
    /\ _is_loaded g' = true /\ in_memory g' = in_memory g.
Proof.
  eexists _, _, _, _.
  match goal with
  | |- ?C = Ok ?G /\ _ => assert (Hini : C = Ok G) by (vm_compute; reflexivity)
  end.
  split; [exact Hini |].
  match goal with
  | |- generate ?G ?S ?sc = Ok (?P, ?T, ?G') /\ _ =>
      assert (Hgen : generate G S sc = Ok (P, T, G')) by (vm_compute; reflexivity)
  end.
  split; [exact Hgen |].
  unfold Demo.generator in Hini.
  split.
  - exact (proj1 (proj2 (proj2 (proj2 load_validation))) _ _ _ _ _ _ _ _ _ _ _ _ _ _ _ _ _
             Hini).
  - refine (proj2 (proj2 (proj2 (proj2 (proj2 load_validation)))) _ _ _ _ _ _ _ Hgen).
    reflexivity.
Defined.

(** ** The further properties on the small data sets *)

Ltac by_computation :=
  solve [ vm_compute;
          first [ eexists; reflexivity
                | repeat constructor; try reflexivity; try (intro; discriminate) ] ].

(** The last batch by its negative index. *)
Lemma getitem_index_handling_witness :
  exists g,
    Demo.generator (Demo.model false false) (Demo.series 10) None
                   (Py.Bool false) 4 false (Py.Str "required") = Ok g
    /\ len_ g = Ok 2
    /\ (2 < -1 -> __getitem__ g (-1) = Raise IndexError)
    /\ (0 <= -1 <= 2 ->
        __getitem__ g (-1)
        = generate g (Py.slice (Some (-1 * _batch_size g))
                               (Some ((-1 + 1) * _batch_size g)) (_indices g)) true)
    /\ (-1 < 0 ->
        __getitem__ g (-1)
        = generate g (Py.slice (Some ((2 + -1) * _batch_size g))
                               (Some ((2 + -1 + 1) * _batch_size g)) (_indices g)) true)
    /\ (- (2) <= -1 < 0 -> __getitem__ g (-1) = __getitem__ g (2 + -1)).
Proof.
  eexists. split; [vm_compute; reflexivity |].
  match goal with
  | |- len_ ?G = Ok ?k /\ _ => assert (Hlen : len_ G = Ok k) by (vm_compute; reflexivity)
  end.
  split; [exact Hlen |].
  exact (proj1 getitem_index_handling _ 2 (-1) Hlen).
Defined.

(** The second of two batches of the unshuffled epoch. *)
Lemma unshuffled_batches_are_consecutive_witness :
  exists g,
    Demo.generator (Demo.model false false) (Demo.series 10) None
                   (Py.Bool false) 4 false (Py.Str "required") = Ok g
    /\ _indices (on_epoch_end (@rev Z) g) = Py.range (_n_sample g)
    /\ __getitem__ (on_epoch_end (@rev Z) g) 1
       = generate (on_epoch_end (@rev Z) g)
                  (map (fun j => 1 * _batch_size g + j)
                       (Py.range (Z.min (_batch_size g) (_n_sample g - 1 * _batch_size g))))
                  true.
Proof.
  eexists. split; [vm_compute; reflexivity |].
  refine (proj1 unshuffled_batches_are_consecutive (@rev Z) _ 2 1 _ _ _ _).
  - reflexivity.
  - vm_compute. reflexivity.
  - vm_compute. reflexivity.
  - lia.
Defined.

(** A first call loads the two views, a second call loads nothing. *)
Lemma generate_loads_once_witness :
  exists g P T g',
    Demo.generator (Demo.model false false) (Demo.series 10) None
                   (Py.Bool false) 4 false (Py.Str "required") = Ok g
    /\ generate g [0; 1] true = Ok (P, T, g')
    /\ _is_loaded g = false
    /\ _is_loaded g' = true
    /\ unloaded_part g' = unloaded_part g
    /\ (_is_loaded g = true -> g' = g)
    /\ (forall samples' scale_and_impute' P' T' g'',
           generate g' samples' scale_and_impute' = Ok (P', T', g'') -> g'' = g').
Proof.
  eexists _, _, _, _. split; [vm_compute; reflexivity |].
  match goal with
  | |- generate ?G ?S ?sc = Ok (?P, ?T, ?G') /\ _ =>
      assert (Hgen : generate G S sc = Ok (P, T, G')) by (vm_compute; reflexivity)
  end.
  split; [exact Hgen |]. split; [reflexivity |].
  refine (generate_loads_once _ _ _ _ _ _ _ Hgen).
  left. reflexivity.
Defined.

(** A negative rank. *)
Lemma init_rejects_bad_arguments_witness :
  __init__ (fun l => l) (Demo.model false false) (Demo.dataset (Demo.series 10))
           (-1) [] [] 2 1 None 1 (Py.Bool false) 4 false false (Py.Str "required") false
  = Raise AssertionError.
Proof.
  refine (proj1 (proj2 (init_rejects_bad_arguments _ _ _ _ _ _ _ _ _ _ _ _ _ _ _ _)) _ _).
  - reflexivity.
  - left. lia.
Defined.

(** Construction with hourly insolation and the data loaded at once. *)
Lemma init_establishes_witness :
  exists g,
    __init__ (fun l => l) (Demo.model true false) (Demo.dataset (Demo.series 10))
             2 [] [] 2 1 None 1 (Py.Str "hourly") 4 false false (Py.Str "required") true
    = Ok g
    /\ ds g = Demo.dataset (Demo.series 10)
    /\ _is_convolutional g = is_convolutional (Demo.model true false)
    /\ _keep_time_axis g = is_recurrent (Demo.model true false)
    /\ _impute_missing g = impute (Demo.model true false)
    /\ _is_loaded g = true
    /\ ((_add_insolation g = 0 /\ _daily_insolation g = false /\ insolation_da g = None)
        \/ (_add_insolation g = 1
            /\ exists sol, insolation_da g = Some sol
                           /\ sol = insolation (Demo.dataset (Demo.series 10)) (da g)
                                               (_daily_insolation g)
                           /\ Py.len (np.shape sol) = 1 + 2)).
Proof.
  eexists.
  match goal with
  | |- ?C = Ok ?G /\ _ => assert (Hini : C = Ok G) by (vm_compute; reflexivity)
  end.
  split; [exact Hini |].
  exact (init_establishes _ _ _ _ _ _ _ _ _ _ _ _ _ _ _ _ _ Hini).
Defined.

(** Loading the required views of the small series. *)
Lemma _load_data_by_mode_witness :
  exists g g',
    Demo.generator (Demo.model false false) (Demo.series 10) None
                   (Py.Bool false) 4 false (Py.Str "required") = Ok g
    /\ _load_data g = Ok g'
    /\ _is_loaded g' = true
    /\ unloaded_part g' = unloaded_part g
    /\ in_memory g' = [Load_output_da; Load_input_da].
Proof.
  eexists _, _. split; [vm_compute; reflexivity |].
  match goal with
  | |- _load_data ?G = Ok ?G' /\ _ =>
      assert (Hl : _load_data G = Ok G') by (vm_compute; reflexivity)
  end.
  split; [exact Hl |].
  exact (proj1 (_load_data_by_mode _) _ Hl).
Defined.

(** Minimal loading with the same variable selected on both sides. *)
Lemma _load_data_minimal_views_witness :
  exists g g',
    __init__ (fun l => l) (Demo.model false false) (Demo.dataset (Demo.series 10))
             2 [("varlev", ["z500"])] [("varlev", ["z500"])] 2 1 None 1 (Py.Bool false)
             4 false false (Py.Str "minimal") false = Ok g
    /\ _load_data g = Ok g'
    /\ ((da g' = da g
         /\ sel (da g) (_input_sel g) = Ok (input_da g')
         /\ sel (da g) (_output_sel g) = Ok (output_da g')
         /\ (exists s, In s ["z500"] /\ ~ In s ["z500"])
         /\ (exists s, In s ["z500"] /\ ~ In s ["z500"]))
        \/ (exists (labels : list string) (kin kout : Z),
               sel (da g) [("varlev", labels)] = Ok (da g')
               /\ input_da g' = isel_varlev (da g') 0 kin
               /\ output_da g' = isel_varlev (da g') 0 kout
               /\ Permutation (firstn (Z.to_nat kin) labels) ["z500"]
               /\ (NoDup ["z500"] -> NoDup ["z500"] ->
                   Permutation (firstn (Z.to_nat kout) labels) ["z500"]))).
Proof.
  eexists _, _. split; [vm_compute; reflexivity |].
  match goal with
  | |- _load_data ?G = Ok ?G' /\ _ =>
      assert (Hl : _load_data G = Ok G') by (vm_compute; reflexivity)
  end.
  split; [exact Hl |].
  refine (_load_data_minimal_views _ _ ["z500"] ["z500"] _ _ _ Hl); reflexivity.
Defined.

(** The layouts of the small series, two input steps on a 2 x 2 grid. *)
Lemma layouts_hold_n_features_witness :
  exists g,
    Demo.generator (Demo.model true false) (Demo.series 10) None
                   (Py.Bool false) 4 false (Py.Str "required") = Ok g
    /\ n_features g = 8
    /\ np.size_of (convolution_shape g) = n_features g
    /\ exists dsh, dense_shape g = Ok dsh /\ np.size_of dsh = n_features g.
Proof.
  eexists. split; [vm_compute; reflexivity |].
  split; [vm_compute; reflexivity |].
  refine (proj1 (layouts_hold_n_features _) _ _ _); by_computation.
Defined.

(** The recurrent and the folded layout of the small series. *)
Lemma shape_2d_folds_time_into_channels_witness :
  exists g,
    Demo.generator (Demo.model true true) (Demo.series 10) None
                   (Py.Bool true) 4 false (Py.Str "required") = Ok g
    /\ exists c spatial,
        Py.len spatial = rank g
        /\ convolution_shape (set_keep_time_axis true g)
           = _input_time_steps g :: c :: spatial
        /\ fst (shape_2d g) = _input_time_steps g * c :: spatial
        /\ insolation_shape g = _input_time_steps g :: 1 :: spatial.
Proof.
  eexists. split; [vm_compute; reflexivity |].
  refine (shape_2d_folds_time_into_channels _ _ _ _); by_computation.
Defined.

(** Samples of one variable on a 2 x 2 grid, without a time-step axis. *)
Lemma DataGenerator_layouts_hold_n_features_witness :
  exists g,
    DataGenerator.__init__ (fun l => l) (Demo.model true false)
                           (Demo.dataset (Demo.series 10)) 4 false false = Ok g
    /\ exists cs dsh,
        DataGenerator.convolution_shape g = Ok cs
        /\ np.size_of cs = DataGenerator.n_features g
        /\ DataGenerator.dense_shape g = Ok dsh
        /\ np.size_of dsh = DataGenerator.n_features g.
Proof.
  eexists. split; [vm_compute; reflexivity |].
  refine (DataGenerator_layouts_hold_n_features _ _ _ _); by_computation.
Defined.

(** Offsets 0 and 3 of the loaded small series: inputs 0-1 and 3-4, targets
    2 and 5. *)
Lemma generate_reads_windows_witness :
  exists g,
    __init__ (fun l => l) (Demo.model false false) (Demo.dataset (Demo.series 10))
             2 [] [] 2 1 None 1 (Py.Bool false) 4 false false (Py.Str "required") true
    = Ok g
    /\ generate g [0; 3] false
       = Ok (Arr (np.mk_ndarray [2; 8]
                    (map Some [0; 1; 2; 3; 4; 5; 6; 7; 12; 13; 14; 15; 16; 17; 18; 19])),
             Arr (np.mk_ndarray [2; 4] (map Some [8; 9; 10; 11; 20; 21; 22; 23])),
             g).
Proof.
  eexists. split; [vm_compute; reflexivity |].
  refine (proj2 (generate_reads_windows _ [0; 3] false 10 _ _ _ _ _ _ _ _ _ _ _ _) _ _ _);
    by_computation.
Defined.

(** With an interval of 2, offset 7 is the first one past the last: its
    target would be sample 10 of 10. *)
Lemma generate_past_last_offset_witness :
  exists g,
    __init__ (fun l => l) (Demo.model false false) (Demo.dataset (Demo.series 10))
             2 [] [] 2 1 None 2 (Py.Bool false) 4 false false (Py.Str "required") true
    = Ok g
    /\ _n_sample g = 7
    /\ generate g [0; 7] true = Raise IndexError.
Proof.
  eexists. split; [vm_compute; reflexivity |].
  split; [vm_compute; reflexivity |].
  refine (generate_past_last_offset _ [0; 7] true 10 _ _ _ _ _ _ _ _ _ _ _ _ _);
    by_computation.
Defined.

(** A NaN in sample 0 of a convolutional generator that removes NaN
    samples: the batch of offsets 0 to 3, with scaling, as [__getitem__]
    asks for it. *)
Lemma generate_nan_under_fixed_layout_witness :
  exists g,
    __init__ (fun l => l) (Demo.model true false) (Demo.dataset (Demo.series_nan 10))
             2 [] [] 2 1 None 1 (Py.Bool false) 4 false true (Py.Str "required") true
    = Ok g
    /\ generate g [0; 1; 2; 3] true = Raise ValueError
    /\ __getitem__ g 0 = Raise ValueError.
Proof.
  eexists. split; [vm_compute; reflexivity |].
  match goal with
  | |- generate ?G ?S ?sc = _ /\ _ =>
      refine (match generate_nan_under_fixed_layout G S 10 0 sc
                      _ _ _ _ _ _ _ _ _ _ _ _ _ _ _ _ _ _ _ _ with
              | conj Hg Hb => conj Hg (Hb 0 2 eq_refl _ _ _)
              end)
  end.
  all: try (intros _; apply Demo_model_returns).
  all: try lia.
  all: solve [ vm_compute;
               first [ eexists; reflexivity
                     | repeat constructor; try reflexivity; try (intro; discriminate) ] ].
Defined.

(** The recurrent layout of two windows of the small series. *)
Lemma generate_returns_in_every_layout_witness :
  exists g,
    __init__ (fun l => l) (Demo.model true true) (Demo.dataset (Demo.series 10))
             2 [] [] 2 1 None 1 (Py.Bool false) 4 false false (Py.Str "required") true
    = Ok g
    /\ exists p t,
        generate g [0; 3] false = Ok (Arr p, Arr t, g)
        /\ np.shape p = [2; 2; 1; 2; 2] /\ np.shape t = [2; 1; 1; 2; 2]
        /\ np.data p = map Some [0; 1; 2; 3; 4; 5; 6; 7; 12; 13; 14; 15; 16; 17; 18; 19]
        /\ np.data t = map Some [8; 9; 10; 11; 20; 21; 22; 23].
Proof.
  eexists. split; [vm_compute; reflexivity |].
  match goal with
  | |- exists p t, generate ?G ?S ?sc = _ /\ _ =>
      destruct (generate_returns_in_every_layout G S 10)
        as (p & t & Hg & Hp & Ht & _ & _ & Hsh)
  end; try by_computation.
  exists p, t. split; [exact Hg |].
  vm_compute in Hsh. destruct Hsh as [Hsp Hst].
  split; [exact Hsp |]. split; [exact Hst |].
  split; [exact (eq_trans Hp eq_refl) | exact (eq_trans Ht eq_refl)].
Defined.

(** A sequence of two steps: the doubling scaler is applied twice to the
    predictors and once to each target. *)
Lemma sequence_rescales_predictors_witness :
  exists g p ts g',
    Demo.generator (Demo.model false false) (Demo.series 10) (Some 2)
                   (Py.Bool false) 4 false (Py.Str "required") = Ok g
    /\ SeriesDataGenerator.generate g [0] false = Ok (Arr p, Arrs ts, g')
    /\ np.data p = map Some [0; 1; 2; 3; 4; 5; 6; 7]
    /\ SeriesDataGenerator.generate g [0] true
       = Ok (Arr (Demo.double (Demo.double p)), Arrs (map Demo.double ts), g')
    /\ Py.len ts = 2.
Proof.
  eexists _, _, _, _. split; [vm_compute; reflexivity |].
  match goal with
  | |- SeriesDataGenerator.generate ?G ?S ?sc = Ok ?R /\ _ =>
      assert (Hgen : SeriesDataGenerator.generate G S sc = Ok R)
        by (vm_compute; reflexivity)
  end.
  split; [exact Hgen |]. split; [vm_compute; reflexivity |].
  refine (sequence_rescales_predictors _ _ [0] 2 Demo.double Demo.double _ _
            _ _ _ _ _ _ _ Hgen); try reflexivity.
Defined.

(** Samples 3 and 1 of the small data set, in the order asked for. *)
Lemma DataGenerator_generate_rows_aligned_witness :
  exists g,
    DataGenerator.__init__ (fun l => l) (Demo.model false false)
                           (Demo.dataset (Demo.series 10)) 4 false false = Ok g
    /\ DataGenerator.generate g [3; 1] false
       = Ok (np.mk_ndarray [2; 4] (map Some [12; 13; 14; 15; 4; 5; 6; 7]),
             np.mk_ndarray [2; 4] (map Some [12; 13; 14; 15; 4; 5; 6; 7])).
Proof.
  eexists. split; [vm_compute; reflexivity |].
  refine (DataGenerator_generate_rows_aligned _ [3; 1] 10 _ _ _ _ _ _ _ _ _);
    by_computation.
Defined.

(** A data set without targets. *)
Lemma DataGenerator_init_witness :
  DataGenerator.__init__ (fun l => l) (Demo.model false false)
    (xr.mk_Dataset true (Demo.series 10) false (Demo.series 10) [("sample", 10)] [])
    4 false false
  = Raise ValueError.
Proof.
  refine (proj2 (proj1 (DataGenerator_init _ _ _ _ _ _)) _).
  right. reflexivity.
Defined.


(** Ten samples of two time steps: offsets 0 and 9 give the times 0-1 and
    9-10 as predictors, 2-3 and 11-12 as targets. *)
Lemma SmartDataGenerator_generate_windows_witness :
  exists g,
    DemoSteps.generator (Demo.model false false) 10 2 4 = Ok g
    /\ SmartDataGenerator.da g = np.mk_ndarray [13; 2; 2] (map Some (Py.range 52))
    /\ @SmartDataGenerator.generate _ DemoSteps.backend g [0; 9] false
       = Ok (np.mk_ndarray [2; 8]
               (map Some [0; 1; 2; 3; 4; 5; 6; 7; 36; 37; 38; 39; 40; 41; 42; 43]),
             np.mk_ndarray [2; 8]
               (map Some [8; 9; 10; 11; 12; 13; 14; 15; 44; 45; 46; 47; 48; 49; 50; 51])).
Proof.
  eexists. split; [vm_compute; reflexivity |].
  split; [vm_compute; reflexivity |].
  refine (@SmartDataGenerator_generate_windows _ DemoSteps.backend _ [0; 9] 13
            _ _ _ _ _ _ _ _);
    by_computation.
Defined.

(** Three offsets of a sequence of three steps with insolation, on ten
    samples: the insolation of the third step would start at sample
    2 * 2 * 2 + 2 = 10. *)
Lemma sequence_insolation_reads_past_end_witness :
  exists g,
    SeriesDataGenerator.__init__ (fun l => l) (Demo.model false false)
      (Demo.dataset (Demo.series 10)) 2 [] [] 2 1 (Some 3) 1 (Py.Bool true) 4 false false
      (Py.Str "required") true = Ok g
    /\ SeriesDataGenerator._n_sample g = 6
    /\ SeriesDataGenerator.generate g [] true = Raise IndexError.
Proof.
  eexists. split; [vm_compute; reflexivity |].
  split; [vm_compute; reflexivity |].
  refine (sequence_insolation_reads_past_end _ true 10 3 _ _ _ _ _ _ _ _ _ _ _ _ _ _);
    try by_computation.
Defined.

(** Two steps of targets for offsets 0 and 3: samples 2, 3 and 5, 6. *)
Lemma generate_sequence_reads_windows_witness :
  exists g,
    SeriesDataGenerator.__init__ (fun l => l) (Demo.model false false)
      (Demo.dataset (Demo.series 10)) 2 [] [] 2 1 (Some 2) 1 (Py.Bool false) 4 false false
      (Py.Str "required") true = Ok g
    /\ SeriesDataGenerator.generate g [0; 3] false
       = Ok (Arr (np.mk_ndarray [2; 8]
                    (map Some [0; 1; 2; 3; 4; 5; 6; 7; 12; 13; 14; 15; 16; 17; 18; 19])),
             Arrs [np.mk_ndarray [2; 4] (map Some [8; 9; 10; 11; 20; 21; 22; 23]);
                   np.mk_ndarray [2; 4] (map Some [12; 13; 14; 15; 24; 25; 26; 27])],
             g).
Proof.
  eexists. split; [vm_compute; reflexivity |].
  refine (generate_sequence_reads_windows _ [0; 3] 10 2
            _ _ _ _ _ _ _ _ _ _ _ _ _ _ _ _);
    by_computation.
Defined.

(** A series of one sample is too short for a window of two inputs and one
    target: [_n_sample] is -1, and with batches of 1 [len] is refused. *)
Lemma len_at_the_edges_witness :
  exists g,
    Demo.generator (Demo.model false false) (Demo.series 1) None
                   (Py.Bool false) 1 false (Py.Str "required") = Ok g
    /\ SeriesDataGenerator._n_sample g = -1
    /\ SeriesDataGenerator.len_ g = Raise ValueError.
Proof.
  eexists. split; [vm_compute; reflexivity |].
  split; [vm_compute; reflexivity |].
  refine (proj2 (proj1 len_at_the_edges _) _ _); by_computation.
Defined.

(** One epoch of the ten samples in reverse order, in batches of 4. *)
Lemma SmartDataGenerator_epoch_witness :
  exists g,
    @SmartDataGenerator.__init__ _ DemoSteps.backend (@rev Z) (Demo.model false false)
                                 (DemoSteps.dataset 10 2) 4 true false true = Ok g
    /\ Permutation
         (concat (epoch_batches
                    (SmartDataGenerator._indices (SmartDataGenerator.on_epoch_end (@rev Z) g))
                    4 3))
         (Py.range 10).
Proof.
  eexists. split; [vm_compute; reflexivity |].
  refine (proj2 (proj1 (@SmartDataGenerator_epoch _ DemoSteps.backend (@rev Z)
                          (fun l => Permutation_rev l)) _ 3 _ _)).
  - reflexivity.
  - vm_compute. reflexivity.
Defined.

(** Ten samples of two time steps: thirteen rows, the last window starting
    at row 9 + 2. *)
Lemma SmartDataGenerator_init_rows_witness :
  exists g,
    DemoSteps.generator (Demo.model false false) 10 2 4 = Ok g
    /\ SmartDataGenerator._n_sample g = 10 /\ SmartDataGenerator.time_dim g = 2
    /\ hd 0 (np.shape (SmartDataGenerator.da g)) = 10 + 2 * 2 - 1
    /\ (10 - 1) + SmartDataGenerator.time_dim g + (SmartDataGenerator.time_dim g - 1)
       = hd 0 (np.shape (SmartDataGenerator.da g)) - 1.
Proof.
  eexists.
  match goal with
  | |- ?C = Ok ?G /\ _ => assert (Hini : C = Ok G) by (vm_compute; reflexivity)
  end.
  split; [exact Hini |].
  refine (@SmartDataGenerator_init_rows _ DemoSteps.backend _ _ _ _ _ _ _ _ 10 2
            Hini _ _ _ _ _ _ _); try by_computation.
  intros [sh dt] i. destruct sh as [| n [| s gr]]; reflexivity.
Defined.

(** Two windows with their insolation, in the convolutional layout: three
    channels of 2 x 2 per input step. *)
Lemma generate_with_insolation_returns_witness :
  exists g,
    SeriesDataGenerator.__init__ (fun l => l) (Demo.model true true)
      (Demo.dataset (Demo.series 10)) 2 [] [] 2 1 None 1 (Py.Bool true) 4 false false
      (Py.Str "required") true = Ok g
    /\ exists p t,
        SeriesDataGenerator.generate g [0; 3] false = Ok (Arr p, Arr t, g)
        /\ np.shape p = [2; 2; 2; 2; 2] /\ np.shape t = [2; 1; 1; 2; 2]
        /\ Py.len (np.data p) = 2 * SeriesDataGenerator.n_features g.
Proof.
  eexists. split; [vm_compute; reflexivity |].
  match goal with
  | |- exists p t, SeriesDataGenerator.generate ?G ?S ?sc = _ /\ _ =>
      destruct (generate_with_insolation_returns G S 10
                  (insolation (Demo.dataset (Demo.series 10)) (Demo.series 10) false))
        as (p & t & Hg & _ & _ & Hn & Hsh)
  end; try by_computation.
  exists p, t. split; [exact Hg |].
  vm_compute in Hsh. destruct Hsh as [Hsp Hst].
  split; [exact Hsp |]. split; [exact Hst |]. exact Hn.
Defined.
